(* ===== verification/_CoqProject ===== *)
-Q . S2P
Prelude.v
Loop.v
PyRe.v
Float64.v
Fmt.v
Roundtrip.v
PyPrint.v
Files.v
Travis.v
ServiceMerge.v
InjectAGPL.v
Licenses.v
Generator.v
LegacyGenerator.v
Probit.v
Markers.v
Scale.v
