(* ===== verification/Prelude.v ===== *)
(** * ELKI developer tooling: a verification development

    The repository's scripts are short Python programs around the ELKI
    build: a statistical fixture generator that cross-checks scipy
    against GNU R, a license header injector, a merger of service files
    across jars, a printer of failing CI reports, a license extractor, a
    probit table printer and an icon sprite builder.  They do not call
    each other; what they share is Python: strings and their methods,
    [re], [print], files.  The development models each script as
    executable Rocq functions over an explicit world and proves what it
    does, on every branch, errors included.

    ** Files, in dependency order
    - [Prelude] (this file): the exceptions and the result monad
      ([result], [rbind] with the notation [x <- c ;; k] in [py_scope],
      [rmap]); module [Py]: the Python 2 string methods on byte strings
      ([startswith], [endswith], [in] as [contains], [split]/[rsplit] with
      [maxsplit = 1], [strip], [replace], [join], ["%s"] and ["%d"],
      [split()], file iteration as [lines], Python 3 text mode as
      [universal_nl], [os.path.basename] and [os.path.join]); the lemmas
      on them (lines of a text, search in lines, paths, the [ascii] codec);
      the hint database [pyhints] and the tactics [py_norm], [ascii_cases].
    - [Loop]: Python's [for] loop over a list whose body may raise, as a
      function ([for_loop]) and as a small-step relation on
      configurations (items still to come, state or exception), with
      the omni-style [eventually] and the invariant-based [always] of
      coqutil's small-step combinators.  Every run halts in the outcome
      [for_loop] gives ([loop_eventually]), gets past each item unless an
      exception stops it ([loop_passes], [loop_reaches]), halts right
      after an item that raises ([loop_stops]), and keeps a property the
      body keeps in every configuration ([loop_always]).  Each script's
      loop is a Fixpoint shown equal to [for_loop] by [for_loop_unique].
    - [PyRe]: CPython's [sre] engine for the patterns the scripts use:
      the pattern parser ([compile], fuel [3 * length + 3], enough since
      each call consumes a character or returns), a backtracking matcher
      in continuation-passing style ([run]), [search], [match], [sub] and
      [expand].  [sub] runs with fuel [length + 2] ([sub_terminates]:
      always enough); [sub_scan] shows [sub] equal to a left-to-right scan
      when the pattern's matches are described by a length function, and
      [search_app] that a pattern matching at some position is found.
    - [Float64]: binary64 values as exact [(-1)^neg * m * 2^e], correctly
      rounded division and literals ([round_q]), ["%.<p>e"] ([pct_e] over
      [sci p], the [p] correctly rounded digits; [ndig] runs with the
      bit length as fuel, which bounds the number of decimal digits;
      [sci_digits]: the rounded significand has exactly the digits asked
      for), ["%f"], ["%g"], [str] and [float(s)].
    - [Fmt]: [fmt] of the fixture generator (["%.17e"], then two
      [re.sub]); [fmt_float_spec] gives its result as a closed formula,
      [fmt_idempotent] shows a second pass changes nothing on its floats,
      [fmt_str_not_idempotent] that it does on other strings.
    - [Roundtrip]: printed doubles read back.  For every [normal] double
      (53-bit significand, below [2^1023]) [float()] of ["%.<p>e" % x]
      is [x] when [p >= 17] ([pct_e_roundtrip], on which the probit
      items rest), and
      [float()] of [fmt]'s trimmed text is [x] ([fmt_roundtrip]: the
      fixture values).  The parser model reads digits and exponent back
      ([read_decimal]), the trimming only drops zeros ([strip0_digits]),
      and a value within a quarter unit in the last place rounds to the
      double ([round_q_near]); the bound is carried out in [Q].
    - [PyPrint]: Python 2's [print] statement with the soft space flag of
      the file object ([PRINT_ITEM_TO], [PRINT_NEWLINE_TO]).
    - [Files]: the world of the tool scripts: files by path, standard
      output and standard error as [PyPrint] streams; [read], [write],
      [sys.stdout.write], [print].
    - [Travis] ([src/gradle/travis-show-failures.py]): the failing-report
      printer; the line loop equals a text search ([failed_file_iff]); the
      doubled [glob] prints every report twice ([show_failures_twice]).
    - [ServiceMerge] ([src/addons/bundle/merge-service-files.py]): [skey]
      computes with its three [re.search] tests the rank its docstring
      describes ([jar_rank], [skey_spec]), and the jars are processed by
      that rank and by basename ([sort_jars_order]); service members appended per
      service ([process_jars_spec]), one file per service written
      ([main_spec]); non-ASCII text fails in the [ascii] codec of
      Python 2 ([main_unicode_error]).
    - [InjectAGPL] ([src/util/inject-agpl.py]): the decision per file
      ([inject_action]) and the loop; the header makes a file marked, so
      a second run changes nothing ([main_idempotent]); run one file at a
      time the loop halts in [main]'s result and gets past every named
      file with that file settled (marked, or holding the template once),
      unless a file raised ([main_reaches_every_file], liveness);
      the [ValueError] of a file without newline
      ([inject_no_newline_action]) stops the run there and the later files are never read
      ([main_stops_at_no_newline]); the dead inner test of the marked
      branch ([marked_silent]); the shape of the rewritten file
      ([inject_source_shape]).
    - [Licenses] ([src/addons/bundle/install-licenses.py]): the rule
      table [extract], the rows of a jar ([matchers]), the naming loop
      per member ([name_loop]) and the copy with its overwrite warning
      ([extract_member]); the first naming row wins ([name_loop_first]),
      a run's files are the old ones overwritten by a write list computed
      from the archives alone ([main_writes]), so a second run changes
      nothing ([install_idempotent]) and nothing outside [<tdir>/license] is
      touched ([main_confined]), at every step of the loop over the jars
      and not only at its end ([main_confined_always]); the [xml-apis]
      rows conflict
      ([xml_apis_conflict]) and avalon's two license members collide
      ([avalon_license_overwritten]).
    - [Probit] ([src/internal/distribution-test-probit.py]): the table of
      scipy distributions and R calls, the grid, and the printing of the
      Java arrays; [main_spec_probit] gives the whole output (or the
      [AssertionError] of a short R answer); [inconsistent_rows] finds
      the six rows whose scipy distribution is not the one R is asked
      for; [scipy_items_read_back]: every [SCIPY_] item is a literal that
      reads back as scipy's double; [qstr_reads_back]: R reads the grid
      back exactly.
    - [Markers] ([src/addons/joglvis/src-manual/build.py]): the SVG tree
      with lxml's qualified names, the layer labels, the style loop
      ([set_styles]) and the run with its commands and temporary files
      ([main]); the copy for a label shows that layer only
      ([render_copy]), the [deepcopy] is not needed
      ([set_styles_twice]); with tools that behave the run succeeds iff
      every label is safe and no label repeats ([main_ok_iff]; a repeated
      label fails at the cleanup, [dup_label_oserror]); the [_safe]
      check accepts exactly the non-empty words of ASCII letters, with or
      without one trailing newline ([safe_spec]: [$] matches before a
      final newline).
    - [Scale] ([make-scale-d.py], [make-scale-n.py] under
      [src/data/testdata/correlation-outlier]): the template expansion
      per dimension and the generator command lines; [main_d_spec] gives
      the files, commands and output of the first, [main_n_spec] the
      commands of the second.
    - [Generator] (the fixture generator
      [elki-core-math/out/.../distribution-gen-testdata.py]): the table
      [dfs], the grids, the R scripts, the state [gstate] (current family,
      open file, files written) and the loop [gen_loop] over [sorted(dfs)]
      with scipy, R and the two R scripts as section parameters (scipy
      and R are oracles); [generate_refines]
      shows the loop refines a specification that appends each entry's
      records to its family's file; run one entry at a time the loop
      halts in [generate]'s result and gets past every selected entry
      with its family's file written, unless an entry raised
      ([generate_opens_every_family], liveness); the R assertion
      ([gnur_first_assert])
      and the record set without log mode ([gnur_first_no_log]); the table
      keys are unique and the two [emg] rows share a seed
      ([dfs_keys_unique]); a family filter confines the run to the named
      families' files ([filter_files]); the grids are strictly increasing
      ([grids_sorted]); the grid text equals CPython's
      ([pqstr_text]).
    - [LegacyGenerator] (the older copy under
      [elki-core-math/src/test/resources/de/lmu/...]): its four-column
      table (every sample drawn with [random_state=1]) and its R scripts
      without [bda], run by [Generator]'s loop; [legacy_refines] is the
      same refinement, [legacy_keys_unique] the uniqueness of its keys.

    ** Modelling choices
    Strings are byte strings ([string] of [ascii]); Python 2 [print]
    keeps its soft space; exceptions are values of [exc] in [result], and
    the world left by an exception is not modelled (the scripts stop):
    the loop theorems speak of the states between iterations, so the
    files a crashing iteration wrote before raising are outside them.
    External programs and libraries (scipy, R, zip archives, [glob],
    UTF-8 decoding) are section variables: every theorem holds for all of
    their behaviours.  The generator's gzip compression and file closing
    do not change the text and are not modelled.

    ** Not modelled
    The libraries and programs the scripts call are parameters, not
    models: scipy's distributions, R, zip archives, [glob], lxml's SVG
    parsing and serialisation and the image tools of [build.py]; their
    effects enter only through the section variables and hypotheses
    named in each file. *)

From Stdlib Require Import String Ascii Lia.
From stdpp Require Import base list.

Declare Scope py_scope.
Delimit Scope py_scope with py.
Open Scope string_scope.

Create HintDb pyhints discriminated.
Create Rewrite HintDb pyrw.

(** ** Python exceptions and the result of a step *)

(** The exceptions the scripts can raise on the paths that are modelled:
    a tuple unpacking of the wrong arity ([ValueError]), a failed
    [assert], a float conversion of a token that is no number
    ([ValueError] too), a write to a path that is a directory
    ([IOError]), an explicit [raise Exception(...)], an index out of
    range, an [ascii] encoding failure, and [os.unlink] of a missing
    path ([OSError]). *)
Inductive exc :=
| ValueError (msg : string)
| AssertionError
| IOError (path : string)
| TypeError (msg : string)
| RaisedException (msg : string)
| IndexError (msg : string)
| UnicodeError (msg : string)
| OSError (path : string)
| ReError (msg : string).

Inductive result (A : Type) :=
| Ok (a : A)
| Err (e : exc).
Arguments Ok {A} a.
Arguments Err {A} e.

Definition rbind {A B} (c : result A) (k : A -> result B) : result B :=
  match c with Ok a => k a | Err e => Err e end.

Notation "x <- c ;; k" := (rbind c (fun x => k))
  (at level 100, c at next level, right associativity) : py_scope.

Lemma rbind_ok {A B} (a : A) (k : A -> result B) : rbind (Ok a) k = k a.
Proof. reflexivity. Qed.

Lemma rbind_err {A B} (e : exc) (k : A -> result B) : rbind (Err e) k = Err e.
Proof. reflexivity. Qed.

Lemma Ok_inj {A} (a b : A) : Ok a = Ok b -> a = b.
Proof. congruence. Qed.

Lemma rbind_Ok_inv {A B} (c : result A) (k : A -> result B) b :
  rbind c k = Ok b -> exists a, c = Ok a /\ k a = Ok b.
Proof. destruct c; simpl; [eauto | discriminate]. Qed.

(** The value of a result, transformed; errors pass through. *)
Definition rmap {A B} (f : A -> B) (c : result A) : result B :=
  match c with Ok a => Ok (f a) | Err e => Err e end.

Lemma rmap_rbind {A B C} (f : B -> C) (c : result A) (k : A -> result B) :
  rmap f (rbind c k) = rbind c (fun a => rmap f (k a)).
Proof. by destruct c. Qed.

#[export] Hint Rewrite @rbind_ok @rbind_err @rmap_rbind : pyrw.

(** ** Python 2 string methods on byte strings *)

Module Py.

Definition startswith (s p : string) : bool := String.prefix p s.


(** [p in s]: [p] is a prefix of a suffix of [s]. *)
Fixpoint contains (s p : string) : bool :=
  String.prefix p s || match s with EmptyString => false | String _ s' => contains s' p end.

(** The index of the last occurrence of [p] in [s]. *)
Fixpoint rindex_from (p s : string) (i : nat) (acc : option nat) : option nat :=
  match s with
  | EmptyString =>
      if String.eqb p EmptyString then Some i else acc
  | String _ s' =>
      rindex_from p s' (S i) (if String.prefix p s then Some i else acc)
  end.

Definition rindex (p s : string) : option nat := rindex_from p s 0 None.

(** [s[n:]] and [s[:n]] *)
Fixpoint drop (n : nat) (s : string) : string :=
  match n, s with
  | O, _ => s
  | S _, EmptyString => EmptyString
  | S k, String _ s' => drop k s'
  end.

Fixpoint take (n : nat) (s : string) : string :=
  match n, s with
  | O, _ => EmptyString
  | S _, EmptyString => EmptyString
  | S k, String c s' => String c (take k s')
  end.

Definition endswith (s p : string) : bool :=
  let n := String.length s in
  let m := String.length p in
  (m <=? n)%nat && String.eqb (drop (n - m) s) p.

(** [s.split(sep, 1)] for a non-empty [sep]. *)
Definition split1 (s sep : string) : list string :=
  match index 0 sep s with
  | Some i => [take i s; drop (i + String.length sep) s]
  | None => [s]
  end.

(** [s.rsplit(sep, 1)] for a non-empty [sep]. *)
Definition rsplit1 (s sep : string) : list string :=
  match rindex sep s with
  | Some i => [take i s; drop (i + String.length sep) s]
  | None => [s]
  end.

(** [isspace] of the C locale: space, \t, \n, \v, \f, \r. *)
Definition is_space (c : ascii) : bool :=
  match nat_of_ascii c with
  | 32 | 9 | 10 | 11 | 12 | 13 => true
  | _ => false
  end%nat.

Fixpoint lstrip_by (f : ascii -> bool) (s : string) : string :=
  match s with
  | EmptyString => EmptyString
  | String c s' => if f c then lstrip_by f s' else s
  end.

Fixpoint str_rev (s : string) : string :=
  match s with
  | EmptyString => EmptyString
  | String c s' => str_rev s' ++ String c EmptyString
  end.

Definition rstrip_by (f : ascii -> bool) (s : string) : string :=
  str_rev (lstrip_by f (str_rev s)).

(** [s.strip()] and [s.strip(chars)] *)
Definition strip (s : string) : string := rstrip_by is_space (lstrip_by is_space s).

Definition strip_chars (cs : string) (s : string) : string :=
  let f c := contains cs (String c EmptyString) in
  rstrip_by f (lstrip_by f s).

(** [s.replace(old, new)]: occurrences of [old] are replaced from left to
    right without overlap; [skip] counts the characters of the current
    occurrence still to be consumed.  An empty [old] inserts [new] before
    every character and at the end, as CPython does. *)
Fixpoint replace_go (old new : string) (s : string) (skip : nat) : string :=
  match s with
  | EmptyString => if String.eqb old EmptyString then new else EmptyString
  | String c s' =>
      match skip with
      | S k => replace_go old new s' k
      | O =>
          if String.prefix old s
          then match old with
               | EmptyString => new ++ String c (replace_go old new s' 0)
               | String _ _ => new ++ replace_go old new s' (String.length old - 1)
               end
          else String c (replace_go old new s' 0)
      end
  end.

Definition replace (s old new : string) : string := replace_go old new s 0.

(** [sep.join(xs)] *)
Definition join (sep : string) (xs : list string) : string := String.concat sep xs.

(** [s * n] *)
Fixpoint repeat_str (s : string) (n : nat) : string :=
  match n with O => EmptyString | S k => s ++ repeat_str s k end.

(** The double quote, which a string literal of this file cannot hold. *)
Definition dq : string := String "034" EmptyString.

(** The newline. *)
Definition nl : string := String "010" EmptyString.

(** [tmpl % (a1, ..., an)] for templates whose only directives are [%s]
    and [%%]: too few or too many arguments raise [TypeError]. *)
Fixpoint percent_go (tmpl : string) (args : list string) : result string :=
  match tmpl with
  | EmptyString =>
      match args with
      | [] => Ok EmptyString
      | _ => Err (TypeError "not all arguments converted during string formatting")
      end
  | String "%" (String "s" t) =>
      match args with
      | a :: args' =>
          match percent_go t args' with Ok r => Ok (a ++ r) | Err e => Err e end
      | [] => Err (TypeError "not enough arguments for format string")
      end
  | String "%" (String "%" t) =>
      match percent_go t args with Ok r => Ok (String "%" r) | Err e => Err e end
  | String "%" _ => Err (ValueError "unsupported format character")
  | String c t =>
      match percent_go t args with Ok r => Ok (String c r) | Err e => Err e end
  end.

Definition percent (tmpl : string) (args : list string) : result string :=
  percent_go tmpl args.

(** [s.split()]: the maximal runs of non-whitespace characters. *)
Fixpoint split_ws_go (s : string) (cur : string) : list string :=
  match s with
  | EmptyString => if String.eqb cur "" then [] else [cur]
  | String c s' =>
      if is_space c then (if String.eqb cur "" then [] else [cur]) ++ split_ws_go s' ""
      else split_ws_go s' (cur ++ String c EmptyString)
  end.

Definition split_ws (s : string) : list string := split_ws_go s "".

(** The truth value of [re.search(...)]: a match object is true, [None] false. *)
Definition truthy {A} (o : option A) : bool := match o with Some _ => true | None => false end.

(** [os.path.basename(p)]: what follows the last ["/"]. *)
Definition basename (p : string) : string :=
  match rindex "/" p with Some i => drop (S i) p | None => p end.

(** [os.path.join(a, b)] of [posixpath]. *)
Definition path_join (a b : string) : string :=
  if startswith b "/" then b
  else if String.eqb a "" || endswith a "/" then a ++ b
  else a ++ "/" ++ b.

(** ["%d" % n] for [n >= 0]; [n + 1] divisions are more than enough. *)
Fixpoint str_nat_go (fuel n : nat) (acc : string) : string :=
  match fuel with
  | O => acc
  | S f =>
      let acc' := String (ascii_of_nat (48 + n mod 10)) acc in
      if (n <? 10)%nat then acc' else str_nat_go f (n / 10) acc'
  end.

Definition str_nat (n : nat) : string := str_nat_go (S n) n "".

(** Byte-wise [<] of Python 2 strings. *)
Fixpoint str_ltb (a b : string) : bool :=
  match a, b with
  | EmptyString, String _ _ => true
  | String c a', String d b' =>
      if Ascii.eqb c d then str_ltb a' b' else (nat_of_ascii c <? nat_of_ascii d)%nat
  | _, _ => false
  end.

(** Every byte below 128: what the [ascii] codec can encode. *)
Fixpoint ascii_only (s : string) : bool :=
  match s with
  | EmptyString => true
  | String c s' => (nat_of_ascii c <? 128)%nat && ascii_only s'
  end.

(** Iterating over a file: its lines, each with its newline. *)
Fixpoint lines (s : string) : list string :=
  match s with
  | EmptyString => []
  | String c s' =>
      if Ascii.eqb c "010" then String c EmptyString :: lines s'
      else match lines s' with
           | [] => [String c EmptyString]
           | l :: ls => String c l :: ls
           end
  end.

(** Python 3's text mode reads ["\r\n"] and ["\r"] as ["\n"]. *)
Fixpoint universal_nl (s : string) : string :=
  match s with
  | String "013" (String "010" s') => String "010" (universal_nl s')
  | String "013" s' => String "010" (universal_nl s')
  | String c s' => String c (universal_nl s')
  | EmptyString => EmptyString
  end.

(** [s] has no character [c]. *)
Fixpoint no_char (c : ascii) (s : string) : bool :=
  match s with
  | EmptyString => true
  | String d s' => negb (Ascii.eqb c d) && no_char c s'
  end.

End Py.

(** ** Lemmas on the string operations *)

Section StringLemmas.
Implicit Types s t : string.

Lemma drop_0 s : Py.drop 0 s = s.
Proof. destruct s; reflexivity. Qed.

Lemma drop_S_String n c s : Py.drop (S n) (String c s) = Py.drop n s.
Proof. reflexivity. Qed.

Lemma drop_empty n : Py.drop n EmptyString = EmptyString.
Proof. destruct n; reflexivity. Qed.

Lemma drop_add a b s : Py.drop (a + b) s = Py.drop b (Py.drop a s).
Proof.
  revert s; induction a as [|a IH]; intros s; [by rewrite drop_0|].
  destruct s; simpl; [by rewrite drop_empty | apply IH].
Qed.

Lemma length_drop n s : String.length (Py.drop n s) = String.length s - n.
Proof.
  revert s; induction n as [|n IH]; intros s; [simpl; lia|].
  destruct s; simpl; [reflexivity | apply IH].
Qed.

(** The character at position [n] splits the string there. *)
Lemma drop_String_next n s c t :
  Py.drop n s = String c t -> Py.drop (S n) s = t.
Proof.
  intros H. replace (S n) with (n + 1) by lia. rewrite drop_add, H. reflexivity.
Qed.

Lemma drop_String_lt n s c t :
  Py.drop n s = String c t -> n < String.length s.
Proof.
  intros H. pose proof (length_drop n s) as L. rewrite H in L. simpl in L. lia.
Qed.

Lemma drop_length_ge n s : String.length s <= n -> Py.drop n s = EmptyString.
Proof.
  intros H. pose proof (length_drop n s) as L.
  destruct (Py.drop n s); [reflexivity | simpl in L; lia].
Qed.

Lemma take_drop n s : (Py.take n s ++ Py.drop n s)%string = s.
Proof.
  revert s; induction n as [|n IH]; intros s; [reflexivity|].
  destruct s; simpl; [reflexivity | by rewrite IH].
Qed.

Lemma append_assoc_str s1 s2 s3 : ((s1 ++ s2) ++ s3)%string = (s1 ++ (s2 ++ s3))%string.
Proof. induction s1; simpl; [reflexivity | by rewrite IHs1]. Qed.

Lemma append_empty_r s : (s ++ "")%string = s.
Proof. induction s; simpl; [reflexivity | by rewrite IHs]. Qed.

Lemma length_append_str s1 s2 :
  String.length (s1 ++ s2) = String.length s1 + String.length s2.
Proof. induction s1; simpl; [reflexivity | by rewrite IHs1]. Qed.

Lemma append_empty_inv_r s1 s2 : (s1 ++ s2)%string = "" -> s2 = "".
Proof. by destruct s1; cbn. Qed.

(** A common suffix cancels: [a + s == b + s] gives [a == b]. *)
Lemma append_inj_r a b s : (a ++ s)%string = (b ++ s)%string -> a = b.
Proof.
  intros H. assert (Hl : String.length a = String.length b).
  { apply (f_equal String.length) in H. rewrite !length_append_str in H. lia. }
  revert b H Hl. induction a as [|c a IH]; intros [|c' b] H Hl; cbn in *; try discriminate; [done|].
  injection H as -> H. f_equal. apply IH; [exact H | lia].
Qed.

Lemma drop_app_length a b : Py.drop (String.length a) (a ++ b) = b.
Proof. induction a; simpl; [apply drop_0 | exact IHa]. Qed.

Lemma endswith_app a b : Py.endswith (a ++ b) b = true.
Proof.
  unfold Py.endswith. rewrite length_append_str.
  replace (String.length a + String.length b - String.length b)%nat with (String.length a) by lia.
  rewrite drop_app_length, String.eqb_refl. apply andb_true_intro. split; [apply Nat.leb_le; lia|done].
Qed.

(** ** Paths *)

Lemma append_inj_l a b c : (a ++ b)%string = (a ++ c)%string -> b = c.
Proof. induction a as [|x a IH]; cbn; [done|]. intros [= H]. exact (IH H). Qed.

Lemma rindex_from_slash s i acc :
  (Py.rindex_from "/" s i acc = acc /\ Py.no_char "/" s = true) \/
  exists k, Py.rindex_from "/" s i acc = Some (i + k) /\ Py.no_char "/" (Py.drop (S k) s) = true.
Proof.
  revert i acc. induction s as [|c s IH]; intros i acc; [by left|].
  cbn [Py.rindex_from Py.no_char]. destruct (IH (S i) (if String.prefix "/" (String c s) then Some i else acc))
    as [[-> Hs] | (k & -> & Hk)].
  - cbn [String.prefix]. destruct (ascii_dec "/" c) as [<-|Hc].
    + right. exists 0. rewrite Nat.add_0_r. split; [by destruct s|]. exact Hs.
    + left. rewrite Hs, andb_true_r. split; [reflexivity|].
      apply negb_true_iff, Ascii.eqb_neq. exact Hc.
  - right. exists (S k). split; [f_equal; lia | exact Hk].
Qed.

(** A base name has no ["/"]. *)
Lemma basename_no_slash p : Py.no_char "/" (Py.basename p) = true.
Proof.
  unfold Py.basename, Py.rindex. destruct (rindex_from_slash p 0 None) as [[-> Hs] | (k & -> & Hk)].
  - exact Hs.
  - exact Hk.
Qed.

Lemma no_slash_start a : Py.no_char "/" a = true -> Py.startswith a "/" = false.
Proof.
  destruct a as [|c a]; [done|]. unfold Py.startswith. cbn [Py.no_char String.prefix].
  intros H. apply andb_prop in H as [H _].
  destruct (ascii_dec "/" c) as [<-|]; [by rewrite Ascii.eqb_refl in H | done].
Qed.

(** Joining a directory with two names without ["/"] gives two paths,
    equal only when the names are. *)
Lemma path_join_inj d a b :
  Py.no_char "/" a = true -> Py.no_char "/" b = true ->
  Py.path_join d a = Py.path_join d b -> a = b.
Proof.
  intros Ha Hb. unfold Py.path_join. rewrite !no_slash_start by done.
  destruct (String.eqb d "" || Py.endswith d "/"); [apply append_inj_l|].
  intros H. apply append_inj_l in H. by injection H.
Qed.

(** ** Text the [ascii] codec accepts *)

Lemma ascii_only_app a b : Py.ascii_only (a ++ b) = Py.ascii_only a && Py.ascii_only b.
Proof. induction a as [|c a IH]; cbn; [done|]. by rewrite IH, andb_assoc. Qed.

Lemma ascii_only_rev s : Py.ascii_only (Py.str_rev s) = Py.ascii_only s.
Proof.
  induction s as [|c s IH]; cbn; [done|]. rewrite ascii_only_app, IH. cbn.
  by rewrite andb_true_r, andb_comm.
Qed.

Lemma ascii_only_lstrip f s : Py.ascii_only s = true -> Py.ascii_only (Py.lstrip_by f s) = true.
Proof.
  induction s as [|c s IH]; cbn; [done|]. intros H.
  destruct (f c); [apply IH; by apply andb_prop in H as [_ H] | exact H].
Qed.

Lemma ascii_only_strip_chars cs s : Py.ascii_only s = true -> Py.ascii_only (Py.strip_chars cs s) = true.
Proof.
  intros H. unfold Py.strip_chars, Py.rstrip_by. rewrite ascii_only_rev.
  apply ascii_only_lstrip. rewrite ascii_only_rev. by apply ascii_only_lstrip.
Qed.

Lemma ascii_only_concat sep l :
  Py.ascii_only sep = true -> Forall (fun x => Py.ascii_only x = true) l ->
  Py.ascii_only (String.concat sep l) = true.
Proof.
  intros Hs. induction 1 as [|x l Hx Hl IH]; [done|].
  destruct l as [|y l]; cbn; [exact Hx|]. rewrite ascii_only_app, ascii_only_app, Hx, Hs.
  exact IH.
Qed.

(** ** Lines *)

Lemma lines_nil s : Py.lines s = [] -> s = "".
Proof.
  destruct s as [|c s]; [done|]. cbn. destruct (Ascii.eqb c "010"); [discriminate|].
  by destruct (Py.lines s).
Qed.

Lemma lines_concat s : String.concat "" (Py.lines s) = s.
Proof.
  induction s as [|c s IH]; [done|]. cbn [Py.lines].
  destruct (Ascii.eqb c "010") eqn:Ec.
  - apply Ascii.eqb_eq in Ec. subst c. destruct (Py.lines s) eqn:E; cbn.
    + apply lines_nil in E. by subst.
    + by rewrite <- IH.
  - destruct (Py.lines s) as [|l ls] eqn:E; [apply lines_nil in E; by subst|].
    destruct ls; cbn in IH |- *; by rewrite IH.
Qed.

(** A line followed by another ends with a newline. *)
Lemma lines_nl s l l' ls : Py.lines s = l :: l' :: ls -> Py.no_char "010" l = false.
Proof.
  revert l l' ls. induction s as [|c s IH]; intros l l' ls; [discriminate|]. cbn [Py.lines].
  destruct (Ascii.eqb c "010") eqn:Ec.
  - intros [= <- _]. apply Ascii.eqb_eq in Ec. by subst c.
  - destruct (Py.lines s) as [|l0 [|l1 ls0]] eqn:E; [discriminate | discriminate |].
    intros [= <- _]. cbn. rewrite (IH _ _ _ eq_refl). apply andb_false_r.
Qed.

Lemma prefix_app_nl p x y :
  Py.no_char "010" p = true -> Py.no_char "010" x = false ->
  String.prefix p (x ++ y) = String.prefix p x.
Proof.
  revert p. induction x as [|c x IH]; intros p Hp Hx; [discriminate|].
  destruct p as [|d p]; [reflexivity|]. cbn [Py.no_char String.prefix append] in Hp, Hx |- *.
  apply andb_prop in Hp as [Hd Hp].
  destruct (ascii_dec d c) as [Heq|]; [subst d|reflexivity].
  destruct (Ascii.eqb "010" c); [discriminate|]. apply IH; assumption.
Qed.

Lemma ascii_only_lines s : Py.ascii_only s = true -> Forall (fun l => Py.ascii_only l = true) (Py.lines s).
Proof.
  induction s as [|c s IH]; cbn [Py.lines Py.ascii_only]; [constructor|]. intros H.
  apply andb_prop in H as [Hc Hs]. specialize (IH Hs).
  destruct (Ascii.eqb c "010").
  - constructor; [cbn [Py.ascii_only]; by rewrite Hc | exact IH].
  - destruct (Py.lines s) as [|l ls]; constructor; cbn [Py.ascii_only]; rewrite ?Hc; try done.
    + by inversion IH.
    + by inversion IH.
Qed.

Lemma take_app_length a b : Py.take (String.length a) (a ++ b) = a.
Proof. induction a as [|c a IH]; cbn; [by destruct b | by rewrite IH]. Qed.

Lemma prefix_nl_other c t : Ascii.eqb "010" c = false -> String.prefix Py.nl (String c t) = false.
Proof.
  intros H. cbn [Py.nl String.prefix]. destruct (ascii_dec "010" c) as [<-|]; [|done].
  by rewrite Ascii.eqb_refl in H.
Qed.

Lemma index_nl_app p b :
  Py.no_char "010" p = true -> index 0 Py.nl (p ++ Py.nl ++ b) = Some (String.length p).
Proof.
  induction p as [|c p IH]; [by destruct b|]. cbn [Py.no_char]. intros H.
  apply andb_prop in H as [Hc H]. apply negb_true_iff in Hc.
  cbn [append String.length index]. rewrite prefix_nl_other by done. by rewrite IH.
Qed.

Lemma index_nl_none c : Py.no_char "010" c = true -> index 0 Py.nl c = None.
Proof.
  induction c as [|x c IH]; [reflexivity|]. cbn [Py.no_char]. intros H.
  apply andb_prop in H as [Hx H]. apply negb_true_iff in Hx.
  cbn [index]. rewrite prefix_nl_other by done. by rewrite IH.
Qed.

(** [s.split("\n", 1)] of a first line and a rest. *)
Lemma split1_nl p b : Py.no_char "010" p = true -> Py.split1 (p ++ Py.nl ++ b) Py.nl = [p; b].
Proof.
  intros H. unfold Py.split1. rewrite index_nl_app by done.
  rewrite take_app_length, drop_add, drop_app_length. reflexivity.
Qed.

Lemma split1_none c : Py.no_char "010" c = true -> Py.split1 c Py.nl = [c].
Proof. intros H. unfold Py.split1. by rewrite index_nl_none. Qed.

(** Searching a text for a string without newline is searching its lines. *)
Lemma contains_lines p s :
  p <> "" -> Py.no_char "010" p = true ->
  Py.contains s p = existsb (fun l => Py.contains l p) (Py.lines s).
Proof.
  intros Hne Hp. destruct p as [|d p']; [done|]. set (p := String d p') in *.
  assert (Hd : Ascii.eqb "010" d = false).
  { pose proof Hp as H. unfold p in H. cbn [Py.no_char] in H.
    apply andb_prop in H as [H _]. by apply negb_true_iff. }
  induction s as [|c s IH]; [reflexivity|]. cbn [Py.lines].
  destruct (Ascii.eqb c "010") eqn:Ec.
  - apply Ascii.eqb_eq in Ec. subst c. cbn [existsb]. rewrite <- IH.
    assert (Hpre : forall t, String.prefix p (String "010" t) = false).
    { intros t. cbn. destruct (ascii_dec d "010") as [->|]; [discriminate | reflexivity]. }
    cbn [Py.contains]. rewrite !Hpre. reflexivity.
  - destruct (Py.lines s) as [|l ls] eqn:E.
    + apply lines_nil in E. subst s. cbn [existsb]. by rewrite orb_false_r.
    + cbn [existsb] in IH |- *. cbn [Py.contains]. rewrite IH, orb_assoc. f_equal. f_equal.
      pose proof (lines_concat s) as Hs. rewrite E in Hs.
      destruct ls as [|l' ls].
      * cbn in Hs. by subst s.
      * cbn [String.concat] in Hs. subst s.
        change (String c (l ++ _)) with (String c l ++ String.concat "" (l' :: ls))%string.
        apply prefix_app_nl; [exact Hp|]. cbn. by rewrite (lines_nl _ _ _ _ E), andb_false_r.
Qed.

End StringLemmas.

#[export] Hint Rewrite drop_0 drop_S_String drop_empty length_drop append_assoc_str
  append_empty_r : pyrw.

(** ** Shared tactics *)

(** Evaluate a closed Python string computation. *)
Ltac py_norm := vm_compute; try reflexivity.

(** Decide a property of one character by trying all 256 bytes. *)
Ltac ascii_cases :=
  let c := fresh "c" in
  intros c; destruct c as [[] [] [] [] [] [] [] []]; vm_compute;
  first [reflexivity | intros ?; first [reflexivity | discriminate]].
