(* ===== verification/Loop.v ===== *)
(** * Python's [for] loop, one iteration at a time

    Every script of the repository runs a [for] loop over a list (the
    files of [sys.argv[1:]], the rows of a table, the jars of a
    directory) whose body may raise; an exception leaves the loop and
    ends the script.  [for_loop] is that loop as a function over the
    result monad of [Prelude].  [step] is the same loop as a small-step
    relation on configurations: the items still to come, and the state of
    the script or the exception that left the loop.

    The lemmas relate the two views: a step keeps the outcome the
    function predicts ([step_outcome]), every sequence of steps that ends
    in a final configuration ends in that outcome ([star_final_outcome]);
    every run halts there, in the omni-style [eventually] of coqutil's
    small-step combinators ([loop_eventually]); a run passes each item
    unless an exception stops it first ([loop_passes]); and a property
    the body keeps holds in every configuration of the run
    ([loop_always]), also when the loop ends in an exception.  The
    components instantiate them with their loop bodies. *)

From Stdlib Require Import List.
From S2P Require Import Prelude.
Import ListNotations.

Local Open Scope py_scope.

Create HintDb loop discriminated.

Module Loop.

Section ForLoop.
Context {S A : Type} (body : S -> A -> result S).

(** [for a in l: s = body(s, a)], an exception leaving the loop. *)
Fixpoint for_loop (s : S) (l : list A) : result S :=
  match l with
  | [] => Ok s
  | a :: l' => s' <- body s a ;; for_loop s' l'
  end.

(** A configuration: the items still to come, and the state of the
    script or the exception that left the loop. *)
Record config := Cfg { pending : list A; current : result S }.

(** One iteration: the next item, with the state the body leaves. *)
Inductive step : config -> config -> Prop :=
| step_iter a l s : step (Cfg (a :: l) (Ok s)) (Cfg l (body s a)).

(** No item is left, or an exception left the loop. *)
Definition final (c : config) : bool :=
  match c with
  | Cfg (_ :: _) (Ok _) => false
  | _ => true
  end.

(** What the rest of the loop computes from [c]. *)
Definition outcome (c : config) : result S :=
  match current c with
  | Ok s => for_loop s (pending c)
  | Err e => Err e
  end.

Inductive star : config -> config -> Prop :=
| star_refl c : star c c
| star_step c c' c'' : step c c' -> star c' c'' -> star c c''.

(** [c] can step, and every successor of [c] is in [Q]. *)
Definition ostep (c : config) (Q : config -> Prop) : Prop :=
  (exists c', step c c') /\ forall c', step c c' -> Q c'.

(** Every run from [c] reaches a configuration in [P]. *)
Inductive eventually (P : config -> Prop) (c : config) : Prop :=
| eventually_done : P c -> eventually P c
| eventually_step (mid : config -> Prop) :
    ostep c mid -> (forall m, mid m -> eventually P m) -> eventually P c.

(** [P] holds in every configuration reachable from [c]. *)
Inductive always (P : config -> Prop) (c : config) : Prop :=
| mk_always (inv : config -> Prop) :
    inv c -> (forall m m', inv m -> step m m' -> inv m') ->
    (forall m, inv m -> P m) -> always P c.

(** ** The loop as a function *)

Lemma for_loop_app s l1 l2 :
  for_loop s (l1 ++ l2) = (s' <- for_loop s l1 ;; for_loop s' l2).
Proof.
  revert s. induction l1 as [|a l1 IH]; intros s; [reflexivity|].
  cbn [for_loop app]. destruct (body s a); [apply IH | reflexivity].
Qed.

(** A fixpoint with the loop's two equations is the loop. *)
Lemma for_loop_unique (f : S -> list A -> result S) :
  (forall s, f s [] = Ok s) ->
  (forall s a l, f s (a :: l) = (s' <- body s a ;; f s' l)) ->
  forall s l, f s l = for_loop s l.
Proof.
  intros Hnil Hcons s l. revert s. induction l as [|a l IH]; intros s;
    [apply Hnil|].
  rewrite Hcons. cbn [for_loop]. destruct (body s a); [apply IH | reflexivity].
Qed.

(** ** Steps *)

Lemma final_no_step c c' : final c = true -> ~ step c c'.
Proof. intros Hf Hs. destruct Hs. discriminate. Qed.

Lemma not_final_step c : final c = false -> exists c', step c c'.
Proof.
  destruct c as [[|a l] [s|e]]; cbn; try discriminate.
  intros _. eexists. constructor.
Qed.

Lemma step_det c c1 c2 : step c c1 -> step c c2 -> c1 = c2.
Proof. intros H1 H2. destruct H1. inversion H2. reflexivity. Qed.

Lemma step_outcome c c' : step c c' -> outcome c' = outcome c.
Proof.
  intros []. unfold outcome. cbn [pending current for_loop].
  destruct (body s a); reflexivity.
Qed.

Lemma final_outcome c : final c = true -> outcome c = current c.
Proof. destruct c as [[|a l] [s|e]]; cbn; congruence. Qed.

Lemma star_outcome c c' : star c c' -> outcome c' = outcome c.
Proof. induction 1; [reflexivity|]. rewrite IHstar. apply step_outcome; assumption. Qed.

(** A run that stops stops in the outcome of the loop. *)
Lemma star_final_outcome c c' :
  star c c' -> final c' = true -> current c' = outcome c.
Proof. intros Hs Hf. rewrite <- (final_outcome c' Hf). apply star_outcome, Hs. Qed.

Lemma star_pending c c' : star c c' -> exists l, pending c = l ++ pending c'.
Proof.
  induction 1 as [c|c c' c'' Hs _ [l Hl]]; [exists []; reflexivity|].
  destruct Hs. exists (a :: l). cbn in *. rewrite Hl. reflexivity.
Qed.

(** ** Liveness *)

Lemma eventually_weaken (P Q : config -> Prop) c :
  eventually P c -> (forall m, P m -> Q m) -> eventually Q c.
Proof.
  induction 1 as [c HP|c mid Hmid _ IH]; intros HPQ.
  - apply eventually_done, HPQ, HP.
  - apply (eventually_step _ c mid Hmid). intros m Hm. apply IH; assumption.
Qed.

(** One step, then [P] from the successor. *)
Lemma eventually_next a l s (P : config -> Prop) :
  eventually P (Cfg l (body s a)) -> eventually P (Cfg (a :: l) (Ok s)).
Proof.
  intros H. apply (eventually_step _ _ (fun m => m = Cfg l (body s a))).
  - split; [eexists; constructor|]. intros c' Hs. inversion Hs. reflexivity.
  - intros m ->. exact H.
Qed.

(** Every run halts, in the outcome [for_loop] gives. *)
Lemma loop_eventually c :
  eventually (fun m => final m = true /\ current m = outcome c) c.
Proof.
  destruct c as [l r]. revert r. induction l as [|a l IH]; intros [s|e].
  - apply eventually_done. split; reflexivity.
  - apply eventually_done. split; reflexivity.
  - apply eventually_next. eapply eventually_weaken; [apply IH|].
    intros m [Hf Hm]. split; [exact Hf|]. rewrite Hm. unfold outcome. cbn.
    destruct (body s a); reflexivity.
  - apply eventually_done. split; reflexivity.
Qed.

(** A run gets past [a] into a state in [Q], or raises, when the body
    makes a state in [Q] from [a] out of any state in an invariant [J]
    the run keeps. *)
Lemma loop_reaches (J Q : S -> Prop) l1 a l2 s :
  J s -> (forall s b s', J s -> body s b = Ok s' -> J s') ->
  (forall s s', J s -> body s a = Ok s' -> Q s') ->
  eventually (fun m => (pending m = l2 /\ forall s', current m = Ok s' -> Q s') \/
                       exists e, current m = Err e)
    (Cfg (l1 ++ a :: l2) (Ok s)).
Proof.
  intros Hs HJ HQ. revert s Hs. induction l1 as [|b l1 IH]; intros s Hs; cbn [app];
    apply eventually_next.
  - apply eventually_done. left. split; [reflexivity|]. cbn. eauto.
  - destruct (body s b) as [s'|e] eqn:E; [apply IH; eauto|].
    apply eventually_done. right. exists e. reflexivity.
Qed.

(** A run gets past each item, unless an exception stops it first. *)
Lemma loop_passes l1 a l2 s :
  eventually (fun m => pending m = l2 \/ exists e, current m = Err e)
    (Cfg (l1 ++ a :: l2) (Ok s)).
Proof.
  eapply eventually_weaken.
  - apply (loop_reaches (fun _ => True) (fun _ => True)); auto.
  - intros m [[Hp _]|He]; [left|right]; assumption.
Qed.

(** A run in which the items [l1] succeed and [a] raises halts right
    after [a], with the items [l2] never taken. *)
Lemma loop_stops l1 a l2 s s1 e :
  for_loop s l1 = Ok s1 -> body s1 a = Err e ->
  eventually (fun m => final m = true /\ pending m = l2 /\ current m = Err e)
    (Cfg (l1 ++ a :: l2) (Ok s)).
Proof.
  intros H1 Ha. revert s H1. induction l1 as [|b l1 IH]; intros s H1; cbn [app];
    apply eventually_next.
  - injection H1 as <-. rewrite Ha. apply eventually_done.
    split; [destruct l2; reflexivity | split; reflexivity].
  - cbn [for_loop] in H1. destruct (body s b) as [s'|e'] eqn:E; [|discriminate]. exact (IH s' H1).
Qed.

(** ** Invariants *)

Section Invariant.
Variable I : S -> Prop.
Hypothesis body_keeps : forall s a s', I s -> body s a = Ok s' -> I s'.

Lemma for_loop_keeps s l s' : I s -> for_loop s l = Ok s' -> I s'.
Proof.
  revert s. induction l as [|a l IH]; intros s Hs H; cbn [for_loop] in H.
  - injection H as <-. exact Hs.
  - apply rbind_Ok_inv in H as [s1 [H1 H2]]. eapply IH; [|exact H2].
    eapply body_keeps; eassumption.
Qed.

(** Every state the run passes through, and the last one before an
    exception, satisfies [I]. *)
Lemma loop_always l s :
  I s -> always (fun m => forall s', current m = Ok s' -> I s') (Cfg l (Ok s)).
Proof.
  intros Hs. apply (mk_always _ _ (fun m => forall s', current m = Ok s' -> I s')).
  - intros s' H. injection H as <-. exact Hs.
  - intros m m' Hm Hst. destruct Hst as [a l' s1]. intros s' H.
    apply (body_keeps s1 a); [apply Hm; reflexivity | exact H].
  - intros m Hm. exact Hm.
Qed.
End Invariant.

Lemma always_star (P : config -> Prop) c c' : always P c -> star c c' -> P c'.
Proof.
  intros [inv Hc Hstep HP] Hs. apply HP. clear HP.
  induction Hs; [exact Hc|]. apply IHHs. eapply Hstep; eassumption.
Qed.
End ForLoop.

Arguments Cfg {S A}.
Arguments final {S A}.
Arguments current {S A}.
Arguments pending {S A}.

End Loop.

#[export] Hint Constructors Loop.step Loop.star : loop.
#[export] Hint Resolve Loop.step_outcome Loop.final_no_step : loop.
