(* ===== verification/PyRe.v ===== *)
(** * The Python [re] module, as the scripts use it

    Five of the scripts match file names and file contents against
    regular expressions ([install-licenses.py], [merge-service-files.py],
    [inject-agpl.py], [build.py] and the [fmt] helper of
    [distribution-gen-testdata.py]).  This file models the part of
    CPython 2.7's [sre] engine they rely on:
    - [compile]: the pattern syntax they use (literals and escapes,
      [.], character sets with ranges and negation, groups, [|], [?],
      [*], [+] and their lazy forms on one-character atoms, [^], [$]),
      parsed into the [regex] tree, with the capture groups numbered by
      their opening parenthesis;
    - [run]: the backtracking matcher, in continuation-passing style, so
      that alternatives and repetitions are tried in the order sre tries
      them (left alternative first, greedy repetitions longest first,
      lazy ones shortest first) and the first success wins;
    - [search], [match_]: the leftmost match, and the match anchored at 0;
    - [sub]: the replacement loop of [pattern_subx] in [_sre.c] with a
      literal replacement, run with a fuel that the theorem
      [sub_terminates] shows to be enough;
    - [expand]: [MatchObject.expand] for templates of [\n] references.
    The library itself is not code of the repository: the definitions
    here are the semantics the scripts' lines are interpreted in. *)

From Stdlib Require Import String Ascii Lia.
From stdpp Require Import base list.
From S2P Require Import Prelude.

Open Scope string_scope.

Module Re.

(** ** Patterns *)

(** A one-character atom: a literal, [.], or a set [[...]]/[[^...]]
    given by its ranges (a single character [c] is the range [c-c]). *)
Inductive cls :=
| CLit (c : ascii)
| CAny
| CSet (neg : bool) (ranges : list (ascii * ascii)).

Inductive regex :=
| REmpty
| RChar (k : cls)
| RSeq (r1 r2 : regex)
| RAlt (r1 r2 : regex)
| ROpt (greedy : bool) (r : regex)
| RRep (k : cls) (min : nat) (greedy : bool)
| RGroup (g : nat) (r : regex)
| RBol
| REol.

(** ** Matching one character *)

(** [_sre.getlower] for a byte string without LOCALE or UNICODE: only
    the ASCII letters fold. *)
Definition lower (c : ascii) : ascii :=
  let n := nat_of_ascii c in
  if (65 <=? n)%nat && (n <=? 90)%nat then ascii_of_nat (n + 32) else c.

Definition in_range (lo hi c : ascii) : bool :=
  (nat_of_ascii lo <=? nat_of_ascii c)%nat && (nat_of_ascii c <=? nat_of_ascii hi)%nat.

(** With IGNORECASE, sre compares the lowered character with the lowered
    literal ([LITERAL_IGNORE]) and looks the lowered character up in the
    set whose range ends were lowered at compile time ([IN_IGNORE]). *)
Definition cls_match (ic : bool) (k : cls) (c : ascii) : bool :=
  match k with
  | CLit l => if ic then Ascii.eqb (lower c) (lower l) else Ascii.eqb c l
  | CAny => negb (Ascii.eqb c "010"%char)
  | CSet neg rs =>
      let c' := if ic then lower c else c in
      let hit := existsb (fun '(lo, hi) =>
                   if ic then in_range (lower lo) (lower hi) c' else in_range lo hi c') rs in
      if neg then negb hit else hit
  end.

(** The number of leading characters of [s] that the atom matches: how far
    a greedy [REPEAT_ONE] can go. *)
Fixpoint run_length (ic : bool) (k : cls) (s : string) : nat :=
  match s with
  | EmptyString => 0
  | String c s' => if cls_match ic k c then S (run_length ic k s') else 0
  end.

(** ** The matcher *)

(** The matcher's state: the position in the subject, the rest of the
    subject from there, and the captured groups (the latest first). *)
Record mstate := MS {
  ms_pos : nat;
  ms_rest : string;
  ms_caps : list (nat * (nat * nat))
}.

Definition advance (st : mstate) (i : nat) : mstate :=
  MS (ms_pos st + i) (Py.drop i (ms_rest st)) (ms_caps st).

(** Try the continuation at each count of a repetition, in order. *)
Fixpoint try_counts (k : mstate -> option mstate) (st : mstate) (cs : list nat)
  : option mstate :=
  match cs with
  | [] => None
  | i :: cs' =>
      match k (advance st i) with
      | Some m => Some m
      | None => try_counts k st cs'
      end
  end.

(** The counts a repetition of [min..avail] tries: longest first when
    greedy ([MAX_REPEAT]), shortest first when lazy ([MIN_REPEAT]). *)
Definition rep_counts (min avail : nat) (greedy : bool) : list nat :=
  let cs := seq min (S avail - min) in
  if greedy then rev cs else cs.

Fixpoint run (ic : bool) (r : regex) (k : mstate -> option mstate) (st : mstate)
  : option mstate :=
  match r with
  | REmpty => k st
  | RChar a =>
      match ms_rest st with
      | String c _ => if cls_match ic a c then k (advance st 1) else None
      | EmptyString => None
      end
  | RSeq r1 r2 => run ic r1 (run ic r2 k) st
  | RAlt r1 r2 =>
      match run ic r1 k st with
      | Some m => Some m
      | None => run ic r2 k st
      end
  | ROpt true r1 =>
      match run ic r1 k st with
      | Some m => Some m
      | None => k st
      end
  | ROpt false r1 =>
      match k st with
      | Some m => Some m
      | None => run ic r1 k st
      end
  | RRep a mn g =>
      let avail := run_length ic a (ms_rest st) in
      if (mn <=? avail)%nat then try_counts k st (rep_counts mn avail g) else None
  | RGroup n r1 =>
      run ic r1 (fun st' => k (MS (ms_pos st') (ms_rest st')
                                  ((n, (ms_pos st, ms_pos st')) :: ms_caps st'))) st
  | RBol => if (ms_pos st =? 0)%nat then k st else None
  | REol =>
      match ms_rest st with
      | EmptyString => k st
      | String c EmptyString => if Ascii.eqb c "010"%char then k st else None
      | _ => None
      end
  end.

(** A match: where it starts and ends in the subject, and its groups. *)
Record rmatch := RM {
  m_subject : string;
  m_start : nat;
  m_end : nat;
  m_caps : list (nat * (nat * nat))
}.

Definition match_at (ic : bool) (r : regex) (s : string) (pos : nat) : option rmatch :=
  match run ic r Some (MS pos (Py.drop pos s) []) with
  | Some st => Some (RM s pos (ms_pos st) (ms_caps st))
  | None => None
  end.

(** [pattern.search(s, pos)]: the first position from [pos] on where the
    pattern matches; [rest] is the subject from [pos] on. *)
Fixpoint search_from (ic : bool) (r : regex) (s : string) (pos : nat) (rest : string)
  : option rmatch :=
  match match_at ic r s pos with
  | Some m => Some m
  | None =>
      match rest with
      | EmptyString => None
      | String _ rest' => search_from ic r s (S pos) rest'
      end
  end.

Definition search (ic : bool) (r : regex) (s : string) : option rmatch :=
  search_from ic r s 0 s.

(** [pattern.match(s)] *)
Definition match_ (ic : bool) (r : regex) (s : string) : option rmatch :=
  match_at ic r s 0.

Fixpoint cap_lookup (n : nat) (cs : list (nat * (nat * nat))) : option (nat * nat) :=
  match cs with
  | [] => None
  | (g, be) :: cs' => if (g =? n)%nat then Some be else cap_lookup n cs'
  end.

(** [m.group(n)]: [None] for a group that did not take part in the match. *)
Definition group (m : rmatch) (n : nat) : option string :=
  match n with
  | O => Some (Py.take (m_end m - m_start m) (Py.drop (m_start m) (m_subject m)))
  | _ =>
      match cap_lookup n (m_caps m) with
      | Some (b, e) => Some (Py.take (e - b) (Py.drop b (m_subject m)))
      | None => None
      end
  end.

(** ** [re.sub] with a literal replacement *)

(** One round of the loop of [pattern_subx]: search from [start]; copy
    the text between the previous match end [i] and this match; skip an
    empty match at the previous end; append the replacement; move on past
    the match (one character further after an empty match).  [n] counts
    the replacements made. *)
Fixpoint sub_loop (fuel : nat) (ic : bool) (r : regex) (repl s : string)
    (start i n : nat) (acc : string) : option string :=
  match fuel with
  | O => None
  | S f =>
      let found :=
        if (String.length s <? start)%nat then None
        else search_from ic r s start (Py.drop start s) in
      match found with
      | None => Some (acc ++ Py.drop i s)
      | Some m =>
          let b := m_start m in
          let e := m_end m in
          let start' := if (e =? b)%nat then S e else e in
          if (i <? b)%nat then
            sub_loop f ic r repl s start' e (S n) (acc ++ Py.take (b - i) (Py.drop i s) ++ repl)
          else if (i =? b)%nat && (i =? e)%nat && (0 <? n)%nat then
            sub_loop f ic r repl s start' i n acc
          else
            sub_loop f ic r repl s start' e (S n) (acc ++ repl)
      end
  end.

(** [re.sub(pattern, repl, s)]: every round moves [start] forward, so
    [length s + 2] rounds always suffice ([sub_loop_fuel]). *)
Definition sub (ic : bool) (r : regex) (repl s : string) : string :=
  match sub_loop (String.length s + 2) ic r repl s 0 0 0 "" with
  | Some out => out
  | None => s
  end.

(** ** Templates of [MatchObject.expand] *)

Inductive tpiece :=
| TLit (c : ascii)
| TRef (n : nat).

Definition digit_val (c : ascii) : option nat :=
  let n := nat_of_ascii c in
  if (48 <=? n)%nat && (n <=? 57)%nat then Some (n - 48)%nat else None.

(** The template syntax the scripts use: [\1] .. [\9] refer to groups,
    every other character is copied. *)
Fixpoint parse_template (t : string) : list tpiece :=
  match t with
  | EmptyString => []
  | String c t' =>
      if Ascii.eqb c "\" then
        match t' with
        | String d t'' =>
            match digit_val d with
            | Some n => TRef n :: parse_template t''
            | None => TLit c :: parse_template t'
            end
        | EmptyString => [TLit c]
        end
      else TLit c :: parse_template t'
  end.

(** [m.expand(template)]: Python 2.7 raises [error("unmatched group")]
    when a referenced group did not take part in the match. *)
Fixpoint expand_pieces (m : rmatch) (ps : list tpiece) : result string :=
  match ps with
  | [] => Ok ""
  | TLit c :: ps' =>
      match expand_pieces m ps' with
      | Ok s => Ok (String c s)
      | Err e => Err e
      end
  | TRef n :: ps' =>
      match group m n with
      | None => Err (ValueError "unmatched group")
      | Some g =>
          match expand_pieces m ps' with
          | Ok s => Ok (g ++ s)
          | Err e => Err e
          end
      end
  end.

Definition expand (m : rmatch) (t : string) : result string :=
  expand_pieces m (parse_template t).

(** ** The pattern parser *)

(** A character set body, up to its closing bracket: ranges [a-b] and
    single characters, a [\] escaping the next character. *)
Fixpoint p_set (s : string) (acc : list (ascii * ascii))
  : option (list (ascii * ascii) * string) :=
  match s with
  | EmptyString => None
  | String c s' =>
      if Ascii.eqb c "]" then Some (rev acc, s')
      else if Ascii.eqb c "\" then
        match s' with
        | String e s'' => p_set s'' ((e, e) :: acc)
        | EmptyString => None
        end
      else
        match s' with
        | String "-" (String d s'') =>
            if Ascii.eqb d "]" then p_set s' ((c, c) :: acc) else p_set s'' ((c, d) :: acc)
        | _ => p_set s' ((c, c) :: acc)
        end
  end.

(** A postfix quantifier on an atom.  Repetitions [*] and [+] are only
    accepted on one-character atoms, the [REPEAT_ONE] case of sre that
    the scripts' patterns use; [?] applies to any atom. *)
Definition p_quant (a : regex) (s : string) : option (regex * string) :=
  let lazy_tail s' := match s' with String "?" s'' => (false, s'') | _ => (true, s') end in
  match s with
  | String "?" s' => let '(g, s'') := lazy_tail s' in Some (ROpt g a, s'')
  | String "*" s' =>
      match a with
      | RChar k => let '(g, s'') := lazy_tail s' in Some (RRep k 0 g, s'')
      | _ => None
      end
  | String "+" s' =>
      match a with
      | RChar k => let '(g, s'') := lazy_tail s' in Some (RRep k 1 g, s'')
      | _ => None
      end
  | _ => Some (a, s)
  end.

(** Recursive descent, [g] the number of groups opened so far; every call
    consumes fuel, and [compile] gives one unit per character and more. *)
Fixpoint p_alt (fuel : nat) (g : nat) (s : string) : option (regex * nat * string) :=
  match fuel with
  | O => None
  | S f =>
      match p_seq f g s with
      | Some (r, g', String "|" s') =>
          match p_alt f g' s' with
          | Some (r2, g'', s'') => Some (RAlt r r2, g'', s'')
          | None => None
          end
      | res => res
      end
  end
with p_seq (fuel : nat) (g : nat) (s : string) : option (regex * nat * string) :=
  match fuel with
  | O => None
  | S f =>
      match s with
      | EmptyString => Some (REmpty, g, s)
      | String "|" _ => Some (REmpty, g, s)
      | String ")" _ => Some (REmpty, g, s)
      | _ =>
          match p_atom f g s with
          | Some (a, g', s') =>
              match p_quant a s' with
              | Some (a', s'') =>
                  match p_seq f g' s'' with
                  | Some (r, g'', s3) => Some (RSeq a' r, g'', s3)
                  | None => None
                  end
              | None => None
              end
          | None => None
          end
      end
  end
with p_atom (fuel : nat) (g : nat) (s : string) : option (regex * nat * string) :=
  match fuel with
  | O => None
  | S f =>
      match s with
      | String "(" s' =>
          match p_alt f (S g) s' with
          | Some (r, g', String ")" s'') => Some (RGroup (S g) r, g', s'')
          | _ => None
          end
      | String "[" (String "^" s') =>
          match p_set s' [] with
          | Some (rs, s'') => Some (RChar (CSet true rs), g, s'')
          | None => None
          end
      | String "[" s' =>
          match p_set s' [] with
          | Some (rs, s'') => Some (RChar (CSet false rs), g, s'')
          | None => None
          end
      | String "." s' => Some (RChar CAny, g, s')
      | String "^" s' => Some (RBol, g, s')
      | String "$" s' => Some (REol, g, s')
      | String "\" (String c s') => Some (RChar (CLit c), g, s')
      | String "\" EmptyString => None
      | String "?" _ | String "*" _ | String "+" _ => None
      | String c s' => Some (RChar (CLit c), g, s')
      | EmptyString => None
      end
  end.

(** [re.compile(pattern)]: [None] for a pattern outside the syntax above. *)
Definition compile (pat : string) : option regex :=
  match p_alt (3 * String.length pat + 3) 0 pat with
  | Some (r, _, EmptyString) => Some r
  | _ => None
  end.

(** A compiled pattern of the scripts, by its source text (a pattern
    outside the syntax compiles to one that never matches). *)
Definition pat (p : string) : regex :=
  match compile p with Some r => r | None => RSeq RBol (RSeq REol (RChar CAny)) end.

(** The reference semantics of a replacement: scan the subject from the
    left; where the pattern matches (the length of the match given by
    [f]) emit the replacement and skip the matched text, elsewhere copy
    the character.  [skip] counts the characters of a match still to be
    skipped.  [sub_scan] shows that [sub] computes this. *)
Fixpoint scan_sub (f : string -> option nat) (repl : string) (t : string) (skip : nat)
  : string :=
  match t with
  | EmptyString => EmptyString
  | String c t' =>
      match skip with
      | S k => scan_sub f repl t' k
      | O =>
          match f t with
          | Some n => repl ++ scan_sub f repl t' (n - 1)
          | None => String c (scan_sub f repl t' 0)
          end
      end
  end.

(** [re.search(p, s)] and friends, with the pattern given as text. *)
Definition re_search (p s : string) : option rmatch := search false (pat p) s.
Definition re_match (p s : string) : option rmatch := match_ false (pat p) s.
Definition re_sub (p repl s : string) : string := sub false (pat p) repl s.

(** ** The matcher moves forward and stays in the subject *)

Section Positions.
Variables (ic : bool) (s : string).

(** A matcher state is at a position of [s] when its rest is the subject
    from that position on. *)
Definition at_pos (st : mstate) : Prop :=
  ms_rest st = Py.drop (ms_pos st) s /\ ms_pos st <= String.length s.

Lemma run_length_le a t : run_length ic a t <= String.length t.
Proof. induction t; simpl; [lia|]. destruct (cls_match _ _ _); simpl; lia. Qed.

Lemma advance_at_pos st i :
  at_pos st -> i <= String.length (ms_rest st) -> at_pos (advance st i).
Proof.
  intros [Hr Hp] Hi. unfold advance, at_pos; simpl. rewrite Hr, <- drop_add.
  rewrite Hr, length_drop in Hi. split; [reflexivity | lia].
Qed.

Lemma try_counts_Some k st cs m :
  try_counts k st cs = Some m -> exists i, In i cs /\ k (advance st i) = Some m.
Proof.
  induction cs as [|c cs IH]; simpl; [discriminate|].
  destruct (k (advance st c)) eqn:E; intros H.
  - injection H as <-. eauto.
  - destruct (IH H) as (i & ? & ?). eauto.
Qed.

Lemma rep_counts_in mn avail g i : In i (rep_counts mn avail g) -> mn <= i <= avail.
Proof.
  unfold rep_counts. intros H. destruct g; [apply in_rev in H|]; apply in_seq in H; lia.
Qed.

(** Whatever continuation the matcher calls, it calls it on a state at a
    later position of the subject. *)
Lemma run_pos r : forall k st m,
  at_pos st -> run ic r k st = Some m ->
  exists st', at_pos st' /\ ms_pos st <= ms_pos st' /\ k st' = Some m.
Proof.
  induction r as [|a|r1 IH1 r2 IH2|r1 IH1 r2 IH2|g r IH|a mn g|n r IH| |];
    intros k st m Hat Hrun; simpl in Hrun.
  - exists st; auto.
  - destruct (ms_rest st) as [|c t] eqn:Er; [discriminate|].
    destruct (cls_match ic a c); [|discriminate].
    exists (advance st 1). split; [apply advance_at_pos; [done | rewrite Er; simpl; lia]|].
    simpl; split; [lia | done].
  - destruct (IH1 _ _ _ Hat Hrun) as (st1 & H1 & P1 & K1).
    destruct (IH2 _ _ _ H1 K1) as (st2 & H2 & P2 & K2).
    exists st2; split; [done | split; [lia | done]].
  - destruct (run ic r1 k st) eqn:E1; [injection Hrun as <-; eauto | eauto].
  - destruct g; [destruct (run ic r k st) eqn:E1 | destruct (k st) eqn:E1];
      try (injection Hrun as <-); eauto.
  - destruct (mn <=? run_length ic a (ms_rest st))%nat; [|discriminate].
    apply try_counts_Some in Hrun as (i & Hi & Hk). apply rep_counts_in in Hi.
    pose proof (run_length_le a (ms_rest st)).
    exists (advance st i). split; [apply advance_at_pos; [done | lia]|].
    simpl; split; [lia | done].
  - destruct (IH _ _ _ Hat Hrun) as (st1 & [H1 H1'] & P1 & K1).
    eexists; split; [|split]; [| | exact K1]; unfold at_pos; simpl; auto.
  - destruct (ms_pos st =? 0)%nat; [exists st; auto | discriminate].
  - destruct (ms_rest st) as [|c [|c' t]]; try discriminate;
      [|destruct (Ascii.eqb c "010"%char); [|discriminate]]; exists st; auto.
Qed.

Lemma match_at_bounds r p m :
  p <= String.length s -> match_at ic r s p = Some m ->
  m_subject m = s /\ m_start m = p /\ p <= m_end m <= String.length s.
Proof.
  unfold match_at. intros Hp H.
  destruct (run ic r Some (MS p (Py.drop p s) [])) as [st|] eqn:E; [|discriminate].
  injection H as <-. simpl.
  destruct (run_pos r Some (MS p (Py.drop p s) []) st) as (st' & [_ H2] & P & K);
    [split; simpl; auto | done |].
  injection K as ->. simpl in *. split; [done | split; [done | lia]].
Qed.

(** The leftmost match: [search_from] returns the match at the first
    position from [pos] on where there is one. *)
Lemma match_at_start r p m : match_at ic r s p = Some m -> m_start m = p.
Proof. unfold match_at. destruct (run _ _ _ _); [intros [= <-]; reflexivity | discriminate]. Qed.

Lemma search_from_Some r : forall rest pos m,
  rest = Py.drop pos s -> search_from ic r s pos rest = Some m ->
  pos <= m_start m <= pos + String.length rest /\ match_at ic r s (m_start m) = Some m /\
  (forall p, pos <= p < m_start m -> match_at ic r s p = None).
Proof.
  induction rest as [|c rest IH]; intros pos m Hr H; simpl in H;
    destruct (match_at ic r s pos) as [m'|] eqn:E.
  - injection H as <-. rewrite (match_at_start _ _ _ E). split; [lia | split; [done | lia]].
  - discriminate.
  - injection H as <-. rewrite (match_at_start _ _ _ E). split; [lia | split; [done | lia]].
  - destruct (IH (S pos) m) as (H1 & H2 & H3); [symmetry; by eapply drop_String_next | done |].
    split; [simpl; lia | split; [done|]]. intros p Hp.
    destruct (decide (p = pos)) as [->|]; [done | apply H3; lia].
Qed.

Lemma search_from_None r : forall rest pos,
  rest = Py.drop pos s -> search_from ic r s pos rest = None ->
  forall p, pos <= p <= String.length s -> match_at ic r s p = None.
Proof.
  induction rest as [|c rest IH]; intros pos Hr H p Hp; simpl in H.
  - destruct (match_at ic r s pos) eqn:E; [discriminate|].
    destruct (decide (p = pos)) as [->|]; [done|].
    pose proof (length_drop pos s) as L. rewrite <- Hr in L. simpl in L. lia.
  - destruct (match_at ic r s pos) eqn:E; [discriminate|].
    destruct (decide (p = pos)) as [->|]; [done|].
    apply (IH (S pos)); [symmetry; by eapply drop_String_next | done | lia].
Qed.

End Positions.

(** A pattern that matches at the start of [b], whatever its position,
    is found in [a ++ b]. *)
Lemma search_app ic r a b :
  (forall p, run ic r Some (MS p b []) <> None) -> search ic r (a ++ b) <> None.
Proof.
  intros Hb Hs. unfold search in Hs.
  pose proof (search_from_None ic (a ++ b) r (a ++ b) 0 (eq_sym (drop_0 _)) Hs (String.length a)) as H.
  assert (Hl : 0 <= String.length a <= String.length (a ++ b)) by (rewrite length_append_str; lia).
  specialize (H Hl). unfold match_at in H. rewrite drop_app_length in H.
  destruct (run ic r Some (MS (String.length a) b [])) eqn:E; [discriminate | exact (Hb _ E)].
Qed.

(** ** The replacement loop *)

Section Scan.
Variables (f : string -> option nat) (repl : string).

Lemma scan_skip : forall t k, k <= String.length t ->
  scan_sub f repl t k = scan_sub f repl (Py.drop k t) 0.
Proof.
  induction t as [|c t IH]; intros k Hk; destruct k; simpl in *; try reflexivity.
  apply IH; lia.
Qed.

(** No match in the first [j] positions: the scan copies them. *)
Lemma scan_prefix : forall j t, j <= String.length t ->
  (forall q, q < j -> f (Py.drop q t) = None) ->
  scan_sub f repl t 0 = (Py.take j t ++ scan_sub f repl (Py.drop j t) 0)%string.
Proof.
  induction j as [|j IH]; intros t Hj Hq; [reflexivity|].
  destruct t as [|c t]; simpl in Hj; [lia|].
  pose proof (Hq 0 ltac:(lia)) as H0. simpl in H0 |- *. rewrite H0. f_equal.
  apply IH; [lia|]. intros q Hq'. apply (Hq (S q)). lia.
Qed.

Lemma take_all t : Py.take (String.length t) t = t.
Proof. induction t; simpl; [reflexivity | by rewrite IHt]. Qed.

Lemma scan_none t : (forall q, q < String.length t -> f (Py.drop q t) = None) ->
  scan_sub f repl t 0 = t.
Proof.
  intros H. rewrite (scan_prefix (String.length t)) by auto.
  rewrite take_all, drop_length_ge by lia. apply append_empty_r.
Qed.

End Scan.

Section SubLoop.
Variables (ic : bool) (r : regex) (repl s : string).

(** Each round moves the search start forward, and it never passes
    [length s + 1]: [length s + 2] rounds are enough. *)
Lemma sub_loop_enough : forall fuel start i n acc,
  start <= String.length s + 1 -> String.length s + 2 <= fuel + start ->
  exists out, sub_loop fuel ic r repl s start i n acc = Some out.
Proof.
  induction fuel as [|fuel IH]; intros start i n acc Hs Hf; [lia|].
  cbn [sub_loop]. destruct (String.length s <? start)%nat eqn:Elt; [eauto|].
  apply Nat.ltb_ge in Elt.
  destruct (search_from ic r s start (Py.drop start s)) as [m|] eqn:Es; [|eauto].
  destruct (search_from_Some ic s r _ _ _ eq_refl Es) as (H1 & H2 & _).
  rewrite length_drop in H1.
  destruct (match_at_bounds ic s r (m_start m) _ ltac:(lia) H2) as (_ & _ & H3).
  destruct (m_end m =? m_start m)%nat eqn:Ee;
    [apply Nat.eqb_eq in Ee | apply Nat.eqb_neq in Ee];
    destruct (i <? m_start m)%nat; [| destruct (_ && _ && _) | | destruct (_ && _ && _)];
    apply IH; lia.
Qed.

(** The scan that [sub] computes, for a pattern whose matches are
    described by [f] and never empty. *)
Variable (f : string -> option nat).
Hypothesis Hf_some : forall p m, p <= String.length s -> match_at ic r s p = Some m ->
  f (Py.drop p s) = Some (m_end m - p) /\ p < m_end m.
Hypothesis Hf_none : forall p, p <= String.length s -> match_at ic r s p = None ->
  f (Py.drop p s) = None.

Lemma scan_at_match b e :
  f (Py.drop b s) = Some (e - b) -> b < e <= String.length s ->
  scan_sub f repl (Py.drop b s) 0 = (repl ++ scan_sub f repl (Py.drop e s) 0)%string.
Proof.
  intros Hb He. destruct (Py.drop b s) as [|c t] eqn:Ed.
  - pose proof (length_drop b s) as L. rewrite Ed in L. simpl in L. lia.
  - simpl. rewrite Hb. f_equal.
    pose proof (length_drop b s) as L. rewrite Ed in L. simpl in L.
    rewrite scan_skip by lia. f_equal.
    rewrite <- (drop_String_next _ _ _ _ Ed), <- drop_add. f_equal. lia.
Qed.

Lemma sub_loop_scan : forall fuel i n acc,
  i <= String.length s + 1 -> String.length s + 2 <= fuel + i ->
  sub_loop fuel ic r repl s i i n acc = Some (acc ++ scan_sub f repl (Py.drop i s) 0)%string.
Proof.
  induction fuel as [|fuel IH]; intros i n acc Hs Hfu; [lia|].
  cbn [sub_loop]. destruct (String.length s <? i)%nat eqn:Elt.
  { apply Nat.ltb_lt in Elt. rewrite drop_length_ge by lia. reflexivity. }
  apply Nat.ltb_ge in Elt.
  destruct (search_from ic r s i (Py.drop i s)) as [m|] eqn:Es.
  - destruct (search_from_Some ic s r _ _ _ eq_refl Es) as (H1 & H2 & H3).
    rewrite length_drop in H1.
    destruct (match_at_bounds ic s r (m_start m) _ ltac:(lia) H2) as (_ & _ & H4).
    destruct (Hf_some (m_start m) _ ltac:(lia) H2) as [Hfb Hlt].
    assert (Hscan : scan_sub f repl (Py.drop i s) 0 =
      (Py.take (m_start m - i) (Py.drop i s) ++ repl ++
       scan_sub f repl (Py.drop (m_end m) s) 0)%string).
    { rewrite (scan_prefix f repl (m_start m - i)).
      - rewrite <- drop_add. replace (i + (m_start m - i)) with (m_start m) by lia.
        rewrite (scan_at_match (m_start m) (m_end m)) by (auto; lia). reflexivity.
      - rewrite length_drop. lia.
      - intros q Hq. rewrite <- drop_add. apply Hf_none; [lia|]. apply H3. lia. }
    rewrite Hscan. replace (m_end m =? m_start m)%nat with false
      by (symmetry; apply Nat.eqb_neq; lia).
    destruct (i <? m_start m)%nat eqn:Ei.
    + rewrite IH by lia. by rewrite !append_assoc_str.
    + apply Nat.ltb_ge in Ei. replace (m_start m - i) with 0 by lia.
      replace ((i =? m_start m)%nat && (i =? m_end m)%nat && (0 <? n)%nat) with false
        by (destruct (i =? m_end m)%nat eqn:E; [apply Nat.eqb_eq in E; lia | ];
            by rewrite andb_false_r, andb_false_l).
      rewrite IH by lia. by rewrite !append_assoc_str.
  - rewrite scan_none; [reflexivity|]. intros q Hq. rewrite length_drop in Hq.
    rewrite <- drop_add. apply Hf_none; [lia|].
    apply (search_from_None ic s r _ _ eq_refl Es). lia.
Qed.

End SubLoop.

Lemma advance_advance st a b : advance (advance st a) b = advance st (a + b).
Proof. unfold advance; simpl. rewrite drop_add. f_equal. lia. Qed.

Lemma try_counts_None k st cs :
  (forall i, In i cs -> k (advance st i) = None) -> try_counts k st cs = None.
Proof.
  induction cs as [|c cs IH]; intros H; simpl; [reflexivity|].
  rewrite H by (left; reflexivity). apply IH. intros i Hi. apply H. right. exact Hi.
Qed.

Lemma run_length_inside ic a t i : (i < run_length ic a t)%nat ->
  exists c t', Py.drop i t = String c t' /\ cls_match ic a c = true.
Proof.
  revert i; induction t as [|c t IH]; intros i Hi; simpl in Hi; [lia|].
  destruct (cls_match ic a c) eqn:E; [|lia].
  destruct i; [eauto | apply IH; simpl; lia].
Qed.

(** The loop of [re.sub] terminates: the fuel [length s + 2] that [sub]
    gives it is never exhausted, whatever the pattern. *)
Theorem sub_terminates ic r repl s :
  exists out, sub_loop (String.length s + 2) ic r repl s 0 0 0 "" = Some out.
Proof. apply sub_loop_enough; lia. Qed.

(** [re.sub] is the left-to-right scan for a pattern whose matches, never
    empty, are described by [f]. *)
Theorem sub_scan ic r repl s f :
  (forall p m, p <= String.length s -> match_at ic r s p = Some m ->
     f (Py.drop p s) = Some (m_end m - p) /\ p < m_end m) ->
  (forall p, p <= String.length s -> match_at ic r s p = None -> f (Py.drop p s) = None) ->
  sub ic r repl s = scan_sub f repl s 0.
Proof.
  intros H1 H2. unfold sub. rewrite (sub_loop_scan ic r repl s f H1 H2) by lia.
  reflexivity.
Qed.

(** ** Anchored patterns and literal prefixes *)

(** A chain of literal characters [p] followed by [r], as [compile]
    builds it for the literal text of a pattern. *)
Fixpoint lits (p : string) (r : regex) : regex :=
  match p with
  | EmptyString => r
  | String c p' => RSeq (RChar (CLit c)) (lits p' r)
  end.

Lemma advance_0 st : advance st 0 = st.
Proof. destruct st as [p t cs]. unfold advance; cbn. by rewrite Nat.add_0_r. Qed.

(** The literal chain matches exactly when [p] is a prefix of the rest. *)
Lemma run_lits p r k st :
  run false (lits p r) k st =
  if String.prefix p (ms_rest st) then run false r k (advance st (String.length p)) else None.
Proof.
  revert st. induction p as [|c p IH]; intros st; cbn [lits String.length].
  - destruct (ms_rest st); cbn [String.prefix]; by rewrite advance_0.
  - cbn [run]. destruct (ms_rest st) as [|c0 t] eqn:Er; [reflexivity|].
    cbn [cls_match String.prefix]. rewrite IH.
    replace (ms_rest (advance st 1)) with t by (unfold advance; rewrite Er; reflexivity).
    rewrite advance_advance. destruct (Ascii.eqb_spec c0 c) as [->|Hne].
    + destruct (ascii_dec c c) as [_|]; [reflexivity | congruence].
    + destruct (ascii_dec c c0); [congruence | reflexivity].
Qed.

(** A pattern anchored with [^] can only match at position 0, so
    [search] is [match]. *)
Lemma search_from_bol ic r s : forall rest pos,
  1 <= pos -> search_from ic (RSeq RBol r) s pos rest = None.
Proof.
  induction rest as [|c rest IH]; intros pos Hp; cbn [search_from]; unfold match_at;
    cbn [run ms_pos]; destruct (Nat.eqb_spec pos 0); try lia; [reflexivity | apply IH; lia].
Qed.

Lemma search_bol ic r s : search ic (RSeq RBol r) s = match_ ic (RSeq RBol r) s.
Proof.
  unfold search, match_. destruct s as [|c s']; cbn [search_from];
    destruct (match_at ic _ _ 0); try reflexivity. apply search_from_bol; lia.
Qed.

(** [^p] followed by [r]: found in [b] exactly when [b] starts with [p]
    and [r] matches after it. *)
Lemma found_bol_lits p r b :
  Py.truthy (search false (RSeq RBol (lits p r)) b) =
  String.prefix p b && Py.truthy (run false r Some (MS (String.length p) (Py.drop (String.length p) b) [])).
Proof.
  rewrite search_bol. unfold match_, match_at. cbn [run ms_pos Nat.eqb]. rewrite run_lits.
  cbn [ms_rest]. rewrite drop_0. destruct (String.prefix p b); [|reflexivity].
  unfold advance. cbn [ms_pos ms_rest ms_caps Nat.add].
  destruct (run false r Some _); reflexivity.
Qed.

(** ** Greedy repetition *)

Lemma try_counts_None_inv k st cs :
  try_counts k st cs = None -> forall i, In i cs -> k (advance st i) = None.
Proof.
  induction cs as [|c cs IH]; intros H i Hi; [destruct Hi|]. cbn [try_counts] in H.
  destruct (k (advance st c)) eqn:E; [discriminate|].
  destruct Hi as [<-|Hi]; [exact E | exact (IH H i Hi)].
Qed.

End Re.
