(* ===== verification/Float64.v ===== *)
(** * Binary64 values and Python's ["%.17e"]

    The fixture generator prints every number with [fmt], which starts
    with ["%.17e" % x] (CPython's [PyOS_double_to_string] in mode 'e'
    with 17 digits after the point: the value correctly rounded to 18
    significant digits, ties to even).  This file holds:
    - [pyfloat]: an IEEE-754 double as the exact value [(-1)^neg * m * 2^e],
      with infinities and NaN;
    - [round_q]: the double nearest a positive rational (ties to even),
      which models float division and the parsing of float literals for
      the results in the normal range, the only ones the scripts build;
    - [sci p]: the [p] significant digits and the decimal exponent of a
      double, correctly rounded ([sci_digits]: always exactly [p] of them);
    - ["%.<p>e"] ([pct_e]): the generator's ["%.17e"] is [pct_e 17], the
      probit printer's ["%.50e"] is [pct_e 50], with the two-digit minimum
      exponent, [inf], [-inf] and [nan];
    - the other formats the probit printer uses: ["%.<p>f"]
      ([pct_f], with Python 2's switch to ["g"] from [1e50] on),
      ["%.<p>g"] ([pct_g]) and [str] ([py_str], ["%.12g"] with [".0"]);
    - [round_q_wf]: a correctly rounded value in the normal range is a
      well-formed double; the exponent lemmas hold in any base
      (section [Base]);
    - [float(s)] ([py_float]) and the order of doubles. *)

From Stdlib Require Import String Ascii ZArith Lia.
From stdpp Require Import base list.
From S2P Require Import Prelude.

Open Scope string_scope.
Open Scope Z_scope.

Module Float64.

Inductive pyfloat :=
| Fin (neg : bool) (m : Z) (e : Z)
| Inf (neg : bool)
| NaN.

#[global] Instance pyfloat_eq_dec : EqDecision pyfloat.
Proof. solve_decision. Defined.

(** A finite double: a 53-bit significand and the binary64 exponent range. *)
Definition wf_double (x : pyfloat) : bool :=
  match x with
  | Fin _ m e => (0 <=? m) && (m <? 2 ^ 53) && (-1074 <=? e) && (e <=? 971)
  | _ => true
  end.

(** The value of a finite double with [m > 0], as a fraction [num / den]. *)
Definition frac_of (m e : Z) : Z * Z :=
  if 0 <=? e then (m * 2 ^ e, 1) else (m, 2 ^ (- e)).

(** ** Rounding *)

(** [n / d] rounded to an integer, ties to even. *)
Definition round_half_even (n d : Z) : Z :=
  let q := n / d in
  let r := n mod d in
  match Z.compare (2 * r) d with
  | Lt => q
  | Gt => q + 1
  | Eq => if Z.even q then q else q + 1
  end.

(** [n / d >= 2 ^ k] for [n, d > 0] *)
Definition ge_pow2 (n d k : Z) : bool :=
  if 0 <=? k then d * 2 ^ k <=? n else d <=? n * 2 ^ (- k).

(** The binary exponent [L] with [2 ^ L <= n / d < 2 ^ (L + 1)]. *)
Definition log2_q (n d : Z) : Z :=
  let l := Z.log2 n - Z.log2 d in
  if ge_pow2 n d l then l else l - 1.

(** The double nearest the positive rational [n / d], ties to even:
    the significand [round(n / d / 2^k)] with [k = L - 52], carried into
    the next binade when it rounds up to [2 ^ 53]. *)
Definition round_q (n d : Z) : pyfloat :=
  let k := log2_q n d - 52 in
  let '(n', d') := if 0 <=? k then (n, d * 2 ^ k) else (n * 2 ^ (- k), d) in
  let m := round_half_even n' d' in
  if m =? 2 ^ 53 then Fin false (2 ^ 52) (k + 1) else Fin false m k.

(** The quotient of two positive finite doubles, [x / y]. *)
Definition fdiv (x y : pyfloat) : pyfloat :=
  match x, y with
  | Fin false mx ex, Fin false my ey =>
      let '(nx, dx) := frac_of mx ex in
      let '(ny, dy) := frac_of my ey in
      round_q (nx * dy) (dx * ny)
  | _, _ => NaN
  end.

(** A float literal [digits * 10 ^ exp], as the parser reads it. *)
Definition lit (digits exp : Z) : pyfloat :=
  if 0 <=? exp then round_q (digits * 10 ^ exp) 1 else round_q digits (10 ^ (- exp)).

(** ** Eighteen significant digits *)

(** The number of decimal digits of [z > 0]; [fuel] bounds the number of
    divisions, and the bit length of [z] is enough. *)
Fixpoint ndig (fuel : nat) (z : Z) : Z :=
  match fuel with
  | O => 0
  | S f => if z <? 10 then 1 else 1 + ndig f (z / 10)
  end.

Definition ndigits (z : Z) : Z := ndig (Z.to_nat (Z.log2 z + 1)) z.

(** [n / d >= 10 ^ k] *)
Definition ge_pow10 (n d k : Z) : bool :=
  if 0 <=? k then d * 10 ^ k <=? n else d <=? n * 10 ^ (- k).

(** The decimal exponent [E] with [10 ^ E <= n / d < 10 ^ (E + 1)]. *)
Definition dec_exp (n d : Z) : Z :=
  let l := ndigits n - ndigits d in
  if ge_pow10 n d l then l else l - 1.

(** ** Digits and exponents of ["%e"] *)

Definition digit_char (z : Z) : ascii := ascii_of_nat (48 + Z.to_nat z).

(** The last [k] decimal digits of [z >= 0], zero-padded. *)
Fixpoint digits_str (z : Z) (k : nat) : string :=
  match k with
  | O => EmptyString
  | S k' => digits_str (z / 10) k' ++ String (digit_char (z mod 10)) EmptyString
  end.

(** The exponent: its sign and at least two digits. *)
Definition exp_str (E : Z) : string :=
  String (if E <? 0 then "-"%char else "+"%char)
    (digits_str (Z.abs E) (if Z.abs E <? 100 then 2%nat else 3%nat)).

Definition sign_str (neg : bool) : string := if neg then "-" else "".

(** ** ["%.<p>e"], ["%.<p>f"], ["%.<p>g"] and [str] *)

(** [n / d > 0] rounded to [p >= 1] significant digits: [D] with
    [10^(p-1) <= D < 10^p] and [E], so that [D * 10 ^ (E - p + 1)] is the
    nearest such number, ties to even. *)
Definition sci (p n d : Z) : Z * Z :=
  let E := dec_exp n d in
  let s := p - 1 - E in
  let '(n', d') := if 0 <=? s then (n * 10 ^ s, d) else (n, d * 10 ^ (- s)) in
  let D := round_half_even n' d' in
  if D =? 10 ^ p then (10 ^ (p - 1), E + 1) else (D, E).

(** The decimal digits of [z >= 0], at least one. *)
Definition z_str (z : Z) : string :=
  if z <=? 0 then "0" else digits_str z (Z.to_nat (ndigits z)).

(** ["%.<prec>e" % x]: [prec + 1] significant digits, a point unless
    [prec = 0], the exponent with at least two digits. *)
Definition pct_e (prec : nat) (x : pyfloat) : string :=
  let point ds := match prec with O => "" | S _ => String "." ds end in
  match x with
  | Fin neg m e =>
      if m =? 0 then sign_str neg ++ "0" ++ point (Py.repeat_str "0" prec) ++ "e+00"
      else
        let '(n, d) := frac_of m e in
        let '(D, E) := sci (Z.of_nat prec + 1) n d in
        match digits_str D (S prec) with
        | String c ds => sign_str neg ++ String c (point ds) ++ "e" ++ exp_str E
        | EmptyString => EmptyString
        end
  | Inf neg => sign_str neg ++ "inf"
  | NaN => "nan"
  end.

(** ["%.<prec>g"], with [Py_DTSF_ADD_DOT_0] when [dot0] ([str] of a
    float): [p = max prec 1] significant digits without trailing zeros,
    in exponent form when the exponent is below [-4] or at least [p]. *)
Definition pct_g (dot0 : bool) (prec : nat) (x : pyfloat) : string :=
  let p := Nat.max prec 1 in
  match x with
  | Fin neg m e =>
      if m =? 0 then sign_str neg ++ (if dot0 then "0.0" else "0")
      else
        let '(n, d) := frac_of m e in
        let '(D, E) := sci (Z.of_nat p) n d in
        let ds := Py.rstrip_by (fun c => Ascii.eqb c "0") (digits_str D p) in
        let k := String.length ds in
        sign_str neg ++
        if (E <? -4) || (Z.of_nat p <=? E) then
          match ds with
          | String c r => String c (if String.eqb r "" then "" else String "." r) ++ "e" ++ exp_str E
          | EmptyString => EmptyString
          end
        else if E <? 0 then "0." ++ Py.repeat_str "0" (Z.to_nat (- E - 1)) ++ ds
        else if (Z.to_nat (E + 1) <? k)%nat then
          Py.take (Z.to_nat (E + 1)) ds ++ "." ++ Py.drop (Z.to_nat (E + 1)) ds
        else ds ++ Py.repeat_str "0" (Z.to_nat (E + 1) - k) ++ (if dot0 then ".0" else "")
  | Inf neg => sign_str neg ++ "inf"
  | NaN => "nan"
  end.

(** [str(x)] in Python 2: ["%.12g"] with [".0"] added to an integer. *)
Definition py_str (x : pyfloat) : string := pct_g true 12 x.

(** ["%.<prec>f" % x]; Python 2 switches to ["g"] from [1e50] on. *)
Definition pct_f (prec : nat) (x : pyfloat) : string :=
  match x with
  | Fin neg m e =>
      let '(n, d) := frac_of m e in
      if 10 ^ 50 * d <=? n then pct_g false prec x
      else
        let N := round_half_even (n * 10 ^ Z.of_nat prec) d in
        sign_str neg ++ z_str (N / 10 ^ Z.of_nat prec) ++
        match prec with O => "" | S _ => "." ++ digits_str (N mod 10 ^ Z.of_nat prec) prec end
  | Inf neg => sign_str neg ++ "inf"
  | NaN => "nan"
  end.

(** ** [float(s)] *)

Definition digit_val (c : ascii) : option Z :=
  let n := nat_of_ascii c in
  if (48 <=? n)%nat && (n <=? 57)%nat then Some (Z.of_nat n - 48) else None.

(** The leading digits of [s] appended to [acc]: the number, how many
    digits, and the rest. *)
Fixpoint take_digits (s : string) (acc : Z) (n : nat) : Z * nat * string :=
  match s with
  | String c s' =>
      match digit_val c with
      | Some d => take_digits s' (10 * acc + d) (S n)
      | None => (acc, n, s)
      end
  | EmptyString => (acc, n, s)
  end.

Fixpoint lower_ascii (s : string) : string :=
  match s with
  | EmptyString => EmptyString
  | String c s' =>
      let n := nat_of_ascii c in
      String (if (65 <=? n)%nat && (n <=? 90)%nat then ascii_of_nat (n + 32) else c)
             (lower_ascii s')
  end.

Definition split_sign (t : string) : bool * string :=
  match t with
  | String "-" u => (true, u)
  | String "+" u => (false, u)
  | _ => (false, t)
  end.

(** The exponent part of a decimal after its digits: nothing, or [e] or
    [E], a sign and at least one digit, up to the end. *)
Definition read_exponent (r : string) : option Z :=
  match r with
  | EmptyString => Some 0
  | String c r' =>
      if Ascii.eqb c "e" || Ascii.eqb c "E" then
        let '(eneg, r'') := split_sign r' in
        let '(x, nx, r3) := take_digits r'' 0 0 in
        if (nx =? 0)%nat then None
        else match r3 with EmptyString => Some (if eneg then - x else x) | _ => None end
      else None
  end.

(** An unsigned decimal with an optional point and exponent, rounded to
    the nearest double with [lit] and given the sign [neg]. *)
Definition read_decimal (neg : bool) (u : string) : option pyfloat :=
  let '(i, ni, r1) := take_digits u 0 0 in
  let '(m, nf, r2) :=
    match r1 with String "." r => take_digits r i 0 | _ => (i, 0%nat, r1) end in
  if (ni + nf =? 0)%nat then None
  else
    match read_exponent r2 with
    | None => None
    | Some x =>
        if m =? 0 then Some (Fin neg 0 0)
        else match lit m (x - Z.of_nat nf) with
             | Fin _ mm ee => Some (Fin neg mm ee)
             | y => Some y
             end
    end.

(** Python's [float(s)]: surrounding whitespace, a sign, [inf],
    [infinity] and [nan] in any case, or a decimal with an optional point
    and exponent; [None] is the [ValueError]. *)
Definition py_float (s : string) : option pyfloat :=
  let '(neg, u) := split_sign (Py.strip s) in
  let lu := lower_ascii u in
  if String.eqb lu "inf" || String.eqb lu "infinity" then Some (Inf neg)
  else if String.eqb lu "nan" then Some NaN
  else read_decimal neg u.

(** The ordering of doubles as values: [x < y] for finite [x, y]. *)
Definition signed_frac (x : pyfloat) : Z * Z :=
  match x with
  | Fin neg m e => let '(n, d) := frac_of m e in (if neg then - n else n, d)
  | _ => (0, 1)
  end.

Definition flt (x y : pyfloat) : bool :=
  let '(nx, dx) := signed_frac x in
  let '(ny, dy) := signed_frac y in
  nx * dy <? ny * dx.

(** ** The digits are correct *)

Lemma ndig_spec : forall f z, 1 <= z < 2 ^ Z.of_nat f ->
  1 <= ndig f z /\ 10 ^ (ndig f z - 1) <= z < 10 ^ ndig f z.
Proof.
  induction f as [|f IH]; intros z Hz; [simpl in Hz; lia|].
  cbn [ndig]. destruct (z <? 10) eqn:E; [apply Z.ltb_lt in E; simpl; lia|].
  apply Z.ltb_ge in E. rewrite Nat2Z.inj_succ, Z.pow_succ_r in Hz by lia.
  assert (Hq : 1 <= z / 10 < 2 ^ Z.of_nat f).
  { split; [apply Z.div_le_lower_bound; lia|].
    apply Z.div_lt_upper_bound; [lia|]. pose proof (Z.pow_nonneg 2 (Z.of_nat f)). lia. }
  destruct (IH _ Hq) as (H1 & H2 & H3).
  replace (1 + ndig f (z / 10) - 1) with (Z.succ (ndig f (z / 10) - 1)) by lia.
  rewrite Z.pow_succ_r by lia.
  replace (1 + ndig f (z / 10)) with (Z.succ (ndig f (z / 10))) by lia.
  rewrite Z.pow_succ_r by lia.
  pose proof (Z.div_mod z 10 ltac:(lia)). pose proof (Z.mod_pos_bound z 10 ltac:(lia)).
  lia.
Qed.

Lemma ndigits_spec z : 1 <= z ->
  1 <= ndigits z /\ 10 ^ (ndigits z - 1) <= z < 10 ^ ndigits z.
Proof.
  intros Hz. apply ndig_spec. split; [lia|].
  rewrite Z2Nat.id by (pose proof (Z.log2_nonneg z); lia).
  apply Z.log2_spec. lia.
Qed.

Lemma pow10_add x y : 0 <= x -> 0 <= y -> 10 ^ (x + y) = 10 ^ x * 10 ^ y.
Proof. intros. apply Z.pow_add_r; lia. Qed.

Lemma pow10_pos k : 0 <= k -> 0 < 10 ^ k.
Proof. intros. apply Z.pow_pos_nonneg; lia. Qed.

(** ** Exponents in any base [B >= 2] *)

Section Base.
Variable B : Z.
Hypothesis HB : 2 <= B.

Lemma powB_add x y : 0 <= x -> 0 <= y -> B ^ (x + y) = B ^ x * B ^ y.
Proof. intros. apply Z.pow_add_r; lia. Qed.

Lemma powB_pos k : 0 <= k -> 0 < B ^ k.
Proof. intros. apply Z.pow_pos_nonneg; lia. Qed.

(** [n / d >= B ^ k], tested without fractions ([ge_pow10], [ge_pow2]). *)
Definition ge_powB (n d k : Z) : bool :=
  if 0 <=? k then d * B ^ k <=? n else d <=? n * B ^ (- k).

(** The test, scaled by [B ^ M] so that both exponents are non-negative. *)
Lemma ge_powB_iff n d k M : 0 <= M -> 0 <= k + M ->
  ge_powB n d k = true <-> d * B ^ (k + M) <= n * B ^ M.
Proof.
  intros HM HkM. unfold ge_powB. destruct (Z.leb_spec 0 k) as [Hk|Hk].
  - rewrite Z.leb_le, powB_add by lia. pose proof (powB_pos M HM).
    split; intros Hc; nia.
  - rewrite Z.leb_le. replace M with (- k + (k + M)) at 2 by lia.
    rewrite (powB_add (- k) (k + M)) by lia. pose proof (powB_pos (k + M) HkM).
    split; intros Hc; nia.
Qed.

(** With [a] and [b] the numbers of base-[B] digits of [n] and [d], the
    exponent [E] (that of [a - b] or one less) satisfies
    [B ^ E <= n / d < B ^ (E + 1)], both sides scaled by [B ^ M]. *)
Lemma exp_spec n d a b M :
  B ^ (a - 1) <= n < B ^ a -> B ^ (b - 1) <= d < B ^ b -> 1 <= a -> 1 <= b -> 0 <= M ->
  let E := if ge_powB n d (a - b) then a - b else a - b - 1 in
  0 <= E + M -> d * B ^ (E + M) <= n * B ^ M < d * B ^ (E + 1 + M).
Proof.
  intros [Bn Cn] [Bd Cd] Ha Hb HM E. pose proof (powB_pos M HM) as PM.
  assert (Up : 0 <= a - b + 1 + M -> n * B ^ M < d * B ^ (a - b + 1 + M)).
  { intros H. assert (Eq : B ^ (a + M) = B ^ (b - 1) * B ^ (a - b + 1 + M))
      by (rewrite <- powB_add by lia; f_equal; lia).
    rewrite powB_add in Eq by lia. pose proof (powB_pos (a - b + 1 + M) H). nia. }
  assert (Lo : 0 <= a - b - 1 + M -> d * B ^ (a - b - 1 + M) <= n * B ^ M).
  { intros H. assert (Eq : B ^ b * B ^ (a - b - 1 + M) = B ^ (a - 1) * B ^ M)
      by (rewrite <- !powB_add by lia; f_equal; lia).
    pose proof (powB_pos (a - b - 1 + M) H). nia. }
  unfold E. destruct (ge_powB n d (a - b)) eqn:G; intros HE.
  - apply (ge_powB_iff n d (a - b) M HM HE) in G.
    split; [exact G | apply Up; lia].
  - split; [apply Lo; lia|].
    replace (a - b - 1 + 1 + M) with (a - b + M) by lia.
    destruct (Z.ltb_spec (n * B ^ M) (d * B ^ (a - b + M))) as [Hlt|Hge]; [exact Hlt|].
    apply (ge_powB_iff n d (a - b) M HM ltac:(lia)) in Hge. congruence.
Qed.

End Base.

(** The decimal exponent is right: [10 ^ E <= n / d < 10 ^ (E + 1)],
    both sides scaled by [10 ^ M]. *)
Lemma dec_exp_spec n d M : 1 <= n -> 1 <= d -> 0 <= M -> 0 <= dec_exp n d + M ->
  d * 10 ^ (dec_exp n d + M) <= n * 10 ^ M < d * 10 ^ (dec_exp n d + 1 + M).
Proof.
  intros Hn Hd HM. destruct (ndigits_spec n Hn) as (An & Bn).
  destruct (ndigits_spec d Hd) as (Ad & Bd).
  exact (exp_spec 10 ltac:(lia) n d (ndigits n) (ndigits d) M Bn Bd An Ad HM).
Qed.

(** The binary exponent is right: [2 ^ L <= n / d < 2 ^ (L + 1)]. *)
Lemma log2_q_spec n d M : 1 <= n -> 1 <= d -> 0 <= M -> 0 <= log2_q n d + M ->
  d * 2 ^ (log2_q n d + M) <= n * 2 ^ M < d * 2 ^ (log2_q n d + 1 + M).
Proof.
  intros Hn Hd HM. pose proof (Z.log2_spec n ltac:(lia)) as Sn. pose proof (Z.log2_spec d ltac:(lia)) as Sd.
  pose proof (Z.log2_nonneg n). pose proof (Z.log2_nonneg d).
  unfold Z.succ in Sn, Sd.
  replace (Z.log2 n) with (Z.log2 n + 1 - 1) in Sn at 1 by lia.
  replace (Z.log2 d) with (Z.log2 d + 1 - 1) in Sd at 1 by lia.
  pose proof (exp_spec 2 ltac:(lia) n d (Z.log2 n + 1) (Z.log2 d + 1) M Sn Sd ltac:(lia) ltac:(lia) HM) as X.
  replace (Z.log2 n + 1 - (Z.log2 d + 1)) with (Z.log2 n - Z.log2 d) in X by lia.
  exact X.
Qed.

Lemma round_half_even_bounds n d lo hi : 0 < d -> lo * d <= n < hi * d ->
  lo <= round_half_even n d <= hi.
Proof.
  intros Hd [H1 H2]. unfold round_half_even.
  assert (lo <= n / d) by (apply Z.div_le_lower_bound; lia).
  assert (n / d < hi) by (apply Z.div_lt_upper_bound; lia).
  destruct (Z.compare _ _); [destruct (Z.even _)|..]; lia.
Qed.

(** The rounding error is at most half a unit: [|D * d - n| <= d / 2]. *)
Lemma round_half_even_error n d : 0 < d ->
  2 * Z.abs (round_half_even n d * d - n) <= d.
Proof.
  intros Hd. unfold round_half_even.
  pose proof (Z.div_mod n d ltac:(lia)). pose proof (Z.mod_pos_bound n d Hd).
  destruct (Z.compare_spec (2 * (n mod d)) d); [destruct (Z.even _)|..]; nia.
Qed.

(** The scaled value [n' / d'] that [round_q] rounds lies in [[2^52, 2^53)]. *)
Lemma round_q_scaled n d : 1 <= n -> 1 <= d ->
  let k := log2_q n d - 52 in
  let '(n', d') := if 0 <=? k then (n, d * 2 ^ k) else (n * 2 ^ (- k), d) in
  0 < d' /\ 2 ^ 52 * d' <= n' < 2 ^ 53 * d'.
Proof.
  intros Hn Hd k. destruct (Z.leb_spec 0 k) as [Hk|Hk].
  - pose proof (log2_q_spec n d 0 Hn Hd ltac:(lia) ltac:(unfold k in Hk; lia)) as H.
    rewrite !Z.add_0_r, Z.pow_0_r, Z.mul_1_r in H.
    replace (log2_q n d) with (52 + k) in H by (unfold k; lia).
    replace (52 + k + 1) with (53 + k) in H by lia.
    assert (H2 : 2 <= 2) by lia.
    rewrite (powB_add 2 52 k), (powB_add 2 53 k) in H by lia.
    pose proof (powB_pos 2 H2 k Hk). split; [lia|nia].
  - pose proof (log2_q_spec n d (- k) Hn Hd ltac:(lia) ltac:(unfold k; lia)) as H.
    replace (log2_q n d + - k) with 52 in H by (unfold k; lia).
    replace (log2_q n d + 1 + - k) with 53 in H by (unfold k; lia). lia.
Qed.

(** A positive value in the normal range has its binary exponent in
    [[-1022, 1022]] when it lies below [2^1023]. *)
Lemma log2_q_range n d : 1 <= n -> 1 <= d ->
  ge_pow2 n d (-1022) = true -> ge_pow2 n d 1023 = false -> -1022 <= log2_q n d <= 1022.
Proof.
  intros Hn Hd Hlo Hhi. split.
  - destruct (Z.leb_spec (-1022) (log2_q n d)) as [|Hlt]; [done|exfalso].
    set (L := log2_q n d) in *. pose proof (log2_q_spec n d (- L) Hn Hd ltac:(lia) ltac:(lia)) as [_ H]. fold L in H.
    apply (ge_powB_iff 2 ltac:(lia) n d (-1022) (- L) ltac:(lia) ltac:(lia)) in Hlo.
    replace (L + 1 + - L) with 1 in H by lia.
    assert (2 ^ 1 <= 2 ^ (-1022 + - L)) by (apply Z.pow_le_mono_r; lia). nia.
  - destruct (Z.leb_spec (log2_q n d) 1022) as [|Hgt]; [done|exfalso].
    set (L := log2_q n d) in *. pose proof (log2_q_spec n d 0 Hn Hd ltac:(lia) ltac:(lia)) as [H _]. fold L in H.
    rewrite Z.add_0_r, Z.pow_0_r, Z.mul_1_r in H.
    assert (Hf : ~ (d * 2 ^ (1023 + 0) <= n * 2 ^ 0)).
    { rewrite <- (ge_powB_iff 2 ltac:(lia) n d 1023 0 ltac:(lia) ltac:(lia)).
      change (ge_powB 2 n d 1023) with (ge_pow2 n d 1023). congruence. }
    rewrite Z.add_0_r, Z.pow_0_r, Z.mul_1_r in Hf.
    assert (2 ^ 1023 <= 2 ^ L) by (apply Z.pow_le_mono_r; lia). nia.
Qed.

(** Correct rounding yields a well-formed double: for a positive
    rational [n / d] in [[2^-1022, 2^1023)], [round_q] gives a 53-bit
    significand and an exponent in the binary64 range, also when the
    rounding carries into the next binade. *)
Lemma round_q_wf n d : 1 <= n -> 1 <= d ->
  ge_pow2 n d (-1022) = true -> ge_pow2 n d 1023 = false -> wf_double (round_q n d) = true.
Proof.
  intros Hn Hd Hlo Hhi. pose proof (log2_q_range n d Hn Hd Hlo Hhi) as HL.
  pose proof (round_q_scaled n d Hn Hd) as H. unfold round_q. cbv zeta in *.
  destruct (if 0 <=? log2_q n d - 52 then _ else _) as [n' d'].
  destruct H as (Hd' & H1 & H2).
  pose proof (round_half_even_bounds n' d' (2 ^ 52) (2 ^ 53) Hd' ltac:(lia)).
  destruct (Z.eqb_spec (round_half_even n' d') (2 ^ 53)); cbn [wf_double];
    repeat (apply andb_true_intro; split); try apply Z.leb_le; try apply Z.ltb_lt; lia.
Qed.


(** The scaled value [n' / d'] that [sci p] rounds lies in [[10^(p-1), 10^p)]. *)
Lemma sci_scaled p n d : 1 <= p -> 1 <= n -> 1 <= d ->
  let E := dec_exp n d in
  let '(n', d') := if 0 <=? p - 1 - E then (n * 10 ^ (p - 1 - E), d) else (n, d * 10 ^ (- (p - 1 - E))) in
  0 < d' /\ 10 ^ (p - 1) * d' <= n' < 10 ^ p * d'.
Proof.
  intros Hp Hn Hd E. destruct (Z.leb_spec 0 (p - 1 - E)) as [Hs|Hs].
  - pose proof (dec_exp_spec n d (p - 1 - E) Hn Hd Hs ltac:(unfold E; lia)) as H.
    fold E in H. replace (E + (p - 1 - E)) with (p - 1) in H by lia.
    replace (E + 1 + (p - 1 - E)) with p in H by lia. lia.
  - pose proof (dec_exp_spec n d 0 Hn Hd ltac:(lia) ltac:(unfold E in Hs; lia)) as H.
    fold E in H. rewrite !Z.add_0_r, Z.pow_0_r, Z.mul_1_r in H.
    replace E with (p - 1 + - (p - 1 - E)) in H at 1 by lia.
    replace (E + 1) with (p + - (p - 1 - E)) in H by lia.
    rewrite !pow10_add in H by lia. pose proof (pow10_pos (- (p - 1 - E)) ltac:(lia)).
    split; [lia | nia].
Qed.

(** The significand of [sci p] has [p] digits. *)
Lemma sci_digits p n d D E : 1 <= p -> 1 <= n -> 1 <= d -> sci p n d = (D, E) ->
  10 ^ (p - 1) <= D < 10 ^ p.
Proof.
  intros Hp Hn Hd. pose proof (sci_scaled p n d Hp Hn Hd) as H. unfold sci. cbv zeta in *.
  destruct (if 0 <=? p - 1 - dec_exp n d then _ else _) as [n' d'].
  destruct H as (Hd' & H1 & H2).
  assert (10 ^ (p - 1) < 10 ^ p) by (apply Z.pow_lt_mono_r; lia).
  pose proof (round_half_even_bounds n' d' (10 ^ (p - 1)) (10 ^ p) Hd' ltac:(lia)).
  destruct (Z.eqb_spec (round_half_even n' d') (10 ^ p)); intros [= <- <-]; lia.
Qed.


Lemma sci18_bounds n d D E : 1 <= n -> 1 <= d -> sci 18 n d = (D, E) -> 10 ^ 17 <= D < 10 ^ 18.
Proof. intros Hn Hd Hs. exact (sci_digits 18 n d D E ltac:(lia) Hn Hd Hs). Qed.

End Float64.
