(* ===== verification/Fmt.v ===== *)
(** * The number format of the fixture files: [fmt]

    [distribution-gen-testdata.py] writes every number with

<<
def fmt(x):
	if isinstance(x, float): x = "%.17e" % x
	x = re.sub("\\.?0+e", "e", x)
	x = re.sub("e\\+00$", "", x)
	return x
>>

    [fmt] below is that function over [PyRe] and [Float64]: its argument
    is a float (numpy's float64 is a subclass of float) or a string.  The
    theorems show what the two substitutions do to a ["%.17e"] string
    ([fmt_float_spec]: the trailing zeros of the significand go, with the
    point when nothing is left after it, and a zero exponent goes), that
    formatting a formatted float again changes nothing ([fmt_idempotent]),
    and that this fails for strings not made by ["%.17e"]
    ([fmt_str_not_idempotent]). *)

From Stdlib Require Import String Ascii ZArith Lia.
From stdpp Require Import base list.
From S2P Require Import Prelude PyRe Float64.

Open Scope string_scope.

Module Fmt.
Import Float64.

(** ** The source *)

Inductive fmt_arg :=
| AFloat (x : pyfloat)
| AStr (s : string).

(** The two substitutions, applied to a string. *)
Definition fmt_str (x : string) : string :=
  Re.re_sub "e\+00$" "" (Re.re_sub "\.?0+e" "e" x).

Definition fmt (x : fmt_arg) : string :=
  fmt_str (match x with AFloat f => pct_e 17 f | AStr s => s end).

(** ** What the substitutions match *)

(** [0+e] at the start of [t]: the length of the match. *)
Definition zeros_e (t : string) : option nat :=
  let z := Re.run_length false (Re.CLit "0") t in
  if (1 <=? z)%nat then
    match Py.drop z t with
    | String c _ => if Ascii.eqb c "e" then Some (S z) else None
    | EmptyString => None
    end
  else None.

(** [\.?0+e] at the start of [t]: the greedy [?] first tries with the point. *)
Definition dz_len (t : string) : option nat :=
  match t with
  | String c t' =>
      if Ascii.eqb c "." then
        match zeros_e t' with Some n => Some (S n) | None => zeros_e t end
      else zeros_e t
  | EmptyString => zeros_e t
  end.

(** [e\+00$] at the start of [t]: [$] also matches before a final newline. *)
Definition e00_len (t : string) : option nat :=
  match t with
  | String a (String b (String c (String d rest))) =>
      if Ascii.eqb a "e" && Ascii.eqb b "+" && Ascii.eqb c "0" && Ascii.eqb d "0" then
        match rest with
        | EmptyString => Some 4%nat
        | String n EmptyString => if Ascii.eqb n "010" then Some 4%nat else None
        | _ => None
        end
      else None
  | _ => None
  end.

(** ** The shape of the result *)

(** [ds.rstrip("0")] *)
Fixpoint strip0 (ds : string) : string :=
  match ds with
  | EmptyString => EmptyString
  | String c ds' =>
      let t := strip0 ds' in
      if Ascii.eqb c "0" && String.eqb t "" then "" else String c t
  end.

(** What [fmt] makes of a float: the significand without its trailing
    zeros (and without the point if no digit is left after it), and no
    exponent when it is [+00]. *)
Definition fmt_spec (x : pyfloat) : string :=
  match x with
  | Fin neg m e =>
      if (m =? 0)%Z then sign_str neg ++ "0"
      else
        let '(n, d) := frac_of m e in
        let '(D, E) := sci 18 n d in
        match digits_str D 18 with
        | String d1 ds =>
            sign_str neg ++ String d1
              ((if String.eqb (strip0 ds) "" then "" else String "." (strip0 ds)) ++
               (if (E =? 0)%Z then "" else "e" ++ exp_str E))
        | EmptyString => ""
        end
  | Inf neg => sign_str neg ++ "inf"
  | NaN => "nan"
  end.

(** ** The compiled patterns *)

Definition re_ze : Re.regex :=
  Re.RSeq (Re.RRep (Re.CLit "0") 1 true) (Re.RSeq (Re.RChar (Re.CLit "e")) Re.REmpty).

Lemma pat_dz : Re.pat "\.?0+e" = Re.RSeq (Re.ROpt true (Re.RChar (Re.CLit "."))) re_ze.
Proof. vm_compute. reflexivity. Qed.

Lemma pat_e00 : Re.pat "e\+00$" =
  Re.RSeq (Re.RChar (Re.CLit "e")) (Re.RSeq (Re.RChar (Re.CLit "+"))
    (Re.RSeq (Re.RChar (Re.CLit "0")) (Re.RSeq (Re.RChar (Re.CLit "0"))
      (Re.RSeq Re.REol Re.REmpty)))).
Proof. vm_compute. reflexivity. Qed.

Lemma run_zeros_e st :
  Re.run false re_ze Some st = option_map (Re.advance st) (zeros_e (Re.ms_rest st)).
Proof.
  unfold re_ze, zeros_e. cbn [Re.run].
  set (z := Re.run_length false (Re.CLit "0") (Re.ms_rest st)).
  destruct (1 <=? z)%nat eqn:Hz; [|reflexivity]. apply Nat.leb_le in Hz.
  unfold Re.rep_counts. replace (S z - 1)%nat with (S (z - 1)) by lia.
  rewrite seq_S, rev_app_distr. replace (1 + (z - 1))%nat with z by lia. simpl.
  unfold Re.advance at 1; simpl.
  destruct (Py.drop z (Re.ms_rest st)) as [|c t] eqn:Ed.
  - rewrite Re.try_counts_None; [reflexivity|].
    intros i Hi. apply in_rev, in_seq in Hi.
    destruct (Re.run_length_inside false (Re.CLit "0") (Re.ms_rest st) i ltac:(fold z; lia))
      as (c' & t' & Hd & Hc). simpl. rewrite Hd. simpl in Hc |- *.
    apply Ascii.eqb_eq in Hc. subst c'. reflexivity.
  - destruct (Ascii.eqb c "e") eqn:Ec.
    + simpl. unfold Re.advance. replace (S z) with (z + 1)%nat by lia.
      rewrite drop_add, Ed. simpl. f_equal. f_equal. lia.
    + rewrite Re.try_counts_None; [reflexivity|].
      intros i Hi. apply in_rev, in_seq in Hi.
      destruct (Re.run_length_inside false (Re.CLit "0") (Re.ms_rest st) i ltac:(fold z; lia))
        as (c' & t' & Hd & Hc). simpl. rewrite Hd. simpl in Hc |- *.
      apply Ascii.eqb_eq in Hc. subst c'. reflexivity.
Qed.

Local Opaque re_ze.

Lemma run_dz st :
  Re.run false (Re.pat "\.?0+e") Some st =
  option_map (Re.advance st) (dz_len (Re.ms_rest st)).
Proof.
  rewrite pat_dz. cbn [Re.run]. unfold dz_len.
  destruct (Re.ms_rest st) as [|c t] eqn:Er; [rewrite run_zeros_e, Er; reflexivity|].
  simpl. destruct (Ascii.eqb c ".") eqn:Ec.
  - rewrite run_zeros_e. unfold Re.advance at 2; simpl. rewrite Er. simpl.
    destruct (zeros_e t) as [n|]; simpl.
    + unfold Re.advance; simpl. rewrite Er. simpl. f_equal. f_equal. lia.
    + rewrite run_zeros_e, Er. reflexivity.
  - rewrite run_zeros_e, Er. reflexivity.
Qed.

Lemma run_e00 st :
  Re.run false (Re.pat "e\+00$") Some st =
  option_map (Re.advance st) (e00_len (Re.ms_rest st)).
Proof.
  rewrite pat_e00. destruct st as [p r cs].
  destruct r as [|a [|b [|c [|d rest]]]]; cbn;
    repeat match goal with |- context [Ascii.eqb ?x ?y] => destruct (Ascii.eqb x y) end;
    cbn; try reflexivity.
  - destruct rest as [|n [|n' rest']]; cbn; [| destruct (Ascii.eqb n "010") |];
      try reflexivity; unfold Re.advance; cbn; f_equal; f_equal; lia.
Qed.

Lemma zeros_e_pos t n : zeros_e t = Some n -> (1 <= n)%nat.
Proof.
  unfold zeros_e. destruct (1 <=? _)%nat; [|discriminate].
  destruct (Py.drop _ t) as [|c u]; [discriminate|].
  destruct (Ascii.eqb c "e"); [intros [= <-]; lia | discriminate].
Qed.

Lemma dz_len_pos t n : dz_len t = Some n -> (1 <= n)%nat.
Proof.
  unfold dz_len. destruct t as [|c t]; [apply zeros_e_pos|].
  destruct (Ascii.eqb c "."); [destruct (zeros_e t) eqn:E; [intros [= <-]; lia|]|];
    apply zeros_e_pos.
Qed.

Lemma e00_len_pos t n : e00_len t = Some n -> (1 <= n)%nat.
Proof.
  unfold e00_len. destruct t as [|a [|b [|c [|d r]]]]; try discriminate.
  destruct (_ && _ && _ && _); [|discriminate].
  destruct r as [|x [|y r]]; [|destruct (Ascii.eqb x "010")|]; intros; simplify_eq; lia.
Qed.

(** A pattern whose run is described by [len] substitutes as the scan. *)
Lemma sub_by_len p repl (len : string -> option nat) s :
  (forall st, Re.run false (Re.pat p) Some st = option_map (Re.advance st) (len (Re.ms_rest st))) ->
  (forall t n, len t = Some n -> (1 <= n)%nat) ->
  Re.re_sub p repl s = Re.scan_sub len repl s 0.
Proof.
  intros Hrun Hpos. unfold Re.re_sub. apply Re.sub_scan.
  - intros q m Hq H. unfold Re.match_at in H. rewrite Hrun in H. simpl in H.
    destruct (len (Py.drop q s)) as [n|] eqn:E; simpl in H; [|discriminate].
    injection H as <-. simpl. pose proof (Hpos _ _ E).
    split; [f_equal; lia | lia].
  - intros q Hq H. unfold Re.match_at in H. rewrite Hrun in H. simpl in H.
    by destruct (len (Py.drop q s)).
Qed.

Lemma sub_dz s : Re.re_sub "\.?0+e" "e" s = Re.scan_sub dz_len "e" s 0.
Proof. apply sub_by_len; [apply run_dz | apply dz_len_pos]. Qed.

Lemma sub_e00 s : Re.re_sub "e\+00$" "" s = Re.scan_sub e00_len "" s 0.
Proof. apply sub_by_len; [apply run_e00 | apply e00_len_pos]. Qed.

(** ** Digit strings *)

Definition is_digit (c : ascii) : bool :=
  (48 <=? nat_of_ascii c)%nat && (nat_of_ascii c <=? 57)%nat.

Fixpoint all_chars (f : ascii -> bool) (s : string) : bool :=
  match s with
  | EmptyString => true
  | String c s' => f c && all_chars f s'
  end.

Definition has_e (s : string) : bool := negb (all_chars (fun c => negb (Ascii.eqb c "e")) s).

Lemma all_chars_app f a b : all_chars f (a ++ b) = all_chars f a && all_chars f b.
Proof. induction a; simpl; [reflexivity | rewrite IHa; apply andb_assoc]. Qed.

Lemma all_chars_drop f q t : all_chars f t = true -> all_chars f (Py.drop q t) = true.
Proof.
  revert t; induction q; intros t H; [by rewrite drop_0|].
  destruct t; simpl in *; [reflexivity|]. apply andb_prop in H as [_ H]. auto.
Qed.

Lemma digit_char_digit z : (0 <= z < 10)%Z -> is_digit (digit_char z) = true.
Proof.
  intros Hz. unfold is_digit, digit_char. rewrite nat_ascii_embedding by lia.
  apply andb_true_intro; split; apply Nat.leb_le; lia.
Qed.

Lemma digits_str_digits z k : all_chars is_digit (digits_str z k) = true.
Proof.
  revert z; induction k as [|k IH]; intros z; [reflexivity|]. cbn [digits_str].
  rewrite all_chars_app, IH. cbn [all_chars].
  rewrite digit_char_digit by (apply Z.mod_pos_bound; lia). reflexivity.
Qed.

Lemma length_digits_str z k : String.length (digits_str z k) = k.
Proof.
  revert z; induction k as [|k IH]; intros z; [reflexivity|]. cbn [digits_str].
  rewrite length_append_str, IH. cbn [String.length]. lia.
Qed.

(** The leading digit of [digits_str z (S k)] is the digit of [10 ^ k]. *)
Lemma digits_str_front z k :
  digits_str z (S k) = String (digit_char ((z / 10 ^ Z.of_nat k) mod 10)) (digits_str z k).
Proof.
  revert z; induction k as [|k IH]; intros z.
  { cbn [digits_str append]. change (10 ^ Z.of_nat 0)%Z with 1%Z. rewrite Z.div_1_r.
    reflexivity. }
  change (digits_str z (S (S k))) with
    (digits_str (z / 10) (S k) ++ String (digit_char (z mod 10)) EmptyString).
  rewrite IH. cbn [append]. f_equal. f_equal. f_equal.
  rewrite Z.div_div by (try apply Z.pow_pos_nonneg; lia). f_equal.
  rewrite Nat2Z.inj_succ, Z.pow_succ_r by lia. lia.
Qed.

Lemma digit_char_zero z : (0 <= z < 10)%Z -> digit_char z = "0"%char -> z = 0%Z.
Proof.
  intros Hz H. apply (f_equal nat_of_ascii) in H. unfold digit_char in H.
  rewrite nat_ascii_embedding in H by lia. change (nat_of_ascii "0") with 48%nat in H. lia.
Qed.

(** ** Where the patterns match in a formatted number *)

Lemma run_length_first0 u z :
  Re.run_length false (Re.CLit "0") u = S z -> exists u', u = String "0" u'.
Proof.
  destruct u as [|c u']; cbn; [discriminate|].
  destruct (Ascii.eqb c "0") eqn:E; [|discriminate]. apply Ascii.eqb_eq in E. subst. eauto.
Qed.

Lemma zeros_e_cons0 u : zeros_e (String "0" u) =
  match zeros_e u with
  | Some n => Some (S n)
  | None => match u with String c _ => if Ascii.eqb c "e" then Some 2%nat else None | _ => None end
  end.
Proof.
  unfold zeros_e.
  change (Re.run_length false (Re.CLit "0") (String "0" u))
    with (S (Re.run_length false (Re.CLit "0") u)).
  destruct (Re.run_length false (Re.CLit "0") u) as [|z] eqn:Ez; cbn [Py.drop Nat.leb].
  - destruct u; reflexivity.
  - destruct (run_length_first0 u z Ez) as [u' ->]. cbn [Py.drop].
    destruct (Py.drop z u') as [|c w]; [reflexivity|]. cbn.
    destruct (Ascii.eqb c "e"); reflexivity.
Qed.

Lemma zeros_e_cons_nz c u : Ascii.eqb c "0" = false -> zeros_e (String c u) = None.
Proof. intros H. unfold zeros_e. cbn. rewrite H. reflexivity. Qed.

Lemma digit_not_e c : is_digit c = true -> Ascii.eqb c "e" = false.
Proof.
  intros H. apply Ascii.eqb_neq. intros ->. discriminate H.
Qed.

Lemma digit_not_dot c : is_digit c = true -> Ascii.eqb c "." = false.
Proof.
  intros H. apply Ascii.eqb_neq. intros ->. discriminate H.
Qed.

(** [0+e] at the start of [ds ++ "e" ++ X] for digits [ds]: exactly when
    [ds] is a non-empty run of zeros. *)
Lemma zeros_e_digits ds X : all_chars is_digit ds = true ->
  zeros_e (ds ++ String "e" X) =
  if negb (String.eqb ds "") && String.eqb (strip0 ds) "" then Some (S (String.length ds))
  else None.
Proof.
  induction ds as [|c ds IH]; intros Hd; [reflexivity|].
  cbn [all_chars] in Hd. apply andb_prop in Hd as [Hc Hd].
  cbn [append strip0 String.length].
  destruct (Ascii.eqb c "0") eqn:E0.
  - apply Ascii.eqb_eq in E0. subst c. rewrite zeros_e_cons0, IH by exact Hd.
    destruct ds as [|c' ds'].
    + reflexivity.
    + cbn [all_chars] in Hd. apply andb_prop in Hd as [Hc' _].
      cbn [String.eqb negb andb append].
      destruct (String.eqb (strip0 (String c' ds')) "") eqn:Es; [reflexivity|].
      rewrite digit_not_e by exact Hc'. reflexivity.
  - rewrite zeros_e_cons_nz by exact E0. reflexivity.
Qed.

(** Substituting [\.?0+e] in digits followed by [e]: the trailing zeros go. *)
Lemma scan_digits ds X : all_chars is_digit ds = true ->
  Re.scan_sub dz_len "e" (ds ++ String "e" X) 0 =
  (strip0 ds ++ String "e" (Re.scan_sub dz_len "e" X 0))%string.
Proof.
  induction ds as [|c ds IH]; intros Hd; [reflexivity|].
  cbn [all_chars] in Hd. apply andb_prop in Hd as [Hc Hd'].
  cbn [append]. cbn [Re.scan_sub]. unfold dz_len at 1. rewrite digit_not_dot by exact Hc.
  change (String c (ds ++ String "e" X)) with (String c ds ++ String "e" X)%string.
  rewrite zeros_e_digits by (cbn [all_chars]; rewrite Hc, Hd'; reflexivity).
  cbn [String.eqb negb andb strip0].
  destruct (String.eqb (strip0 (String c ds)) "") eqn:Es.
  - cbn [strip0] in Es. cbn -[Re.scan_sub]. rewrite Es.
    destruct (Ascii.eqb c "0" && String.eqb (strip0 ds) "") eqn:Ez; [|cbn in Es; discriminate].
    cbn [String.length]. replace (S (S (String.length ds)) - 1)%nat with (S (String.length ds))
      by lia.
    rewrite Re.scan_skip by (rewrite length_append_str; cbn; lia).
    replace (S (String.length ds)) with (String.length ds + 1)%nat by lia.
    rewrite drop_add, drop_app_length. reflexivity.
  - cbn [strip0] in Es |- *. rewrite IH by exact Hd'.
    destruct (Ascii.eqb c "0" && String.eqb (strip0 ds) "") eqn:Ez; [discriminate|].
    reflexivity.
Qed.

Definition not_e (c : ascii) : bool := negb (Ascii.eqb c "e").

Definition exp_char (c : ascii) : bool :=
  is_digit c || Ascii.eqb c "+" || Ascii.eqb c "-".

Lemma all_chars_impl (f g : ascii -> bool) t :
  (forall c, f c = true -> g c = true) -> all_chars f t = true -> all_chars g t = true.
Proof.
  intros H. induction t as [|c t IH]; cbn; [done|].
  intros Ht. apply andb_prop in Ht as [H1 H2]. rewrite H, IH; auto.
Qed.

Lemma exp_char_not_e c : exp_char c = true -> not_e c = true.
Proof.
  unfold exp_char, not_e. intros H. apply negb_true_iff, Ascii.eqb_neq. intros ->.
  discriminate H.
Qed.

Lemma digit_not_e' c : is_digit c = true -> not_e c = true.
Proof. intros H. unfold not_e. by rewrite digit_not_e. Qed.

Lemma zeros_e_found t n : zeros_e t = Some n -> all_chars not_e t = false.
Proof.
  unfold zeros_e. destruct (1 <=? _)%nat; [|discriminate].
  destruct (Py.drop _ t) as [|c u] eqn:Ed; [discriminate|].
  destruct (Ascii.eqb c "e") eqn:Ec; [intros _|discriminate].
  destruct (all_chars not_e t) eqn:Ha; [|reflexivity].
  apply (all_chars_drop _ (Re.run_length false (Re.CLit "0") t)) in Ha.
  rewrite Ed in Ha. cbn in Ha. unfold not_e in Ha. rewrite Ec in Ha. discriminate.
Qed.

Lemma dz_len_found t n : dz_len t = Some n -> all_chars not_e t = false.
Proof.
  unfold dz_len. destruct t as [|c t]; [apply zeros_e_found|].
  destruct (Ascii.eqb c ".") eqn:Ec; [|apply zeros_e_found].
  destruct (zeros_e t) eqn:E; [|apply zeros_e_found].
  intros _. cbn. rewrite (zeros_e_found _ _ E). apply andb_false_r.
Qed.

Lemma e00_len_first c u n : e00_len (String c u) = Some n -> c = "e"%char.
Proof.
  unfold e00_len. destruct u as [|b [|c' [|d r]]]; try discriminate.
  destruct (Ascii.eqb c "e") eqn:E; [apply Ascii.eqb_eq in E; done | discriminate].
Qed.

Lemma e00_len_found t n : e00_len t = Some n -> all_chars not_e t = false.
Proof.
  destruct t as [|c u]; [discriminate|]. intros H. apply e00_len_first in H. subst. reflexivity.
Qed.

(** A scan copies a text where its pattern cannot match. *)
Lemma scan_id (len : string -> option nat) repl X :
  (forall u n, len u = Some n -> all_chars not_e u = false) ->
  all_chars not_e X = true -> Re.scan_sub len repl X 0 = X.
Proof.
  intros Hl HX. apply Re.scan_none. intros q _.
  destruct (len (Py.drop q X)) eqn:E; [|reflexivity].
  apply Hl in E. rewrite (all_chars_drop _ q X HX) in E. discriminate.
Qed.

(** The significand [d.ds] of a ["%.17e"] string followed by its exponent. *)
Lemma scan_mant d1 ds X :
  is_digit d1 = true -> all_chars is_digit ds = true -> ds <> "" ->
  all_chars not_e X = true ->
  Re.scan_sub dz_len "e" (String d1 (String "." (ds ++ String "e" X))) 0 =
  String d1 ((if String.eqb (strip0 ds) "" then "" else String "." (strip0 ds)) ++
             String "e" X).
Proof.
  intros H1 Hds Hne HX. cbn [Re.scan_sub]. unfold dz_len at 1.
  rewrite digit_not_dot by exact H1.
  assert (Hz : zeros_e (String d1 (String "." (ds ++ String "e" X))) = None).
  { destruct (Ascii.eqb d1 "0") eqn:E0; [|by apply zeros_e_cons_nz].
    apply Ascii.eqb_eq in E0. subst d1. rewrite zeros_e_cons0, zeros_e_cons_nz by reflexivity.
    reflexivity. }
  rewrite Hz. f_equal. cbn [Re.scan_sub dz_len]. cbn [Ascii.eqb Bool.eqb andb].
  rewrite zeros_e_digits by exact Hds.
  destruct (String.eqb ds "") eqn:Ee; [apply String.eqb_eq in Ee; contradiction|].
  cbn [negb andb]. destruct (String.eqb (strip0 ds) "") eqn:Es.
  - cbn -[Re.scan_sub]. replace (S (S (String.length ds)) - 1)%nat with (S (String.length ds))
      by lia.
    rewrite Re.scan_skip by (rewrite length_append_str; cbn; lia).
    replace (S (String.length ds)) with (String.length ds + 1)%nat by lia.
    rewrite drop_add, drop_app_length. cbn [Py.drop].
    f_equal. apply scan_id; [exact dz_len_found | exact HX].
  - rewrite zeros_e_cons_nz by reflexivity. cbn [append].
    rewrite scan_digits by exact Hds. rewrite (scan_id _ _ X dz_len_found HX).
    reflexivity.
Qed.

Lemma e00_len_e X : all_chars exp_char X = true -> String.eqb X "+00" = false ->
  e00_len (String "e" X) = None.
Proof.
  intros HX Ex. destruct X as [|b [|c [|d r]]]; try reflexivity. cbn [e00_len].
  destruct (Ascii.eqb "e" "e" && Ascii.eqb b "+" && Ascii.eqb c "0" && Ascii.eqb d "0") eqn:C;
    [|reflexivity].
  apply andb_prop in C as [C Cd]. apply andb_prop in C as [C Cc].
  apply andb_prop in C as [_ Cb].
  apply Ascii.eqb_eq in Cb, Cc, Cd. subst b c d.
  destruct r as [|n [|n' r']]; [discriminate Ex | | reflexivity].
  destruct (Ascii.eqb n "010") eqn:En; [|reflexivity].
  apply Ascii.eqb_eq in En. subst n. discriminate HX.
Qed.

(** Substituting [e\+00$]: only a final exponent [+00] goes. *)
Lemma scan_e00_tail A X :
  all_chars not_e A = true -> all_chars exp_char X = true ->
  Re.scan_sub e00_len "" (A ++ String "e" X) 0 =
  (A ++ (if String.eqb X "+00" then "" else String "e" X))%string.
Proof.
  intros HA HX. induction A as [|c A IH].
  - destruct (String.eqb X "+00") eqn:Ex.
    + apply String.eqb_eq in Ex. subst X. reflexivity.
    + cbn [append Re.scan_sub]. rewrite e00_len_e by assumption. f_equal.
      apply scan_id; [exact e00_len_found|].
      exact (all_chars_impl _ _ X exp_char_not_e HX).
  - cbn [all_chars] in HA. apply andb_prop in HA as [Hc HA].
    cbn [append Re.scan_sub]. destruct (e00_len _) eqn:E.
    + apply e00_len_first in E. subst c. discriminate Hc.
    + rewrite IH by exact HA. reflexivity.
Qed.

Lemma strip0_chars f ds : all_chars f ds = true -> all_chars f (strip0 ds) = true.
Proof.
  induction ds as [|c ds IH]; cbn; [done|]. intros H. apply andb_prop in H as [H1 H2].
  destruct (Ascii.eqb c "0" && String.eqb (strip0 ds) ""); cbn; [done|].
  rewrite H1, IH; auto.
Qed.

Lemma exp_str_chars E : all_chars exp_char (exp_str E) = true.
Proof.
  unfold exp_str. cbn [all_chars].
  rewrite (all_chars_impl is_digit exp_char) by
    (auto using digits_str_digits; intros c Hc; unfold exp_char; rewrite Hc; reflexivity).
  destruct (E <? 0)%Z; reflexivity.
Qed.

(** The exponent printed is [+00] exactly when it is zero. *)
Lemma exp_str_00 E : String.eqb (exp_str E) "+00" = (E =? 0)%Z.
Proof.
  destruct (Z.eqb_spec E 0) as [->|HE]; [reflexivity|].
  apply String.eqb_neq. unfold exp_str. intros H.
  destruct (Z.ltb_spec E 0); [discriminate H|]. injection H as H.
  destruct (Z.ltb_spec (Z.abs E) 100) as [Hlt|Hge].
  - rewrite !digits_str_front in H. injection H as G1 G2.
    change (10 ^ Z.of_nat 0)%Z with 1%Z in G2.
    apply digit_char_zero in G1; [|apply Z.mod_pos_bound; lia].
    apply digit_char_zero in G2; [|apply Z.mod_pos_bound; lia].
    rewrite Z.div_1_r in G2. change (10 ^ Z.of_nat 1)%Z with 10%Z in G1.
    rewrite Z.abs_eq in G1, G2 by lia.
    pose proof (Z.div_mod E 10 ltac:(lia)).
    rewrite Z.mod_small in G1 by (split; [apply Z.div_pos | apply Z.div_lt_upper_bound]; lia).
    lia.
  - apply (f_equal String.length) in H. rewrite length_digits_str in H. discriminate H.
Qed.

Lemma scan_dz_minus t :
  Re.scan_sub dz_len "e" (String "-" t) 0 = String "-" (Re.scan_sub dz_len "e" t 0).
Proof. cbn [Re.scan_sub]. unfold dz_len. rewrite zeros_e_cons_nz by reflexivity. reflexivity. Qed.

(** The substitutions on a ["%.17e"] body [d1.ds e X]. *)
Lemma fmt_str_body neg d1 ds E :
  is_digit d1 = true -> all_chars is_digit ds = true -> ds <> "" ->
  fmt_str (sign_str neg ++ String d1 (String "." ds) ++ "e" ++ exp_str E) =
  sign_str neg ++ String d1
    ((if String.eqb (strip0 ds) "" then "" else String "." (strip0 ds)) ++
     (if (E =? 0)%Z then "" else "e" ++ exp_str E)).
Proof.
  intros H1 Hds Hne. unfold fmt_str.
  pose proof (exp_str_chars E) as HX.
  assert (HXe : all_chars not_e (exp_str E) = true) by exact (all_chars_impl _ _ _ exp_char_not_e HX).
  set (F := if String.eqb (strip0 ds) "" then "" else String "." (strip0 ds)).
  assert (HF : all_chars not_e (String d1 F) = true).
  { cbn [all_chars]. rewrite digit_not_e' by exact H1. unfold F.
    destruct (String.eqb (strip0 ds) ""); [reflexivity|]. cbn [all_chars].
    exact (strip0_chars _ _ (all_chars_impl _ _ _ digit_not_e' Hds)). }
  rewrite sub_dz, sub_e00.
  replace ((String d1 (String "." ds) ++ "e" ++ exp_str E))%string
    with (String d1 (String "." (ds ++ String "e" (exp_str E)))) by reflexivity.
  destruct neg; cbn [sign_str append]; [rewrite scan_dz_minus|];
    rewrite scan_mant by assumption; fold F;
    replace (String d1 (F ++ String "e" (exp_str E)))
      with (String d1 F ++ String "e" (exp_str E))%string by reflexivity.
  - replace (String "-" (String d1 F ++ String "e" (exp_str E)))
      with (String "-" (String d1 F) ++ String "e" (exp_str E))%string by reflexivity.
    rewrite scan_e00_tail by (auto; exact HF).
    rewrite exp_str_00. cbn [append]. reflexivity.
  - rewrite scan_e00_tail by auto. rewrite exp_str_00. cbn [append]. reflexivity.
Qed.

(** The substitutions on the ["%.17e"] string of a float. *)
Lemma fmt_pct_e17 x : fmt_str (pct_e 17 x) = fmt_spec x.
Proof.
  destruct x as [neg m e|neg|]; [|destruct neg; vm_compute; reflexivity | vm_compute; reflexivity].
  unfold pct_e, fmt_spec. cbv beta zeta iota.
  destruct (m =? 0)%Z; [destruct neg; vm_compute; reflexivity|].
  destruct (frac_of m e) as [n d]. change (Z.of_nat 17 + 1)%Z with 18%Z. destruct (sci 18 n d) as [D E].
  rewrite digits_str_front. apply fmt_str_body.
  - apply digit_char_digit, Z.mod_pos_bound; lia.
  - apply digits_str_digits.
  - intros H. apply (f_equal String.length) in H. rewrite length_digits_str in H. discriminate.
Qed.

(** C17: [fmt] on a float: the ["%.17e"] string with the trailing zeros of its
    significand removed (and the point, when no digit is left after it),
    and without its exponent when the exponent is [+00]. *)
Theorem fmt_float_spec x : fmt (AFloat x) = fmt_spec x.
Proof. unfold fmt. exact (fmt_pct_e17 x). Qed.

Lemma strip0_idem ds : strip0 (strip0 ds) = strip0 ds.
Proof.
  induction ds as [|c ds IH]; [reflexivity|]. cbn [strip0].
  destruct (Ascii.eqb c "0" && String.eqb (strip0 ds) "") eqn:E; [reflexivity|].
  cbn [strip0]. rewrite IH, E. reflexivity.
Qed.

Lemma frac_of_pos m e : (1 <= m)%Z ->
  (1 <= fst (frac_of m e))%Z /\ (1 <= snd (frac_of m e))%Z.
Proof.
  intros Hm. unfold frac_of. destruct (Z.leb_spec 0 e); cbn.
  - pose proof (Z.pow_pos_nonneg 2 e ltac:(lia) ltac:(lia)). nia.
  - pose proof (Z.pow_pos_nonneg 2 (- e) ltac:(lia) ltac:(lia)). lia.
Qed.

(** The leading digit of an 18-digit [D] is not zero. *)
Lemma lead_digit_nonzero D : (10 ^ 17 <= D < 10 ^ 18)%Z ->
  Ascii.eqb (digit_char ((D / 10 ^ Z.of_nat 17) mod 10)) "0" = false.
Proof.
  intros HD. change (10 ^ Z.of_nat 17)%Z with (10 ^ 17)%Z.
  assert (Hq : (1 <= D / 10 ^ 17 < 10)%Z).
  { split; [apply Z.div_le_lower_bound | apply Z.div_lt_upper_bound]; lia. }
  apply Ascii.eqb_neq. intros H. apply digit_char_zero in H; [|apply Z.mod_pos_bound; lia].
  rewrite Z.mod_small in H by lia. lia.
Qed.

(** The substitutions leave a formatted body [d1[.F][eX]] unchanged when
    [d1] is a nonzero digit. *)
Lemma fmt_str_fixed neg d1 ds E :
  is_digit d1 = true -> Ascii.eqb d1 "0" = false -> all_chars is_digit (strip0 ds) = true ->
  let F := if String.eqb (strip0 ds) "" then "" else String "." (strip0 ds) in
  fmt_str (sign_str neg ++ String d1 (F ++ (if (E =? 0)%Z then "" else "e" ++ exp_str E))) =
  sign_str neg ++ String d1 (F ++ (if (E =? 0)%Z then "" else "e" ++ exp_str E)).
Proof.
  intros H1 H10 Hds F.
  pose proof (exp_str_chars E) as HX.
  assert (HXe : all_chars not_e (exp_str E) = true)
    by exact (all_chars_impl _ _ _ exp_char_not_e HX).
  assert (HF : all_chars not_e (sign_str neg ++ String d1 F) = true).
  { rewrite all_chars_app. apply andb_true_intro. split; [destruct neg; reflexivity|].
    cbn. rewrite digit_not_e' by exact H1. unfold F.
    destruct (String.eqb (strip0 ds) ""); [reflexivity|]. cbn.
    exact (all_chars_impl _ _ _ digit_not_e' Hds). }
  unfold fmt_str. rewrite sub_dz, sub_e00.
  destruct (Z.eqb_spec E 0) as [HE|HE].
  - rewrite append_empty_r.
    replace (sign_str neg ++ String d1 F)%string with (sign_str neg ++ String d1 F)%string
      by reflexivity.
    rewrite (scan_id dz_len "e" _ dz_len_found HF).
    exact (scan_id e00_len "" _ e00_len_found HF).
  - assert (Hsc : Re.scan_sub dz_len "e" (sign_str neg ++ String d1 (F ++ "e" ++ exp_str E)) 0
                  = (sign_str neg ++ String d1 F ++ String "e" (exp_str E))%string).
    { assert (Hbody : Re.scan_sub dz_len "e" (String d1 (F ++ "e" ++ exp_str E)) 0
                      = (String d1 F ++ String "e" (exp_str E))%string).
      { unfold F. destruct (String.eqb (strip0 ds) "") eqn:Es.
        - change (String d1 ("" ++ "e" ++ exp_str E))
            with (String d1 "" ++ String "e" (exp_str E))%string.
          rewrite scan_digits by (cbn; rewrite H1; reflexivity).
          cbn [strip0]. rewrite H10. cbn. f_equal. f_equal.
          exact (scan_id _ _ _ dz_len_found HXe).
        - change (String d1 (String "." (strip0 ds) ++ "e" ++ exp_str E))
            with (String d1 (String "." (strip0 ds ++ String "e" (exp_str E)))).
          rewrite scan_mant; [| exact H1 | exact Hds | | exact HXe].
          + rewrite strip0_idem, Es. reflexivity.
          + intros Hz. rewrite Hz in Es. discriminate. }
      destruct neg; cbn [sign_str append]; [rewrite scan_dz_minus; f_equal|]; exact Hbody. }
    rewrite Hsc, <- append_assoc_str, scan_e00_tail by assumption.
    rewrite exp_str_00. destruct (Z.eqb_spec E 0); [contradiction|].
    rewrite append_assoc_str. reflexivity.
Qed.

(** C18: Formatting is idempotent on what it prints for a float: reading a
    fixture value back and formatting it again gives the same text. *)
Theorem fmt_idempotent x : wf_double x = true ->
  fmt (AStr (fmt (AFloat x))) = fmt (AFloat x).
Proof.
  intros Hwf. unfold fmt at 2 3. rewrite fmt_pct_e17. unfold fmt. fold (fmt_str (fmt_spec x)).
  destruct x as [neg m e|neg|]; [|destruct neg; vm_compute; reflexivity | vm_compute; reflexivity].
  unfold fmt_spec. destruct (Z.eqb_spec m 0) as [->|Hm0]; [destruct neg; vm_compute; reflexivity|].
  cbn in Hwf. apply andb_prop in Hwf as [Hwf _]. apply andb_prop in Hwf as [Hwf _].
  apply andb_prop in Hwf as [Hwf _]. apply Z.leb_le in Hwf.
  destruct (frac_of_pos m e ltac:(lia)) as [Hn Hd].
  destruct (frac_of m e) as [n d]. cbn in Hn, Hd.
  destruct (sci 18 n d) as [D E] eqn:Hs.
  pose proof (sci18_bounds n d D E Hn Hd Hs) as HD.
  rewrite digits_str_front. apply fmt_str_fixed.
  - apply digit_char_digit, Z.mod_pos_bound; lia.
  - apply lead_digit_nonzero; exact HD.
  - apply strip0_chars, digits_str_digits.
Qed.

Lemma fmt_idempotent_witness :
  wf_double (fdiv (Fin false 1 0) (Fin false 10 0)) = true /\
  fmt (AStr (fmt (AFloat (fdiv (Fin false 1 0) (Fin false 10 0))))) =
  fmt (AFloat (fdiv (Fin false 1 0) (Fin false 10 0))).
Proof. split; [vm_compute; reflexivity | apply fmt_idempotent; vm_compute; reflexivity]. Defined.

(** ** What [fmt] prints has no whitespace *)

Definition visible (c : ascii) : bool := negb (Py.is_space c).

Lemma digit_visible c : is_digit c = true -> visible c = true.
Proof. revert c. ascii_cases. Qed.

Lemma exp_char_visible c : exp_char c = true -> visible c = true.
Proof. revert c. ascii_cases. Qed.

(** What [fmt] prints for a float has no whitespace. *)
Lemma fmt_spec_visible x : all_chars visible (fmt_spec x) = true.
Proof.
  destruct x as [neg m e|neg|]; [|destruct neg; reflexivity|reflexivity].
  unfold fmt_spec.
  assert (Hs : all_chars visible (sign_str neg) = true) by (destruct neg; reflexivity).
  destruct (m =? 0)%Z; [rewrite all_chars_app, Hs; reflexivity|].
  destruct (frac_of m e) as [n d]. destruct (sci 18 n d) as [D E].
  pose proof (digits_str_digits D 18) as Hd.
  destruct (digits_str D 18) as [|d1 ds]; [reflexivity|].
  cbn [all_chars] in Hd. apply andb_prop in Hd as [Hd1 Hds].
  rewrite all_chars_app, Hs. cbn [all_chars]. rewrite digit_visible by exact Hd1.
  rewrite all_chars_app. cbn [andb]. apply andb_true_intro. split.
  - destruct (String.eqb (strip0 ds) ""); [reflexivity|]. cbn [all_chars].
    exact (strip0_chars _ _ (all_chars_impl _ _ _ digit_visible Hds)).
  - destruct (E =? 0)%Z; [reflexivity|]. cbn [append all_chars].
    exact (all_chars_impl _ _ _ exp_char_visible (exp_str_chars E)).
Qed.

(** The normalisation is not idempotent on every string: ["0.0e5"] loses
    its point and zero in the first pass and its leading zero in the next. *)
Theorem fmt_str_not_idempotent :
  exists s, fmt (AStr (fmt (AStr s))) <> fmt (AStr s).
Proof. exists "0.0e5". vm_compute. discriminate. Qed.

End Fmt.
