(* ===== verification/Roundtrip.v ===== *)
(** * Reading printed doubles back

    The Java tests read the numbers the scripts print: the probit printer
    writes scipy's quantiles with ["%.50e"], the fixture generator with
    [fmt] (["%.17e"], trimmed).  This file shows that Python's [float()]
    (and any correctly rounding reader) gives back the very double that
    was printed, for every [normal] double:
    - parsing: [py_float] reads the text of [pct_e] as the integer of its
      digits and the exponent ([py_float_pct_e]), and [fmt]'s text as the
      kept digits, which times the stripped zeros are the same 18 digits
      ([py_float_fmt], [strip0_digits]);
    - rounding: a value closer to a double than a quarter of its unit in
      the last place rounds to it ([round_q_near]);
    - the digits printed are that close ([sci_near]), when there are at
      least 18 of them ([read_back]).
    Together: [pct_e_roundtrip] (precision [>= 17]; the text has no comma,
    [pct_e_no_comma], so the probit items split at their [", // "]) and
    [fmt_roundtrip]. *)

From Stdlib Require Import String Ascii ZArith Lia QArith Qpower Qabs Lqa.
From stdpp Require Import base list.
From S2P Require Import Prelude Float64 Fmt.

Open Scope string_scope.
Open Scope Z_scope.

Module Roundtrip.
Import Float64.

(** The doubles the round trips are about: normal, below [2 ^ 1023]
    (significand of 53 bits, [-1074 <= e <= 970]); every value the
    fixture scripts print lies there. *)
Definition normal (x : pyfloat) : bool :=
  match x with
  | Fin _ m e => (2 ^ 52 <=? m) && (m <? 2 ^ 53) && (-1074 <=? e) && (e <=? 970)
  | _ => false
  end.

Lemma normal_Fin x : normal x = true ->
  exists neg m e, x = Fin neg m e /\ 2 ^ 52 <= m < 2 ^ 53 /\ -1074 <= e <= 970.
Proof.
  destruct x as [neg m e| |]; cbn; try discriminate.
  intros H. apply andb_prop in H as [H Hd]. apply andb_prop in H as [H Hc]. apply andb_prop in H as [Ha Hb].
  apply Z.leb_le in Ha, Hc, Hd. apply Z.ltb_lt in Hb. exists neg, m, e. split; [reflexivity|lia].
Qed.

(** ** Reading digits *)

Ltac digit_cases z :=
  let H := fresh in
  assert (H : z = 0 \/ z = 1 \/ z = 2 \/ z = 3 \/ z = 4 \/ z = 5 \/ z = 6 \/ z = 7 \/ z = 8 \/ z = 9) by lia;
  destruct H as [->|[->|[->|[->|[->|[->|[->|[->|[->| ->]]]]]]]]].

Lemma digit_val_char z : 0 <= z < 10 -> digit_val (digit_char z) = Some z.
Proof. intros Hz. digit_cases z; reflexivity. Qed.

Lemma digit_char_not_space z : 0 <= z < 10 -> Py.is_space (digit_char z) = false.
Proof. intros Hz. digit_cases z; reflexivity. Qed.

(** [take_digits] reads the [k] digits of [digits_str z k] and goes on. *)
Lemma take_digits_str z k rest acc n : 0 <= z ->
  take_digits (digits_str z k ++ rest) acc n =
  take_digits rest (acc * 10 ^ Z.of_nat k + z mod 10 ^ Z.of_nat k) (n + k).
Proof.
  revert z rest acc n. induction k as [|k IH]; intros z rest acc n Hz.
  - cbn [digits_str append]. rewrite Z.pow_0_r, Z.mul_1_r, Z.mod_1_r, Z.add_0_r, Nat.add_0_r. reflexivity.
  - cbn [digits_str]. rewrite append_assoc_str. cbn [append].
    rewrite IH by (apply Z.div_pos; lia). cbn [take_digits].
    rewrite digit_val_char by (apply Z.mod_pos_bound; lia). f_equal; [|lia].
    rewrite Nat2Z.inj_succ, Z.pow_succ_r by lia.
    rewrite Z.rem_mul_r by (try apply Z.pow_pos_nonneg; lia). lia.
Qed.

Lemma take_digits_cons c r acc n : take_digits (String c r) acc n =
  match digit_val c with Some d => take_digits r (10 * acc + d) (S n) | None => (acc, n, String c r) end.
Proof. reflexivity. Qed.

Lemma take_digits_stop c r acc n : digit_val c = None -> take_digits (String c r) acc n = (acc, n, String c r).
Proof. intros H. cbn. by rewrite H. Qed.

(** A digit is neither a sign nor a letter, and [lower] keeps it. *)
Lemma split_sign_digit z r : 0 <= z < 10 -> split_sign (String (digit_char z) r) = (false, String (digit_char z) r).
Proof. intros Hz. digit_cases z; reflexivity. Qed.

Lemma lower_digit z r : 0 <= z < 10 -> lower_ascii (String (digit_char z) r) = String (digit_char z) (lower_ascii r).
Proof. intros Hz. digit_cases z; reflexivity. Qed.

Lemma digit_not_word z r w : 0 <= z < 10 -> String.eqb (String (digit_char z) r) (String "i" w) = false /\
  String.eqb (String (digit_char z) r) (String "n" w) = false.
Proof. intros Hz. digit_cases z; split; reflexivity. Qed.

(** [float()] reads the exponent [e<exp_str E>] back. *)
Lemma read_exp E : Z.abs E < 1000 -> read_exponent (String "e" (exp_str E)) = Some E.
Proof.
  intros HE. unfold read_exponent, exp_str. cbn [Ascii.eqb Bool.eqb orb].
  assert (Hsplit : split_sign (String (if E <? 0 then "-"%char else "+"%char)
                     (digits_str (Z.abs E) (if Z.abs E <? 100 then 2%nat else 3%nat))) =
                   (E <? 0, digits_str (Z.abs E) (if Z.abs E <? 100 then 2%nat else 3%nat)))
    by (destruct (E <? 0); reflexivity).
  rewrite Hsplit. rewrite <- (append_empty_r (digits_str _ _)), take_digits_str by lia.
  cbn [take_digits]. rewrite Z.mul_0_l, Z.add_0_l, Nat.add_0_l.
  destruct (Z.ltb_spec (Z.abs E) 100); cbn [Nat.eqb];
    (rewrite Z.mod_small; [|cbn; lia]); destruct (Z.ltb_spec E 0); f_equal; lia.
Qed.

(** The value of the digits [d.ddd]: the first digit and the others. *)
Lemma lead_and_rest D prec : 10 ^ Z.of_nat prec <= D < 10 ^ (Z.of_nat prec + 1) ->
  (D / 10 ^ Z.of_nat prec) mod 10 * 10 ^ Z.of_nat prec + D mod 10 ^ Z.of_nat prec = D /\
  0 <= (D / 10 ^ Z.of_nat prec) mod 10 < 10.
Proof.
  intros HD. pose proof (Z.pow_pos_nonneg 10 (Z.of_nat prec) ltac:(lia) ltac:(lia)) as P.
  rewrite Z.pow_add_r, Z.pow_1_r in HD by lia.
  assert (Hq : 1 <= D / 10 ^ Z.of_nat prec < 10).
  { split; [apply Z.div_le_lower_bound; lia|apply Z.div_lt_upper_bound; lia]. }
  rewrite (Z.mod_small (D / _) 10) by lia. split; [|lia].
  pose proof (Z.div_mod D (10 ^ Z.of_nat prec) ltac:(lia)). lia.
Qed.

(** ** [strip] leaves the printed number alone *)

Lemma str_rev_app a b : Py.str_rev (a ++ b) = (Py.str_rev b ++ Py.str_rev a)%string.
Proof.
  induction a as [|c a IH]; cbn [append Py.str_rev]; [by rewrite append_empty_r|].
  by rewrite IH, append_assoc_str.
Qed.

Lemma str_rev_rev s : Py.str_rev (Py.str_rev s) = s.
Proof. induction s as [|c s IH]; [done|]. cbn [Py.str_rev]. rewrite str_rev_app, IH. reflexivity. Qed.

Lemma all_chars_rev f s : Fmt.all_chars f (Py.str_rev s) = Fmt.all_chars f s.
Proof.
  induction s as [|c s IH]; [done|]. cbn [Py.str_rev Fmt.all_chars].
  rewrite Fmt.all_chars_app, IH. cbn [Fmt.all_chars]. rewrite andb_true_r. apply andb_comm.
Qed.

Lemma lstrip_visible s : Fmt.all_chars Fmt.visible s = true -> Py.lstrip_by Py.is_space s = s.
Proof.
  destruct s as [|c s]; [done|]. cbn [Fmt.all_chars Py.lstrip_by]. unfold Fmt.visible.
  destruct (Py.is_space c); [discriminate|done].
Qed.

(** A text without whitespace is its own [strip()]. *)
Lemma strip_visible s : Fmt.all_chars Fmt.visible s = true -> Py.strip s = s.
Proof.
  intros H. unfold Py.strip, Py.rstrip_by. rewrite (lstrip_visible s H).
  rewrite lstrip_visible by (rewrite all_chars_rev; exact H). apply str_rev_rev.
Qed.

(** [float()] of a text without whitespace that is an optional minus and
    a digit, then [r]: the decimal [r] starts, with that sign. *)
Lemma py_float_digit neg z r : 0 <= z < 10 ->
  Fmt.all_chars Fmt.visible (sign_str neg ++ String (digit_char z) r) = true ->
  py_float (sign_str neg ++ String (digit_char z) r) = read_decimal neg (String (digit_char z) r).
Proof.
  intros Hz Hv. unfold py_float. rewrite (strip_visible _ Hv).
  assert (Hs : split_sign (sign_str neg ++ String (digit_char z) r) = (neg, String (digit_char z) r))
    by (destruct neg; [reflexivity|apply split_sign_digit, Hz]).
  rewrite Hs. cbv beta iota zeta. rewrite lower_digit by exact Hz.
  destruct (digit_not_word z (lower_ascii r) "nf" Hz) as [-> _].
  destruct (digit_not_word z (lower_ascii r) "nfinity" Hz) as [-> _].
  destruct (digit_not_word z (lower_ascii r) "an" Hz) as [_ ->]. reflexivity.
Qed.

(** ** [float()] of ["%.<prec>e" % x] *)

(** The text of a positive double with [prec >= 1] digits after the point. *)
Lemma pct_e_text p neg m e n d D E : 1 <= m -> frac_of m e = (n, d) -> sci (Z.of_nat (S p) + 1) n d = (D, E) ->
  pct_e (S p) (Fin neg m e) =
  (sign_str neg ++ String (digit_char ((D / 10 ^ Z.of_nat (S p)) mod 10))
     (String "." (digits_str D (S p) ++ String "e" (exp_str E))))%string.
Proof.
  intros Hm Hf Hs. unfold pct_e. replace (m =? 0) with false by lia. rewrite Hf, Hs.
  rewrite Fmt.digits_str_front. reflexivity.
Qed.

Lemma sign_visible neg r : Fmt.all_chars Fmt.visible (sign_str neg ++ r) = Fmt.all_chars Fmt.visible r.
Proof. by destruct neg. Qed.

Lemma exp_visible E : Fmt.all_chars Fmt.visible (exp_str E) = true.
Proof. exact (Fmt.all_chars_impl _ _ _ Fmt.exp_char_visible (Fmt.exp_str_chars E)). Qed.

Lemma digits_visible D k : Fmt.all_chars Fmt.visible (digits_str D k) = true.
Proof. exact (Fmt.all_chars_impl _ _ _ Fmt.digit_visible (Fmt.digits_str_digits D k)). Qed.

(** Reading the unsigned text [d.ddd...e<E>] after the sign. *)
Lemma read_body neg p D E :
  10 ^ Z.of_nat (S p) <= D < 10 ^ (Z.of_nat (S p) + 1) -> Z.abs E < 1000 ->
  read_decimal neg (String (digit_char ((D / 10 ^ Z.of_nat (S p)) mod 10))
                     (String "." (digits_str D (S p) ++ String "e" (exp_str E)))) =
  Some (match lit D (E - Z.of_nat (S p)) with Fin _ mm ee => Fin neg mm ee | y => y end).
Proof.
  intros HD HE. destruct (lead_and_rest D (S p) HD) as [Hsum Hd1].
  set (d1 := (D / 10 ^ Z.of_nat (S p)) mod 10) in *.
  unfold read_decimal. rewrite take_digits_cons, digit_val_char by exact Hd1.
  rewrite take_digits_stop by reflexivity. rewrite take_digits_str by lia.
  rewrite take_digits_stop by reflexivity. cbn [Nat.add Nat.eqb].
  rewrite (read_exp E HE). replace (10 * 0 + d1) with d1 by lia.
  rewrite Hsum. replace (D =? 0) with false by lia. destruct (lit D _); reflexivity.
Qed.

(** [float()] reads ["%.<prec>e" % x] ([prec >= 1]) as its digits [D]
    times [10 ^ (E - prec)], with the sign of [x]. *)
Lemma py_float_pct_e p neg m e n d D E : 1 <= m -> frac_of m e = (n, d) ->
  sci (Z.of_nat (S p) + 1) n d = (D, E) -> Z.abs E < 1000 ->
  py_float (pct_e (S p) (Fin neg m e)) =
  Some (match lit D (E - Z.of_nat (S p)) with Fin _ mm ee => Fin neg mm ee | y => y end).
Proof.
  intros Hm Hf Hs HE. rewrite (pct_e_text p neg m e n d D E Hm Hf Hs).
  pose proof (Fmt.frac_of_pos m e Hm) as [Hn Hd]. rewrite Hf in Hn, Hd. cbn [fst snd] in Hn, Hd.
  pose proof (sci_digits (Z.of_nat (S p) + 1) n d D E ltac:(lia) Hn Hd Hs) as HD.
  replace (Z.of_nat (S p) + 1 - 1) with (Z.of_nat (S p)) in HD by lia.
  destruct (lead_and_rest D (S p) HD) as [_ Hd1].
  rewrite py_float_digit by (try exact Hd1; rewrite sign_visible; cbn [Fmt.all_chars];
    rewrite Fmt.digit_visible by (apply Fmt.digit_char_digit, Hd1); cbn [andb];
    rewrite Fmt.all_chars_app, digits_visible; exact (exp_visible E)).
  exact (read_body neg p D E HD HE).
Qed.

(** ** [float()] of what [fmt] prints *)

(** The digits of [R] split at any place. *)
Lemma digits_str_split R a b : 0 <= R ->
  digits_str R (a + b) = (digits_str (R / 10 ^ Z.of_nat b) a ++ digits_str R b)%string.
Proof.
  revert R. induction b as [|b IH]; intros R HR.
  - rewrite Nat.add_0_r. cbn [digits_str]. rewrite append_empty_r.
    change (10 ^ Z.of_nat 0) with 1. rewrite Z.div_1_r. reflexivity.
  - rewrite Nat.add_succ_r. cbn [digits_str]. rewrite IH by (apply Z.div_pos; lia).
    rewrite append_assoc_str. f_equal. f_equal.
    rewrite Z.div_div by (try apply Z.pow_pos_nonneg; lia). f_equal.
    rewrite Nat2Z.inj_succ, Z.pow_succ_r by lia. ring.
Qed.

Lemma take_zeros z rest acc n :
  take_digits (Py.repeat_str "0" z ++ rest) acc n = take_digits rest (acc * 10 ^ Z.of_nat z) (n + z).
Proof.
  revert acc n. induction z as [|z IH]; intros acc n; cbn [Py.repeat_str append].
  - rewrite Z.mul_1_r, Nat.add_0_r. reflexivity.
  - rewrite take_digits_cons. change (digit_val "0") with (Some 0). cbv beta iota. rewrite IH.
    f_equal; [|lia]. rewrite Nat2Z.inj_succ, Z.pow_succ_r by lia. ring.
Qed.

(** [ds.rstrip("0")] followed by the zeros it removed is [ds]. *)
Lemma strip0_zeros ds : exists z, ds = (Fmt.strip0 ds ++ Py.repeat_str "0" z)%string.
Proof.
  induction ds as [|c ds [z IH]]; [by exists 0%nat|]. cbn [Fmt.strip0].
  destruct (Ascii.eqb_spec c "0") as [->|Hc]; destruct (String.eqb_spec (Fmt.strip0 ds) "") as [He|He];
    cbn [andb].
  - exists (S z). rewrite He in IH. cbn [append] in IH. rewrite IH at 1. reflexivity.
  - exists z. cbn [append]. f_equal. exact IH.
  - exists z. cbn [append]. f_equal. exact IH.
  - exists z. cbn [append]. f_equal. exact IH.
Qed.

Lemma append_inj_len a b c d : String.length a = String.length c ->
  (a ++ b)%string = (c ++ d)%string -> a = c /\ b = d.
Proof.
  revert c. induction a as [|x a IH]; intros [|y c] Hl H; cbn in Hl; try discriminate; [done|].
  injection H as -> H. destruct (IH c ltac:(lia) H) as [-> ->]. done.
Qed.

Lemma length_zeros z : String.length (Py.repeat_str "0" z) = z.
Proof. induction z as [|z IH]; cbn; congruence. Qed.

(** Stripping the trailing zeros of [k] digits of [R] leaves the first
    [k - z] of them, the last [z] being zeros. *)
Lemma strip0_digits R k : 0 <= R -> exists z, (z <= k)%nat /\
  Fmt.strip0 (digits_str R k) = digits_str (R / 10 ^ Z.of_nat z) (k - z) /\ R mod 10 ^ Z.of_nat z = 0.
Proof.
  intros HR. destruct (strip0_zeros (digits_str R k)) as [z Hz].
  pose proof (f_equal String.length Hz) as Hl.
  rewrite length_append_str, Fmt.length_digits_str, length_zeros in Hl.
  exists z. split; [lia|]. set (a := (k - z)%nat). replace k with (a + z)%nat in * by lia.
  rewrite (digits_str_split R a z HR) in Hz, Hl |- *.
  apply append_inj_len in Hz as [Ha Hzr]; [|rewrite Fmt.length_digits_str; lia].
  split; [by rewrite <- Ha|].
  pose proof (f_equal (fun t => fst (fst (take_digits (t ++ "") 0 0))) Hzr) as Ht. cbv beta in Ht.
  rewrite take_digits_str, take_zeros in Ht by lia. cbn [take_digits fst] in Ht. lia.
Qed.

(** The tail [fmt] leaves after the digits: nothing when the exponent
    is [0], else [e] and the exponent. *)
Lemma read_tail X E : (X = EmptyString /\ E = 0) \/ X = String "e" (exp_str E) -> Z.abs E < 1000 ->
  read_exponent X = Some E /\ forall acc n, take_digits X acc n = (acc, n, X).
Proof.
  intros [[-> ->]| ->] HE; (split; [|intros acc n]); try reflexivity.
  exact (read_exp E HE).
Qed.

Lemma point_digits w k :
  (if String.eqb (digits_str w k) "" then "" else String "." (digits_str w k)) =
  match k with O => "" | S _ => String "." (digits_str w k) end.
Proof.
  destruct k as [|k]; [reflexivity|]. destruct (String.eqb_spec (digits_str w (S k)) "") as [H|]; [|reflexivity].
  apply (f_equal String.length) in H. rewrite Fmt.length_digits_str in H. discriminate.
Qed.

(** Reading [d], then [.] and [k] more digits of [w] when [k > 0], then
    the tail. *)
Lemma read_fmt_body neg d1 k w E X : 1 <= d1 < 10 -> 0 <= w -> Z.abs E < 1000 ->
  (X = EmptyString /\ E = 0) \/ X = String "e" (exp_str E) ->
  read_decimal neg (String (digit_char d1)
    ((match k with O => "" | S _ => String "." (digits_str w k) end) ++ X)) =
  Some (match lit (d1 * 10 ^ Z.of_nat k + w mod 10 ^ Z.of_nat k) (E - Z.of_nat k) with
        | Fin _ mm ee => Fin neg mm ee | y => y end).
Proof.
  intros Hd1 Hw HE HX. destruct (read_tail X E HX HE) as [Hex Htk].
  unfold read_decimal. rewrite take_digits_cons, digit_val_char by lia.
  replace (10 * 0 + d1) with d1 by lia.
  destruct k as [|k].
  - cbn [append]. rewrite Htk.
    assert (Hm : match X with String "." r => take_digits r d1 0 | _ => (d1, 0%nat, X) end = (d1, 0%nat, X))
      by (destruct HX as [[-> _]| ->]; reflexivity).
    rewrite Hm. cbn [Nat.add Nat.eqb]. rewrite Hex. replace (d1 =? 0) with false by lia.
    replace (d1 * 10 ^ Z.of_nat 0 + w mod 10 ^ Z.of_nat 0) with d1 by (cbn; rewrite Z.mod_1_r; lia).
    destruct (lit _ _); reflexivity.
  - cbn [append]. rewrite take_digits_stop by reflexivity. cbv beta iota.
    rewrite take_digits_str by lia. rewrite Htk. cbn [Nat.add Nat.eqb]. rewrite Hex.
    pose proof (Z.pow_pos_nonneg 10 (Z.of_nat (S k)) ltac:(lia) ltac:(lia)).
    pose proof (Z.mod_pos_bound w (10 ^ Z.of_nat (S k)) ltac:(lia)).
    replace (d1 * 10 ^ Z.of_nat (S k) + w mod 10 ^ Z.of_nat (S k) =? 0) with false by (symmetry; apply Z.eqb_neq; nia).
    destruct (lit _ _); reflexivity.
Qed.

(** The digits [fmt] keeps, times the [z] zeros it strips, are the 18
    digits [D]. *)
Lemma fmt_digits_value D z : 10 ^ 17 <= D < 10 ^ 18 -> (z <= 17)%nat -> D mod 10 ^ Z.of_nat z = 0 ->
  ((D / 10 ^ Z.of_nat 17) mod 10 * 10 ^ Z.of_nat (17 - z) + (D / 10 ^ Z.of_nat z) mod 10 ^ Z.of_nat (17 - z))
    * 10 ^ Z.of_nat z = D.
Proof.
  intros HD Hz Hm. set (k := (17 - z)%nat).
  pose proof (Z.pow_pos_nonneg 10 (Z.of_nat z) ltac:(lia) ltac:(lia)) as Pz.
  pose proof (Z.pow_pos_nonneg 10 (Z.of_nat k) ltac:(lia) ltac:(lia)) as Pk.
  assert (P : 10 ^ Z.of_nat 17 = 10 ^ Z.of_nat z * 10 ^ Z.of_nat k) by (rewrite <- Z.pow_add_r; [f_equal|..]; lia).
  pose proof (Z.div_mod D (10 ^ Z.of_nat z) ltac:(lia)) as E1. rewrite Hm, Z.add_0_r in E1.
  pose proof (Z.div_mod (D / 10 ^ Z.of_nat z) (10 ^ Z.of_nat k) ltac:(lia)) as E2.
  rewrite Z.div_div, <- P in E2 by lia.
  assert (Hq : 1 <= D / 10 ^ Z.of_nat 17 < 10).
  { change (10 ^ Z.of_nat 17) with (10 ^ 17).
    split; [apply Z.div_le_lower_bound|apply Z.div_lt_upper_bound]; lia. }
  rewrite (Z.mod_small (D / 10 ^ Z.of_nat 17) 10) by lia. lia.
Qed.

(** ** Rounding back *)

(** [n / d] within less than a half of [m] rounds to [m]. *)
Lemma round_half_even_near n d m : 0 < d -> 2 * Z.abs (n - m * d) < d -> round_half_even n d = m.
Proof.
  intros Hd H. unfold round_half_even. destruct (Z.leb_spec (m * d) n) as [Hge|Hlt].
  - assert (Hq : n / d = m) by (symmetry; apply (Z.div_unique_pos n d m (n - m * d)); lia).
    assert (Hr : n mod d = n - m * d) by (symmetry; apply (Z.mod_unique_pos n d m); lia).
    rewrite Hq, Hr. replace (Z.compare (2 * (n - m * d)) d) with Lt by (symmetry; apply Z.compare_lt_iff; lia).
    reflexivity.
  - assert (Hq : n / d = m - 1) by (symmetry; apply (Z.div_unique_pos n d (m - 1) (n - (m - 1) * d)); lia).
    assert (Hr : n mod d = n - (m - 1) * d) by (symmetry; apply (Z.mod_unique_pos n d (m - 1)); lia).
    rewrite Hq, Hr. replace (Z.compare (2 * (n - (m - 1) * d)) d) with Gt by (symmetry; apply Z.compare_gt_iff; lia).
    lia.
Qed.

(** The scaling of [round_q] keeps the ratio: [n' / d' = n / d / 2 ^ k]. *)
Lemma scale_ratio n d k S : 0 <= S -> 0 <= k + S -> 0 < d ->
  let '(n', d') := if 0 <=? k then (n, d * 2 ^ k) else (n * 2 ^ (- k), d) in
  n' * d * 2 ^ (k + S) = n * d' * 2 ^ S /\ 0 < d'.
Proof.
  intros HS HkS Hd. destruct (Z.leb_spec 0 k) as [Hk|Hk].
  - rewrite Z.pow_add_r by lia. pose proof (Z.pow_pos_nonneg 2 k ltac:(lia) Hk). split; [lia|nia].
  - replace S with (- k + (k + S)) at 2 by lia. rewrite (Z.pow_add_r 2 (- k) (k + S)) by lia. split; [lia|lia].
Qed.

(** The binade of a value within a quarter unit of [m * 2 ^ e]: its
    binary exponent is [e + 52], or [e + 51] when [m = 2^52] and the
    value lies just below. *)
Lemma log2_q_near n d m e : 1 <= n -> 1 <= d -> 2 ^ 52 <= m < 2 ^ 53 ->
  4 * Z.abs (n * 2 ^ Z.abs e - m * d * 2 ^ (e + Z.abs e)) < d * 2 ^ (e + Z.abs e) ->
  log2_q n d = e + 52 \/ (log2_q n d = e + 51 /\ m = 2 ^ 52).
Proof.
  intros Hn Hd Hm H. set (S := Z.abs e) in *. set (L := log2_q n d). set (T := Z.abs L + S + 2).
  pose proof (log2_q_spec n d T Hn Hd ltac:(lia) ltac:(unfold T, L; lia)) as [Lo Up]. fold L in Lo, Up.
  set (P := 2 ^ (e + T)). assert (PP : 0 < P) by (apply Z.pow_pos_nonneg; lia).
  assert (H' : 4 * Z.abs (n * 2 ^ T - m * d * P) < d * P).
  { assert (EP : 2 ^ (e + S) * 2 ^ (T - S) = P) by (unfold P; rewrite <- Z.pow_add_r by lia; f_equal; lia).
    assert (ET : 2 ^ S * 2 ^ (T - S) = 2 ^ T) by (rewrite <- Z.pow_add_r by lia; f_equal; lia).
    pose proof (Z.pow_pos_nonneg 2 (T - S) ltac:(lia) ltac:(lia)) as PTS.
    rewrite <- EP, <- ET.
    replace (n * (2 ^ S * 2 ^ (T - S)) - m * d * (2 ^ (e + S) * 2 ^ (T - S)))
      with ((n * 2 ^ S - m * d * 2 ^ (e + S)) * 2 ^ (T - S)) by ring.
    rewrite Z.abs_mul, (Z.abs_eq (2 ^ (T - S))) by lia. nia. }
  assert (Hpow : forall j, 0 <= j -> 2 ^ (e + j + T) = 2 ^ j * P)
    by (intros j Hj; unfold P; rewrite <- Z.pow_add_r by lia; f_equal; lia).
  assert (HA : (4 * m - 1) * d * P < 4 * (n * 2 ^ T)) by lia.
  assert (HB : 4 * (n * 2 ^ T) < (4 * m + 1) * d * P) by lia.
  destruct (Z.le_gt_cases L (e + 50)) as [Hl|Hl].
  { exfalso. assert (2 ^ (L + 1 + T) <= 2 ^ (e + 51 + T)) by (apply Z.pow_le_mono_r; lia).
    rewrite (Hpow 51) in * by lia. nia. }
  destruct (Z.le_gt_cases (e + 53) L) as [Hu|Hu].
  { exfalso. assert (2 ^ (e + 53 + T) <= 2 ^ (L + T)) by (apply Z.pow_le_mono_r; lia).
    rewrite (Hpow 53) in * by lia. nia. }
  destruct (Z.eq_dec L (e + 51)) as [HL|HL]; [right|left; lia]. split; [exact HL|].
  replace (L + 1 + T) with (e + 52 + T) in Up by lia. rewrite (Hpow 52) in Up by lia. nia.
Qed.

(** The scaled value of a near [n / d] is near [c * m] ([c] is 1, or 2
    one binade down). *)
Lemma scaled_near n d n' d' m e S c :
  0 < d -> 0 < d' -> 0 <= e + S -> 1 <= c <= 2 ->
  n' * d * 2 ^ (e + S) = c * n * d' * 2 ^ S ->
  4 * Z.abs (n * 2 ^ S - m * d * 2 ^ (e + S)) < d * 2 ^ (e + S) ->
  2 * Z.abs (n' - c * m * d') < d'.
Proof.
  intros Hd Hd' HeS Hc Hr H. set (Q := d * 2 ^ (e + S)) in *.
  assert (HQ : 0 < Q) by (unfold Q; pose proof (Z.pow_pos_nonneg 2 (e + S) ltac:(lia) HeS); nia).
  assert (Eq : (n' - c * m * d') * Q = c * d' * (n * 2 ^ S - m * d * 2 ^ (e + S))) by (unfold Q in *; nia).
  assert (EA : Z.abs (n' - c * m * d') * Q = c * d' * Z.abs (n * 2 ^ S - m * d * 2 ^ (e + S))).
  { rewrite <- (Z.abs_eq Q) at 1 by lia. rewrite <- Z.abs_mul, Eq, !Z.abs_mul, (Z.abs_eq c), (Z.abs_eq d'); lia. }
  set (A := Z.abs (n' - c * m * d')) in *. set (X := Z.abs (n * 2 ^ S - m * d * 2 ^ (e + S))) in *.
  assert (HX : 0 <= X) by apply Z.abs_nonneg.
  assert (E1 : 2 * A * Q = 2 * (c * (d' * X))) by (rewrite <- Z.mul_assoc, EA; ring).
  assert (Y : 0 <= d' * X) by (apply Z.mul_nonneg_nonneg; lia).
  assert (E2 : c * (d' * X) <= 2 * (d' * X)) by (apply Z.mul_le_mono_nonneg_r; lia).
  assert (E3 : d' * (4 * X) < d' * Q) by (apply Z.mul_lt_mono_pos_l; lia).
  apply (Z.mul_lt_mono_pos_r Q); lia.
Qed.

(** A value within a quarter unit in the last place of the normal
    double [m * 2 ^ e] rounds to it. *)
Lemma round_q_near n d m e : 1 <= n -> 1 <= d -> 2 ^ 52 <= m < 2 ^ 53 ->
  4 * Z.abs (n * 2 ^ Z.abs e - m * d * 2 ^ (e + Z.abs e)) < d * 2 ^ (e + Z.abs e) ->
  round_q n d = Fin false m e.
Proof.
  intros Hn Hd Hm H. pose proof (log2_q_near n d m e Hn Hd Hm H) as HL. set (S := Z.abs e) in *.
  unfold round_q. cbv zeta. destruct HL as [HL|[HL ->]]; rewrite HL.
  - replace (e + 52 - 52) with e by lia.
    pose proof (scale_ratio n d e S ltac:(lia) ltac:(lia) ltac:(lia)) as R.
    destruct (if 0 <=? e then _ else _) as [n' d']. destruct R as [Hr Hd'].
    rewrite (round_half_even_near n' d' m Hd').
    + replace (m =? 2 ^ 53) with false by lia. reflexivity.
    + replace (m * d') with (1 * m * d') by lia.
      apply (scaled_near n d n' d' m e S 1); lia.
  - replace (e + 51 - 52) with (e - 1) by lia.
    pose proof (scale_ratio n d (e - 1) (S + 1) ltac:(lia) ltac:(lia) ltac:(lia)) as R.
    destruct (if 0 <=? e - 1 then _ else _) as [n' d']. destruct R as [Hr Hd'].
    rewrite (round_half_even_near n' d' (2 ^ 53) Hd').
    + rewrite Z.eqb_refl. f_equal. lia.
    + replace (2 ^ 53 * d') with (2 * 2 ^ 52 * d') by reflexivity.
      apply (scaled_near n d n' d' (2 ^ 52) e S 2); try lia.
      replace (e - 1 + (S + 1)) with (e + S) in Hr by lia. rewrite Hr, Z.pow_add_r by lia. ring.
Qed.

(** ** The printed digits are close enough, in [Q] *)

Section Near.
Local Open Scope Q_scope.

Lemma Qpow_pos (b : Z) (k : Z) : (0 < b)%Z -> 0 < inject_Z b ^ k.
Proof. intros Hb. apply Qpower_0_lt. change 0 with (inject_Z 0). rewrite <- Zlt_Qlt. exact Hb. Qed.

Lemma Qpow_nz (b : Z) (k : Z) : (0 < b)%Z -> ~ inject_Z b ^ k == 0.
Proof. intros Hb. apply Qnot_eq_sym, Qlt_not_eq, Qpow_pos, Hb. Qed.

Lemma inject_pow (b k : Z) : (0 <= k)%Z -> inject_Z (b ^ k) == inject_Z b ^ k.
Proof. apply Zpower_Qpower. Qed.

(** A fraction scaled by [b ^ k] the way [round_q], [sci] and [frac_of] scale. *)
Lemma scaled_val (n d b k : Z) : (0 < b)%Z -> (0 < d)%Z ->
  let '(n', d') := if (0 <=? k)%Z then (n * b ^ k, d)%Z else (n, d * b ^ (- k))%Z in
  inject_Z n' / inject_Z d' == inject_Z n / inject_Z d * inject_Z b ^ k.
Proof.
  intros Hb Hd. assert (Hd' : ~ inject_Z d == 0).
  { change 0 with (inject_Z 0). rewrite inject_Z_injective. lia. }
  destruct (Z.leb_spec 0 k) as [H0|H0].
  - rewrite inject_Z_mult, inject_pow by lia. field. exact Hd'.
  - rewrite inject_Z_mult, inject_pow by lia. remember (- k)%Z as j. replace k with (- j)%Z by lia.
    rewrite Qpower_opp. field. split; [apply Qpow_nz, Hb|exact Hd'].
Qed.

Lemma Qabs_inject (z : Z) : Qabs (inject_Z z) == inject_Z (Z.abs z).
Proof. reflexivity. Qed.

Lemma inject_pos (z : Z) : (0 < z)%Z -> 0 < inject_Z z.
Proof. intros H. change 0 with (inject_Z 0). rewrite <- Zlt_Qlt. exact H. Qed.

Lemma inject_nz (z : Z) : (0 < z)%Z -> ~ inject_Z z == 0.
Proof. intros H. apply Qnot_eq_sym, Qlt_not_eq, inject_pos, H. Qed.

Lemma inject_Z_sub a b : inject_Z (a - b) == inject_Z a - inject_Z b.
Proof. unfold Qminus. rewrite <- inject_Z_opp, <- inject_Z_plus. reflexivity. Qed.

(** [frac_of m e] is the fraction [m * 2 ^ e]. *)
Lemma frac_of_val m e n d : frac_of m e = (n, d) -> inject_Z n / inject_Z d == inject_Z m * inject_Z 2 ^ e.
Proof.
  unfold frac_of. intros Hf. destruct (Z.leb_spec 0 e) as [H0|H0]; injection Hf as <- <-.
  - rewrite inject_Z_mult, inject_pow by lia. field.
  - rewrite inject_pow by lia. remember (- e)%Z as j. replace e with (- j)%Z by lia.
    rewrite Qpower_opp. field. apply Qpow_nz. lia.
Qed.

(** [lit d x] rounds the fraction [d * 10 ^ x]. *)
Lemma lit_val dg x : (1 <= dg)%Z -> exists N Dn, lit dg x = round_q N Dn /\ (1 <= N)%Z /\ (1 <= Dn)%Z /\
  inject_Z N / inject_Z Dn == inject_Z dg * inject_Z 10 ^ x.
Proof.
  intros Hd. unfold lit. destruct (Z.leb_spec 0 x) as [H0|H0].
  - exists (dg * 10 ^ x)%Z, 1%Z. split; [reflexivity|]. pose proof (Z.pow_pos_nonneg 10 x ltac:(lia) H0).
    split; [nia|]. split; [lia|]. rewrite inject_Z_mult, inject_pow by lia. field.
  - exists dg, (10 ^ (- x))%Z. split; [reflexivity|]. pose proof (Z.pow_pos_nonneg 10 (- x) ltac:(lia) ltac:(lia)).
    split; [lia|]. split; [lia|]. rewrite inject_pow by lia. remember (- x)%Z as j. replace x with (- j)%Z by lia.
    rewrite Qpower_opp. field. apply Qpow_nz. lia.
Qed.

(** The decimal exponent bounds the value from below. *)
Lemma dec_exp_val n d : (1 <= n)%Z -> (1 <= d)%Z -> inject_Z 10 ^ dec_exp n d <= inject_Z n / inject_Z d.
Proof.
  intros Hn Hd. set (E := dec_exp n d). set (M := Z.abs E).
  destruct (dec_exp_spec n d M Hn Hd ltac:(lia) ltac:(unfold M; lia)) as [H _]. fold E in H.
  rewrite Zle_Qle, !inject_Z_mult, !inject_pow in H by lia.
  rewrite Qpower_plus in H by (apply inject_nz; lia).
  apply (Qmult_le_r _ _ (inject_Z d * inject_Z 10 ^ M)).
  { apply Qmult_lt_0_compat; [apply inject_pos; lia|apply Qpow_pos; lia]. }
  setoid_replace (inject_Z n / inject_Z d * (inject_Z d * inject_Z 10 ^ M)) with (inject_Z n * inject_Z 10 ^ M)
    using relation Qeq by (field; apply inject_nz; lia).
  setoid_replace (inject_Z 10 ^ E * (inject_Z d * inject_Z 10 ^ M)) with (inject_Z d * (inject_Z 10 ^ E * inject_Z 10 ^ M))
    using relation Qeq by ring.
  exact H.
Qed.

(** ... and from above by the next power. *)
Lemma dec_exp_val_up n d : (1 <= n)%Z -> (1 <= d)%Z -> inject_Z n / inject_Z d < inject_Z 10 ^ (dec_exp n d + 1).
Proof.
  intros Hn Hd. set (E := dec_exp n d). set (M := Z.abs E).
  destruct (dec_exp_spec n d M Hn Hd ltac:(lia) ltac:(unfold M; lia)) as [_ H]. fold E in H.
  rewrite Zlt_Qlt, !inject_Z_mult, !inject_pow in H by lia.
  rewrite Qpower_plus in H by (apply inject_nz; lia).
  apply (Qmult_lt_r _ _ (inject_Z d * inject_Z 10 ^ M)).
  { apply Qmult_lt_0_compat; [apply inject_pos; lia|apply Qpow_pos; lia]. }
  setoid_replace (inject_Z n / inject_Z d * (inject_Z d * inject_Z 10 ^ M)) with (inject_Z n * inject_Z 10 ^ M)
    using relation Qeq by (field; apply inject_nz; lia).
  setoid_replace (inject_Z 10 ^ (E + 1) * (inject_Z d * inject_Z 10 ^ M))
    with (inject_Z d * (inject_Z 10 ^ (E + 1) * inject_Z 10 ^ M)) using relation Qeq by ring.
  exact H.
Qed.

(** [sci p] rounds [n / d] scaled to [p] digits: the result [D * 10 ^ (E
    - p + 1)] is [R * t] with [R] within a half of [n / d / t], where
    [t = 10 ^ (dec_exp n d - p + 1)]. *)
Lemma sci_near p n d D E : (1 <= n)%Z -> (1 <= d)%Z -> (1 <= p)%Z -> sci p n d = (D, E) ->
  exists R : Q,
    Qabs (R - inject_Z n / inject_Z d / inject_Z 10 ^ (dec_exp n d - (p - 1))) <= 1 # 2 /\
    inject_Z D * inject_Z 10 ^ (E - (p - 1)) == R * inject_Z 10 ^ (dec_exp n d - (p - 1)).
Proof.
  intros Hn Hd Hp. unfold sci. cbv zeta. set (E0 := dec_exp n d).
  pose proof (scaled_val n d 10 (p - 1 - E0) ltac:(lia) ltac:(lia)) as V.
  destruct (if (0 <=? p - 1 - E0)%Z then _ else _) as [n' d'] eqn:Hnd.
  assert (Hd' : (0 < d')%Z).
  { destruct (Z.leb_spec 0 (p - 1 - E0)); injection Hnd as <- <-; [lia|].
    pose proof (Z.pow_pos_nonneg 10 (- (p - 1 - E0)) ltac:(lia) ltac:(lia)). nia. }
  set (R := round_half_even n' d'). pose proof (round_half_even_error n' d' Hd') as Err. fold R in Err.
  assert (HR : Qabs (inject_Z R - inject_Z n / inject_Z d / inject_Z 10 ^ (E0 - (p - 1))) <= 1 # 2).
  { setoid_replace (inject_Z n / inject_Z d / inject_Z 10 ^ (E0 - (p - 1))) with (inject_Z n' / inject_Z d')
      using relation Qeq.
    2: { rewrite V. replace (E0 - (p - 1))%Z with (- (p - 1 - E0))%Z by lia. rewrite Qpower_opp.
         field. split; [apply inject_nz; lia|apply Qpow_nz; lia]. }
    setoid_replace (inject_Z R - inject_Z n' / inject_Z d') with (inject_Z (R * d' - n') / inject_Z d')
      using relation Qeq by (rewrite inject_Z_sub, inject_Z_mult; field; apply inject_nz; lia).
    unfold Qdiv. rewrite Qabs_Qmult, Qabs_inject, (Qabs_pos (/ inject_Z d')) by (apply Qinv_le_0_compat, Qlt_le_weak, inject_pos; lia).
    apply (Qmult_le_r _ _ (inject_Z d')); [apply inject_pos; lia|].
    setoid_replace (inject_Z (Z.abs (R * d' - n')) * / inject_Z d' * inject_Z d') with (inject_Z (Z.abs (R * d' - n')))
      using relation Qeq by (field; apply inject_nz; lia).
    apply (Qmult_le_l _ _ 2); [reflexivity|].
    setoid_replace (2 * ((1 # 2) * inject_Z d')) with (inject_Z d') using relation Qeq by ring.
    change 2 with (inject_Z 2). rewrite <- inject_Z_mult, <- Zle_Qle. exact Err. }
  destruct (Z.eqb_spec R (10 ^ p)) as [HRp|HRp]; intros [= <- <-]; exists (inject_Z R); split; try exact HR.
  - rewrite HRp, !inject_pow by lia. rewrite <- !Qpower_plus by (apply inject_nz; lia). f_equiv. lia.
  - reflexivity.
Qed.

(** The arithmetic of the bound: a value [w] within half of [t] of
    [v], where [t] times at least [10^17] stays below [v < 2^53 u], is
    within a quarter of [u]. *)
Lemma near_abstract (v w R t u K : Q) : 0 < t -> 0 < u ->
  Qabs (R - v / t) <= 1 # 2 -> w == R * t -> t * K <= v -> v < inject_Z (2 ^ 53) * u ->
  inject_Z (10 ^ 17) <= K -> 4 * Qabs (w - v) < u.
Proof.
  intros Ht Hu HR Hw HK Hv H17.
  assert (E : w - v == t * (R - v / t)) by (rewrite Hw; field; apply Qnot_eq_sym, Qlt_not_eq, Ht).
  rewrite E, Qabs_Qmult, (Qabs_pos t) by lra.
  assert (A : t * Qabs (R - v / t) <= t * (1 # 2)) by (apply Qmult_le_l; [exact Ht|exact HR]).
  assert (B : t * inject_Z (10 ^ 17) <= t * K) by (apply Qmult_le_l; [exact Ht|exact H17]).
  change (inject_Z (2 ^ 53)) with (9007199254740992 # 1) in Hv.
  change (inject_Z (10 ^ 17)) with (100000000000000000 # 1) in B.
  lra.
Qed.

(** Back to integers: the hypothesis of [round_q_near]. *)
Lemma near_to_Z N Dn m e : (1 <= Dn)%Z ->
  4 * Qabs (inject_Z N / inject_Z Dn - inject_Z m * inject_Z 2 ^ e) < inject_Z 2 ^ e ->
  (4 * Z.abs (N * 2 ^ Z.abs e - m * Dn * 2 ^ (e + Z.abs e)) < Dn * 2 ^ (e + Z.abs e))%Z.
Proof.
  intros HD H. set (S := Z.abs e). assert (HS : (0 <= S)%Z) by lia.
  assert (P2 : ~ inject_Z 2 == 0) by (apply inject_nz; lia).
  assert (PS : 0 < inject_Z 2 ^ S) by (apply Qpow_pos; lia).
  assert (PD : 0 < inject_Z Dn) by (apply inject_pos; lia).
  rewrite Zlt_Qlt, inject_Z_mult, <- Qabs_inject.
  rewrite inject_Z_sub, !inject_Z_mult, !inject_pow by lia. rewrite Qpower_plus by exact P2.
  setoid_replace (inject_Z N * inject_Z 2 ^ S - inject_Z m * inject_Z Dn * (inject_Z 2 ^ e * inject_Z 2 ^ S))
    with ((inject_Z N / inject_Z Dn - inject_Z m * inject_Z 2 ^ e) * (inject_Z Dn * inject_Z 2 ^ S))
    using relation Qeq by (field; apply Qnot_eq_sym, Qlt_not_eq, PD).
  rewrite Qabs_Qmult, (Qabs_pos (inject_Z Dn * inject_Z 2 ^ S)) by (apply Qlt_le_weak, Qmult_lt_0_compat; assumption).
  setoid_replace (inject_Z Dn * (inject_Z 2 ^ e * inject_Z 2 ^ S))
    with (inject_Z 2 ^ e * (inject_Z Dn * inject_Z 2 ^ S)) using relation Qeq by ring.
  change (inject_Z 4) with 4. rewrite Qmult_assoc.
  apply Qmult_lt_compat_r; [apply Qmult_lt_0_compat; assumption|exact H].
Qed.

Lemma sci_exp p n d D E : sci p n d = (D, E) -> E = dec_exp n d \/ E = (dec_exp n d + 1)%Z.
Proof.
  unfold sci. cbv zeta. destruct (if (0 <=? _)%Z then _ else _) as [n' d'].
  destruct (round_half_even n' d' =? 10 ^ p)%Z; intros [= _ <-]; [right|left]; reflexivity.
Qed.

(** A normal double [m * 2 ^ e] below [2^1023] lies in [[2^-1022, 2^1023)]. *)
Lemma normal_range m e : (2 ^ 52 <= m < 2 ^ 53)%Z -> (-1074 <= e <= 970)%Z ->
  inject_Z 2 ^ (-1022) <= inject_Z m * inject_Z 2 ^ e /\ inject_Z m * inject_Z 2 ^ e < inject_Z 2 ^ 1023.
Proof.
  intros Hm He. assert (P2 : ~ inject_Z 2 == 0) by (apply inject_nz; lia).
  assert (Q1 : 1 <= inject_Z 2) by (unfold Qle; cbn; lia).
  assert (Pe : 0 < inject_Z 2 ^ e) by (apply Qpow_pos; lia).
  split.
  - setoid_replace (inject_Z 2 ^ (-1022)) with (inject_Z 2 ^ 52 * inject_Z 2 ^ (-1074)) using relation Qeq
      by (rewrite <- Qpower_plus by exact P2; reflexivity).
    apply Qmult_le_compat_nonneg.
    + split; [apply Qpower_0_le; unfold Qle; cbn; lia|]. rewrite <- inject_pow, <- Zle_Qle by lia. lia.
    + split; [apply Qpower_0_le; unfold Qle; cbn; lia|]. apply Qpower_le_compat_l; [lia|exact Q1].
  - setoid_replace (inject_Z 2 ^ 1023) with (inject_Z 2 ^ 53 * inject_Z 2 ^ 970) using relation Qeq
      by (rewrite <- Qpower_plus by exact P2; reflexivity).
    apply Qle_lt_trans with (inject_Z m * inject_Z 2 ^ 970).
    + apply Qmult_le_l; [apply inject_pos; lia|]. apply Qpower_le_compat_l; [lia|exact Q1].
    + apply Qmult_lt_compat_r; [apply Qpow_pos; lia|]. rewrite <- inject_pow, <- Zlt_Qlt by lia. lia.
Qed.

(** The decimal exponent of a normal double has at most three digits. *)
Lemma sci_exp_range p n d m e D E : frac_of m e = (n, d) -> (2 ^ 52 <= m < 2 ^ 53)%Z -> (-1074 <= e <= 970)%Z ->
  (1 <= n)%Z -> (1 <= d)%Z -> sci p n d = (D, E) -> (Z.abs E < 1000)%Z.
Proof.
  intros Hf Hm He Hn Hd Hs. pose proof (frac_of_val m e n d Hf) as V.
  destruct (normal_range m e Hm He) as [Lo Up]. rewrite <- V in Lo, Up.
  pose proof (dec_exp_val n d Hn Hd) as L10. pose proof (dec_exp_val_up n d Hn Hd) as U10.
  set (E0 := dec_exp n d) in *.
  assert (Q10 : 1 <= inject_Z 10) by (unfold Qle; cbn; lia).
  assert (A : (E0 < 998)%Z).
  { destruct (Z.lt_ge_cases E0 998) as [|Hge]; [done|exfalso].
    assert (inject_Z 10 ^ 998 <= inject_Z 10 ^ E0) by (apply Qpower_le_compat_l; [exact Hge|exact Q10]).
    assert (Hc : inject_Z 2 ^ 1023 < inject_Z 10 ^ 998) by (vm_compute; reflexivity). lra. }
  assert (B : (-999 < E0)%Z).
  { destruct (Z.lt_ge_cases (-999) E0) as [|Hle]; [done|exfalso].
    assert (inject_Z 10 ^ (E0 + 1) <= inject_Z 10 ^ (-998)) by (apply Qpower_le_compat_l; [lia|exact Q10]).
    assert (Hc : inject_Z 10 ^ (-998) < inject_Z 2 ^ (-1022)) by (vm_compute; reflexivity). lra. }
  destruct (sci_exp p n d D E Hs) as [->| ->]; lia.
Qed.

End Near.

(** ** The round trip *)

(** A decimal [V * 10 ^ x] equal to the [P >= 18] digits [sci P] gives a
    normal double reads back as that double, whatever sign it is given. *)
Lemma read_back neg m e n d P D E V x :
  2 ^ 52 <= m < 2 ^ 53 -> -1074 <= e <= 970 -> frac_of m e = (n, d) ->
  18 <= P -> sci P n d = (D, E) -> 1 <= V ->
  Qeq (inject_Z V * inject_Z 10 ^ x)%Q (inject_Z D * inject_Z 10 ^ (E - (P - 1)))%Q ->
  match lit V x with Fin _ mm ee => Fin neg mm ee | y => y end = Fin neg m e.
Proof.
  intros Hm He Hf HP Hs HV HVD.
  pose proof (Fmt.frac_of_pos m e ltac:(lia)) as [Hn Hd]. rewrite Hf in Hn, Hd. cbn [fst snd] in Hn, Hd.
  pose proof (sci_digits P n d D E ltac:(lia) Hn Hd Hs) as HD.
  pose proof (Z.pow_pos_nonneg 10 (P - 1) ltac:(lia) ltac:(lia)).
  destruct (lit_val V x HV) as (N & Dn & Hlit & HN & HDn & Hw).
  rewrite Hlit, (round_q_near N Dn m e HN HDn Hm); [reflexivity|].
  apply near_to_Z; [exact HDn|].
  destruct (sci_near P n d D E Hn Hd ltac:(lia) Hs) as (R & HR & HDR).
  rewrite <- (frac_of_val m e n d Hf).
  apply (near_abstract _ _ R (inject_Z 10 ^ (dec_exp n d - (P - 1))) _ (inject_Z 10 ^ (P - 1))).
  - apply Qpow_pos. lia.
  - apply Qpow_pos. lia.
  - exact HR.
  - rewrite Hw, HVD. exact HDR.
  - rewrite <- Qpower_plus by (apply inject_nz; lia).
    replace (dec_exp n d - (P - 1) + (P - 1)) with (dec_exp n d) by lia.
    apply dec_exp_val; assumption.
  - rewrite (frac_of_val m e n d Hf). apply Qmult_lt_compat_r; [apply Qpow_pos; lia|].
    rewrite <- Zlt_Qlt. lia.
  - rewrite <- inject_pow, <- Zle_Qle by lia. apply Z.pow_le_mono_r; lia.
Qed.

(** Reading back a printed double: for every normal double [x] below
    [2^1023] and every precision [prec >= 17], [float("%.<prec>e" % x)]
    is [x] itself, sign included.  So the [%.50e] literals of the probit
    tables denote exactly the doubles scipy computed. *)
Lemma pct_e_roundtrip prec x :
  (17 <= prec)%nat -> normal x = true -> py_float (pct_e prec x) = Some x.
Proof.
  intros Hp Hx. destruct (normal_Fin x Hx) as (neg & m & e & -> & Hm & He).
  destruct prec as [|p]; [lia|].
  destruct (frac_of m e) as [n d] eqn:Hf.
  pose proof (Fmt.frac_of_pos m e ltac:(lia)) as [Hn Hd]. rewrite Hf in Hn, Hd. cbn [fst snd] in Hn, Hd.
  destruct (sci (Z.of_nat (S p) + 1) n d) as [D E] eqn:Hs.
  pose proof (sci_exp_range _ n d m e D E Hf Hm He Hn Hd Hs) as HE.
  pose proof (sci_digits (Z.of_nat (S p) + 1) n d D E ltac:(lia) Hn Hd Hs) as HD.
  rewrite (py_float_pct_e p neg m e n d D E ltac:(lia) Hf Hs HE). f_equal.
  apply (read_back neg m e n d (Z.of_nat (S p) + 1) D E); try assumption; [lia|lia|].
  replace (Z.of_nat (S p) + 1 - 1) with (Z.of_nat (S p)) by lia. reflexivity.
Qed.


(** ** The text of ["%.<p>e"] has no comma *)

Definition not_comma (c : ascii) : bool := negb (Ascii.eqb c ",").

Lemma digit_not_comma c : Fmt.is_digit c = true -> not_comma c = true.
Proof. revert c. ascii_cases. Qed.

Lemma exp_char_not_comma c : Fmt.exp_char c = true -> not_comma c = true.
Proof. revert c. ascii_cases. Qed.

(** A reader that stops at the first comma, as a Java tokenizer does at
    [","], reads all of ["%.<p>e" % x]. *)
Lemma pct_e_no_comma p x : normal x = true -> Fmt.all_chars not_comma (pct_e (S p) x) = true.
Proof.
  intros Hx. destruct (normal_Fin x Hx) as (neg & m & e & -> & Hm & He).
  destruct (frac_of m e) as [n d] eqn:Hf. destruct (sci (Z.of_nat (S p) + 1) n d) as [D E] eqn:Hs.
  rewrite (pct_e_text p neg m e n d D E ltac:(lia) Hf Hs).
  rewrite Fmt.all_chars_app. apply andb_true_intro. split; [by destruct neg|].
  cbn [Fmt.all_chars]. rewrite Fmt.all_chars_app. cbn [Fmt.all_chars].
  rewrite (digit_not_comma _ (Fmt.digit_char_digit _ ltac:(apply Z.mod_pos_bound; lia))).
  rewrite (Fmt.all_chars_impl _ _ _ digit_not_comma (Fmt.digits_str_digits D (S p))).
  rewrite (Fmt.all_chars_impl _ _ _ exp_char_not_comma (Fmt.exp_str_chars E)). reflexivity.
Qed.

(** [float()] reads what [fmt] prints for a positive double as a decimal
    [V * 10 ^ x] equal to its 18 digits [D * 10 ^ (E - 17)]. *)
Lemma py_float_fmt neg m e n d D E : 1 <= m -> frac_of m e = (n, d) ->
  sci 18 n d = (D, E) -> Z.abs E < 1000 ->
  exists V x, 1 <= V /\ Qeq (inject_Z V * inject_Z 10 ^ x)%Q (inject_Z D * inject_Z 10 ^ (E - (18 - 1)))%Q /\
    py_float (Fmt.fmt_spec (Fin neg m e)) = Some (match lit V x with Fin _ mm ee => Fin neg mm ee | y => y end).
Proof.
  intros Hm Hf Hs HE. pose proof (Fmt.frac_of_pos m e Hm) as [Hn Hd]. rewrite Hf in Hn, Hd. cbn [fst snd] in Hn, Hd.
  pose proof (sci18_bounds n d D E Hn Hd Hs) as HD.
  destruct (lead_and_rest D 17 HD) as [Hsum Hd1].
  destruct (strip0_digits D 17 ltac:(lia)) as (z & Hz & Hst & Hmod).
  pose proof (fmt_digits_value D z HD Hz Hmod) as HV.
  pose proof (Fmt.fmt_spec_visible (Fin neg m e)) as Hv.
  unfold Fmt.fmt_spec in Hv |- *. replace (m =? 0) with false in Hv |- * by lia. rewrite Hf, Hs in Hv |- *.
  rewrite Fmt.digits_str_front in Hv |- *. cbv beta iota in Hv |- *.
  rewrite Hst, point_digits in Hv |- *.
  rewrite py_float_digit by (exact Hd1 || exact Hv).
  set (d1 := (D / 10 ^ Z.of_nat 17) mod 10) in *. set (k := (17 - z)%nat) in *.
  set (w := D / 10 ^ Z.of_nat z).
  exists (d1 * 10 ^ Z.of_nat k + w mod 10 ^ Z.of_nat k), (E - Z.of_nat k).
  pose proof (Z.pow_pos_nonneg 10 (Z.of_nat k) ltac:(lia) ltac:(lia)).
  pose proof (Z.pow_pos_nonneg 10 (Z.of_nat z) ltac:(lia) ltac:(lia)).
  assert (Hw : 0 <= w) by (apply Z.div_pos; lia).
  pose proof (Z.mod_pos_bound w (10 ^ Z.of_nat k) ltac:(lia)).
  assert (Hd1' : 1 <= d1).
  { pose proof (Z.mod_pos_bound D (10 ^ Z.of_nat 17) ltac:(lia)).
    change (10 ^ Z.of_nat 17) with (10 ^ 17) in *. nia. }
  split; [nia|]. split.
  - rewrite <- HV. rewrite inject_Z_mult, inject_pow by lia. rewrite <- Qmult_assoc, <- Qpower_plus by (apply inject_nz; lia).
    replace (Z.of_nat z + (E - (18 - 1))) with (E - Z.of_nat k) by lia. reflexivity.
  - apply read_fmt_body; [lia|exact Hw|exact HE|].
    destruct (Z.eqb_spec E 0) as [->|]; [left; split; reflexivity|right; reflexivity].
Qed.

(** [float()] reads back what [fmt] prints for a normal double. *)
Lemma fmt_reads_back x : normal x = true -> py_float (Fmt.fmt (Fmt.AFloat x)) = Some x.
Proof.
  intros Hx. destruct (normal_Fin x Hx) as (neg & m & e & -> & Hm & He).
  unfold Fmt.fmt. rewrite Fmt.fmt_pct_e17.
  destruct (frac_of m e) as [n d] eqn:Hf.
  pose proof (Fmt.frac_of_pos m e ltac:(lia)) as [Hn Hd]. rewrite Hf in Hn, Hd. cbn [fst snd] in Hn, Hd.
  destruct (sci 18 n d) as [D E] eqn:Hs.
  pose proof (sci_exp_range 18 n d m e D E Hf Hm He Hn Hd Hs) as HE.
  destruct (py_float_fmt neg m e n d D E ltac:(lia) Hf Hs HE) as (V & y & HV & HQ & ->).
  f_equal. exact (read_back neg m e n d 18 D E V y Hm He Hf ltac:(lia) Hs HV HQ).
Qed.

(** C14: Reading back a fixture value: for every normal double [x] below
    [2^1023], Python's [float()] of the text [fmt] prints for [x] (the
    ["%.17e"] digits with the trailing zeros, a bare point and a [+00]
    exponent removed) is [x] itself, sign included.  The trimming loses
    nothing: the Java tests read exactly the doubles scipy and R were
    evaluated at. *)
Theorem fmt_roundtrip x : normal x = true -> py_float (Fmt.fmt (Fmt.AFloat x)) = Some x.
Proof. exact (fmt_reads_back x). Qed.

Lemma fmt_roundtrip_witness :
  normal (Fin true 7205759403792794 (-56)) = true /\
  py_float (Fmt.fmt (Fmt.AFloat (Fin true 7205759403792794 (-56)))) = Some (Fin true 7205759403792794 (-56)).
Proof. split; [reflexivity|]. apply fmt_roundtrip. reflexivity. Defined.

End Roundtrip.
