(* ===== verification/PyPrint.v ===== *)
(** * The Python 2 [print] statement

    The generator scripts write their records with [print >>f, x,] (an
    item, no newline) and [print >>f] (the newline).  CPython 2.7 keeps a
    [softspace] flag on the file object ([PRINT_ITEM_TO] and
    [PRINT_NEWLINE_TO] in [ceval.c]): an item is preceded by a space when
    the flag is set; after a string item the flag is set unless the string
    ends with a whitespace character other than the space; the newline
    clears it.  A [stream] is the text written to one file object and its
    flag.  [print_line_text] shows that a record printed item by item is
    the items joined by spaces, with a newline. *)

From Stdlib Require Import String Ascii Lia.
From stdpp Require Import base list.
From S2P Require Import Prelude.

Open Scope string_scope.

Module Print.

Record stream := Stream {
  st_text : string;
  st_soft : bool
}.

Definition empty_stream : stream := Stream "" false.

Fixpoint last_char (s : string) : option ascii :=
  match s with
  | EmptyString => None
  | String c EmptyString => Some c
  | String _ s' => last_char s'
  end.

(** The flag after writing a string item: set unless the item ends with a
    whitespace character that is not a space. *)
Definition soft_after (s : string) : bool :=
  match last_char s with
  | None => true
  | Some c => negb (Py.is_space c) || Ascii.eqb c " "
  end.

(** [print >>f, s,] *)
Definition print_item (f : stream) (s : string) : stream :=
  Stream (st_text f ++ (if st_soft f then " " else "") ++ s) (soft_after s).

(** [print >>f] *)
Definition print_nl (f : stream) : stream :=
  Stream (st_text f ++ String "010" "") false.

(** A record as the scripts print it: its items, then the newline. *)
Definition print_items (f : stream) (items : list string) : stream :=
  fold_left print_item items f.

Definition print_line (f : stream) (items : list string) : stream :=
  print_nl (print_items f items).

(** Items that keep the flag set: the ones the scripts print. *)
Definition keeps_soft (s : string) : Prop := soft_after s = true.

Lemma last_char_None s : last_char s = None -> s = "".
Proof.
  induction s as [|c s IH]; [done|]. destruct s as [|c' s]; cbn; [discriminate|].
  intros H. apply IH in H. discriminate.
Qed.

Lemma last_char_cons c s : s <> "" -> last_char (String c s) = last_char s.
Proof. by destruct s. Qed.

Lemma last_char_app a b :
  last_char (a ++ b) = match last_char b with Some c => Some c | None => last_char a end.
Proof.
  destruct (last_char b) as [c|] eqn:Hb.
  - induction a as [|c' a IH]; [exact Hb|]. cbn [append]. rewrite last_char_cons; [exact IH|].
    intros H. apply append_empty_inv_r in H. subst. discriminate.
  - apply last_char_None in Hb. subst. by rewrite append_empty_r.
Qed.

(** The flag after [a + b] is the flag after [b], or after [a] if [b] is empty. *)
Lemma keeps_soft_app a b : keeps_soft a -> keeps_soft b -> keeps_soft (a ++ b).
Proof.
  unfold keeps_soft, soft_after. rewrite last_char_app.
  destruct (last_char b); auto.
Qed.

Lemma print_items_text f items :
  Forall keeps_soft items -> st_soft f = true ->
  print_items f items =
  Stream (st_text f ++ String.concat "" (map (fun s => " " ++ s) items))
         (match items with [] => st_soft f | _ => true end).
Proof.
  revert f. induction items as [|s items IH]; intros f Hk Hs.
  - destruct f; cbn in *. by rewrite append_empty_r.
  - inversion Hk as [|? ? Hs1 Hk']; subst. cbn [print_items fold_left].
    fold (print_items (print_item f s) items). rewrite IH by (auto; cbn; exact Hs1).
    cbn. rewrite Hs, Hs1. f_equal; [|by destruct items].
    rewrite append_assoc_str. f_equal.
    destruct items; cbn; [by rewrite append_empty_r | reflexivity].
Qed.

Lemma concat_empty_cons x l : String.concat "" (x :: l) = (x ++ String.concat "" l)%string.
Proof. destruct l; cbn; [by rewrite append_empty_r | reflexivity]. Qed.

Lemma join_spaces items s :
  (s ++ String.concat "" (map (fun x => " " ++ x) items))%string = String.concat " " (s :: items).
Proof.
  revert s. induction items as [|t items IH]; intros s; [cbn; apply append_empty_r|].
  cbn [map]. rewrite concat_empty_cons.
  change (String.concat " " (s :: t :: items))
    with (s ++ " " ++ String.concat " " (t :: items))%string.
  rewrite <- IH. reflexivity.
Qed.

(** A record [print >>f, a,] ... [print >>f] written on a fresh line
    (flag clear) appends the items joined by single spaces and a newline,
    and leaves the flag clear. *)
Lemma print_line_text f s items :
  st_soft f = false -> Forall keeps_soft (s :: items) ->
  print_line f (s :: items) =
  Stream (st_text f ++ String.concat " " (s :: items) ++ String "010" "") false.
Proof.
  intros Hs Hk. inversion Hk as [|? ? Hs1 Hk']; subst.
  unfold print_line. cbn [print_items fold_left]. fold (print_items (print_item f s) items).
  rewrite print_items_text by (auto; cbn; exact Hs1).
  rewrite <- join_spaces. unfold print_nl, print_item. cbn [st_text st_soft].
  rewrite Hs. f_equal. rewrite !append_assoc_str. reflexivity.
Qed.

(** [print >>f, s] on a fresh line: [s] and a newline, whatever [s]. *)
Lemma print_line_one f s :
  st_soft f = false -> print_line f [s] = Stream (st_text f ++ s ++ String "010" "") false.
Proof.
  intros Hs. unfold print_line, print_items, print_nl, print_item. cbn [fold_left st_text st_soft].
  rewrite Hs. cbn [append]. by rewrite append_assoc_str.
Qed.

End Print.
