(* ===== verification/Files.v ===== *)
(** * The world of the tool scripts: files and standard streams

    The scripts under [src/util], [src/gradle] and [src/addons] read and
    write files by path and print to standard output and standard error.
    A [world] holds the files as a map from path to contents, and the two
    streams as [Print.stream]s, so that Python 2's [print] statement keeps
    its soft space ([PyPrint]).  [read] fails with [IOError] on a missing
    path, as [open(path)] does; [write] replaces the contents, as
    [open(path, "w").write(c)] does; [put_out] is [sys.stdout.write],
    which clears the soft space. *)

From Stdlib Require Import String Ascii.
From stdpp Require Import base list gmap strings.
From S2P Require Import Prelude PyPrint.

Open Scope string_scope.

Module Files.

Record world := World {
  w_fs : gmap string string;
  w_out : Print.stream;
  w_err : Print.stream
}.

Definition read (w : world) (path : string) : result string :=
  match w_fs w !! path with Some c => Ok c | None => Err (IOError path) end.

Definition write (w : world) (path content : string) : world :=
  World (<[path := content]> (w_fs w)) (w_out w) (w_err w).

(** [sys.stdout.write(s)] *)
Definition put_out (w : world) (s : string) : world :=
  World (w_fs w) (Print.Stream (Print.st_text (w_out w) ++ s) false) (w_err w).

(** [sys.stderr.write(s)] *)
Definition put_err (w : world) (s : string) : world :=
  World (w_fs w) (w_out w) (Print.Stream (Print.st_text (w_err w) ++ s) false).

(** [print a, b, ...] on standard output. *)
Definition print (w : world) (items : list string) : world :=
  World (w_fs w) (Print.print_line (w_out w) items) (w_err w).

(** [os.unlink(path)]: [OSError] when the path does not exist. *)
Definition unlink (w : world) (path : string) : result world :=
  match w_fs w !! path with
  | Some _ => Ok (World (delete path (w_fs w)) (w_out w) (w_err w))
  | None => Err (OSError path)
  end.

Lemma read_write_eq w p c : read (write w p c) p = Ok c.
Proof. unfold read, write. cbn. by rewrite lookup_insert_eq. Qed.

Lemma read_write_ne w p q c : p <> q -> read (write w p c) q = read w q.
Proof. intros H. unfold read, write. cbn. by rewrite lookup_insert_ne. Qed.

Lemma w_fs_put_out w s : w_fs (put_out w s) = w_fs w.
Proof. reflexivity. Qed.

Lemma w_fs_print w items : w_fs (print w items) = w_fs w.
Proof. reflexivity. Qed.

End Files.
