(* ===== verification/Travis.v ===== *)
(** * [src/gradle/travis-show-failures.py]: printing the failing test reports

<<
for d in glob.glob("*/build/test-results/*/TEST*.xml") + glob.glob("*/build/test-results/*/TEST*.xml"):
    failed = False
    for line in open(d):
        if "<failure" in line:
            failed = True
            break
    if not failed: continue
    sys.stdout.write(open(d).read())
>>

    The script runs under Python 3: files are read in text mode
    ([Py.universal_nl]).  [glob.glob] is a parameter of the section: the
    paths that match the pattern, in the order the directory listing gives.
    [failed_file] is the line loop; [failed_file_iff] shows it is the same
    as searching the whole text.  [show_failures_twice] shows that the
    report of every failing test is written twice: the two calls to
    [glob.glob] return the same list. *)

From Stdlib Require Import String Ascii.
From stdpp Require Import base list gmap strings.
From S2P Require Import Prelude PyPrint Files.

Open Scope string_scope.
Local Open Scope py_scope.

Module Travis.
Import Files.

Definition pattern : string := "*/build/test-results/*/TEST*.xml".

Definition marker : string := "<failure".

(** [for line in open(d): if "<failure" in line: failed = True; break] *)
Fixpoint scan_lines (ls : list string) : bool :=
  match ls with
  | [] => false
  | line :: ls' => if Py.contains line marker then true else scan_lines ls'
  end.

Definition failed_file (c : string) : bool := scan_lines (Py.lines (Py.universal_nl c)).

(** One path of the list. *)
Definition show_one (w : world) (d : string) : result world :=
  c <- read w d ;;
  if failed_file c then
    c' <- read w d ;;
    Ok (put_out w (Py.universal_nl c'))
  else Ok w.

Fixpoint show_all (w : world) (ds : list string) : result world :=
  match ds with
  | [] => Ok w
  | d :: ds' => w' <- show_one w d ;; show_all w' ds'
  end.

Section Run.

Variable glob : string -> list string.

Definition main (w : world) : result world :=
  show_all w (app (glob pattern) (glob pattern)).

End Run.

(** The reports of the failing tests among [ds], one after the other. *)
Fixpoint failing_text (fs : gmap string string) (ds : list string) : result string :=
  match ds with
  | [] => Ok ""
  | d :: ds' =>
      match fs !! d with
      | None => Err (IOError d)
      | Some c =>
          t <- failing_text fs ds' ;;
          Ok ((if failed_file c then Py.universal_nl c else "") ++ t)
      end
  end.

(** The text written to standard output. *)
Definition out_text (w : world) : string := Print.st_text (w_out w).

(** ** Theorems *)

Lemma scan_lines_existsb ls : scan_lines ls = existsb (fun l => Py.contains l marker) ls.
Proof. induction ls as [|l ls IH]; cbn; [done|]. by destruct (Py.contains l marker). Qed.

(** The line loop finds a failure exactly when the text read contains
    ["<failure"]: the marker has no newline, so it never spans two lines. *)
Lemma failed_file_iff c : failed_file c = Py.contains (Py.universal_nl c) marker.
Proof.
  unfold failed_file. rewrite scan_lines_existsb, contains_lines; [done | discriminate | done].
Qed.

Lemma show_all_text w ds :
  rmap (fun w' => (w_fs w', out_text w', w_err w')) (show_all w ds) =
  rmap (fun t => (w_fs w, out_text w ++ t, w_err w)) (failing_text (w_fs w) ds).
Proof.
  revert w. induction ds as [|d ds IH]; intros w; cbn [show_all failing_text].
  - cbn. by rewrite append_empty_r.
  - unfold show_one, read. destruct (w_fs w !! d) as [c|]; cbn [rbind]; [|reflexivity].
    destruct (failed_file c); cbn [rbind].
    + rewrite IH. cbn [w_fs put_out]. destruct (failing_text (w_fs w) ds); cbn; [|reflexivity].
      unfold out_text. cbn. by rewrite append_assoc_str.
    + rewrite IH. destruct (failing_text (w_fs w) ds); cbn; reflexivity.
Qed.

Lemma failing_text_app fs a b :
  failing_text fs (app a b) = (t1 <- failing_text fs a ;; t2 <- failing_text fs b ;; Ok (t1 ++ t2)).
Proof.
  induction a as [|d a IH]; cbn [failing_text app].
  - destruct (failing_text fs b); reflexivity.
  - destruct (fs !! d); [|reflexivity]. rewrite IH.
    destruct (failing_text fs a); cbn; [|reflexivity].
    destruct (failing_text fs b); cbn; [|reflexivity]. by rewrite append_assoc_str.
Qed.

(** C7: Every failing report is printed twice: the script leaves the files
    and standard error alone and writes to standard output the reports of
    the failing tests, in glob order, and then all of them again. *)
Theorem show_failures_twice glob w :
  rmap (fun w' => (w_fs w', out_text w', w_err w')) (main glob w) =
  rmap (fun t => (w_fs w, out_text w ++ t ++ t, w_err w)) (failing_text (w_fs w) (glob pattern)).
Proof.
  unfold main. rewrite show_all_text, failing_text_app.
  destruct (failing_text (w_fs w) (glob pattern)); reflexivity.
Qed.

End Travis.
