(* ===== verification/ServiceMerge.v ===== *)
(** * [src/addons/bundle/merge-service-files.py]: merging service files

    The bundle build merges the files [META-INF/elki/<service>] of all
    jars of a directory into one file per service under
    [<tdir>/META-INF/elki/].  The jars are processed in the order of
    [skey] (the main [elki-<version>] jar, then [elki-core-*], then the
    other [elki-*] jars, then the rest, by name within each group;
    [skey_spec] shows the three [re.search] tests compute the rank
    [jar_rank] the docstring describes), the
    lines of each service file are appended to the service's list, and at
    the end every list is written out, one line per entry.

    [glob.glob] and the jar archives are parameters of the section
    [Merge]: [zip f] is the name list of the archive [f] with the bytes of
    every member, or [None] when [zipfile] cannot open it.  [utf8_ok]
    says whether a member decodes as UTF-8.  The lines are then Python 2
    unicode strings, and writing them to a file opened with ["w"] encodes
    them with the [ascii] codec: [UnicodeError] on any byte above 127.
    Directories are not modelled ([os.makedirs] always succeeds). *)

From Stdlib Require Import String Ascii ZArith Lia Sorted.
From stdpp Require Import base list gmap strings.
From S2P Require Import Prelude PyRe PyPrint Files.

Open Scope string_scope.
Local Open Scope py_scope.

Module ServiceMerge.
Import Files.

(** [skey(a)]: the sort key of a jar path. *)
Definition skey (a : string) : Z * string :=
  let a := Py.basename a in
  if Py.truthy (Re.re_search "^elki-[0-9]" a) then ((-10)%Z, a)
  else if Py.truthy (Re.re_search "^elki-core-" a) then ((-5)%Z, a)
  else if Py.truthy (Re.re_search "^elki-" a) then ((-1)%Z, a)
  else (0%Z, a).

(** Tuples of an int and a string compare as Python compares them. *)
Definition key_leb (x y : Z * string) : bool :=
  (fst x <? fst y)%Z ||
  ((fst x =? fst y)%Z && (Py.str_ltb (snd x) (snd y) || String.eqb (snd x) (snd y))).

(** [sorted(..., key=skey)]: a stable insertion sort on the keys. *)
Fixpoint insert_jar (f : string) (l : list string) : list string :=
  match l with
  | [] => [f]
  | g :: l' => if key_leb (skey f) (skey g) then f :: l else g :: insert_jar f l'
  end.

Definition sort_jars (l : list string) : list string := fold_right insert_jar [] l.

Definition service_dir : string := "META-INF/elki/".

(** [map(lambda x: x.decode("utf-8").strip("\n"), s.readlines())] *)
Definition read_lines (c : string) : list string := map (Py.strip_chars Py.nl) (Py.lines c).

(** [prod[k].extend(v)] on the [defaultdict(list)] *)
Definition extend (prod : gmap string (list string)) (k : string) (v : list string)
  : gmap string (list string) :=
  <[k := app (default [] (prod !! k)) v]> prod.

(** The members of one jar that are service files, with their bytes. *)
Definition is_service (n : string) : bool :=
  Py.startswith n service_dir && negb (String.eqb n service_dir).

(** ["\n".join(v) + "\n"] *)
Definition render (v : list string) : string := Py.join Py.nl v ++ Py.nl.

Section Merge.

Variable glob : string -> list string.
Variable zip : string -> option (list (string * string)).
Variable utf8_ok : string -> bool.

(** [for n in z.namelist(): ...]: the service map and the count. *)
Fixpoint add_members (prod : gmap string (list string)) (count : nat)
    (ms : list (string * string)) : result (gmap string (list string) * nat) :=
  match ms with
  | [] => Ok (prod, count)
  | (n, c) :: ms' =>
      if negb (Py.startswith n service_dir) then add_members prod count ms'
      else if String.eqb n service_dir then add_members prod count ms'
      else if utf8_ok c then add_members (extend prod (Py.basename n) (read_lines c)) (S count) ms'
      else Err (UnicodeError "utf8")
  end.

(** One jar: its members, then the report on standard error. *)
Definition process_jar (w : world) (prod : gmap string (list string)) (f : string)
  : result (world * gmap string (list string)) :=
  match zip f with
  | None => Err (IOError f)
  | Some ms =>
      r <- add_members prod 0 ms ;;
      let '(prod', count) := r in
      Ok (if (0 <? count)%nat
          then put_err w ("Processed: " ++ f ++ " " ++ Py.str_nat count ++ " service files" ++ Py.nl)
          else w,
          prod')
  end.

Fixpoint process_jars (w : world) (prod : gmap string (list string)) (fs : list string)
  : result (world * gmap string (list string)) :=
  match fs with
  | [] => Ok (w, prod)
  | f :: fs' => r <- process_jar w prod f ;; process_jars r.1 r.2 fs'
  end.

(** [with open(os.path.join(od, k), "w") as of: of.write(out)] for each
    item of [prod]. *)
Fixpoint write_all (w : world) (od : string) (items : list (string * list string))
  : result world :=
  match items with
  | [] => Ok w
  | (k, v) :: items' =>
      if Py.ascii_only (render v)
      then write_all (write w (Py.path_join od k) (render v)) od items'
      else Err (UnicodeError "ascii")
  end.

Definition out_dir (tdir : string) : string :=
  Py.path_join (Py.path_join tdir "META-INF") "elki".

Definition main (argv : list string) (w : world) : result world :=
  match argv with
  | _ :: tdir :: jdir :: _ =>
      r <- process_jars w ∅ (sort_jars (glob (Py.path_join jdir "*.jar"))) ;;
      write_all r.1 (out_dir tdir) (map_to_list r.2)
  | _ => Err (IndexError "list index out of range")
  end.

End Merge.

(** ** The order of the jars *)

Lemma str_ltb_total a b : Py.str_ltb a b = false -> String.eqb a b = false -> Py.str_ltb b a = true.
Proof.
  revert b. induction a as [|c a IH]; intros [|d b]; cbn; try done.
  rewrite (Ascii.eqb_sym d c). destruct (Ascii.eqb c d) eqn:E.
  - apply Ascii.eqb_eq in E. subst d. intros H1 H2. apply IH; [exact H1|].
    destruct (String.eqb a b) eqn:Eab; [|done]. apply String.eqb_eq in Eab. subst b.
    exfalso. revert H2. cbn. rewrite ?Ascii.eqb_refl, ?String.eqb_refl. discriminate.
  - intros H _. apply Nat.ltb_ge in H. apply Nat.ltb_lt.
    assert (nat_of_ascii c <> nat_of_ascii d).
    { intros Hn. apply (f_equal ascii_of_nat) in Hn. rewrite !ascii_nat_embedding in Hn.
      subst. by rewrite Ascii.eqb_refl in E. }
    lia.
Qed.

Lemma key_leb_total x y : key_leb x y = false -> key_leb y x = true.
Proof.
  unfold key_leb. intros H. apply orb_false_iff in H as [H1 H2].
  apply Z.ltb_ge in H1. destruct (Z.eq_dec (fst x) (fst y)) as [He|Hne].
  - rewrite He, Z.eqb_refl in H2 |- *. cbn in H2 |- *. apply orb_false_iff in H2 as [H2 H3].
    apply orb_true_intro. right. apply orb_true_intro. left. exact (str_ltb_total _ _ H2 H3).
  - apply orb_true_intro. left. apply Z.ltb_lt. lia.
Qed.

Lemma insert_jar_head f g l : key_leb (skey g) (skey f) = true ->
  (forall h l', l = h :: l' -> key_leb (skey g) (skey h) = true) ->
  forall h l', insert_jar f l = h :: l' -> key_leb (skey g) (skey h) = true.
Proof.
  intros Hgf Hl h l'. destruct l as [|h0 l0]; cbn.
  - by intros [= <- _].
  - destruct (key_leb (skey f) (skey h0)); intros [= <- _]; [exact Hgf | exact (Hl h0 l0 eq_refl)].
Qed.

Lemma insert_jar_sorted f l :
  LocallySorted (fun a b => key_leb (skey a) (skey b) = true) l ->
  LocallySorted (fun a b => key_leb (skey a) (skey b) = true) (insert_jar f l).
Proof.
  induction 1 as [|g|g h l Hs IH Hgh]; cbn.
  - constructor.
  - destruct (key_leb (skey f) (skey g)) eqn:E; repeat constructor; [exact E | exact (key_leb_total _ _ E)].
  - destruct (key_leb (skey f) (skey g)) eqn:E.
    + constructor; [constructor; assumption | exact E].
    + cbn in IH. destruct (key_leb (skey f) (skey h)) eqn:E2.
      * constructor; [exact IH | exact (key_leb_total _ _ E)].
      * constructor; [exact IH | exact Hgh].
Qed.

Lemma sort_jars_sorted l : LocallySorted (fun a b => key_leb (skey a) (skey b) = true) (sort_jars l).
Proof. induction l as [|f l IH]; cbn; [constructor | by apply insert_jar_sorted]. Qed.

Lemma insert_jar_perm f l : Permutation (insert_jar f l) (f :: l).
Proof.
  induction l as [|g l IH]; cbn; [done|].
  destruct (key_leb (skey f) (skey g)); [done|]. rewrite IH. apply perm_swap.
Qed.

Lemma sort_jars_perm l : Permutation (sort_jars l) l.
Proof. induction l as [|f l IH]; cbn; [done|]. by rewrite insert_jar_perm, IH. Qed.

(** ** The rank of a jar, read off its name *)

Definition is_digit (c : ascii) : bool := (48 <=? nat_of_ascii c)%nat && (nat_of_ascii c <=? 57)%nat.

Definition starts_digit (t : string) : bool :=
  match t with String c _ => is_digit c | EmptyString => false end.

(** The order the docstring of [skey] promises ("elki > elki-core >
    elki-* > others"), as prefixes of the file name: the main jar
    [elki-<digit>...] first, then [elki-core-*], then the other [elki-*],
    then the rest. *)
Definition jar_rank (b : string) : Z :=
  if String.prefix "elki-" b && starts_digit (Py.drop 5 b) then -10
  else if String.prefix "elki-core-" b then -5
  else if String.prefix "elki-" b then -1
  else 0.

Lemma pat_elki_digit :
  Re.pat "^elki-[0-9]" =
  Re.RSeq Re.RBol (Re.lits "elki-" (Re.RSeq (Re.RChar (Re.CSet false [("0"%char, "9"%char)])) Re.REmpty)).
Proof. vm_compute. reflexivity. Qed.

Lemma pat_elki_core : Re.pat "^elki-core-" = Re.RSeq Re.RBol (Re.lits "elki-core-" Re.REmpty).
Proof. vm_compute. reflexivity. Qed.

Lemma pat_elki : Re.pat "^elki-" = Re.RSeq Re.RBol (Re.lits "elki-" Re.REmpty).
Proof. vm_compute. reflexivity. Qed.

Lemma digit_found t :
  Py.truthy (Re.run false (Re.RSeq (Re.RChar (Re.CSet false [("0"%char, "9"%char)])) Re.REmpty) Some
               (Re.MS 5 t [])) = starts_digit t.
Proof.
  destruct t as [|c t]; [reflexivity|]. cbn. unfold is_digit, Re.in_range. rewrite orb_false_r.
  by destruct (_ && _).
Qed.

(** [skey] computes that rank with its three anchored searches. *)
Lemma skey_spec a : skey a = (jar_rank (Py.basename a), Py.basename a).
Proof.
  unfold skey, jar_rank, Re.re_search. cbv zeta.
  rewrite pat_elki_digit, pat_elki_core, pat_elki, !Re.found_bol_lits. cbn [String.length].
  rewrite digit_found. cbn [Re.run Py.truthy]. rewrite !andb_true_r.
  destruct (_ && _); [reflexivity|]. destruct (String.prefix "elki-core-" _); [reflexivity|].
  by destruct (String.prefix "elki-" _).
Qed.

(** Two jars in [sort_jars] order: by rank, then by name. *)
Definition jar_before (a b : string) : Prop :=
  (jar_rank (Py.basename a) < jar_rank (Py.basename b))%Z \/
  (jar_rank (Py.basename a) = jar_rank (Py.basename b) /\
   (Py.str_ltb (Py.basename a) (Py.basename b) || String.eqb (Py.basename a) (Py.basename b)) = true).

Lemma key_leb_before a b : key_leb (skey a) (skey b) = true -> jar_before a b.
Proof.
  rewrite !skey_spec. unfold key_leb, jar_before. cbn [fst snd]. intros H.
  apply orb_prop in H as [H|H]; [left; by apply Z.ltb_lt|].
  apply andb_prop in H as [H1 H2]. right. split; [by apply Z.eqb_eq | exact H2].
Qed.

(** C24: The jars are processed in the order the docstring of [skey]
    promises: all of them, each once, the main [elki-<version>] jar
    first, then [elki-core-*], then the other [elki-*] jars, then the
    rest, and by file name within each group. *)
Theorem sort_jars_order l :
  Permutation (sort_jars l) l /\ LocallySorted jar_before (sort_jars l).
Proof.
  split; [apply sort_jars_perm|].
  induction (sort_jars_sorted l); constructor; auto using key_leb_before.
Qed.

(** ** What each service list receives *)

(** The lines the members [ms] of one jar contribute to the service [k]. *)
Definition member_lines (k : string) (ms : list (string * string)) : list string :=
  flat_map (fun nc => if is_service nc.1 && String.eqb (Py.basename nc.1) k then read_lines nc.2 else []) ms.

Definition has_member (k : string) (ms : list (string * string)) : bool :=
  existsb (fun nc => is_service nc.1 && String.eqb (Py.basename nc.1) k) ms.

Lemma member_lines_nil k ms : has_member k ms = false -> member_lines k ms = [].
Proof.
  unfold member_lines, has_member.
  induction ms as [|[n c] ms IH]; cbn [existsb flat_map]; [done|].
  intros H. apply orb_false_iff in H as [H1 H2]. cbn [fst snd] in H1 |- *. by rewrite H1, IH.
Qed.

(** The lookup of [k] after appending [v] under [k'], when [k'] counts
    for [k] exactly if [b]. *)
Lemma extend_lookup prod k k' v : 
  extend prod k' v !! k = if String.eqb k' k then Some (app (default [] (prod !! k)) v) else prod !! k.
Proof.
  unfold extend. destruct (String.eqb_spec k' k) as [->|Hne]; [by rewrite lookup_insert_eq|].
  by rewrite lookup_insert_ne.
Qed.

Section Spec.

Variable zip : string -> option (list (string * string)).
Variable utf8_ok : string -> bool.

Definition members_ok (ms : list (string * string)) : Prop :=
  forall n c, In (n, c) ms -> is_service n = true -> utf8_ok c = true.

Definition jar_members (f : string) : list (string * string) := default [] (zip f).

Definition jars_ok (fs : list string) : Prop :=
  forall f, In f fs -> exists ms, zip f = Some ms /\ members_ok ms.

(** The service [k] over the jars [fs]: the lines of every member
    [META-INF/elki/.../k], jar after jar, member after member. *)
Definition service_of (k : string) (fs : list string) : list string :=
  flat_map (fun f => member_lines k (jar_members f)) fs.

Definition has_service (k : string) (fs : list string) : bool :=
  existsb (fun f => has_member k (jar_members f)) fs.

(** The update of a lookup by a block of lines. *)
Definition appended (old : option (list string)) (b : bool) (v : list string) : option (list string) :=
  if b then Some (app (default [] old) v) else old.

Lemma appended_app old b1 b2 v1 v2 :
  (b1 = false -> v1 = []) -> (b2 = false -> v2 = []) ->
  appended (appended old b1 v1) b2 v2 = appended old (b1 || b2) (app v1 v2).
Proof.
  unfold appended. intros H1 H2.
  destruct b1, b2; cbn; rewrite ?H1, ?H2 by done; cbn; rewrite ?app_nil_r, ?app_assoc; done.
Qed.

Lemma add_members_spec prod count ms :
  members_ok ms ->
  exists prod' count', add_members utf8_ok prod count ms = Ok (prod', count') /\
    forall k, prod' !! k = appended (prod !! k) (has_member k ms) (member_lines k ms).
Proof.
  revert prod count. induction ms as [|[n c] ms IH]; intros prod count Hok.
  - exists prod, count. split; [done|]. intros k. done.
  - assert (Hok' : members_ok ms) by (intros n' c' H; apply Hok; by right).
    cbn [add_members has_member member_lines existsb flat_map fst snd].
    destruct (Py.startswith n service_dir) eqn:Hs; cbn [negb].
    2:{ destruct (IH prod count Hok') as (p' & c' & Hr & Hk). exists p', c'.
        split; [exact Hr|]. intros k. unfold is_service. by rewrite Hs. }
    destruct (String.eqb n service_dir) eqn:Hd.
    { destruct (IH prod count Hok') as (p' & c' & Hr & Hk). exists p', c'.
      split; [exact Hr|]. intros k. unfold is_service. by rewrite Hs, Hd. }
    assert (Hsv : is_service n = true) by (unfold is_service; by rewrite Hs, Hd).
    rewrite (Hok n c (or_introl eq_refl) Hsv), Hsv.
    destruct (IH (extend prod (Py.basename n) (read_lines c)) (S count) Hok') as (p' & c' & Hr & Hk).
    exists p', c'. split; [exact Hr|]. intros k. rewrite Hk, extend_lookup. cbn [andb].
    change (appended (appended (prod !! k) (String.eqb (Py.basename n) k) (read_lines c))
              (has_member k ms) (member_lines k ms) =
            appended (prod !! k) (String.eqb (Py.basename n) k || has_member k ms)
              (app (if String.eqb (Py.basename n) k then read_lines c else []) (member_lines k ms))).
    rewrite <- appended_app; [| by intros -> | apply member_lines_nil].
    by destruct (String.eqb (Py.basename n) k).
Qed.

Lemma process_jars_spec w prod fs :
  jars_ok fs ->
  exists w' prod', process_jars zip utf8_ok w prod fs = Ok (w', prod') /\
    forall k, prod' !! k = appended (prod !! k) (has_service k fs) (service_of k fs).
Proof.
  revert w prod. induction fs as [|f fs IH]; intros w prod Hok.
  - exists w, prod. split; [done|]. intros k. done.
  - destruct (Hok f (or_introl eq_refl)) as (ms & Hz & Hms).
    assert (Hok' : jars_ok fs) by (intros g Hg; apply Hok; by right).
    destruct (add_members_spec prod 0 ms Hms) as (p1 & c1 & Hr1 & Hk1).
    cbn [process_jars]. unfold process_jar. rewrite Hz, Hr1. cbn [rbind fst snd].
    destruct (IH (if (0 <? c1)%nat
                  then put_err w ("Processed: " ++ f ++ " " ++ Py.str_nat c1 ++ " service files" ++ Py.nl)
                  else w) p1 Hok') as (w' & p' & Hr & Hk).
    exists w', p'. split; [exact Hr|]. intros k. rewrite Hk, Hk1.
    assert (Hj : jar_members f = ms) by (unfold jar_members; by rewrite Hz).
    cbn [has_service service_of existsb flat_map]. rewrite Hj.
    apply appended_app; [apply member_lines_nil|].
    intros H. clear -H. induction fs as [|g fs IHf]; cbn in H |- *; [done|].
    apply orb_false_iff in H as [H1 H2]. by rewrite member_lines_nil, IHf.
Qed.

(** The service members of the jars hold ASCII text only. *)
Definition jars_ascii (fs : list string) : Prop :=
  forall f ms n c, In f fs -> zip f = Some ms -> In (n, c) ms -> is_service n = true ->
  Py.ascii_only c = true.

Lemma service_ascii k fs : jars_ascii fs -> Py.ascii_only (render (service_of k fs)) = true.
Proof.
  intros Ha. unfold render. rewrite ascii_only_app. apply andb_true_intro. split; [|done].
  apply ascii_only_concat; [done|]. apply List.Forall_forall. intros x Hx.
  unfold service_of in Hx. apply in_flat_map in Hx as (f & Hf & Hx).
  unfold member_lines, jar_members in Hx. destruct (zip f) as [ms|] eqn:Hz; [|contradiction].
  apply in_flat_map in Hx as ([n c] & Hnc & Hx). cbn [fst snd] in Hx.
  destruct (is_service n) eqn:Hs; [|contradiction]. destruct (String.eqb _ k); [|contradiction].
  unfold read_lines in Hx. apply in_map_iff in Hx as (l & <- & Hl).
  apply ascii_only_strip_chars.
  exact (proj1 (List.Forall_forall _ _) (ascii_only_lines c (Ha f ms n c Hf Hz Hnc Hs)) l Hl).
Qed.

(** A service that some jar has is named by a base name. *)
Lemma has_service_no_slash k fs : has_service k fs = true -> Py.no_char "/" k = true.
Proof.
  unfold has_service, has_member. intros H.
  apply existsb_exists in H as (f & _ & H). apply existsb_exists in H as ([n c] & _ & H).
  apply andb_prop in H as [_ H]. apply String.eqb_eq in H. subst k. apply basename_no_slash.
Qed.

Lemma process_jars_fs w prod fs w' prod' :
  process_jars zip utf8_ok w prod fs = Ok (w', prod') -> w_fs w' = w_fs w.
Proof.
  revert w prod. induction fs as [|f fs IH]; intros w prod; cbn [process_jars].
  - by intros [= -> _].
  - unfold process_jar. destruct (zip f); [|discriminate].
    destruct (add_members utf8_ok prod 0 l) as [[p c]|]; cbn [rbind fst snd]; [|discriminate].
    intros H. rewrite (IH _ _ H). by destruct (0 <? c)%nat.
Qed.

End Spec.

(** ** Writing the services *)

Definition writes (w : world) (od : string) (items : list (string * list string)) : world :=
  fold_left (fun w kv => write w (Py.path_join od kv.1) (render kv.2)) items w.

Lemma write_all_ok w od items :
  (forall k v, In (k, v) items -> Py.ascii_only (render v) = true) ->
  write_all w od items = Ok (writes w od items).
Proof.
  revert w. induction items as [|[k v] items IH]; intros w H; cbn; [done|].
  rewrite (H k v (or_introl eq_refl)). apply IH. intros k' v' Hin. apply (H k'). by right.
Qed.

Lemma write_all_err w od items k v :
  In (k, v) items -> Py.ascii_only (render v) = false -> write_all w od items = Err (UnicodeError "ascii").
Proof.
  revert w. induction items as [|[k' v'] items IH]; intros w Hin Hv; [done|]. cbn.
  destruct Hin as [[= -> ->]|Hin]; [by rewrite Hv|].
  destruct (Py.ascii_only (render v')); [by apply IH | done].
Qed.

Lemma read_same w w' q : w_fs w' = w_fs w -> read w' q = read w q.
Proof. unfold read. by intros ->. Qed.

(** Each service is read back from its own path. *)
Lemma writes_read w od items k :
  NoDup items.*1 -> Forall (fun k => Py.no_char "/" k = true) items.*1 -> Py.no_char "/" k = true ->
  read (writes w od items) (Py.path_join od k) =
  match (list_to_map items : gmap string (list string)) !! k with
  | Some v => Ok (render v)
  | None => read w (Py.path_join od k)
  end.
Proof.
  revert w. induction items as [|[k' v'] items IH]; intros w Hnd Hsl Hk; [done|].
  cbn [fmap list_fmap fst] in Hnd, Hsl. apply NoDup_cons in Hnd as [Hnin Hnd].
  inversion Hsl as [|? ? Hk' Hsl']; subst.
  cbn [writes fold_left fst snd list_to_map foldr]. fold (writes (write w (Py.path_join od k') (render v')) od items).
  rewrite IH by done. destruct (String.eq_dec k' k) as [<-|Hne].
  - assert (Hn : (list_to_map items : gmap string (list string)) !! k' = None)
      by (by apply not_elem_of_list_to_map_1).
    rewrite lookup_insert_eq, Hn. apply read_write_eq.
  - rewrite lookup_insert_ne by done. destruct (list_to_map items !! k); [done|].
    apply read_write_ne. intros Heq. apply Hne. exact (path_join_inj _ _ _ Hk' Hk Heq).
Qed.


(** The jars of a run, in the order they are processed. *)
Definition jars (glob : string -> list string) (jdir : string) : list string :=
  sort_jars (glob (Py.path_join jdir "*.jar")).

Lemma map_to_list_keys (p : gmap string (list string)) (fs : list string) zip :
  (forall k, p !! k = appended None (has_service zip k fs) (service_of zip k fs)) ->
  Forall (fun k => Py.no_char "/" k = true) (map_to_list p).*1.
Proof.
  intros Hp. apply List.Forall_forall. intros k Hk.
  apply list_elem_of_In, list_elem_of_fmap in Hk as ([k' v] & -> & Hin).
  apply elem_of_map_to_list in Hin. rewrite Hp in Hin. unfold appended in Hin.
  destruct (has_service zip k' fs) eqn:Hh; [|discriminate]. exact (has_service_no_slash _ _ _ Hh).
Qed.

(** C6: A run on [tdir] and [jdir] whose jars open, decode and hold
    ASCII service files succeeds, and afterwards the file
    [<tdir>/META-INF/elki/<k>] of every service [k] found in a jar holds
    the lines of all members [META-INF/elki/.../k], in the order of the
    sorted jars and of their name lists, one per line; other paths are
    unchanged. *)
Theorem main_spec glob zip utf8_ok argv0 tdir jdir rest w :
  jars_ok zip utf8_ok (jars glob jdir) -> jars_ascii zip (jars glob jdir) ->
  exists w', main glob zip utf8_ok (argv0 :: tdir :: jdir :: rest) w = Ok w' /\
    forall k, Py.no_char "/" k = true ->
      read w' (Py.path_join (out_dir tdir) k) =
      if has_service zip k (jars glob jdir)
      then Ok (render (service_of zip k (jars glob jdir)))
      else read w (Py.path_join (out_dir tdir) k).
Proof.
  intros Hok Ha. destruct (process_jars_spec zip utf8_ok w ∅ _ Hok) as (w1 & p & Hr & Hp).
  cbn [lookup_empty] in Hp. setoid_rewrite lookup_empty in Hp.
  unfold main. fold (jars glob jdir). rewrite Hr. cbn [rbind fst snd].
  rewrite write_all_ok.
  2:{ intros k v Hin. apply list_elem_of_In, elem_of_map_to_list in Hin. rewrite Hp in Hin.
      unfold appended in Hin. destruct (has_service zip k _); [|discriminate].
      injection Hin as <-. exact (service_ascii zip k _ Ha). }
  eexists. split; [reflexivity|]. intros k Hk.
  rewrite writes_read; [| apply NoDup_fst_map_to_list | exact (map_to_list_keys p _ zip Hp) | exact Hk].
  rewrite list_to_map_to_list, Hp. unfold appended.
  destruct (has_service zip k _); [done|]. apply read_same. exact (process_jars_fs _ _ _ _ _ _ _ Hr).
Qed.

(** C19: The lines are Python 2 unicode strings, written to files opened
    with ["w"]: a service whose text has a byte above 127 makes the run
    fail with [UnicodeError] ([UnicodeEncodeError] of the [ascii] codec),
    even when every member decodes as UTF-8. *)
Theorem main_unicode_error glob zip utf8_ok argv0 tdir jdir rest w k :
  jars_ok zip utf8_ok (jars glob jdir) -> has_service zip k (jars glob jdir) = true ->
  Py.ascii_only (render (service_of zip k (jars glob jdir))) = false ->
  main glob zip utf8_ok (argv0 :: tdir :: jdir :: rest) w = Err (UnicodeError "ascii").
Proof.
  intros Hok Hk Hn. destruct (process_jars_spec zip utf8_ok w ∅ _ Hok) as (w1 & p & Hr & Hp).
  unfold main. fold (jars glob jdir). rewrite Hr. cbn [rbind fst snd].
  apply (write_all_err _ _ _ k (service_of zip k (jars glob jdir))); [|exact Hn].
  apply list_elem_of_In, elem_of_map_to_list. rewrite Hp, lookup_empty. unfold appended. by rewrite Hk.
Qed.

(** Two jars of a directory [j], as a run sees them. *)
Definition example_glob (_ : string) : list string := ["j/other.jar"; "j/elki-core.jar"].

Definition example_zip (text : string) (f : string) : option (list (string * string)) :=
  if String.eqb f "j/elki-core.jar"
  then Some [("META-INF/elki/", ""); ("META-INF/elki/S", "a" ++ Py.nl ++ "b" ++ Py.nl); ("x", "y")]
  else if String.eqb f "j/other.jar"
  then Some [("META-INF/elki/S", text); ("META-INF/elki/T", "")]
  else None.

Lemma example_jars_ok text : jars_ok (example_zip text) (fun _ => true) (jars example_glob "j").
Proof.
  intros f Hf. vm_compute in Hf. destruct Hf as [<-|[<-|[]]]; eexists; split; try reflexivity;
    intros n c _ _; reflexivity.
Qed.

Lemma main_spec_witness :
  exists w', main example_glob (example_zip "c") (fun _ => true) ["p"; "t"; "j"]
               (World ∅ Print.empty_stream Print.empty_stream) = Ok w' /\
  forall k, Py.no_char "/" k = true ->
    read w' (Py.path_join (out_dir "t") k) =
    if has_service (example_zip "c") k (jars example_glob "j")
    then Ok (render (service_of (example_zip "c") k (jars example_glob "j")))
    else read (World ∅ Print.empty_stream Print.empty_stream) (Py.path_join (out_dir "t") k).
Proof.
  apply main_spec; [apply example_jars_ok|].
  intros f ms n c Hf Hz Hin _. vm_compute in Hf. destruct Hf as [<-|[<-|[]]];
    vm_compute in Hz; injection Hz as <-; vm_compute in Hin;
    repeat destruct Hin as [Hin|Hin]; try injection Hin as <- <-; try contradiction; reflexivity.
Defined.

Lemma main_unicode_error_witness :
  main example_glob (example_zip (String "233" "")) (fun _ => true) ["p"; "t"; "j"]
    (World ∅ Print.empty_stream Print.empty_stream) = Err (UnicodeError "ascii").
Proof.
  apply (main_unicode_error _ _ _ _ _ _ _ _ "S");
    [apply example_jars_ok | vm_compute; reflexivity | vm_compute; reflexivity].
Defined.

End ServiceMerge.
