(* ===== verification/InjectAGPL.v ===== *)
(** * [src/util/inject-agpl.py]: the license header injector

    For every path on the command line the script reads the Java file and,
    unless it already mentions a license ([ismarked]: ["General Public
    License"] or ["Copyright ("], ignoring case), inserts the AGPL header
    [template]: after the first line (the [package] statement) of a
    source file, or before the last line of a [package-info.java] file.
    A file that does not start (or end) with a [package] statement is
    reported on standard output and left alone.

    [inject_action] is the decision for one file, from its name and text:
    skip it, warn, rewrite it, or fail with the [ValueError] of the tuple
    unpacking when the text has no newline.  [inject_one] reads the file
    and carries the decision out; [main] compiles the two module-level
    patterns ([iselki] is compiled and never used) and walks
    [sys.argv[1:]]; [inject_all] is that loop, equal to [Loop.for_loop]
    with the body [inject_one] ([inject_all_loop]).

    The theorems: the header makes a file marked, so a second run changes
    no file ([main_idempotent]); the inner test of the marked branch can
    never hold ([marked_silent]); the rewritten text is the original with
    the header inserted after the first line ([inject_source_shape]); a
    text without newline is an error ([inject_no_newline_action]).  Run
    one file at a time ([Loop.step]), the loop halts in [main]'s result
    and gets past each named file with that file settled unless a file
    raised ([main_reaches_every_file]); a file without newline stops it right
    there, so the files after it are never read
    ([main_stops_at_no_newline]). *)

From Stdlib Require Import String Ascii Lia.
From stdpp Require Import base list gmap strings.
From S2P Require Import Prelude Loop PyRe PyPrint Files.

Open Scope string_scope.
Local Open Scope py_scope.

Module InjectAGPL.
Import Files.

(** [template]: the triple-quoted literal of the source, stripped. *)
Definition template : string := Py.strip (Py.nl ++ Py.join Py.nl [
    "/*";
    " This file is part of ELKI:";
    " Environment for Developing KDD-Applications Supported by Index-Structures";
    "";
    " Copyright (C) 2011";
    (" Ludwig-Maximilians-Universit" ++ String "195" "" ++ String "164" "" ++ "t M" ++ String "195" "" ++ String "188" "" ++ "nchen");
    (" Lehr- und Forschungseinheit f" ++ String "195" "" ++ String "188" "" ++ "r Datenbanksysteme");
    " ELKI Development Team";
    "";
    " This program is free software: you can redistribute it and/or modify";
    " it under the terms of the GNU Affero General Public License as published by";
    " the Free Software Foundation, either version 3 of the License, or";
    " (at your option) any later version.";
    "";
    " This program is distributed in the hope that it will be useful,";
    " but WITHOUT ANY WARRANTY; without even the implied warranty of";
    " MERCHANTABILITY or FITNESS FOR A PARTICULAR PURPOSE.  See the";
    " GNU Affero General Public License for more details.";
    "";
    " You should have received a copy of the GNU Affero General Public License";
    " along with this program.  If not, see <http://www.gnu.org/licenses/>.";
    " */"] ++ Py.nl).

(** [ismarked = re.compile("(General Public License|Copyright \()", re.I)] *)
Definition ismarked_re : string := "(General Public License|Copyright \()".

Definition ismarked (c : string) : bool := Py.truthy (Re.search true (Re.pat ismarked_re) c).

(** What the loop body does with one file. *)
Inductive action :=
| Skip                        (** [continue] without output *)
| Warn (msg : string)         (** [print fn, msg]; [continue] *)
| Rewrite (text : string)     (** the file is written anew *)
| Fail (e : exc).             (** an exception ends the script *)

Definition unpack_error : exc := ValueError "need more than 1 value to unpack".

Definition inject_action (fn c : string) : action :=
  if ismarked c then
    if negb (ismarked c) then Warn "already contained a copyright notice!" else Skip
  else if Py.endswith fn "package-info.java" then
    match Py.rsplit1 (Py.strip c) Py.nl with
    | [d; p] =>
        if negb (Py.startswith p "package") then Warn "does not end with package statement!"
        else Rewrite (d ++ Py.nl ++ Py.nl ++ template ++ Py.nl ++ p)
    | _ => Fail unpack_error
    end
  else
    match Py.split1 c Py.nl with
    | [p; b] =>
        if negb (Py.startswith p "package") then Warn "does not start with package statement!"
        else Rewrite (p ++ Py.nl ++ template ++ Py.nl ++ b)
    | _ => Fail unpack_error
    end.

Definition inject_one (w : world) (fn : string) : result world :=
  c <- read w fn ;;
  match inject_action fn c with
  | Skip => Ok w
  | Warn msg => Ok (print w [fn; msg])
  | Rewrite t => Ok (write w fn t)
  | Fail e => Err e
  end.

Fixpoint inject_all (w : world) (fns : list string) : result world :=
  match fns with
  | [] => Ok w
  | fn :: fns' => w' <- inject_one w fn ;; inject_all w' fns'
  end.

(** [for fn in sys.argv[1:]: ...] *)
(** [iselki]: compiled at start-up, never used. *)
Definition iselki_re : string := "This file is part of ELKI:".

(** The module-level [re.compile] calls, then the loop over [sys.argv[1:]];
    a pattern that does not compile raises [re.error] before any file is
    read. *)
Definition main (argv : list string) (w : world) : result world :=
  match Re.compile ismarked_re, Re.compile iselki_re with
  | Some _, Some _ => inject_all w (tail argv)
  | _, _ => Err (ReError "bad pattern")
  end.

(** Both patterns compile: the run is the loop. *)
Lemma main_eq argv w : main argv w = inject_all w (tail argv).
Proof.
  unfold main. destruct (Re.compile ismarked_re) eqn:E1; [|vm_compute in E1; discriminate].
  destruct (Re.compile iselki_re) eqn:E2; [reflexivity|vm_compute in E2; discriminate].
Qed.

(** [inject_all] is the [for] loop of [Loop] with the body [inject_one]. *)
Lemma inject_all_loop w fns : inject_all w fns = Loop.for_loop inject_one w fns.
Proof. revert w fns. apply Loop.for_loop_unique; reflexivity. Qed.

(** ** The header marks a file *)

Lemma run_gpl p t :
  Re.run true (Re.pat ismarked_re) Some (Re.MS p ("General Public License" ++ t) []) <> None.
Proof. vm_compute. discriminate. Qed.

Lemma template_split :
  template = Py.take 352 template ++ ("General Public License" ++ Py.drop 374 template).
Proof. vm_compute. reflexivity. Qed.

(** Any text with the header in it is marked. *)
Lemma ismarked_template a b : ismarked (a ++ template ++ b) = true.
Proof.
  unfold ismarked. rewrite template_split.
  replace (a ++ (Py.take 352 template ++ "General Public License" ++ Py.drop 374 template) ++ b)
    with ((a ++ Py.take 352 template) ++ ("General Public License" ++ (Py.drop 374 template ++ b)))
    by (rewrite !append_assoc_str; reflexivity).
  destruct (Re.search true _ _) eqn:E; [reflexivity|].
  exfalso. exact (Re.search_app _ _ _ _ (fun p => run_gpl p _) E).
Qed.

(** C25: The inner test of the marked branch repeats the outer one: a
    marked file is skipped without output, and the message
    ["already contained a copyright notice!"] is never printed. *)
Theorem marked_silent fn c : ismarked c = true -> inject_action fn c = Skip.
Proof. intros H. unfold inject_action. by rewrite H. Qed.

Lemma marked_silent_witness : ismarked "// GNU General Public License" = true /\
  inject_action "A.java" "// GNU General Public License" = Skip.
Proof. split; [vm_compute; reflexivity | apply marked_silent; vm_compute; reflexivity]. Defined.

Lemma rewrite_marked fn c t : inject_action fn c = Rewrite t -> ismarked t = true.
Proof.
  unfold inject_action. destruct (ismarked c); [by destruct (negb true)|].
  destruct (Py.endswith fn "package-info.java").
  - destruct (Py.rsplit1 (Py.strip c) Py.nl) as [|d [|p [|]]]; try discriminate.
    destruct (negb (Py.startswith p "package")); [discriminate|]. intros [= <-].
    replace (d ++ Py.nl ++ Py.nl ++ template ++ Py.nl ++ p)
      with ((d ++ Py.nl ++ Py.nl) ++ template ++ (Py.nl ++ p)) by (rewrite !append_assoc_str; reflexivity).
    apply ismarked_template.
  - destruct (Py.split1 c Py.nl) as [|p [|b [|]]]; try discriminate.
    destruct (negb (Py.startswith p "package")); [discriminate|]. intros [= <-].
    replace (p ++ Py.nl ++ template ++ Py.nl ++ b)
      with ((p ++ Py.nl) ++ template ++ (Py.nl ++ b)) by (rewrite !append_assoc_str; reflexivity).
    apply ismarked_template.
Qed.

(** ** A second run changes no file *)

(** A text the loop leaves as it is. *)
Definition settled (fn c : string) : bool :=
  match inject_action fn c with Skip | Warn _ => true | _ => false end.

Lemma rewrite_settled fn c t : inject_action fn c = Rewrite t -> settled fn t = true.
Proof. intros H. unfold settled. by rewrite marked_silent by exact (rewrite_marked _ _ _ H). Qed.

Definition all_settled (fs : gmap string string) (fns : list string) : Prop :=
  forall fn, In fn fns -> exists c, fs !! fn = Some c /\ settled fn c = true.

Lemma inject_one_cases w fn w' :
  inject_one w fn = Ok w' ->
  exists c, w_fs w !! fn = Some c /\
    ((settled fn c = true /\ w_fs w' = w_fs w) \/
     (exists t, inject_action fn c = Rewrite t /\ w_fs w' = <[fn := t]> (w_fs w))).
Proof.
  unfold inject_one, read. destruct (w_fs w !! fn) as [c|]; cbn [rbind]; [|discriminate].
  intros H. exists c. split; [done|]. unfold settled.
  destruct (inject_action fn c) as [|msg|t|e]; try discriminate; injection H as <-.
  - by left.
  - by left.
  - right. by exists t.
Qed.

(** After a step, the file of the step is settled, and so is every file
    that was. *)
Lemma inject_one_settles w fn w' g :
  inject_one w fn = Ok w' ->
  (g = fn \/ exists c, w_fs w !! g = Some c /\ settled g c = true) ->
  exists c, w_fs w' !! g = Some c /\ settled g c = true.
Proof.
  intros H Hg. destruct (inject_one_cases _ _ _ H) as (c & Hc & [[Hs ->] | (t & Ht & ->)]).
  - destruct Hg as [->|Hg]; [by exists c | exact Hg].
  - destruct (String.eq_dec g fn) as [->|Hne].
    + exists t. rewrite lookup_insert_eq. split; [done|]. exact (rewrite_settled _ _ _ Ht).
    + rewrite lookup_insert_ne by congruence. destruct Hg as [->|Hg]; [done | exact Hg].
Qed.

Lemma inject_all_keeps w fns w' g :
  inject_all w fns = Ok w' -> (exists c, w_fs w !! g = Some c /\ settled g c = true) ->
  exists c, w_fs w' !! g = Some c /\ settled g c = true.
Proof.
  rewrite inject_all_loop. intros H Hg.
  refine (Loop.for_loop_keeps inject_one (fun w => exists c, w_fs w !! g = Some c /\ settled g c = true)
            _ w fns w' Hg H).
  intros w0 fn w1 H0 E. exact (inject_one_settles _ _ _ _ E (or_intror H0)).
Qed.

Lemma inject_all_settles w fns w' : inject_all w fns = Ok w' -> all_settled (w_fs w') fns.
Proof.
  unfold all_settled. revert w. induction fns as [|fn fns IH]; intros w H g Hg; [done|].
  cbn [inject_all] in H.
  destruct (inject_one w fn) as [w1|] eqn:E; [|discriminate]. cbn [rbind] in H.
  destruct Hg as [<-|Hg]; [|exact (IH w1 H g Hg)].
  apply (inject_all_keeps w1 fns w' fn H). exact (inject_one_settles _ _ _ _ E (or_introl eq_refl)).
Qed.

Lemma inject_all_stable w fns :
  all_settled (w_fs w) fns -> exists w', inject_all w fns = Ok w' /\ w_fs w' = w_fs w.
Proof.
  revert w. induction fns as [|fn fns IH]; intros w Hs; [by exists w|].
  destruct (Hs fn (or_introl eq_refl)) as (c & Hc & Hset). cbn [inject_all].
  assert (Hw1 : exists w1, inject_one w fn = Ok w1 /\ w_fs w1 = w_fs w).
  { unfold inject_one, read. rewrite Hc. cbn [rbind]. unfold settled in Hset.
    destruct (inject_action fn c); try discriminate; eexists; split; reflexivity. }
  destruct Hw1 as (w1 & E & Hfs). rewrite E. cbn [rbind].
  destruct (IH w1) as (w' & Hr & Hfs'); [rewrite Hfs; intros g Hg; apply Hs; by right|].
  exists w'. split; [exact Hr | congruence].
Qed.

(** C3: The injector is idempotent on the files: a run that succeeds
    leaves every named file settled (marked, or reported), so running it
    again with the same arguments succeeds and writes no file. *)
Theorem main_idempotent argv w w1 :
  main argv w = Ok w1 -> exists w2, main argv w1 = Ok w2 /\ w_fs w2 = w_fs w1.
Proof.
  rewrite !main_eq. intros H. apply inject_all_stable. exact (inject_all_settles _ _ _ H).
Qed.

Lemma main_idempotent_witness :
  main ["inject-agpl.py"; "A.java"]
    (World (<["A.java" := "package a;" ++ Py.nl ++ "class A {}"]> ∅) Print.empty_stream Print.empty_stream) =
  Ok (World (<["A.java" := "package a;" ++ Py.nl ++ template ++ Py.nl ++ "class A {}"]> ∅)
        Print.empty_stream Print.empty_stream) /\
  exists w2, main ["inject-agpl.py"; "A.java"]
    (World (<["A.java" := "package a;" ++ Py.nl ++ template ++ Py.nl ++ "class A {}"]> ∅)
       Print.empty_stream Print.empty_stream) = Ok w2 /\
  w_fs w2 = <["A.java" := "package a;" ++ Py.nl ++ template ++ Py.nl ++ "class A {}"]> ∅.
Proof.
  assert (H : main ["inject-agpl.py"; "A.java"]
    (World (<["A.java" := "package a;" ++ Py.nl ++ "class A {}"]> ∅) Print.empty_stream Print.empty_stream) =
    Ok (World (<["A.java" := "package a;" ++ Py.nl ++ template ++ Py.nl ++ "class A {}"]> ∅)
        Print.empty_stream Print.empty_stream)) by (vm_compute; reflexivity).
  split; [exact H|]. exact (main_idempotent _ _ _ H).
Defined.

(** ** The rewritten text and the errors *)

(** A source file (not [package-info.java]) without license whose
    first line is a [package] statement gets the header inserted after
    that line: the text [p ++ "\n" ++ b] becomes
    [p ++ "\n" ++ template ++ "\n" ++ b]. *)
Theorem inject_source_shape fn p b :
  Py.endswith fn "package-info.java" = false -> ismarked (p ++ Py.nl ++ b) = false ->
  Py.no_char "010" p = true -> Py.startswith p "package" = true ->
  inject_action fn (p ++ Py.nl ++ b) = Rewrite (p ++ Py.nl ++ template ++ Py.nl ++ b).
Proof.
  intros Hf Hm Hp Hs. unfold inject_action. rewrite Hm, Hf, split1_nl by done. by rewrite Hs.
Qed.

Lemma inject_source_shape_witness :
  inject_action "A.java" ("package a;" ++ Py.nl ++ "class A {}") =
  Rewrite ("package a;" ++ Py.nl ++ template ++ Py.nl ++ "class A {}").
Proof. apply inject_source_shape; vm_compute; reflexivity. Defined.

Lemma inject_no_newline_action fn c :
  Py.endswith fn "package-info.java" = false -> ismarked c = false -> Py.no_char "010" c = true ->
  inject_action fn c = Fail unpack_error.
Proof. intros Hf Hm Hc. unfold inject_action. by rewrite Hm, Hf, split1_none. Qed.


(** ** The loop, one file at a time *)

(** C4: Liveness of the injector's loop over [sys.argv[1:]], run one file
    at a time: every run halts in a final configuration whose result is
    that of [main]; and every run gets past each named file with that
    file settled, its text now one the injector leaves alone (it carries
    a license the [ismarked] pattern finds, or it is reported for its
    [package] line), unless a file up to it raised. *)
Theorem main_reaches_every_file argv w :
  Loop.eventually inject_one
    (fun c => Loop.final c = true /\ Loop.current c = main argv w) (Loop.Cfg (tail argv) (Ok w)) /\
  (forall l1 fn l2, tail argv = app l1 (fn :: l2) ->
    Loop.eventually inject_one
      (fun c => (Loop.pending c = l2 /\
                 forall w', Loop.current c = Ok w' ->
                   exists t, w_fs w' !! fn = Some t /\ settled fn t = true) \/
                exists e, Loop.current c = Err e)
      (Loop.Cfg (tail argv) (Ok w))).
Proof.
  split.
  - rewrite main_eq, inject_all_loop. exact (Loop.loop_eventually inject_one (Loop.Cfg (tail argv) (Ok w))).
  - intros l1 fn l2 ->. apply (Loop.loop_reaches _ (fun _ => True)); [done | done |].
    intros w0 w' _ H. exact (inject_one_settles _ _ _ _ H (or_introl eq_refl)).
Qed.

Lemma main_reaches_every_file_witness :
  tail ["inject-agpl.py"; "A.java"; "B.java"] = app [] ("A.java" :: ["B.java"]) /\
  Loop.eventually inject_one
    (fun c => (Loop.pending c = ["B.java"] /\
               forall w', Loop.current c = Ok w' ->
                 exists t, w_fs w' !! "A.java" = Some t /\ settled "A.java" t = true) \/
              exists e, Loop.current c = Err e)
    (Loop.Cfg (tail ["inject-agpl.py"; "A.java"; "B.java"])
       (Ok (World (<["A.java" := "package a;" ++ Py.nl ++ "class A {}"]> ∅) Print.empty_stream Print.empty_stream))).
Proof.
  split; [reflexivity|].
  apply (proj2 (main_reaches_every_file ["inject-agpl.py"; "A.java"; "B.java"]
    (World (<["A.java" := "package a;" ++ Py.nl ++ "class A {}"]> ∅) Print.empty_stream Print.empty_stream))
    [] "A.java" ["B.java"]).
  reflexivity.
Defined.

(** C5: A named file that has no license and no newline stops the whole
    run, where the specification asks to report it and continue: once
    the files before it are processed, every run halts right after that
    file with the [ValueError] of the tuple unpacking, and the files named
    after it are never read. *)
Theorem main_stops_at_no_newline argv w l1 fn l2 w1 c :
  tail argv = app l1 (fn :: l2) -> inject_all w l1 = Ok w1 -> read w1 fn = Ok c ->
  Py.endswith fn "package-info.java" = false -> ismarked c = false -> Py.no_char "010" c = true ->
  main argv w = Err unpack_error /\
  Loop.eventually inject_one
    (fun m => Loop.final m = true /\ Loop.pending m = l2 /\ Loop.current m = Err unpack_error)
    (Loop.Cfg (tail argv) (Ok w)).
Proof.
  intros Hargv H1 Hc Hf Hm Hn.
  assert (Ha : inject_one w1 fn = Err unpack_error).
  { unfold inject_one. rewrite Hc. cbn [rbind]. by rewrite inject_no_newline_action. }
  rewrite inject_all_loop in H1. split.
  - rewrite main_eq, inject_all_loop, Hargv, Loop.for_loop_app, H1. cbn [rbind Loop.for_loop].
    by rewrite Ha.
  - rewrite Hargv. exact (Loop.loop_stops inject_one l1 fn l2 w w1 unpack_error H1 Ha).
Qed.

Lemma main_stops_at_no_newline_witness :
  main ["inject-agpl.py"; "A.java"; "B.java"]
    (World (<["B.java" := "package b;" ++ Py.nl]> (<["A.java" := "package a;"]> ∅))
       Print.empty_stream Print.empty_stream) = Err unpack_error /\
  Loop.eventually inject_one
    (fun m => Loop.final m = true /\ Loop.pending m = ["B.java"] /\ Loop.current m = Err unpack_error)
    (Loop.Cfg (tail ["inject-agpl.py"; "A.java"; "B.java"])
       (Ok (World (<["B.java" := "package b;" ++ Py.nl]> (<["A.java" := "package a;"]> ∅))
              Print.empty_stream Print.empty_stream))).
Proof.
  apply (main_stops_at_no_newline _ _ [] "A.java" ["B.java"]
    (World (<["B.java" := "package b;" ++ Py.nl]> (<["A.java" := "package a;"]> ∅))
       Print.empty_stream Print.empty_stream) "package a;");
    vm_compute; reflexivity.
Defined.

End InjectAGPL.
