(* ===== verification/Licenses.v ===== *)
(** * [src/addons/bundle/install-licenses.py]: the license extractor

    For every jar of a directory the script picks the rows of the table
    [extract] whose jar pattern matches the jar's path; a jar without any
    row is reported, a jar whose rows have no member pattern is ignored.
    Every member of the archive whose name matches a member pattern of a
    row is copied, with ["\r\n"] turned into ["\n"], to
    [<tdir>/license/<name>], where [name] is the expansion of the row's
    template; the first row that names a member wins, later rows that
    name it differently are reported as a renaming conflict.  An existing
    file with the same text is left alone, another one is overwritten with
    a warning.

    [glob.glob] and the archives are parameters of the section [Run], as
    in [ServiceMerge].  [name_loop] is the loop over the rows for one
    member, [extract_member] the body for one member, [process_jar] the
    body for one jar, [main] the script.  The theorems: the first naming
    row wins ([name_loop_first]); the files a run writes are the last
    copies of every name, whatever the files were before
    ([main_writes]), so a second run changes no file
    ([install_idempotent]), and they all lie under [<tdir>/license]
    ([main_confined]), and this holds in every configuration of the
    loop over the jars ([Loop.step] with the body [process_jar]), the
    last one before a jar raises included ([main_confined_always]); the
    two [xml-apis] rows give [license/LICENSE.txt]
    two names ([xml_apis_conflict]); an avalon jar with both
    [META-INF/LICENSE] and [META-INF/LICENSE.txt] keeps only the second
    ([avalon_license_overwritten]).  Directories ([os.makedirs]) are not
    modelled: the file system is a map from paths to texts. *)

From Stdlib Require Import String Ascii Lia.
From stdpp Require Import base list gmap strings.
From S2P Require Import Prelude Loop PyRe PyPrint Files.

Open Scope string_scope.
Local Open Scope py_scope.

Module Licenses.
Import Files.

(** A row of [extract]: the jar pattern, the member pattern and the name
    template ([None] where the source has [None]). *)
Record rule := Rule {
  r_jar : string;
  r_member : option string;
  r_name : option string
}.

Definition extract : list rule := [
  Rule "(^|/)avalon" (Some "META-INF/(LICENSE|NOTICE|README)(\.txt)?$") (Some "\1-avalon");
  Rule "(^|/)batik" (Some "META-INF/(LICENSE|NOTICE|README)(\.txt)?$") (Some "\1-batik");
  Rule "(^|/)commons" (Some "META-INF/(LICENSE|NOTICE|README)(\.txt)?$") (Some "\1-commons");
  Rule "(^|/)elki[^/]+.jar$" (Some "license/(LICENSE|NOTICE|README)(\.txt)?$") (Some "\1");
  Rule "(^|/)fop" (Some "META-INF/(LICENSE|NOTICE|README)(\.txt)?$") (Some "\1-fop");
  Rule "(^|/)(junit|hamcrest)" None None;
  Rule "(^|/)libsvm" None None;
  Rule "(^|/)trove4j" None None;
  Rule "(^|/)xalan" (Some "^/?([^/]+)[-\.](LICENSE|NOTICE|README)(\.txt)?$") (Some "\2-\1");
  Rule "(^|/)xml-apis" (Some "license/(LICENSE|NOTICE|README)(\.txt)?$") (Some "\1-xml-apis");
  Rule "(^|/)xml-apis" (Some "license/(LICENSE|NOTICE|README)\.([^.]+?)(\.txt)?$") (Some "\1-\2");
  Rule "(^|/)xmlgraphics-commons" (Some "META-INF/(LICENSE|NOTICE|README)(\.txt)?$")
    (Some "\1-xmlgraphics-commons")
].

(** [matchers]: the rows whose jar pattern matches [f]. *)
Definition matchers (f : string) : list rule :=
  filter (fun r => Py.truthy (Re.re_search (r_jar r) f)) extract.

(** [filter(lambda x: x[1] is not None, matchers)], as (pattern, template). *)
Definition member_rules (rs : list rule) : list (string * option string) :=
  flat_map (fun r => match r_member r with Some p => [(p, r_name r)] | None => [] end) rs.

(** [m.expand(row[2])]; a [None] template is a [TypeError]. *)
Definition expand_name (m : Re.rmatch) (t : option string) : result string :=
  match t with Some t => Re.expand m t | None => Err (TypeError "expand") end.

(** [for row in matchers: ...] for the member [n]; [out] is [None] or a
    name, and [None] and [""] behave alike ([if out], [if not out]). *)
Fixpoint name_loop (w : world) (n out : string) (ms : list (string * option string))
  : result (world * string) :=
  match ms with
  | [] => Ok (w, out)
  | (p, t) :: ms' =>
      match Re.re_search p n with
      | None => name_loop w n out ms'
      | Some m =>
          e <- expand_name m t ;;
          if negb (String.eqb out "") && negb (String.eqb out e) then
            name_loop (put_err w ("Renaming conflict: " ++ n ++ " " ++ out ++ " " ++ e ++ Py.nl))
              n out ms'
          else name_loop w n e ms'
      end
  end.

(** [z.read(n).replace("\r\n", "\n")] *)
Definition crlf (c : string) : string := Py.replace c (String "013" Py.nl) Py.nl.

(** The body for one member [n] with bytes [c]. *)
Definition extract_member (legal : string) (ms : list (string * option string))
    (wc : world * nat) (nc : string * string) : result (world * nat) :=
  let '(w, count) := wc in
  let '(n, c) := nc in
  r <- name_loop w n "" ms ;;
  let '(w1, out) := r in
  if String.eqb out "" then Ok (w1, count)
  else
    let path := Py.path_join legal out in
    let data := crlf c in
    match w_fs w1 !! path with
    | Some existing =>
        if String.eqb existing data then Ok (w1, S count)
        else Ok (write (put_err w1 ("Warning: overwriting " ++ path ++ Py.nl)) path data, S count)
    | None => Ok (write w1 path data, S count)
    end.

Fixpoint extract_members (legal : string) (ms : list (string * option string))
    (wc : world * nat) (members : list (string * string)) : result (world * nat) :=
  match members with
  | [] => Ok wc
  | nc :: members' => wc' <- extract_member legal ms wc nc ;; extract_members legal ms wc' members'
  end.

Section Run.

Variable glob : string -> list string.
Variable zip : string -> option (list (string * string)).

(** The body for one jar. *)
Definition process_jar (legal : string) (w : world) (f : string) : result world :=
  match matchers f with
  | [] => Ok (put_err w ("No extraction rules for: " ++ f ++ Py.nl))
  | rs =>
      match member_rules rs with
      | [] => Ok w
      | ms =>
          match zip f with
          | None => Err (IOError f)
          | Some members =>
              r <- extract_members legal ms (w, 0%nat) members ;;
              Ok (put_err r.1 ("Processed: " ++ f ++ " extracted " ++ Py.str_nat r.2 ++ " files" ++ Py.nl))
          end
      end
  end.

Fixpoint process_jars (legal : string) (w : world) (fs : list string) : result world :=
  match fs with
  | [] => Ok w
  | f :: fs' => w' <- process_jar legal w f ;; process_jars legal w' fs'
  end.

Definition main (argv : list string) (w : world) : result world :=
  match argv with
  | _ :: tdir :: jdir :: _ =>
      process_jars (Py.path_join tdir "license") w (glob (Py.path_join jdir "*.jar"))
  | _ => Err (IndexError "list index out of range")
  end.

End Run.

(** ** The name of a member *)

(** The expansions of the rows that match [n], in table order. *)
Fixpoint names (n : string) (ms : list (string * option string)) : list string :=
  match ms with
  | [] => []
  | (p, t) :: ms' =>
      match Re.re_search p n with
      | None => names n ms'
      | Some m =>
          match expand_name m t with
          | Ok e => e :: names n ms'
          | Err _ => names n ms'
          end
      end
  end.

(** The first non-empty name of [es], after [out]. *)
Definition first_name (out : string) (es : list string) : string :=
  fold_left (fun o e => if String.eqb o "" then e else o) es out.

(** The loop over the rows without its output: the name, or the error. *)
Fixpoint name_of (n out : string) (ms : list (string * option string)) : result string :=
  match ms with
  | [] => Ok out
  | (p, t) :: ms' =>
      match Re.re_search p n with
      | None => name_of n out ms'
      | Some m =>
          e <- expand_name m t ;;
          if negb (String.eqb out "") && negb (String.eqb out e) then name_of n out ms'
          else name_of n e ms'
      end
  end.

(** The loop writes only to standard error, and its name and errors are
    those of [name_of]. *)
Lemma name_loop_spec w n out ms :
  match name_loop w n out ms, name_of n out ms with
  | Ok (w', o), Ok o' => o = o' /\ w_fs w' = w_fs w /\ w_out w' = w_out w
  | Err e, Err e' => e = e'
  | _, _ => False
  end.
Proof.
  revert w out. induction ms as [|[p t] ms IH]; intros w out; cbn [name_loop name_of]; [done|].
  destruct (Re.re_search p n) as [m|]; [|apply IH].
  destruct (expand_name m t) as [e|e]; cbn [rbind]; [|done].
  destruct (negb (String.eqb out "") && negb (String.eqb out e)); [|apply IH].
  specialize (IH (put_err w ("Renaming conflict: " ++ n ++ " " ++ out ++ " " ++ e ++ Py.nl)) out).
  destruct (name_loop _ n out ms) as [[w' o]|], (name_of n out ms); done.
Qed.

Lemma name_of_first n out ms o : name_of n out ms = Ok o -> o = first_name out (names n ms).
Proof.
  revert out. induction ms as [|[p t] ms IH]; intros out; cbn [name_of names]; [by intros [= <-]|].
  destruct (Re.re_search p n) as [m|]; [|apply IH].
  destruct (expand_name m t) as [e|e]; cbn [rbind]; [|discriminate].
  intros H. unfold first_name. cbn [fold_left]. fold (first_name (if String.eqb out "" then e else out) (names n ms)).
  destruct (String.eqb_spec out "") as [->|Hne].
  - cbn [negb andb] in H. exact (IH _ H).
  - cbn [negb andb] in H. destruct (String.eqb_spec out e) as [Heq|Hd]; [subst e|]; cbn [negb] in H; exact (IH _ H).
Qed.

(** The name of a member is the first non-empty expansion of a row
    that matches it, in table order; a later row never renames it (it is
    reported as a conflict), and the loop writes no file. *)
Theorem name_loop_first w n ms w' o :
  name_loop w n "" ms = Ok (w', o) ->
  o = first_name "" (names n ms) /\ w_fs w' = w_fs w.
Proof.
  intros H. pose proof (name_loop_spec w n "" ms) as S. rewrite H in S.
  destruct (name_of n "" ms) as [o'|] eqn:E; [|done]. destruct S as (-> & Hfs & _).
  split; [exact (name_of_first _ _ _ _ E) | exact Hfs].
Qed.

(** The two [xml-apis] rows both name the member
    [license/LICENSE.txt]: the first calls it [LICENSE-xml-apis], the
    second [LICENSE-txt]; the file is installed under the first name and a
    renaming conflict is reported. *)
Example xml_apis_conflict w :
  name_loop w "license/LICENSE.txt" "" (member_rules (matchers "lib/xml-apis-1.3.04.jar")) =
  Ok (put_err w ("Renaming conflict: license/LICENSE.txt LICENSE-xml-apis LICENSE-txt" ++ Py.nl),
      "LICENSE-xml-apis").
Proof. vm_compute. reflexivity. Qed.

(** ** The files a run writes *)

(** Writing the pairs (path, text) in order, each over the previous. *)
Definition apply_writes (L : list (string * string)) (fs : gmap string string) : gmap string string :=
  fold_left (fun m pd => <[pd.1 := pd.2]> m) L fs.

(** The copy of one member, or none. *)
Definition member_write (legal : string) (ms : list (string * option string)) (nc : string * string)
  : result (list (string * string)) :=
  o <- name_of nc.1 "" ms ;;
  Ok (if String.eqb o "" then [] else [(Py.path_join legal o, crlf nc.2)]).

Fixpoint members_writes (legal : string) (ms : list (string * option string))
    (members : list (string * string)) : result (list (string * string)) :=
  match members with
  | [] => Ok []
  | nc :: members' =>
      l1 <- member_write legal ms nc ;; l2 <- members_writes legal ms members' ;; Ok (app l1 l2)
  end.

Definition jar_writes (zip : string -> option (list (string * string))) (legal f : string)
  : result (list (string * string)) :=
  match matchers f with
  | [] => Ok []
  | rs =>
      match member_rules rs with
      | [] => Ok []
      | ms => match zip f with None => Err (IOError f) | Some members => members_writes legal ms members end
      end
  end.

Fixpoint jars_writes zip (legal : string) (fs : list string) : result (list (string * string)) :=
  match fs with
  | [] => Ok []
  | f :: fs' => l1 <- jar_writes zip legal f ;; l2 <- jars_writes zip legal fs' ;; Ok (app l1 l2)
  end.

Lemma apply_writes_app L1 L2 fs : apply_writes (app L1 L2) fs = apply_writes L2 (apply_writes L1 fs).
Proof. apply fold_left_app. Qed.

Lemma extract_member_fs legal ms w count nc :
  rmap (fun r => w_fs r.1) (extract_member legal ms (w, count) nc) =
  rmap (fun L => apply_writes L (w_fs w)) (member_write legal ms nc).
Proof.
  destruct nc as [n c]. unfold extract_member, member_write. cbn [fst snd].
  pose proof (name_loop_spec w n "" ms) as S.
  destruct (name_loop w n "" ms) as [[w1 o]|e], (name_of n "" ms) as [o'|e']; try done;
    cbn [rbind rmap]; [|by subst].
  destruct S as (<- & Hfs & _). destruct (String.eqb o "").
  { cbn [rmap fst]. by rewrite Hfs. }
  rewrite Hfs. cbn [rmap fst apply_writes fold_left snd].
  destruct (w_fs w !! Py.path_join legal o) as [x|] eqn:Hx.
  - destruct (String.eqb_spec x (crlf c)) as [<-|]; cbn [rmap fst].
    + f_equal. by rewrite Hfs, insert_id.
    + unfold write, put_err. cbn [w_fs]. by rewrite Hfs.
  - unfold write. cbn [rmap fst w_fs]. by rewrite Hfs.
Qed.

Lemma extract_members_fs legal ms w count members :
  rmap (fun r => w_fs r.1) (extract_members legal ms (w, count) members) =
  rmap (fun L => apply_writes L (w_fs w)) (members_writes legal ms members).
Proof.
  revert w count. induction members as [|nc members IH]; intros w count; [done|].
  cbn [extract_members members_writes]. pose proof (extract_member_fs legal ms w count nc) as E.
  destruct (extract_member legal ms (w, count) nc) as [[w1 c1]|e],
    (member_write legal ms nc) as [l1|e']; cbn [rbind rmap] in E |- *; try discriminate; [|done].
  injection E as E. rewrite IH. destruct (members_writes legal ms members); cbn; [|done].
  by rewrite apply_writes_app, E.
Qed.

(** The text a list of writes leaves at [k], over what was there. *)
Definition last_write (k : string) (L : list (string * string)) (o : option string) : option string :=
  fold_left (fun o pd => if String.eqb pd.1 k then Some pd.2 else o) L o.

Lemma lookup_apply_writes L fs k : apply_writes L fs !! k = last_write k L (fs !! k).
Proof.
  revert fs. induction L as [|[p d] L IH]; intros fs; [done|]. cbn [apply_writes last_write fold_left fst snd].
  unfold apply_writes, last_write in IH. rewrite IH. f_equal.
  destruct (String.eqb_spec p k) as [->|Hne]; [by rewrite lookup_insert_eq | by rewrite lookup_insert_ne].
Qed.

(** A list of writes either leaves [k] alone or puts a fixed text there. *)
Lemma last_write_cases k L : (forall o, last_write k L o = o) \/ (exists d, forall o, last_write k L o = Some d).
Proof.
  induction L as [|[p d] L IH] using rev_ind; [by left|]. unfold last_write. setoid_rewrite fold_left_app.
  cbn [fold_left fst snd]. fold (last_write k L). destruct (String.eqb p k); [right; by exists d|].
  exact IH.
Qed.

Lemma apply_writes_twice L fs : apply_writes L (apply_writes L fs) = apply_writes L fs.
Proof.
  apply map_eq. intros k. rewrite !lookup_apply_writes.
  destruct (last_write_cases k L) as [H|[d H]]; by rewrite !H.
Qed.

(** Every path of a write list lies in [legal]. *)
Definition under (legal : string) (L : list (string * string)) : Prop :=
  Forall (fun pd => exists o, pd.1 = Py.path_join legal o) L.

Lemma last_write_other k L o : ~ In k (map fst L) -> last_write k L o = o.
Proof.
  revert o. induction L as [|[p d] L IH]; intros o Hk; [done|]. cbn [last_write fold_left fst snd].
  destruct (String.eqb_spec p k) as [->|_]; [exfalso; apply Hk; by left|].
  apply IH. intros Hd. apply Hk. by right.
Qed.

Lemma rbind_app_under legal (r1 r2 : result (list (string * string))) L :
  (forall L1, r1 = Ok L1 -> under legal L1) -> (forall L2, r2 = Ok L2 -> under legal L2) ->
  (l1 <- r1 ;; l2 <- r2 ;; Ok (app l1 l2)) = Ok L -> under legal L.
Proof.
  intros H1 H2. destruct r1 as [L1|], r2 as [L2|]; cbn [rbind]; try discriminate.
  intros <-%Ok_inj. apply Forall_app_2; [apply H1|apply H2]; reflexivity.
Qed.

Lemma members_writes_under legal ms members L : members_writes legal ms members = Ok L -> under legal L.
Proof.
  revert L. induction members as [|[n c] members IH]; intros L; cbn [members_writes]; [intros <-%Ok_inj; constructor|].
  apply rbind_app_under; [|exact IH]. unfold member_write. intros L1.
  destruct (name_of _ _ _); cbn [rbind]; [|discriminate]. intros <-%Ok_inj.
  destruct (String.eqb _ ""); repeat constructor. by eexists.
Qed.

Lemma jar_writes_under zip legal f L : jar_writes zip legal f = Ok L -> under legal L.
Proof.
  unfold jar_writes. destruct (matchers f) as [|r rs]; [intros <-%Ok_inj; constructor|].
  destruct (member_rules _) as [|m ms]; [intros <-%Ok_inj; constructor|].
  destruct (zip f); [apply members_writes_under|discriminate].
Qed.

Lemma jars_writes_under zip legal fs L : jars_writes zip legal fs = Ok L -> under legal L.
Proof.
  revert L. induction fs as [|f fs IH]; intros L; cbn [jars_writes]; [intros <-%Ok_inj; constructor|].
  apply rbind_app_under; [apply jar_writes_under|exact IH].
Qed.

(** The files of [w1] differ from those of [w0] only under [legal]. *)
Definition confined (legal : string) (w0 w1 : world) : Prop :=
  forall k, w_fs w1 !! k <> w_fs w0 !! k -> exists o, k = Py.path_join legal o.

(** Writes under [legal] change files under [legal] only. *)
Lemma apply_writes_confined legal L w w' :
  under legal L -> w_fs w' = apply_writes L (w_fs w) -> confined legal w w'.
Proof.
  intros HL E k Hk. rewrite E, lookup_apply_writes in Hk.
  destruct (in_dec string_dec k (map fst L)) as [Hin|Hn]; [|by rewrite last_write_other in Hk].
  apply in_map_iff in Hin as [pd [<- Hd]].
  unfold under in HL. rewrite List.Forall_forall in HL. exact (HL pd Hd).
Qed.

Lemma confined_trans legal w0 w1 w2 :
  confined legal w0 w1 -> confined legal w1 w2 -> confined legal w0 w2.
Proof.
  intros H1 H2 k Hk. destruct (decide (w_fs w2 !! k = w_fs w1 !! k)) as [E|E];
    [apply H1; congruence | exact (H2 k E)].
Qed.

Section Plan.

Variable glob : string -> list string.
Variable zip : string -> option (list (string * string)).

Lemma process_jar_writes legal w f :
  rmap w_fs (process_jar zip legal w f) = rmap (fun L => apply_writes L (w_fs w)) (jar_writes zip legal f).
Proof.
  unfold process_jar, jar_writes. destruct (matchers f) as [|r rs]; [done|].
  destruct (member_rules (r :: rs)) as [|m ms]; [done|]. destruct (zip f) as [members|]; [|done].
  pose proof (extract_members_fs legal (m :: ms) w 0 members) as E.
  destruct (extract_members legal (m :: ms) (w, 0%nat) members) as [[w1 c1]|e],
    (members_writes legal (m :: ms) members); cbn [rbind rmap fst put_err w_fs] in E |- *; congruence.
Qed.

Lemma process_jars_writes legal w fs :
  rmap w_fs (process_jars zip legal w fs) = rmap (fun L => apply_writes L (w_fs w)) (jars_writes zip legal fs).
Proof.
  revert w. induction fs as [|f fs IH]; intros w; [done|]. cbn [process_jars jars_writes].
  pose proof (process_jar_writes legal w f) as E.
  destruct (process_jar zip legal w f) as [w1|e], (jar_writes zip legal f) as [l1|e'];
    cbn [rbind rmap] in E |- *; try discriminate; [|done].
  injection E as E. rewrite IH. destruct (jars_writes zip legal fs); cbn; [|done].
  by rewrite apply_writes_app, E.
Qed.

(** C8: A run writes the copies of its members in order, whatever the
    files held before: its files are those before, overwritten by the
    list of (path, text) that [jars_writes] computes from the archives
    alone; a run fails exactly when that computation does. *)
Theorem main_writes argv0 tdir jdir rest w :
  rmap w_fs (main glob zip (argv0 :: tdir :: jdir :: rest) w) =
  rmap (fun L => apply_writes L (w_fs w))
    (jars_writes zip (Py.path_join tdir "license") (glob (Py.path_join jdir "*.jar"))).
Proof. apply process_jars_writes. Qed.

(** C9: Running the installer a second time over the same archives
    succeeds and leaves the files as the first run left them. *)
Theorem install_idempotent argv w w1 :
  main glob zip argv w = Ok w1 -> exists w2, main glob zip argv w1 = Ok w2 /\ w_fs w2 = w_fs w1.
Proof.
  destruct argv as [|a0 [|tdir [|jdir rest]]]; try discriminate. intros H.
  pose proof (main_writes a0 tdir jdir rest w) as E1. pose proof (main_writes a0 tdir jdir rest w1) as E2.
  rewrite H in E1. destruct (main glob zip _ w1) as [w2|e];
    destruct (jars_writes _ _ _) as [L|e']; cbn [rmap] in E1, E2; try discriminate.
  exists w2. split; [done|]. injection E1 as E1. injection E2 as ->. by rewrite E1, apply_writes_twice.
Qed.

(** The extractor only writes under [<tdir>/license]: every path whose
    content a successful run changes is [os.path.join(legal, name)] for
    some name. *)
Theorem main_confined argv0 tdir jdir rest w w' :
  main glob zip (argv0 :: tdir :: jdir :: rest) w = Ok w' -> confined (Py.path_join tdir "license") w w'.
Proof.
  intros H. pose proof (main_writes argv0 tdir jdir rest w) as E. rewrite H in E.
  destruct (jars_writes _ _ _) as [L|] eqn:EL; cbn [rmap] in E; [|discriminate]. injection E as E.
  exact (apply_writes_confined _ L w w' (jars_writes_under _ _ _ _ EL) E).
Qed.

(** [process_jars] is the [for] loop of [Loop] over the jars. *)
Lemma process_jars_loop legal w fs : process_jars zip legal w fs = Loop.for_loop (process_jar zip legal) w fs.
Proof. revert w fs. apply Loop.for_loop_unique; reflexivity. Qed.

Lemma process_jar_confined legal w0 w f w' :
  confined legal w0 w -> process_jar zip legal w f = Ok w' -> confined legal w0 w'.
Proof.
  intros Hc H. apply (confined_trans _ _ w); [exact Hc|].
  pose proof (process_jar_writes legal w f) as E. rewrite H in E.
  destruct (jar_writes zip legal f) as [L|] eqn:EL; cbn [rmap] in E; [|discriminate]. injection E as E.
  exact (apply_writes_confined _ L w w' (jar_writes_under _ _ _ _ EL) E).
Qed.

(** C10: The extractor writes under [<tdir>/license] at every point of its
    run, not only at its end: [main] is the loop over the jars, and in
    every configuration that loop reaches, also the last one before a jar
    raises, the files differ from those the run started with only at
    paths [os.path.join(legal, name)]. *)
Theorem main_confined_always argv0 tdir jdir rest w :
  main glob zip (argv0 :: tdir :: jdir :: rest) w =
    Loop.outcome (process_jar zip (Py.path_join tdir "license"))
      (Loop.Cfg (glob (Py.path_join jdir "*.jar")) (Ok w)) /\
  Loop.always (process_jar zip (Py.path_join tdir "license"))
    (fun c => forall w', Loop.current c = Ok w' -> confined (Py.path_join tdir "license") w w')
    (Loop.Cfg (glob (Py.path_join jdir "*.jar")) (Ok w)).
Proof.
  split; [apply process_jars_loop|].
  apply Loop.loop_always; [intros; eapply process_jar_confined; eassumption|].
  intros k Hk. congruence.
Qed.

End Plan.

(** The two copies an avalon jar holding both [META-INF/LICENSE] and
    [META-INF/LICENSE.txt] makes. *)
Lemma avalon_writes zip legal a b :
  zip "lib/avalon-framework-4.2.0.jar" = Some [("META-INF/LICENSE", a); ("META-INF/LICENSE.txt", b)] ->
  jar_writes zip legal "lib/avalon-framework-4.2.0.jar" =
    Ok [(Py.path_join legal "LICENSE-avalon", crlf a); (Py.path_join legal "LICENSE-avalon", crlf b)].
Proof. intros Hz. unfold jar_writes. rewrite Hz. vm_compute. reflexivity. Qed.

(** C20: An avalon jar holding both [META-INF/LICENSE] and
    [META-INF/LICENSE.txt] maps both to [LICENSE-avalon]: the second copy
    overwrites the first, whose text is lost. *)
Theorem avalon_license_overwritten zip legal a b w :
  zip "lib/avalon-framework-4.2.0.jar" = Some [("META-INF/LICENSE", a); ("META-INF/LICENSE.txt", b)] ->
  rmap (fun w' => w_fs w' !! Py.path_join legal "LICENSE-avalon")
    (process_jar zip legal w "lib/avalon-framework-4.2.0.jar") = Ok (Some (crlf b)).
Proof.
  intros Hz. pose proof (process_jar_writes zip legal w "lib/avalon-framework-4.2.0.jar") as E.
  rewrite (avalon_writes zip legal a b Hz) in E.
  destruct (process_jar zip legal w _) as [w'|e]; cbn [rmap] in E |- *; [|discriminate].
  injection E as E. rewrite E, lookup_insert_eq. reflexivity.
Qed.

Definition example_world : world := World ∅ Print.empty_stream Print.empty_stream.

Definition example_zip (f : string) : option (list (string * string)) :=
  Some [("META-INF/LICENSE", "A"); ("META-INF/LICENSE.txt", "B")].

Lemma avalon_license_overwritten_witness :
  example_zip "lib/avalon-framework-4.2.0.jar" = Some [("META-INF/LICENSE", "A"); ("META-INF/LICENSE.txt", "B")] /\
  rmap (fun w' => w_fs w' !! Py.path_join "t/license" "LICENSE-avalon")
    (process_jar example_zip "t/license" example_world "lib/avalon-framework-4.2.0.jar") = Ok (Some (crlf "B")).
Proof. split; [reflexivity | apply (avalon_license_overwritten example_zip "t/license" "A" "B"); reflexivity]. Defined.

Lemma install_idempotent_witness : exists w1,
  main (fun _ => ["lib/avalon-framework-4.2.0.jar"]) example_zip ["install-licenses.py"; "t"; "lib"] example_world
    = Ok w1 /\
  exists w2, main (fun _ => ["lib/avalon-framework-4.2.0.jar"]) example_zip ["install-licenses.py"; "t"; "lib"] w1
    = Ok w2 /\ w_fs w2 = w_fs w1.
Proof.
  eexists. split; [reflexivity|].
  apply install_idempotent with (w := example_world). vm_compute. reflexivity.
Defined.

Lemma main_confined_witness : exists w',
  main (fun _ => ["lib/avalon-framework-4.2.0.jar"]) example_zip ["install-licenses.py"; "t"; "lib"] example_world
    = Ok w' /\
  w_fs w' !! "t/license/LICENSE-avalon" <> w_fs example_world !! "t/license/LICENSE-avalon" /\
  exists o, "t/license/LICENSE-avalon" = Py.path_join (Py.path_join "t" "license") o.
Proof.
  eexists. split; [reflexivity|]. split; [vm_compute; discriminate|].
  eapply (main_confined (fun _ => ["lib/avalon-framework-4.2.0.jar"]) example_zip "install-licenses.py" "t" "lib" []
            example_world); [reflexivity | vm_compute; discriminate].
Defined.

Lemma name_loop_first_witness :
  name_loop example_world "META-INF/LICENSE" "" (member_rules (matchers "lib/avalon-framework-4.2.0.jar"))
    = Ok (example_world, "LICENSE-avalon") /\
  "LICENSE-avalon" = first_name "" (names "META-INF/LICENSE" (member_rules (matchers "lib/avalon-framework-4.2.0.jar")))
  /\ w_fs example_world = w_fs example_world.
Proof. split; [vm_compute; reflexivity | apply name_loop_first; vm_compute; reflexivity]. Defined.

End Licenses.
