(* ===== verification/Generator.v ===== *)
(** * The distribution fixture generator

    [distribution-gen-testdata.py] (the copy under [elki-core-math/out];
    the older copy under [elki-core-math/src] is [Legacy] below) walks a
    table of distributions sorted by family, and for every selected entry
    appends records to the file [<family>.ascii.gz]: random variates and
    the cdf, pdf, log-pdf and quantiles computed by scipy, and the same
    values computed by GNU R, read back from R's output.  This file holds:
    - the table [dfs] with its five columns as the source writes them (the
      scipy constructor and the R template as their source text);
    - the two probability grids [pqs] and [qqs] as doubles, and the R
      scripts the generator pipes into R;
    - [gen_entry], one iteration of the main loop on the state [gstate]
      (the current family [pk], the open file [of], the files written),
      with scipy and R as parameters of the section [Run]: a frozen scipy
      distribution is a [dist] record of functions, R a function from the
      script on its standard input to its standard output;
    - [generate], the whole run over [sorted(dfs)].
    The theorems relate the loop to a specification that appends each
    entry's text to its family's file, and, run one entry at a time as
    the [for] loop of [Loop], show it halts in [generate]'s result with
    the file of every selected family opened as the loop passes it. *)

From Stdlib Require Import String Ascii ZArith Lia Sorted.
From stdpp Require Import base list gmap strings.
From S2P Require Import Prelude Loop PyRe Float64 Fmt Roundtrip PyPrint.

Open Scope string_scope.
Local Open Scope py_scope.

Module Generator.
Import Float64.

(** ** The table *)

Record entry := Entry {
  e_family : string;
  e_variant : string;
  e_scipy : option string;   (** the scipy.stats constructor, as written *)
  e_rfunc : option string;   (** the R expression template, with its [%s] *)
  e_seed : Z
}.

Definition dfs : list entry := [
  Entry "gamma" "1_1"
    (Some "scipy.stats.gamma(1, scale=1./1)")
    (Some "gamma(x, 1, rate=1 %s)") 1;
  Entry "gamma" "2_1"
    (Some "scipy.stats.gamma(2, scale=1./1)")
    (Some "gamma(x, 2, rate=1 %s)") 2;
  Entry "gamma" "4_1"
    (Some "scipy.stats.gamma(4, scale=1./1)")
    (Some "gamma(x, 4, rate=1 %s)") 3;
  Entry "gamma" "4_10"
    (Some "scipy.stats.gamma(4, scale=1./10)")
    (Some "gamma(x, 4, rate=10 %s)") 4;
  Entry "gamma" "01_10"
    (Some "scipy.stats.gamma(.1, scale=1./10)")
    (Some "gamma(x, .1, rate=10 %s)") 5;
  Entry "gamma" "01_20"
    (Some "scipy.stats.gamma(.1, scale=1./20)")
    (Some "gamma(x, .1, rate=20 %s)") 6;
  Entry "gamma" "01_4"
    (Some "scipy.stats.gamma(.1, scale=1./4)")
    (Some "gamma(x, .1, rate=4 %s)") 7;
  Entry "gamma" "01_1"
    (Some "scipy.stats.gamma(.1, scale=1./1)")
    (Some "gamma(x, .1, rate=1 %s)") 8;
  Entry "beta" "01_01"
    (Some "scipy.stats.beta(.1, .1)")
    (Some "beta(x, .1, .1 %s)") 9;
  Entry "beta" "01_05"
    (Some "scipy.stats.beta(.1, .5)")
    (Some "beta(x, .1, .5 %s)") 10;
  Entry "beta" "01_1"
    (Some "scipy.stats.beta(.1, 1)")
    (Some "beta(x, .1, 1 %s)") 11;
  Entry "beta" "01_2"
    (Some "scipy.stats.beta(.1, 2)")
    (Some "beta(x, .1, 2 %s)") 12;
  Entry "beta" "01_4"
    (Some "scipy.stats.beta(.1, 4)")
    (Some "beta(x, .1, 4 %s)") 13;
  Entry "beta" "05_01"
    (Some "scipy.stats.beta(.5, .1)")
    (Some "beta(x, .5, .1 %s)") 14;
  Entry "beta" "05_05"
    (Some "scipy.stats.beta(.5, .5)")
    (Some "beta(x, .5, .5 %s)") 15;
  Entry "beta" "05_1"
    (Some "scipy.stats.beta(.5, 1)")
    (Some "beta(x, .5, 1 %s)") 16;
  Entry "beta" "05_2"
    (Some "scipy.stats.beta(.5, 2)")
    (Some "beta(x, .5, 2 %s)") 17;
  Entry "beta" "05_4"
    (Some "scipy.stats.beta(.5, 4)")
    (Some "beta(x, .5, 4 %s)") 18;
  Entry "beta" "1_01"
    (Some "scipy.stats.beta(1, .1)")
    (Some "beta(x, 1, .1 %s)") 19;
  Entry "beta" "1_05"
    (Some "scipy.stats.beta(1, .5)")
    (Some "beta(x, 1, .5 %s)") 20;
  Entry "beta" "1_1"
    (Some "scipy.stats.beta(1, 1)")
    (Some "beta(x, 1, 1 %s)") 21;
  Entry "beta" "1_2"
    (Some "scipy.stats.beta(1, 2)")
    (Some "beta(x, 1, 2 %s)") 22;
  Entry "beta" "1_4"
    (Some "scipy.stats.beta(1, 4)")
    (Some "beta(x, 1, 4 %s)") 23;
  Entry "beta" "2_01"
    (Some "scipy.stats.beta(2, .1)")
    (Some "beta(x, 2, .1 %s)") 24;
  Entry "beta" "2_05"
    (Some "scipy.stats.beta(2, .5)")
    (Some "beta(x, 2, .5 %s)") 25;
  Entry "beta" "2_1"
    (Some "scipy.stats.beta(2, 1)")
    (Some "beta(x, 2, 1 %s)") 26;
  Entry "beta" "2_2"
    (Some "scipy.stats.beta(2, 2)")
    (Some "beta(x, 2, 2 %s)") 27;
  Entry "beta" "2_4"
    (Some "scipy.stats.beta(2, 4)")
    (Some "beta(x, 2, 4 %s)") 28;
  Entry "beta" "4_01"
    (Some "scipy.stats.beta(4, .1)")
    (Some "beta(x, 4, .1 %s)") 29;
  Entry "beta" "4_05"
    (Some "scipy.stats.beta(4, .5)")
    (Some "beta(x, 4, .5 %s)") 30;
  Entry "beta" "4_1"
    (Some "scipy.stats.beta(4, 1)")
    (Some "beta(x, 4, 1 %s)") 31;
  Entry "beta" "4_2"
    (Some "scipy.stats.beta(4, 2)")
    (Some "beta(x, 4, 2 %s)") 32;
  Entry "beta" "4_4"
    (Some "scipy.stats.beta(4, 4)")
    (Some "beta(x, 4, 4 %s)") 33;
  Entry "beta" "5000_10000"
    (Some "scipy.stats.beta(5000, 10000)")
    (Some "beta(x, 5000, 10000 %s)") 34;
  Entry "chisq" "01"
    (Some "scipy.stats.chi2(.1)")
    (Some "chisq(x, .1 %s)") 35;
  Entry "chisq" "1"
    (Some "scipy.stats.chi2(1)")
    (Some "chisq(x, 1 %s)") 36;
  Entry "chisq" "2"
    (Some "scipy.stats.chi2(2)")
    (Some "chisq(x, 2 %s)") 37;
  Entry "chisq" "4"
    (Some "scipy.stats.chi2(4)")
    (Some "chisq(x, 4 %s)") 38;
  Entry "chisq" "10"
    (Some "scipy.stats.chi2(10)")
    (Some "chisq(x, 10 %s)") 39;
  Entry "norm" "0_1"
    (Some "scipy.stats.norm(0, 1)")
    (Some "norm(x, 0, 1 %s)") 40;
  Entry "norm" "1_3"
    (Some "scipy.stats.norm(1, 3)")
    (Some "norm(x, 1, 3 %s)") 41;
  Entry "norm" "01_01"
    (Some "scipy.stats.norm(.1, .1)")
    (Some "norm(x, .1, .1 %s)") 42;
  Entry "lognorm" "0_1"
    (Some "scipy.stats.lognorm(1, 0, math.exp(0))")
    (Some "lnorm(x, 0, 1 %s)") 43;
  Entry "lognorm" "1_3"
    (Some "scipy.stats.lognorm(3, 0, math.exp(1))")
    (Some "lnorm(x, 1, 3 %s)") 44;
  Entry "lognorm" "01_01"
    (Some "scipy.stats.lognorm(.1, 0, math.exp(.1))")
    (Some "lnorm(x, .1, .1 %s)") 45;
  Entry "unif" "0_1"
    (Some "scipy.stats.uniform(0, 1)")
    (Some "unif(x, 0, 1 %s)") 46;
  Entry "unif" "M1_2"
    (Some "scipy.stats.uniform(-1, 3)")
    (Some "unif(x, -1, 2 %s)") 47;
  Entry "exp" "01"
    (Some "scipy.stats.expon(scale=1/.1)")
    (Some "exp(x, .1 %s)") 48;
  Entry "exp" "05"
    (Some "scipy.stats.expon(scale=1/.5)")
    (Some "exp(x, .5 %s)") 49;
  Entry "exp" "1"
    (Some "scipy.stats.expon(scale=1/1.)")
    (Some "exp(x, 1. %s)") 50;
  Entry "exp" "2"
    (Some "scipy.stats.expon(scale=1/2.)")
    (Some "exp(x, 2. %s)") 51;
  Entry "exp" "4"
    (Some "scipy.stats.expon(scale=1/4.)")
    (Some "exp(x, 4. %s)") 52;
  Entry "weibull" "1_1"
    (Some "scipy.stats.exponweib(1,1,scale=1)")
    (Some "weibull(x, 1, 1 %s)") 53;
  Entry "weibull" "2_1"
    (Some "scipy.stats.exponweib(1,2,scale=1)")
    (Some "weibull(x, 2, 1 %s)") 54;
  Entry "weibull" "4_1"
    (Some "scipy.stats.exponweib(1,4,scale=1)")
    (Some "weibull(x, 4, 1 %s)") 55;
  Entry "weibull" "4_10"
    (Some "scipy.stats.exponweib(1,4,scale=10)")
    (Some "weibull(x, 4, 10 %s)") 56;
  Entry "weibull" "01_10"
    (Some "scipy.stats.exponweib(1,.1,scale=10)")
    (Some "weibull(x, .1, 10 %s)") 57;
  Entry "weibull" "01_20"
    (Some "scipy.stats.exponweib(1,.1,scale=20)")
    (Some "weibull(x, .1, 20 %s)") 58;
  Entry "weibull" "01_4"
    (Some "scipy.stats.exponweib(1,.1,scale=4)")
    (Some "weibull(x, .1, 4 %s)") 59;
  Entry "weibull" "01_1"
    (Some "scipy.stats.exponweib(1,.1,scale=1)")
    (Some "weibull(x, .1, 1 %s)") 60;
  Entry "gumbel" "1_1"
    (Some "scipy.stats.gumbel_r(1,scale=1)")
    (Some ("lmomco(x, vec2par(c(1, 1, 0), type=" ++ Py.dq ++ "gev" ++ Py.dq ++ ") %s)")) 61;
  Entry "gumbel" "2_1"
    (Some "scipy.stats.gumbel_r(2,scale=1)")
    (Some ("lmomco(x, vec2par(c(2, 1, 0), type=" ++ Py.dq ++ "gev" ++ Py.dq ++ ") %s)")) 62;
  Entry "gumbel" "4_1"
    (Some "scipy.stats.gumbel_r(4,scale=1)")
    (Some ("lmomco(x, vec2par(c(4, 1, 0), type=" ++ Py.dq ++ "gev" ++ Py.dq ++ ") %s)")) 63;
  Entry "gumbel" "4_10"
    (Some "scipy.stats.gumbel_r(4,scale=10)")
    (Some ("lmomco(x, vec2par(c(4, 10, 0), type=" ++ Py.dq ++ "gev" ++ Py.dq ++ ") %s)")) 64;
  Entry "gumbel" "01_10"
    (Some "scipy.stats.gumbel_r(.1,scale=10)")
    (Some ("lmomco(x, vec2par(c(.1, 10, 0), type=" ++ Py.dq ++ "gev" ++ Py.dq ++ ") %s)")) 65;
  Entry "gumbel" "01_20"
    (Some "scipy.stats.gumbel_r(.1,scale=20)")
    (Some ("lmomco(x, vec2par(c(.1, 20, 0), type=" ++ Py.dq ++ "gev" ++ Py.dq ++ ") %s)")) 66;
  Entry "gumbel" "01_4"
    (Some "scipy.stats.gumbel_r(.1,scale=4)")
    (Some ("lmomco(x, vec2par(c(.1, 4, 0), type=" ++ Py.dq ++ "gev" ++ Py.dq ++ ") %s)")) 67;
  Entry "gumbel" "01_1"
    (Some "scipy.stats.gumbel_r(.1,scale=1)")
    (Some ("lmomco(x, vec2par(c(.1, 1, 0), type=" ++ Py.dq ++ "gev" ++ Py.dq ++ ") %s)")) 68;
  Entry "gev" "08_02_1"
    (Some "scipy.stats.genextreme(.8,loc=.2,scale=1)")
    (Some ("lmomco(x, vec2par(c(.2, 1, .8), type=" ++ Py.dq ++ "gev" ++ Py.dq ++ ") %s)")) 69;
  Entry "gev" "1_05_1"
    (Some "scipy.stats.genextreme(1,loc=.5,scale=1)")
    (Some ("lmomco(x, vec2par(c(.5, 1, 1), type=" ++ Py.dq ++ "gev" ++ Py.dq ++ ") %s)")) 70;
  Entry "gev" "1_05_05"
    (Some "scipy.stats.genextreme(1,loc=.5,scale=.5)")
    (Some ("lmomco(x, vec2par(c(.5, .5, 1), type=" ++ Py.dq ++ "gev" ++ Py.dq ++ ") %s)")) 71;
  Entry "gev" "2_05_05"
    (Some "scipy.stats.genextreme(2,loc=.5,scale=.5)")
    (Some ("lmomco(x, vec2par(c(.5, .5, 2), type=" ++ Py.dq ++ "gev" ++ Py.dq ++ ") %s)")) 72;
  Entry "gev" "4_05_05"
    (Some "scipy.stats.genextreme(4,loc=.5,scale=.5)")
    (Some ("lmomco(x, vec2par(c(.5, .5, 4), type=" ++ Py.dq ++ "gev" ++ Py.dq ++ ") %s)")) 73;
  Entry "gev" "M1_05_1"
    (Some "scipy.stats.genextreme(-1,loc=.5,scale=1)")
    (None) 74;
  Entry "gev" "M1_05_05"
    (Some "scipy.stats.genextreme(-1,loc=.5,scale=.5)")
    (None) 75;
  Entry "gev" "M2_05_05"
    (Some "scipy.stats.genextreme(-2,loc=.5,scale=.5)")
    (None) 76;
  Entry "gev" "M4_05_05"
    (Some "scipy.stats.genextreme(-4,loc=.5,scale=.5)")
    (None) 77;
  Entry "logistic" "05"
    (Some "scipy.stats.logistic(loc=.5)")
    (Some "logis(x, location=.5 %s)") 78;
  Entry "logistic" "01"
    (Some "scipy.stats.logistic(loc=.1)")
    (Some "logis(x, location=.1 %s)") 79;
  Entry "glogistic" "1_1"
    (Some "scipy.stats.genlogistic(1, loc=1.)")
    (None) 80;
  Entry "glogistic" "2_05"
    (Some "scipy.stats.genlogistic(2, loc=.5)")
    (None) 81;
  Entry "glogistic" "05_05"
    (Some "scipy.stats.genlogistic(.5, loc=.5)")
    (None) 82;
  Entry "expgamma" "1_1"
    (Some "scipy.stats.loggamma(1, scale=1./1)")
    (None) 83;
  Entry "expgamma" "2_1"
    (Some "scipy.stats.loggamma(2, scale=1./1)")
    (None) 84;
  Entry "expgamma" "4_1"
    (Some "scipy.stats.loggamma(4, scale=1./1)")
    (None) 85;
  Entry "expgamma" "4_10"
    (Some "scipy.stats.loggamma(4, scale=1./10)")
    (None) 86;
  Entry "expgamma" "01_10"
    (Some "scipy.stats.loggamma(.1, scale=1./10)")
    (None) 87;
  Entry "expgamma" "01_20"
    (Some "scipy.stats.loggamma(.1, scale=1./20)")
    (None) 88;
  Entry "expgamma" "01_4"
    (Some "scipy.stats.loggamma(.1, scale=1./4)")
    (None) 89;
  Entry "expgamma" "01_1"
    (Some "scipy.stats.loggamma(.1, scale=1./1)")
    (None) 90;
  Entry "gpd" "01_05_01"
    (Some "scipy.stats.genpareto(.1,loc=.1,scale=.5)")
    (Some ("lmomco(x, vec2par(c(.1, .5, .1), type=" ++ Py.dq ++ "gpa" ++ Py.dq ++ ") %s)")) 91;
  Entry "invgauss" "1_1"
    (Some "scipy.stats.invgauss(1.,scale=1.)")
    (Some "invgauss(x, 1, 1 %s)") 92;
  Entry "invgauss" "05_1"
    (Some "scipy.stats.invgauss(.5,scale=1.)")
    (Some "invgauss(x, .5, 1 %s)") 93;
  Entry "invgauss" "1_05"
    (Some "scipy.stats.invgauss(2.,scale=.5)")
    (Some "invgauss(x, 1., .5 %s)") 94;
  Entry "cauchy" "05_1"
    (Some "scipy.stats.cauchy(loc=.5,scale=1)")
    (Some "cauchy(x, 0.5, 1 %s)") 95;
  Entry "cauchy" "1_05"
    (Some "scipy.stats.cauchy(loc=1,scale=.5)")
    (Some "cauchy(x, 1, 0.5 %s)") 96;
  Entry "chi" "01"
    (Some "scipy.stats.chi(.1)")
    (Some "chi(x, 0.1 %s)") 97;
  Entry "chi" "1"
    (Some "scipy.stats.chi(1)")
    (Some "chi(x, 1 %s)") 98;
  Entry "chi" "2"
    (Some "scipy.stats.chi(2)")
    (Some "chi(x, 2 %s)") 99;
  Entry "chi" "4"
    (Some "scipy.stats.chi(4)")
    (Some "chi(x, 4 %s)") 100;
  Entry "chi" "10"
    (Some "scipy.stats.chi(10)")
    (Some "chi(x, 10 %s)") 101;
  Entry "emg" "1_3_05"
    (Some "scipy.stats.exponnorm(1./(0.5*3), loc=1, scale=3)")
    (Some "emg(x, 1, 3, 0.5 %s)") 102;
  Entry "emg" "1_3_01"
    (Some "scipy.stats.exponnorm(1./(0.1*3), loc=1, scale=3)")
    (Some "emg(x, 1, 3, 0.1 %s)") 102;
  Entry "lap" "1_3"
    (Some "scipy.stats.laplace(3, 1)")
    (Some "lap(x, 3, 1 %s)") 103;
  Entry "lap" "4_05"
    (Some "scipy.stats.laplace(.5, 1./4)")
    (Some "lap(x, 0.5, 4 %s)") 104;
  Entry "ray" "1"
    (Some "scipy.stats.rayleigh(scale=1)")
    (Some "weibull(x, 2, 1*sqrt(2) %s)") 105;
  Entry "ray" "2"
    (Some "scipy.stats.rayleigh(scale=2)")
    (Some "weibull(x, 2, 2*sqrt(2) %s)") 106;
  Entry "kappa" "01_02_03_04"
    (Some "scipy.stats.kappa4(.4, .3, loc=.1, scale=.2)")
    (Some "kap(x, vec2par(c(.1,.2,.3,.4), type='kap') %s)") 107;
  Entry "loglogistic" "1_1"
    (Some "scipy.stats.fisk(1, scale=1)")
    (None) 108;
  Entry "loglogistic" "2_05"
    (Some "scipy.stats.fisk(2, scale=.5)")
    (None) 109;
  Entry "loglogistic" "05_05"
    (Some "scipy.stats.fisk(.5, scale=.5)")
    (None) 110;
  Entry "skewnorm" "01_02_03"
    (None)
    (Some "gno(x, vec2par(c(.1,.2,.3), type='gno') %s)") 111;
  Entry "skewnorm" "1_2_3"
    (None)
    (Some "gno(x, vec2par(c(1,2,3), type='gno') %s)") 112
].

(** ** Sorting: [sorted(dfs)] *)

(** The tuples compare by family, then variant; the table has no two
    entries with the same pair ([dfs_keys_unique]), so the later columns
    are never compared. *)
Definition key_leb (x y : entry) : bool :=
  Py.str_ltb (e_family x) (e_family y) ||
  (String.eqb (e_family x) (e_family y) &&
   (Py.str_ltb (e_variant x) (e_variant y) || String.eqb (e_variant x) (e_variant y))).

(** A stable insertion sort, as [sorted] is stable. *)
Fixpoint insert_entry (x : entry) (l : list entry) : list entry :=
  match l with
  | [] => [x]
  | y :: l' => if key_leb x y then x :: l else y :: insert_entry x l'
  end.

Definition sort_entries (l : list entry) : list entry := fold_right insert_entry [] l.

(** ** The grids *)

Definition samples : nat := 100.

(** [10.], and [math.pi], [math.e]: the doubles nearest pi and e, with
    their 53-bit significands. *)
Definition ten : pyfloat := Fin false 10 0.
Definition math_pi : pyfloat := Fin false 7074237752028440 (-51).
Definition math_e : pyfloat := Fin false 6121026514868073 (-51).

Fixpoint insert_float (x : pyfloat) (l : list pyfloat) : list pyfloat :=
  match l with
  | [] => [x]
  | y :: l' => if flt y x then y :: insert_float x l' else x :: l
  end.

(** [pqs = map(lambda x: x/10., range(1, 21, 1)) + [...]; pqs.sort()] *)
Definition pqs_unsorted : list pyfloat :=
  app (map (fun x => fdiv (Fin false (Z.of_nat x) 0) ten) (seq 1 20))
  [lit 1 (-5); lit 1 (-10); lit 1234567 (-7); math_pi; math_e;
   fdiv math_pi ten; fdiv math_e ten].

Definition pqs : list pyfloat := fold_right insert_float [] pqs_unsorted.

Definition qqs : list pyfloat :=
  [lit 1 (-4); lit 1 (-3); lit 1 (-2); lit 10 (-2); lit 25 (-2); lit 5 (-1);
   lit 75 (-2); lit 90 (-2); lit 99 (-2); lit 999 (-3); lit 9999 (-4)].

Definition fmtf (x : pyfloat) : string := Fmt.fmt (Fmt.AFloat x).

Definition pqstr : string := Py.join "," (map fmtf pqs).
Definition qqstr : string := Py.join "," (map fmtf qqs).

(** ** The R scripts *)

Definition r_template1 : string := Py.join Py.nl [
    ""; ("library(" ++ Py.dq ++ "stats4" ++ Py.dq ++ ")");
    ("library(" ++ Py.dq ++ "statmod" ++ Py.dq ++ ")");
    ("library(" ++ Py.dq ++ "emg" ++ Py.dq ++ ")");
    ("library(" ++ Py.dq ++ "chi" ++ Py.dq ++ ")");
    ("library(" ++ Py.dq ++ "gumbel" ++ Py.dq ++ ")");
    ("library(" ++ Py.dq ++ "evir" ++ Py.dq ++ ")");
    ("library(" ++ Py.dq ++ "lmomco" ++ Py.dq ++ ")");
    ("library(" ++ Py.dq ++ "bda" ++ Py.dq ++ ")");
    "";
    "pkap <- cdfkap";
    "dkap <- pdfkap";
    "qkap <- quakap";
    "pgno <- cdfgno";
    "dgno <- pdfgno";
    "qgno <- quagno";
    "";
    "x <- c( %s )";
    "y <- p%s";
    ("cat(formatC(y, digits=50, format=" ++ Py.dq ++ "e" ++ Py.dq ++ "))");
    ("cat(" ++ Py.dq ++ " " ++ Py.dq ++ ")");
    "y <- d%s";
    ("cat(formatC(y, digits=50, format=" ++ Py.dq ++ "e" ++ Py.dq ++ "))");
    ("cat(" ++ Py.dq ++ " " ++ Py.dq ++ ")");
    "y <- d%s";
    ("cat(formatC(y, digits=50, format=" ++ Py.dq ++ "e" ++ Py.dq ++ "))");
    "q()";
    ""].

Definition r_template2 : string := Py.join Py.nl [
    ""; ("library(" ++ Py.dq ++ "stats4" ++ Py.dq ++ ")");
    ("library(" ++ Py.dq ++ "statmod" ++ Py.dq ++ ")");
    ("library(" ++ Py.dq ++ "emg" ++ Py.dq ++ ")");
    ("library(" ++ Py.dq ++ "chi" ++ Py.dq ++ ")");
    ("library(" ++ Py.dq ++ "gumbel" ++ Py.dq ++ ")");
    ("library(" ++ Py.dq ++ "lmomco" ++ Py.dq ++ ")");
    ("library(" ++ Py.dq ++ "bda" ++ Py.dq ++ ")");
    "";
    "pkap <- cdfkap";
    "dkap <- pdfkap";
    "qkap <- quakap";
    "pgno <- cdfgno";
    "dgno <- pdfgno";
    "qgno <- quagno";
    "";
    "x <- c( %s )";
    "y <- q%s";
    ("cat(formatC(y, digits=50, format=" ++ Py.dq ++ "e" ++ Py.dq ++ "))");
    "q()";
    ""].

(** [rin] of the first call, from the script text [tmpl]: the grid and
    the cdf, pdf and log-pdf calls. *)
Definition rin1 (tmpl rfunc : string) : result string :=
  a <- Py.percent rfunc [""] ;;
  b <- Py.percent rfunc [", log=TRUE"] ;;
  Py.percent tmpl [pqstr; a; a; b].

(** [rin] of the second call: the quantile function. *)
Definition rin2 (tmpl rfunc : string) : result string :=
  a <- Py.percent rfunc [""] ;;
  Py.percent tmpl [qqstr; a].

(** [map(float, rout.split())] *)
Fixpoint parse_floats (ts : list string) : result (list pyfloat) :=
  match ts with
  | [] => Ok []
  | t :: ts' =>
      match py_float t with
      | None => Err (ValueError "could not convert string to float")
      | Some x => vs <- parse_floats ts' ;; Ok (x :: vs)
      end
  end.

(** ** The state of a run *)

Record gstate := GS {
  g_pk : option string;                  (** [pk] *)
  g_of : option string;                  (** the name of the file [of] *)
  g_files : gmap string Print.stream     (** what each file object received *)
}.

Definition init : gstate := GS None None ∅.

(** [print >>None] writes to standard output. *)
Definition stdout_name : string := "<stdout>".

Definition cur_name (st : gstate) : string :=
  match g_of st with Some n => n | None => stdout_name end.

(** One record: [print >>of, name,], one [print >>of, v,] per value, then
    [print >>of]. *)
Definition out_line (st : gstate) (items : list string) : gstate :=
  let f := default Print.empty_stream (g_files st !! cur_name st) in
  GS (g_pk st) (g_of st) (<[cur_name st := Print.print_line f items]> (g_files st)).

Definition out_lines (st : gstate) (ls : list (list string)) : gstate :=
  fold_left out_line ls st.

(** [pk = n1; of = gzip.open("%s.ascii.gz" % n1, "w")]: a new, empty file. *)
Definition file_of (n1 : string) : string := n1 ++ ".ascii.gz".

Definition open_family (st : gstate) (n1 : string) : gstate :=
  GS (Some n1) (Some (file_of n1)) (<[file_of n1 := Print.empty_stream]> (g_files st)).

(** [if pk != n1: if of: of.close(); pk = n1; of = gzip.open(...)] *)
Definition enter (st : gstate) (n1 : string) : gstate :=
  if decide (g_pk st = Some n1) then st else open_family st n1.

(** [len(sys.argv) > 1 and not n1 in sys.argv[1:]] *)
Definition skipped (argv : list string) (n1 : string) : bool :=
  (1 <? length argv)%nat && negb (existsb (String.eqb n1) (tail argv)).

(** ** One iteration of the loop *)

(** A frozen scipy distribution. *)
Record dist := Dist {
  rvs : nat -> Z -> list pyfloat;         (** [rvs(size, random_state)] *)
  cdf : pyfloat -> pyfloat;
  pdf : pyfloat -> pyfloat;
  logpdf : pyfloat -> pyfloat;
  ppf : pyfloat -> pyfloat
}.

Definition grid_line (name : string) (qs : list pyfloat) (f : pyfloat -> pyfloat)
  : list string :=
  name :: flat_map (fun q => [fmtf q; fmtf (f q)]) qs.

(** The records computed with scipy. *)
Definition scipy_records (d : dist) (n2 : string) (seed : Z) : list (list string) :=
  [("random_" ++ n2) :: map fmtf (rvs d samples seed);
   grid_line ("cdf_scipy_" ++ n2) pqs (cdf d);
   grid_line ("pdf_scipy_" ++ n2) pqs (pdf d);
   grid_line ("logpdf_scipy_" ++ n2) pqs (logpdf d);
   grid_line ("quant_scipy_" ++ n2) qqs (ppf d)].

(** [fmt(pqs[i]), fmt(vals[i + off])] for [i] in [range(0, len(qs))] *)
Definition vals_line (name : string) (qs vals : list pyfloat) (off : nat) : list string :=
  name :: flat_map (fun i => [fmtf (nth i qs NaN); fmtf (nth (i + off) vals NaN)])
                   (seq 0 (length qs)).

Section Run.

(** scipy, by the constructor's text, and R, by its standard input. *)
Variable scipy : string -> dist.
Variable r_run : string -> string.
(** The texts of the two R scripts, with their [%s] holes. *)
Variable tmpl1 tmpl2 : string.

(** The first R call and its records; the assertion on the number of
    values read back. *)
Definition gnur_first (n2 rfunc : string) : result (list (list string)) :=
  rin <- rin1 tmpl1 rfunc ;;
  vals <- parse_floats (Py.split_ws (r_run rin)) ;;
  let n := length pqs in
  if (length vals =? n * 3)%nat || (length vals =? n * 2)%nat then
    Ok (app [vals_line ("cdf_gnur_" ++ n2) pqs vals 0;
             vals_line ("pdf_gnur_" ++ n2) pqs vals n]
        (if (length vals =? n * 3)%nat
         then [vals_line ("logpdf_gnur_" ++ n2) pqs vals (2 * n)] else []))
  else Err AssertionError.

(** The second R call: its record only when R returned one value per
    quantile. *)
Definition gnur_second (n2 rfunc : string) : result (list (list string)) :=
  rin <- rin2 tmpl2 rfunc ;;
  vals <- parse_floats (Py.split_ws (r_run rin)) ;;
  Ok (if (length vals =? length qqs)%nat
      then [vals_line ("quant_gnur_" ++ n2) qqs vals 0] else []).

Definition gen_entry (argv : list string) (st : gstate) (e : entry) : result gstate :=
  if skipped argv (e_family e) then Ok st
  else
    let st1 := enter st (e_family e) in
    let st2 := match e_scipy e with
               | Some c => out_lines st1 (scipy_records (scipy c) (e_variant e) (e_seed e))
               | None => st1
               end in
    match e_rfunc e with
    | Some r =>
        if String.eqb r "" then Ok st2
        else
          l1 <- gnur_first (e_variant e) r ;;
          let st3 := out_lines st2 l1 in
          l2 <- gnur_second (e_variant e) r ;;
          Ok (out_lines st3 l2)
    | None => Ok st2
    end.

Fixpoint gen_loop (argv : list string) (es : list entry) (st : gstate) : result gstate :=
  match es with
  | [] => Ok st
  | e :: es' => st' <- gen_entry argv st e ;; gen_loop argv es' st'
  end.

(** ** The specification of a run *)

(** A record as it reaches the file: its items joined by spaces, a newline. *)
Definition line_text (items : list string) : string := String.concat " " items ++ Py.nl.

Definition lines_text (ls : list (list string)) : string := String.concat "" (map line_text ls).

(** The records of one entry, in the order the loop prints them: the
    scipy records, then the records of the two R calls. *)
Definition entry_records (e : entry) : result (list (list string)) :=
  let sc := match e_scipy e with
            | Some c => scipy_records (scipy c) (e_variant e) (e_seed e)
            | None => []
            end in
  match e_rfunc e with
  | Some r =>
      if String.eqb r "" then Ok sc
      else
        l1 <- gnur_first (e_variant e) r ;;
        l2 <- gnur_second (e_variant e) r ;;
        Ok (app sc (app l1 l2))
  | None => Ok sc
  end.

(** What a run promises: each selected entry appends its records to the
    file of its family; the first error ends the run. *)
Fixpoint spec_files (argv : list string) (es : list entry) (m : gmap string string)
  : result (gmap string string) :=
  match es with
  | [] => Ok m
  | e :: es' =>
      if skipped argv (e_family e) then spec_files argv es' m
      else
        ls <- entry_records e ;;
        spec_files argv es'
          (<[file_of (e_family e) := default "" (m !! file_of (e_family e)) ++ lines_text ls]> m)
  end.

End Run.

(** The whole run, with the two R scripts of this copy; the file left
    open at the end is closed when the interpreter exits. *)
Definition generate (scipy : string -> dist) (r_run : string -> string) (argv : list string)
  : result gstate :=
  gen_loop scipy r_run r_template1 r_template2 argv (sort_entries dfs) init.

(** The file objects of a finished record sequence: the text, flag clear. *)
Definition files_of (m : gmap string string) : gmap string Print.stream :=
  (fun t => Print.Stream t false) <$> m.

(** The families of a list come in runs: each one is followed by itself
    or never occurs again. *)
Fixpoint grouped (l : list string) : bool :=
  match l with
  | [] => true
  | x :: l' =>
      (match l' with y :: _ => String.eqb x y | [] => true end
       || negb (existsb (String.eqb x) l')) && grouped l'
  end.

Definition pk_list (pk : option string) : list string :=
  match pk with Some p => [p] | None => [] end.

(** ** Every printed item keeps the soft space *)

Lemma visible_keeps_soft s : Fmt.all_chars Fmt.visible s = true -> Print.keeps_soft s.
Proof.
  unfold Print.keeps_soft, Print.soft_after.
  induction s as [|c s IH]; [reflexivity|]. cbn [Fmt.all_chars].
  intros H. apply andb_prop in H as [Hc Hs].
  destruct s as [|c' s']; [cbn; unfold Fmt.visible in Hc; by rewrite Hc | exact (IH Hs)].
Qed.

Lemma fmtf_soft x : Print.keeps_soft (fmtf x).
Proof. apply visible_keeps_soft. unfold fmtf, Fmt.fmt. rewrite Fmt.fmt_pct_e17. apply Fmt.fmt_spec_visible. Qed.

(** A record the loop can print with [print_line_text]. *)
Definition printable (l : list string) : Prop := l <> [] /\ Forall Print.keeps_soft l.

Lemma pairs_soft {A} (g h : A -> pyfloat) l :
  Forall Print.keeps_soft (flat_map (fun q => [fmtf (g q); fmtf (h q)]) l).
Proof.
  induction l as [|a l IH]; cbn [flat_map app]; [apply List.Forall_nil|].
  apply List.Forall_cons; [apply fmtf_soft|]. apply List.Forall_cons; [apply fmtf_soft | exact IH].
Qed.

Lemma grid_line_printable name qs f :
  Print.keeps_soft name -> printable (grid_line name qs f).
Proof. split; [discriminate | constructor; [done | exact (pairs_soft (fun q => q) f qs)]]. Qed.

Lemma vals_line_printable name qs vals off :
  Print.keeps_soft name -> printable (vals_line name qs vals off).
Proof.
  split; [discriminate|]. constructor; [done|].
  exact (pairs_soft (fun i => nth i qs NaN) (fun i => nth (i + off) vals NaN) _).
Qed.

#[export] Hint Resolve grid_line_printable vals_line_printable Print.keeps_soft_app List.Forall_nil : pyhints.
#[export] Hint Extern 1 (Print.keeps_soft (String _ _)) => reflexivity : pyhints.

Lemma random_printable n2 xs :
  Print.keeps_soft n2 -> printable (("random_" ++ n2) :: map fmtf xs).
Proof.
  intros Hn. split; [discriminate|]. constructor; [eauto with nocore pyhints|].
  apply List.Forall_forall. intros y Hy. apply in_map_iff in Hy as (x & <- & _). apply fmtf_soft.
Qed.

Lemma scipy_records_printable d n2 seed :
  Print.keeps_soft n2 -> Forall printable (scipy_records d n2 seed).
Proof. intros Hn. repeat apply List.Forall_cons; auto using random_printable with nocore pyhints. Qed.

Lemma gnur_first_printable r_run t1 n2 r l :
  Print.keeps_soft n2 -> gnur_first r_run t1 n2 r = Ok l -> Forall printable l.
Proof.
  intros Hn. unfold gnur_first.
  destruct (rin1 t1 r); [cbn [rbind]|discriminate]. destruct (parse_floats _) as [vals|]; [cbn [rbind]|discriminate].
  destruct (_ || _); [|discriminate]. intros <-%Ok_inj.
  apply Forall_app_2; [repeat apply List.Forall_cons; auto with nocore pyhints|].
  destruct (_ =? _)%nat; repeat apply List.Forall_cons; auto with nocore pyhints.
Qed.

Lemma gnur_second_printable r_run t2 n2 r l :
  Print.keeps_soft n2 -> gnur_second r_run t2 n2 r = Ok l -> Forall printable l.
Proof.
  intros Hn. unfold gnur_second.
  destruct (rin2 t2 r); [cbn [rbind]|discriminate]. destruct (parse_floats _) as [vals|]; [cbn [rbind]|discriminate].
  intros <-%Ok_inj. destruct (_ =? _)%nat; repeat apply List.Forall_cons; auto with nocore pyhints.
Qed.

Lemma entry_records_printable scipy r_run t1 t2 e ls :
  Print.keeps_soft (e_variant e) -> entry_records scipy r_run t1 t2 e = Ok ls -> Forall printable ls.
Proof.
  intros Hn. unfold entry_records.
  assert (Hsc : Forall printable (match e_scipy e with
                                  | Some c => scipy_records (scipy c) (e_variant e) (e_seed e)
                                  | None => [] end))
    by (destruct (e_scipy e); auto using scipy_records_printable).
  destruct (e_rfunc e) as [r|]; [|by intros <-%Ok_inj].
  destruct (String.eqb r ""); [by intros <-%Ok_inj|].
  destruct (gnur_first r_run t1 _ r) as [l1|] eqn:E1; [cbn [rbind]|discriminate].
  destruct (gnur_second r_run t2 _ r) as [l2|] eqn:E2; [cbn [rbind]|discriminate].
  intros <-%Ok_inj. apply Forall_app_2; [exact Hsc|].
  apply Forall_app_2; eauto using gnur_first_printable, gnur_second_printable with nocore.
Qed.

(** ** Writing records to the open file *)

Lemma lines_text_cons l ls : lines_text (l :: ls) = line_text l ++ lines_text ls.
Proof. apply Print.concat_empty_cons. Qed.

Lemma line_printed f l : Print.st_soft f = false -> printable l ->
  Print.print_line f l = Print.Stream (Print.st_text f ++ line_text l) false.
Proof.
  intros Hs [Hne Hk]. destruct l as [|x items]; [done|].
  rewrite Print.print_line_text by done. reflexivity.
Qed.

Lemma out_lines_app st a b : out_lines st (app a b) = out_lines (out_lines st a) b.
Proof. apply fold_left_app. Qed.

Lemma out_lines_cons st l ls : out_lines st (l :: ls) = out_lines (out_line st l) ls.
Proof. reflexivity. Qed.

Lemma out_line_text st l t :
  g_files st !! cur_name st = Some (Print.Stream t false) -> printable l ->
  out_line st l =
  GS (g_pk st) (g_of st) (<[cur_name st := Print.Stream (t ++ line_text l) false]> (g_files st)).
Proof.
  intros Hf Hl. unfold out_line. rewrite Hf. cbn [default].
  rewrite line_printed by done. reflexivity.
Qed.

(** Records printed on a fresh line of the current file are appended to it. *)
Lemma out_lines_text st ls t :
  g_files st !! cur_name st = Some (Print.Stream t false) -> Forall printable ls ->
  out_lines st ls =
  GS (g_pk st) (g_of st) (<[cur_name st := Print.Stream (t ++ lines_text ls) false]> (g_files st)).
Proof.
  destruct st as [pk o fs]. revert fs t. induction ls as [|l ls IH]; intros fs t Hf Hp.
  - change (GS pk o fs = GS pk o (<[cur_name (GS pk o fs) := Print.Stream (t ++ "") false]> fs)).
    rewrite append_empty_r, insert_id; done.
  - inversion Hp as [|? ? Hl Hp']; subst.
    rewrite out_lines_cons.
    rewrite (out_line_text _ l t Hf Hl). cbn [g_pk g_of g_files].
    rewrite (IH _ (t ++ line_text l)); [|exact (lookup_insert_eq _ _ _) | done].
    cbn [g_pk g_of g_files cur_name]. rewrite insert_insert_eq, lines_text_cons, append_assoc_str. reflexivity.
Qed.

(** ** The loop refines the specification *)

Lemma file_of_inj a b : file_of a = file_of b -> a = b.
Proof. apply append_inj_r. Qed.

Definition absent (x : string) (l : list string) : bool := negb (existsb (String.eqb x) l).

Lemma grouped_cons x l :
  grouped (x :: l) =
  (match l with y :: _ => String.eqb x y | [] => true end || absent x l) && grouped l.
Proof. reflexivity. Qed.

Lemma absent_cons x y l : absent x (y :: l) = negb (String.eqb x y) && absent x l.
Proof. unfold absent. cbn [existsb]. apply negb_orb. Qed.

Lemma absent_not_In x l : absent x l = true -> ~ In x l.
Proof.
  unfold absent. intros H Hin. apply negb_true_iff in H.
  assert (existsb (String.eqb x) l = true) by (apply existsb_exists; exists x; split; [done | apply String.eqb_refl]).
  congruence.
Qed.

Lemma grouped_tail x l : grouped (x :: l) = true -> grouped l = true.
Proof. rewrite grouped_cons. intros H. apply andb_prop in H. tauto. Qed.

(** A family that is left does not come back. *)
Lemma grouped_leave x y l : grouped (x :: y :: l) = true -> x <> y -> ~ In x l.
Proof.
  rewrite grouped_cons. intros H Hne. apply andb_prop in H as [H _].
  rewrite absent_cons, (proj2 (String.eqb_neq x y) Hne) in H. cbn in H.
  exact (absent_not_In _ _ H).
Qed.

Lemma grouped_skip x y l : grouped (x :: y :: l) = true -> grouped (x :: l) = true.
Proof.
  intros H. destruct (String.eqb_spec x y) as [<-|Hne]; [exact (grouped_tail _ _ H)|].
  pose proof (grouped_tail _ _ (grouped_tail _ _ H)) as Hl.
  rewrite grouped_cons in H |- *. apply andb_prop in H as [H _].
  rewrite absent_cons, (proj2 (String.eqb_neq x y) Hne) in H. cbn in H.
  by rewrite H, orb_true_r, Hl.
Qed.

(** The state of the loop before the entries [es], against the files [m]
    of the specification. *)
Record loop_inv (argv : list string) (st : gstate) (m : gmap string string)
    (es : list entry) : Prop := {
  inv_files : g_files st = files_of m;
  inv_open : forall p, g_pk st = Some p -> g_of st = Some (file_of p) /\ is_Some (m !! file_of p);
  inv_grouped : grouped (pk_list (g_pk st) ++ map e_family es) = true;
  inv_fresh : forall e, In e es -> skipped argv (e_family e) = false ->
              g_pk st <> Some (e_family e) -> m !! file_of (e_family e) = None
}.

Lemma inv_init argv es : grouped (map e_family es) = true -> loop_inv argv init ∅ es.
Proof.
  intros Hg. split; cbn [g_pk g_of g_files pk_list app].
  - unfold files_of. by rewrite fmap_empty.
  - discriminate.
  - exact Hg.
  - intros. apply lookup_empty.
Qed.

Lemma inv_skip argv st m e es :
  skipped argv (e_family e) = true -> loop_inv argv st m (e :: es) -> loop_inv argv st m es.
Proof.
  intros Hs [Hf Ho Hg Hn]. split; [done | done | | intros e' He'; apply Hn; by right].
  destruct (g_pk st) as [p|]; cbn in Hg |- *; [exact (grouped_skip _ _ _ Hg) | exact (grouped_tail _ _ Hg)].
Qed.

Lemma enter_files argv st m e es :
  loop_inv argv st m (e :: es) -> skipped argv (e_family e) = false ->
  g_pk (enter st (e_family e)) = Some (e_family e) /\
  g_of (enter st (e_family e)) = Some (file_of (e_family e)) /\
  g_files (enter st (e_family e)) =
    files_of (<[file_of (e_family e) := default "" (m !! file_of (e_family e))]> m).
Proof.
  intros [Hf Ho Hg Hn] Hs. unfold enter. case_decide as Hp.
  - destruct (Ho _ Hp) as [Hof [t Ht]]. rewrite Ht. cbn [default].
    rewrite insert_id by done. auto.
  - cbn [open_family g_pk g_of g_files]. rewrite (Hn e (or_introl eq_refl) Hs Hp). cbn [default].
    rewrite Hf. unfold files_of. rewrite fmap_insert. auto.
Qed.

(** One selected entry: the loop's state and the specification's files
    after it still correspond. *)
Lemma inv_step argv st m e es ls :
  loop_inv argv st m (e :: es) -> skipped argv (e_family e) = false -> Forall printable ls ->
  loop_inv argv (out_lines (enter st (e_family e)) ls)
    (<[file_of (e_family e) := default "" (m !! file_of (e_family e)) ++ lines_text ls]> m) es.
Proof.
  intros Hi Hs Hp. destruct (enter_files _ _ _ _ _ Hi Hs) as (Hpk & Hof & Hfs).
  set (f := e_family e) in *. set (t0 := default "" (m !! file_of f)) in *.
  assert (Hcur : cur_name (enter st f) = file_of f) by (unfold cur_name; by rewrite Hof).
  rewrite (out_lines_text (enter st f) ls t0); cycle 1.
  { rewrite Hcur, Hfs. unfold files_of. by rewrite lookup_fmap, lookup_insert_eq. }
  { exact Hp. }
  destruct Hi as [Hf Ho Hg Hn]. split; cbn [g_pk g_of g_files]; rewrite ?Hpk, ?Hof.
  - rewrite Hcur, Hfs. unfold files_of. by rewrite !fmap_insert, insert_insert_eq.
  - intros p [= <-]. split; [done|]. rewrite lookup_insert_eq. eauto.
  - cbn [pk_list app]. destruct (g_pk st); cbn [pk_list app] in Hg; [exact (grouped_tail _ _ Hg) | exact Hg].
  - intros e' He' Hs' Hne. rewrite lookup_insert_ne by (intros Heq; apply file_of_inj in Heq; congruence).
    apply Hn; [by right | done |]. intros Hpk'. rewrite Hpk' in Hg. cbn [pk_list app map] in Hg.
    apply (grouped_leave _ _ _ Hg); [intros Heq; apply Hne; unfold f; by rewrite Heq|]. by apply in_map.
Qed.

Lemma gen_entry_eq scipy r_run t1 t2 argv st e :
  skipped argv (e_family e) = false ->
  gen_entry scipy r_run t1 t2 argv st e =
  (ls <- entry_records scipy r_run t1 t2 e ;; Ok (out_lines (enter st (e_family e)) ls)).
Proof.
  intros Hs. unfold gen_entry, entry_records. rewrite Hs.
  destruct (e_rfunc e) as [r|]; [|destruct (e_scipy e); reflexivity].
  destruct (String.eqb r ""); [destruct (e_scipy e); reflexivity|].
  destruct (gnur_first r_run t1 _ r) as [l1|]; cbn [rbind]; [|reflexivity].
  destruct (gnur_second r_run t2 _ r) as [l2|]; cbn [rbind]; [|reflexivity].
  rewrite !out_lines_app. destruct (e_scipy e); reflexivity.
Qed.

(** The loop from a state that corresponds to [m] ends in the files of
    the specification, or in its error. *)
Lemma gen_loop_spec scipy r_run t1 t2 argv es st m :
  Forall (fun e => Print.keeps_soft (e_variant e)) es -> loop_inv argv st m es ->
  rmap g_files (gen_loop scipy r_run t1 t2 argv es st) = rmap files_of (spec_files scipy r_run t1 t2 argv es m).
Proof.
  revert st m. induction es as [|e es IH]; intros st m Hv Hi.
  - cbn. f_equal. apply Hi.
  - inversion Hv as [|? ? He Hv']; subst. cbn [gen_loop spec_files].
    destruct (skipped argv (e_family e)) eqn:Hs.
    + unfold gen_entry at 1. rewrite Hs. cbn [rbind]. apply IH; [done | exact (inv_skip _ _ _ _ _ Hs Hi)].
    + rewrite gen_entry_eq by done.
      destruct (entry_records scipy r_run t1 t2 e) as [ls|] eqn:Hr; cbn [rbind]; [|reflexivity].
      apply IH; [done|]. exact (inv_step _ _ _ _ _ _ Hi Hs (entry_records_printable _ _ _ _ _ _ He Hr)).
Qed.

(** A sorted table whose variants keep the soft space and whose
    families come in runs: the loop over it refines [spec_files]. *)
Lemma table_refines scipy r_run t1 t2 argv tbl :
  forallb (fun e => Print.soft_after (e_variant e)) (sort_entries tbl) = true ->
  grouped (map e_family (sort_entries tbl)) = true ->
  rmap g_files (gen_loop scipy r_run t1 t2 argv (sort_entries tbl) init) =
  rmap files_of (spec_files scipy r_run t1 t2 argv (sort_entries tbl) ∅).
Proof.
  intros Hv Hg. apply gen_loop_spec; [|exact (inv_init argv _ Hg)].
  apply List.Forall_forall. intros e He. exact (proj1 (forallb_forall _ _) Hv e He).
Qed.

(** C1: The run refines its specification: whatever scipy and R return
    and whatever families are selected on the command line, the files the
    generator writes are those of [spec_files], where each selected entry
    of the sorted table appends its records (items joined by spaces, one
    line each) to the file of its family; an error of any entry is the
    error of the run. *)
Theorem generate_refines scipy r_run argv :
  rmap g_files (generate scipy r_run argv) =
  rmap files_of (spec_files scipy r_run r_template1 r_template2 argv (sort_entries dfs) ∅).
Proof.
  unfold generate. apply (table_refines scipy r_run r_template1 r_template2 argv dfs); vm_compute; reflexivity.
Qed.

(** ** The family filter *)

Lemma insert_entry_perm x l : Permutation (insert_entry x l) (x :: l).
Proof.
  induction l as [|y l IH]; [reflexivity|]. cbn [insert_entry].
  destruct (key_leb x y); [reflexivity|]. rewrite IH. apply perm_swap.
Qed.

Lemma sort_entries_in e l : In e (sort_entries l) <-> In e l.
Proof.
  assert (P : Permutation (sort_entries l) l).
  { induction l as [|x l IH]; [reflexivity|]. cbn [sort_entries fold_right].
    rewrite insert_entry_perm. by apply perm_skip. }
  split; apply Permutation_in; [exact P|symmetry; exact P].
Qed.

(** With families named on the command line, a family is processed
    exactly when it is named. *)
Lemma skipped_false argv f : (1 < length argv)%nat -> skipped argv f = false <-> In f (tail argv).
Proof.
  intros Hl. unfold skipped. apply Nat.ltb_lt in Hl. rewrite Hl. cbn [andb].
  rewrite negb_false_iff, existsb_exists. split.
  - intros (g & Hg & Heq). apply String.eqb_eq in Heq. by subst.
  - intros Hf. exists f. split; [exact Hf|apply String.eqb_refl].
Qed.

Lemma files_of_dom m p : is_Some (files_of m !! p) <-> is_Some (m !! p).
Proof. unfold files_of. rewrite lookup_fmap. apply fmap_is_Some. Qed.

(** The files of the specification: those it starts with and the file
    of every family of an entry not skipped. *)
Lemma spec_files_dom scipy r_run t1 t2 argv es m0 m p :
  spec_files scipy r_run t1 t2 argv es m0 = Ok m ->
  is_Some (m !! p) <->
  is_Some (m0 !! p) \/ exists e, In e es /\ skipped argv (e_family e) = false /\ p = file_of (e_family e).
Proof.
  revert m0. induction es as [|e es IH]; intros m0 H; cbn [spec_files] in H.
  - injection H as <-. split; [by left|]. intros [H|(e & [] & _)]. exact H.
  - destruct (skipped argv (e_family e)) eqn:Hs.
    + rewrite (IH _ H). split.
      * intros [H0|(e' & He' & Hs' & ->)]; [by left|]. right. exists e'. by split; [right|].
      * intros [H0|(e' & [<-|He'] & Hs' & ->)]; [by left|congruence|]. right. by exists e'.
    + destruct (entry_records scipy r_run t1 t2 e) as [ls|]; cbn [rbind] in H; [|discriminate].
      rewrite (IH _ H), lookup_insert_is_Some'. split.
      * intros [[<-|H0]|(e' & He' & Hs' & ->)]; [right; exists e; by split; [left|]|by left|].
        right. exists e'. by split; [right|].
      * intros [H0|(e' & [<-|He'] & Hs' & ->)]; [by left; right|by left; left|]. right. by exists e'.
Qed.

(** C11: The family filter confines the run: when families are named on
    the command line, a successful run writes exactly the files
    [<family>.ascii.gz] of the named families that occur in the table,
    and no other file. *)
Theorem filter_files scipy r_run argv st :
  (1 < length argv)%nat -> generate scipy r_run argv = Ok st ->
  forall p, is_Some (g_files st !! p) <->
            exists e, In e dfs /\ In (e_family e) (tail argv) /\ p = file_of (e_family e).
Proof.
  intros Hl Hg p.
  pose proof (table_refines scipy r_run r_template1 r_template2 argv dfs
                ltac:(vm_compute; reflexivity) ltac:(vm_compute; reflexivity)) as R.
  change (gen_loop scipy r_run r_template1 r_template2 argv (sort_entries dfs) init) with (generate scipy r_run argv) in R.
  rewrite Hg in R. cbn [rmap] in R.
  destruct (spec_files scipy r_run r_template1 r_template2 argv (sort_entries dfs) ∅) as [m|] eqn:Hm;
    cbn [rmap] in R; [|discriminate]. injection R as ->.
  rewrite files_of_dom, (spec_files_dom _ _ _ _ _ _ _ _ p Hm), lookup_empty. split.
  - intros [H|(e & He & Hs & ->)]; [by destruct H|]. exists e.
    rewrite sort_entries_in, skipped_false in *; [|exact Hl]. done.
  - intros (e & He & Hf & ->). right. exists e. rewrite sort_entries_in, skipped_false by exact Hl. done.
Qed.

(** The family filter at work: the sample run of the specification's
    example, with only [chisq] selected. *)
Definition example_scipy : string -> dist :=
  fun _ => Dist (fun _ _ => []) (fun x => x) (fun x => x) (fun x => x) (fun x => x).

Definition example_r : string -> string := fun _ => String.concat " " (repeat "1" 81).

Lemma filter_files_witness :
  exists st, generate example_scipy example_r ["gen"; "chisq"] = Ok st /\
  (1 < length ["gen"; "chisq"])%nat /\
  forall p, is_Some (g_files st !! p) <->
            exists e, In e dfs /\ In (e_family e) (tail ["gen"; "chisq"]) /\ p = file_of (e_family e).
Proof.
  assert (Hok : match generate example_scipy example_r ["gen"; "chisq"] with Ok _ => true | Err _ => false end = true)
    by (vm_compute; reflexivity).
  revert Hok. destruct (generate example_scipy example_r ["gen"; "chisq"]) as [st|] eqn:E; intros Hok; [|discriminate Hok].
  exists st. split; [reflexivity|]. split; [cbn; lia|].
  exact (filter_files _ _ ["gen"; "chisq"] st ltac:(cbn; lia) E).
Defined.

(** ** The loop, one entry at a time *)

(** [gen_loop] is the [for] loop of [Loop] with the body [gen_entry]. *)
Lemma gen_loop_loop scipy r_run t1 t2 argv st es :
  gen_loop scipy r_run t1 t2 argv es st = Loop.for_loop (gen_entry scipy r_run t1 t2 argv) st es.
Proof.
  revert st es. apply (Loop.for_loop_unique _ (fun st es => gen_loop scipy r_run t1 t2 argv es st));
    reflexivity.
Qed.

(** The file of the current family [pk] is among the files written. *)
Definition pk_open (st : gstate) : Prop :=
  forall p, g_pk st = Some p -> is_Some (g_files st !! file_of p).

(** Printing a record changes no [pk] and removes no file. *)
Lemma out_lines_grows st ls :
  g_pk (out_lines st ls) = g_pk st /\
  forall k, is_Some (g_files st !! k) -> is_Some (g_files (out_lines st ls) !! k).
Proof.
  revert st. induction ls as [|l ls IH]; intros st; [split; auto|].
  rewrite out_lines_cons. destruct (IH (out_line st l)) as [Hpk Hk]. split; [exact Hpk|].
  intros k H. apply Hk. unfold out_line. cbn [g_files]. apply lookup_insert_is_Some'. by right.
Qed.

Lemma enter_open st f :
  pk_open st -> g_pk (enter st f) = Some f /\ is_Some (g_files (enter st f) !! file_of f).
Proof.
  intros Ho. unfold enter. case_decide as Hp; [split; [exact Hp | exact (Ho f Hp)]|].
  cbn [open_family g_pk g_files]. split; [reflexivity|]. apply lookup_insert_is_Some'. by left.
Qed.

(** An entry keeps [pk_open], and a selected entry leaves the file of its
    family written. *)
Lemma gen_entry_open scipy r_run t1 t2 argv st e st' :
  pk_open st -> gen_entry scipy r_run t1 t2 argv st e = Ok st' ->
  pk_open st' /\ (skipped argv (e_family e) = false -> is_Some (g_files st' !! file_of (e_family e))).
Proof.
  intros Ho H. destruct (skipped argv (e_family e)) eqn:Hs.
  - unfold gen_entry in H. rewrite Hs in H. injection H as <-. split; [exact Ho | discriminate].
  - rewrite gen_entry_eq in H by exact Hs. apply rbind_Ok_inv in H as [ls [_ H]]. injection H as <-.
    destruct (enter_open st (e_family e) Ho) as [Hpk Hf].
    destruct (out_lines_grows (enter st (e_family e)) ls) as [Hpk' Hk].
    split; [|intros _; exact (Hk _ Hf)].
    intros p Hp. rewrite Hpk', Hpk in Hp. injection Hp as <-. exact (Hk _ Hf).
Qed.

(** C2: Liveness of the generator's loop over [sorted(dfs)], run one entry
    at a time: whatever scipy and R return, every run halts in a final
    configuration whose result is that of [generate], and every run gets
    past each selected entry with the file [<family>.ascii.gz] of its
    family among the files written, unless an entry up to it raised. *)
Theorem generate_opens_every_family scipy r_run argv :
  Loop.eventually (gen_entry scipy r_run r_template1 r_template2 argv)
    (fun c => Loop.final c = true /\ Loop.current c = generate scipy r_run argv)
    (Loop.Cfg (sort_entries dfs) (Ok init)) /\
  (forall l1 e l2, sort_entries dfs = app l1 (e :: l2) -> skipped argv (e_family e) = false ->
    Loop.eventually (gen_entry scipy r_run r_template1 r_template2 argv)
      (fun c => (Loop.pending c = l2 /\
                 forall st, Loop.current c = Ok st -> is_Some (g_files st !! file_of (e_family e))) \/
                exists x, Loop.current c = Err x)
      (Loop.Cfg (sort_entries dfs) (Ok init))).
Proof.
  split.
  - unfold generate. rewrite gen_loop_loop.
    exact (Loop.loop_eventually _ (Loop.Cfg (sort_entries dfs) (Ok init))).
  - intros l1 e l2 -> Hs. apply (Loop.loop_reaches _ pk_open).
    + intros p Hp. discriminate.
    + intros st b st' Ho H. exact (proj1 (gen_entry_open _ _ _ _ _ _ _ _ Ho H)).
    + intros st st' Ho H. exact (proj2 (gen_entry_open _ _ _ _ _ _ _ _ Ho H) Hs).
Qed.

Lemma generate_opens_every_family_witness :
  sort_entries dfs = app (firstn 33 (sort_entries dfs))
    (nth 33 (sort_entries dfs) (Entry "" "" None None 0) :: skipn 34 (sort_entries dfs)) /\
  skipped ["gen"; "chisq"] (e_family (nth 33 (sort_entries dfs) (Entry "" "" None None 0))) = false /\
  Loop.eventually (gen_entry example_scipy example_r r_template1 r_template2 ["gen"; "chisq"])
    (fun c => (Loop.pending c = skipn 34 (sort_entries dfs) /\
               forall st, Loop.current c = Ok st ->
                 is_Some (g_files st !! file_of (e_family (nth 33 (sort_entries dfs) (Entry "" "" None None 0))))) \/
              exists x, Loop.current c = Err x)
    (Loop.Cfg (sort_entries dfs) (Ok init)).
Proof.
  assert (H1 : sort_entries dfs = app (firstn 33 (sort_entries dfs))
    (nth 33 (sort_entries dfs) (Entry "" "" None None 0) :: skipn 34 (sort_entries dfs)))
    by (vm_compute; reflexivity).
  assert (H2 : skipped ["gen"; "chisq"] (e_family (nth 33 (sort_entries dfs) (Entry "" "" None None 0))) = false)
    by (vm_compute; reflexivity).
  split; [exact H1|]. split; [exact H2|].
  exact (proj2 (generate_opens_every_family example_scipy example_r ["gen"; "chisq"]) _ _ _ H1 H2).
Defined.

(** ** The grids are strictly increasing *)

Fixpoint increasing (l : list pyfloat) : bool :=
  match l with
  | x :: ((y :: _) as l') => flt x y && increasing l'
  | _ => true
  end.

Lemma increasing_sorted l : increasing l = true -> Sorted (fun x y => flt x y = true) l.
Proof.
  induction l as [|x l IH]; [constructor|]. destruct l as [|y l']; [repeat constructor|].
  cbn [increasing]. intros H. apply andb_prop in H as [H1 H2].
  constructor; [exact (IH H2)|constructor; exact H1].
Qed.

(** C28: The grids are what the data model asks: [pqs] (after
    [pqs.sort()]) and [qqs] are strictly increasing as values, so both
    are sorted ascending and hold no value twice. *)
Theorem grids_sorted : Sorted (fun x y => flt x y = true) pqs /\ Sorted (fun x y => flt x y = true) qqs.
Proof. split; apply increasing_sorted; vm_compute; reflexivity. Qed.

(** ** The R calls *)

Lemma length_pqs : length pqs = 27%nat.
Proof. vm_compute. reflexivity. Qed.

(** C26: The assertion after the first R call: when R's answer parses to a
    number of values that is neither two nor three per grid point, the
    entry fails with [AssertionError]. *)
Theorem gnur_first_assert r_run t1 n2 r rin vals :
  rin1 t1 r = Ok rin -> parse_floats (Py.split_ws (r_run rin)) = Ok vals ->
  length vals <> (length pqs * 3)%nat -> length vals <> (length pqs * 2)%nat ->
  gnur_first r_run t1 n2 r = Err AssertionError.
Proof.
  intros Hr Hv H3 H2. unfold gnur_first. rewrite Hr. cbn [rbind]. rewrite Hv. cbn [rbind]. cbv zeta.
  destruct (Nat.eqb_spec (length vals) (length pqs * 3)); [contradiction|].
  destruct (Nat.eqb_spec (length vals) (length pqs * 2)); [contradiction | reflexivity].
Qed.

Lemma gnur_first_assert_witness :
  gnur_first (fun _ => "0.5 0.25") r_template1 "1_1" "gamma(x, 1, rate=1 %s)" = Err AssertionError.
Proof.
  eapply gnur_first_assert; [vm_compute; reflexivity | vm_compute; reflexivity | | ];
    vm_compute; discriminate.
Defined.

(** Without a log mode (two values per grid point), the first R call
    gives the cdf and pdf records only, the pdf values read from the second
    half of R's answer. *)
Theorem gnur_first_no_log r_run t1 n2 r rin vals :
  rin1 t1 r = Ok rin -> parse_floats (Py.split_ws (r_run rin)) = Ok vals ->
  length vals = (length pqs * 2)%nat ->
  gnur_first r_run t1 n2 r =
  Ok [vals_line ("cdf_gnur_" ++ n2) pqs vals 0; vals_line ("pdf_gnur_" ++ n2) pqs vals (length pqs)].
Proof.
  intros Hr Hv H2. unfold gnur_first. rewrite Hr. cbn [rbind]. rewrite Hv. cbn [rbind]. cbv zeta.
  destruct (Nat.eqb_spec (length vals) (length pqs * 3)) as [H3|_]; [rewrite length_pqs in H2, H3; lia|].
  destruct (Nat.eqb_spec (length vals) (length pqs * 2)); [|contradiction]. reflexivity.
Qed.

Lemma gnur_first_no_log_witness :
  gnur_first (fun _ => String.concat " " (repeat "1" 54)) r_template1 "1_1" "gamma(x, 1, rate=1 %s)" =
  Ok [vals_line ("cdf_gnur_" ++ "1_1") pqs (repeat (lit 1 0) 54) 0;
      vals_line ("pdf_gnur_" ++ "1_1") pqs (repeat (lit 1 0) 54) (length pqs)].
Proof.
  eapply gnur_first_no_log; [vm_compute; reflexivity | vm_compute; reflexivity | ].
  vm_compute. reflexivity.
Defined.

(** ** The table and the grids *)

(** C27: No two entries of the table share family and variant, so
    [sorted(dfs)] orders them by these two columns alone: Python never
    compares the scipy objects, and sorting by the key is sorting the
    tuples.  The seeds count the rows from 1 to 112, except that the
    second [emg] row repeats the seed [102] of the first: the two [emg]
    samples are drawn from the same random stream. *)
Theorem dfs_keys_unique :
  NoDup (map (fun e => (e_family e, e_variant e)) dfs) /\
  map e_seed dfs = app (map Z.of_nat (seq 1 102)) (map Z.of_nat (seq 102 11)) /\
  map (fun e => (e_family e, e_variant e)) (List.filter (fun e => Z.eqb (e_seed e) 102) dfs) =
    [("emg", "1_3_05"); ("emg", "1_3_01")].
Proof.
  split; [refine (bool_decide_unpack _ _); vm_compute; reflexivity|].
  split; vm_compute; reflexivity.
Qed.

(** The probability grid as the generator writes it into every R script:
    [pqs] sorted, each value printed with [fmt]; the text is CPython's
    output for the same doubles. *)
Example pqstr_text :
  pqstr = "1.00000000000000004e-10,1.00000000000000008e-05,1.00000000000000006e-01,1.23456700000000003e-01,2.00000000000000011e-01,2.71828182845904487e-01,2.99999999999999989e-01,3.14159265358979312e-01,4.00000000000000022e-01,5e-01,5.99999999999999978e-01,6.99999999999999956e-01,8.00000000000000044e-01,9.00000000000000022e-01,1,1.10000000000000009,1.19999999999999996,1.30000000000000004,1.39999999999999991,1.5,1.60000000000000009,1.69999999999999996,1.80000000000000004,1.89999999999999991,2,2.71828182845904509,3.14159265358979312".
Proof. vm_compute. reflexivity. Qed.


End Generator.
