(* ===== verification/LegacyGenerator.v ===== *)
(** * The legacy copy of the fixture generator
    [src/elki-core-math/src/test/resources/de/lmu/ifi/dbs/elki/math/statistics/distribution/distribution-gen-testdata.py]

    An older version of the generator of [Generator]: the same grids,
    [fmt] and loop, with a table of four columns (no seed: every sample
    is drawn with [random_state=1]) and R scripts that do not load [bda].
    The loop is [Generator]'s, instantiated with this table and these
    scripts; [legacy_refines] is its refinement theorem. *)

From Stdlib Require Import String Ascii ZArith Lia.
From stdpp Require Import base list gmap strings.
From S2P Require Import Prelude Float64 PyPrint Generator.

Open Scope string_scope.
Local Open Scope py_scope.

Module LegacyGenerator.
Import Generator.

(** A row [(n1, n2, df, rfunc)]; the loop draws its sample with
    [random_state=1], the seed the row carries into [scipy_records]. *)
Definition row (n1 n2 : string) (df rfunc : option string) : entry := Entry n1 n2 df rfunc 1.

Definition dfs : list entry := [
  row "gamma" "1_1"
    (Some "scipy.stats.gamma(1, scale=1./1)")
    (Some "gamma(x, 1, rate=1 %s)");
  row "gamma" "2_1"
    (Some "scipy.stats.gamma(2, scale=1./1)")
    (Some "gamma(x, 2, rate=1 %s)");
  row "gamma" "4_1"
    (Some "scipy.stats.gamma(4, scale=1./1)")
    (Some "gamma(x, 4, rate=1 %s)");
  row "gamma" "4_10"
    (Some "scipy.stats.gamma(4, scale=1./10)")
    (Some "gamma(x, 4, rate=10 %s)");
  row "gamma" "01_10"
    (Some "scipy.stats.gamma(.1, scale=1./10)")
    (Some "gamma(x, .1, rate=10 %s)");
  row "gamma" "01_20"
    (Some "scipy.stats.gamma(.1, scale=1./20)")
    (Some "gamma(x, .1, rate=20 %s)");
  row "gamma" "01_4"
    (Some "scipy.stats.gamma(.1, scale=1./4)")
    (Some "gamma(x, .1, rate=4 %s)");
  row "gamma" "01_1"
    (Some "scipy.stats.gamma(.1, scale=1./1)")
    (Some "gamma(x, .1, rate=1 %s)");
  row "beta" "01_01"
    (Some "scipy.stats.beta(.1, .1)")
    (Some "beta(x, .1, .1 %s)");
  row "beta" "01_05"
    (Some "scipy.stats.beta(.1, .5)")
    (Some "beta(x, .1, .5 %s)");
  row "beta" "01_1"
    (Some "scipy.stats.beta(.1, 1)")
    (Some "beta(x, .1, 1 %s)");
  row "beta" "01_2"
    (Some "scipy.stats.beta(.1, 2)")
    (Some "beta(x, .1, 2 %s)");
  row "beta" "01_4"
    (Some "scipy.stats.beta(.1, 4)")
    (Some "beta(x, .1, 4 %s)");
  row "beta" "05_01"
    (Some "scipy.stats.beta(.5, .1)")
    (Some "beta(x, .5, .1 %s)");
  row "beta" "05_05"
    (Some "scipy.stats.beta(.5, .5)")
    (Some "beta(x, .5, .5 %s)");
  row "beta" "05_1"
    (Some "scipy.stats.beta(.5, 1)")
    (Some "beta(x, .5, 1 %s)");
  row "beta" "05_2"
    (Some "scipy.stats.beta(.5, 2)")
    (Some "beta(x, .5, 2 %s)");
  row "beta" "05_4"
    (Some "scipy.stats.beta(.5, 4)")
    (Some "beta(x, .5, 4 %s)");
  row "beta" "1_01"
    (Some "scipy.stats.beta(1, .1)")
    (Some "beta(x, 1, .1 %s)");
  row "beta" "1_05"
    (Some "scipy.stats.beta(1, .5)")
    (Some "beta(x, 1, .5 %s)");
  row "beta" "1_1"
    (Some "scipy.stats.beta(1, 1)")
    (Some "beta(x, 1, 1 %s)");
  row "beta" "1_2"
    (Some "scipy.stats.beta(1, 2)")
    (Some "beta(x, 1, 2 %s)");
  row "beta" "1_4"
    (Some "scipy.stats.beta(1, 4)")
    (Some "beta(x, 1, 4 %s)");
  row "beta" "2_01"
    (Some "scipy.stats.beta(2, .1)")
    (Some "beta(x, 2, .1 %s)");
  row "beta" "2_05"
    (Some "scipy.stats.beta(2, .5)")
    (Some "beta(x, 2, .5 %s)");
  row "beta" "2_1"
    (Some "scipy.stats.beta(2, 1)")
    (Some "beta(x, 2, 1 %s)");
  row "beta" "2_2"
    (Some "scipy.stats.beta(2, 2)")
    (Some "beta(x, 2, 2 %s)");
  row "beta" "2_4"
    (Some "scipy.stats.beta(2, 4)")
    (Some "beta(x, 2, 4 %s)");
  row "beta" "4_01"
    (Some "scipy.stats.beta(4, .1)")
    (Some "beta(x, 4, .1 %s)");
  row "beta" "4_05"
    (Some "scipy.stats.beta(4, .5)")
    (Some "beta(x, 4, .5 %s)");
  row "beta" "4_1"
    (Some "scipy.stats.beta(4, 1)")
    (Some "beta(x, 4, 1 %s)");
  row "beta" "4_2"
    (Some "scipy.stats.beta(4, 2)")
    (Some "beta(x, 4, 2 %s)");
  row "beta" "4_4"
    (Some "scipy.stats.beta(4, 4)")
    (Some "beta(x, 4, 4 %s)");
  row "beta" "5000_10000"
    (Some "scipy.stats.beta(5000, 10000)")
    (Some "beta(x, 5000, 10000 %s)");
  row "chisq" "01"
    (Some "scipy.stats.chi2(.1)")
    (Some "chisq(x, .1 %s)");
  row "chisq" "1"
    (Some "scipy.stats.chi2(1)")
    (Some "chisq(x, 1 %s)");
  row "chisq" "2"
    (Some "scipy.stats.chi2(2)")
    (Some "chisq(x, 2 %s)");
  row "chisq" "4"
    (Some "scipy.stats.chi2(4)")
    (Some "chisq(x, 4 %s)");
  row "chisq" "10"
    (Some "scipy.stats.chi2(10)")
    (Some "chisq(x, 10 %s)");
  row "norm" "0_1"
    (Some "scipy.stats.norm(0, 1)")
    (Some "norm(x, 0, 1 %s)");
  row "norm" "1_3"
    (Some "scipy.stats.norm(1, 3)")
    (Some "norm(x, 1, 3 %s)");
  row "norm" "01_01"
    (Some "scipy.stats.norm(.1, .1)")
    (Some "norm(x, .1, .1 %s)");
  row "lognorm" "0_1"
    (Some "scipy.stats.lognorm(1, 0, math.exp(0))")
    (Some "lnorm(x, 0, 1 %s)");
  row "lognorm" "1_3"
    (Some "scipy.stats.lognorm(3, 0, math.exp(1))")
    (Some "lnorm(x, 1, 3 %s)");
  row "lognorm" "01_01"
    (Some "scipy.stats.lognorm(.1, 0, math.exp(.1))")
    (Some "lnorm(x, .1, .1 %s)");
  row "unif" "0_1"
    (Some "scipy.stats.uniform(0, 1)")
    (Some "unif(x, 0, 1 %s)");
  row "unif" "M1_2"
    (Some "scipy.stats.uniform(-1, 3)")
    (Some "unif(x, -1, 2 %s)");
  row "exp" "01"
    (Some "scipy.stats.expon(scale=1/.1)")
    (Some "exp(x, .1 %s)");
  row "exp" "05"
    (Some "scipy.stats.expon(scale=1/.5)")
    (Some "exp(x, .5 %s)");
  row "exp" "1"
    (Some "scipy.stats.expon(scale=1/1.)")
    (Some "exp(x, 1. %s)");
  row "exp" "2"
    (Some "scipy.stats.expon(scale=1/2.)")
    (Some "exp(x, 2. %s)");
  row "exp" "4"
    (Some "scipy.stats.expon(scale=1/4.)")
    (Some "exp(x, 4. %s)");
  row "weibull" "1_1"
    (Some "scipy.stats.exponweib(1,1,scale=1)")
    (Some "weibull(x, 1, 1 %s)");
  row "weibull" "2_1"
    (Some "scipy.stats.exponweib(1,2,scale=1)")
    (Some "weibull(x, 2, 1 %s)");
  row "weibull" "4_1"
    (Some "scipy.stats.exponweib(1,4,scale=1)")
    (Some "weibull(x, 4, 1 %s)");
  row "weibull" "4_10"
    (Some "scipy.stats.exponweib(1,4,scale=10)")
    (Some "weibull(x, 4, 10 %s)");
  row "weibull" "01_10"
    (Some "scipy.stats.exponweib(1,.1,scale=10)")
    (Some "weibull(x, .1, 10 %s)");
  row "weibull" "01_20"
    (Some "scipy.stats.exponweib(1,.1,scale=20)")
    (Some "weibull(x, .1, 20 %s)");
  row "weibull" "01_4"
    (Some "scipy.stats.exponweib(1,.1,scale=4)")
    (Some "weibull(x, .1, 4 %s)");
  row "weibull" "01_1"
    (Some "scipy.stats.exponweib(1,.1,scale=1)")
    (Some "weibull(x, .1, 1 %s)");
  row "gumbel" "1_1"
    (Some "scipy.stats.gumbel_r(1,scale=1)")
    (Some ("lmomco(x, vec2par(c(1, 1, 0), type=" ++ Py.dq ++ "gev" ++ Py.dq ++ ") %s)"));
  row "gumbel" "2_1"
    (Some "scipy.stats.gumbel_r(2,scale=1)")
    (Some ("lmomco(x, vec2par(c(2, 1, 0), type=" ++ Py.dq ++ "gev" ++ Py.dq ++ ") %s)"));
  row "gumbel" "4_1"
    (Some "scipy.stats.gumbel_r(4,scale=1)")
    (Some ("lmomco(x, vec2par(c(4, 1, 0), type=" ++ Py.dq ++ "gev" ++ Py.dq ++ ") %s)"));
  row "gumbel" "4_10"
    (Some "scipy.stats.gumbel_r(4,scale=10)")
    (Some ("lmomco(x, vec2par(c(4, 10, 0), type=" ++ Py.dq ++ "gev" ++ Py.dq ++ ") %s)"));
  row "gumbel" "01_10"
    (Some "scipy.stats.gumbel_r(.1,scale=10)")
    (Some ("lmomco(x, vec2par(c(.1, 10, 0), type=" ++ Py.dq ++ "gev" ++ Py.dq ++ ") %s)"));
  row "gumbel" "01_20"
    (Some "scipy.stats.gumbel_r(.1,scale=20)")
    (Some ("lmomco(x, vec2par(c(.1, 20, 0), type=" ++ Py.dq ++ "gev" ++ Py.dq ++ ") %s)"));
  row "gumbel" "01_4"
    (Some "scipy.stats.gumbel_r(.1,scale=4)")
    (Some ("lmomco(x, vec2par(c(.1, 4, 0), type=" ++ Py.dq ++ "gev" ++ Py.dq ++ ") %s)"));
  row "gumbel" "01_1"
    (Some "scipy.stats.gumbel_r(.1,scale=1)")
    (Some ("lmomco(x, vec2par(c(.1, 1, 0), type=" ++ Py.dq ++ "gev" ++ Py.dq ++ ") %s)"));
  row "gev" "08_02_1"
    (Some "scipy.stats.genextreme(1,loc=.8,scale=.2)")
    (Some ("lmomco(x, vec2par(c(.8, .2, 1), type=" ++ Py.dq ++ "gev" ++ Py.dq ++ ") %s)"));
  row "gev" "1_05_1"
    (Some "scipy.stats.genextreme(1,loc=.5,scale=1)")
    (Some ("lmomco(x, vec2par(c(.5, 1, 1), type=" ++ Py.dq ++ "gev" ++ Py.dq ++ ") %s)"));
  row "gev" "1_05_05"
    (Some "scipy.stats.genextreme(1,loc=.5,scale=.5)")
    (Some ("lmomco(x, vec2par(c(.5, .5, 1), type=" ++ Py.dq ++ "gev" ++ Py.dq ++ ") %s)"));
  row "gev" "2_05_05"
    (Some "scipy.stats.genextreme(2,loc=.5,scale=.5)")
    (Some ("lmomco(x, vec2par(c(.5, .5, 2), type=" ++ Py.dq ++ "gev" ++ Py.dq ++ ") %s)"));
  row "gev" "4_05_05"
    (Some "scipy.stats.genextreme(4,loc=.5,scale=.5)")
    (Some ("lmomco(x, vec2par(c(.5, .5, 4), type=" ++ Py.dq ++ "gev" ++ Py.dq ++ ") %s)"));
  row "gev" "M1_05_1"
    (Some "scipy.stats.genextreme(-1,loc=.5,scale=1)")
    None;
  row "gev" "M1_05_05"
    (Some "scipy.stats.genextreme(-1,loc=.5,scale=.5)")
    None;
  row "gev" "M2_05_05"
    (Some "scipy.stats.genextreme(-2,loc=.5,scale=.5)")
    None;
  row "gev" "M4_05_05"
    (Some "scipy.stats.genextreme(-4,loc=.5,scale=.5)")
    None;
  row "logistic" "05"
    (Some "scipy.stats.logistic(loc=.5)")
    (Some "logis(x, location=.5 %s)");
  row "logistic" "01"
    (Some "scipy.stats.logistic(loc=.1)")
    (Some "logis(x, location=.1 %s)");
  row "glogistic" "1_1"
    (Some "scipy.stats.genlogistic(1, loc=1.)")
    None;
  row "glogistic" "2_05"
    (Some "scipy.stats.genlogistic(2, loc=.5)")
    None;
  row "glogistic" "05_05"
    (Some "scipy.stats.genlogistic(.5, loc=.5)")
    None;
  row "loggamma" "1_1"
    (Some "scipy.stats.loggamma(1, scale=1./1)")
    None;
  row "loggamma" "2_1"
    (Some "scipy.stats.loggamma(2, scale=1./1)")
    None;
  row "loggamma" "4_1"
    (Some "scipy.stats.loggamma(4, scale=1./1)")
    None;
  row "loggamma" "4_10"
    (Some "scipy.stats.loggamma(4, scale=1./10)")
    None;
  row "loggamma" "01_10"
    (Some "scipy.stats.loggamma(.1, scale=1./10)")
    None;
  row "loggamma" "01_20"
    (Some "scipy.stats.loggamma(.1, scale=1./20)")
    None;
  row "loggamma" "01_4"
    (Some "scipy.stats.loggamma(.1, scale=1./4)")
    None;
  row "loggamma" "01_1"
    (Some "scipy.stats.loggamma(.1, scale=1./1)")
    None;
  row "gpd" "01_05_01"
    (Some "scipy.stats.genpareto(.1,loc=.1,scale=.5)")
    (Some ("lmomco(x, vec2par(c(.1, .5, .1), type=" ++ Py.dq ++ "gpa" ++ Py.dq ++ ") %s)"));
  row "invgauss" "1_1"
    (Some "scipy.stats.invgauss(1.,scale=1.)")
    (Some "invgauss(x, 1, 1 %s)");
  row "invgauss" "05_1"
    (Some "scipy.stats.invgauss(.5,scale=1.)")
    (Some "invgauss(x, .5, 1 %s)");
  row "invgauss" "1_05"
    (Some "scipy.stats.invgauss(2.,scale=.5)")
    (Some "invgauss(x, 1., .5 %s)");
  row "cauchy" "05_1"
    (Some "scipy.stats.cauchy(loc=.5,scale=1)")
    (Some "cauchy(x, 0.5, 1 %s)");
  row "cauchy" "1_05"
    (Some "scipy.stats.cauchy(loc=1,scale=.5)")
    (Some "cauchy(x, 1, 0.5 %s)");
  row "chi" "01"
    (Some "scipy.stats.chi(.1)")
    (Some "chi(x, 0.1 %s)");
  row "chi" "1"
    (Some "scipy.stats.chi(1)")
    (Some "chi(x, 1 %s)");
  row "chi" "2"
    (Some "scipy.stats.chi(2)")
    (Some "chi(x, 2 %s)");
  row "chi" "4"
    (Some "scipy.stats.chi(4)")
    (Some "chi(x, 4 %s)");
  row "chi" "10"
    (Some "scipy.stats.chi(10)")
    (Some "chi(x, 10 %s)");
  row "emg" "1_3_05"
    None
    (Some "emg(x, 1, 3, 0.5 %s)")
].

(** The two R scripts of this copy: the first without the [bda] library
    and its aliases, the second as well. *)
Definition r_template1 : string := Py.join Py.nl [
    "";
    ("library(" ++ Py.dq ++ "stats4" ++ Py.dq ++ ")");
    ("library(" ++ Py.dq ++ "statmod" ++ Py.dq ++ ")");
    ("library(" ++ Py.dq ++ "emg" ++ Py.dq ++ ")");
    ("library(" ++ Py.dq ++ "chi" ++ Py.dq ++ ")");
    ("library(" ++ Py.dq ++ "gumbel" ++ Py.dq ++ ")");
    ("library(" ++ Py.dq ++ "evir" ++ Py.dq ++ ")");
    ("library(" ++ Py.dq ++ "lmomco" ++ Py.dq ++ ")");
    "x <- c( %s )";
    "y <- p%s";
    ("cat(formatC(y, digits=50, format=" ++ Py.dq ++ "e" ++ Py.dq ++ "))");
    ("cat(" ++ Py.dq ++ " " ++ Py.dq ++ ")");
    "y <- d%s";
    ("cat(formatC(y, digits=50, format=" ++ Py.dq ++ "e" ++ Py.dq ++ "))");
    ("cat(" ++ Py.dq ++ " " ++ Py.dq ++ ")");
    "y <- d%s";
    ("cat(formatC(y, digits=50, format=" ++ Py.dq ++ "e" ++ Py.dq ++ "))");
    "q()";
    ""].

Definition r_template2 : string := Py.join Py.nl [
    "";
    ("library(" ++ Py.dq ++ "stats4" ++ Py.dq ++ ")");
    ("library(" ++ Py.dq ++ "statmod" ++ Py.dq ++ ")");
    ("library(" ++ Py.dq ++ "emg" ++ Py.dq ++ ")");
    ("library(" ++ Py.dq ++ "chi" ++ Py.dq ++ ")");
    ("library(" ++ Py.dq ++ "gumbel" ++ Py.dq ++ ")");
    ("library(" ++ Py.dq ++ "lmomco" ++ Py.dq ++ ")");
    "x <- c( %s )";
    "y <- q%s";
    ("cat(formatC(y, digits=50, format=" ++ Py.dq ++ "e" ++ Py.dq ++ "))");
    "q()";
    ""].

(** The whole run: [for n1, n2, df, rfunc in sorted(dfs)] with the loop
    body of [Generator.gen_entry]. *)
Definition generate (scipy : string -> dist) (r_run : string -> string) (argv : list string)
  : result gstate :=
  gen_loop scipy r_run r_template1 r_template2 argv (sort_entries dfs) init.

(** ** What the legacy run writes *)

(** C29: The legacy run refines the same specification as the current
    generator, with its own table and R scripts: for any scipy and R
    behaviour and any family filter, each selected row of [sorted(dfs)]
    appends its records to the file of its family, the sample drawn with
    [random_state=1]; an error of a row is the error of the run. *)
Theorem legacy_refines scipy r_run argv :
  rmap g_files (generate scipy r_run argv) =
  rmap files_of (spec_files scipy r_run r_template1 r_template2 argv (sort_entries dfs) ∅).
Proof.
  unfold generate. apply (table_refines scipy r_run r_template1 r_template2 argv dfs); vm_compute; reflexivity.
Qed.

(** No two rows of the legacy table share family and variant, so
    [sorted(dfs)] never compares the scipy objects of the third column
    (whose order Python 2 leaves to their addresses). *)
Theorem legacy_keys_unique : NoDup (map (fun e => (e_family e, e_variant e)) dfs).
Proof. refine (bool_decide_unpack _ _). vm_compute. reflexivity. Qed.

End LegacyGenerator.
