(* ===== verification/Probit.v ===== *)
(** * [src/internal/distribution-test-probit.py]: the probit reference tables

    The script prints Java source: the probability grid [P_PROBIT], and
    for every row [(n1, n2, df, rfunc)] of its table [dfs] the quantiles
    of scipy's distribution [df] ([SCIPY_<n1>_PROBIT_<n2>], ["%.50e"])
    and those GNU R computes with [rfunc] ([GNUR_<n1>_PROBIT_<n2>]), each
    line commented with its probability (["%f"]).  The Java tests compare
    the two arrays, so a row whose scipy distribution and R call have
    different parameters compares two different distributions.

    scipy's [ppf] and R are parameters of the section [Run]; the scipy
    distributions are the constructor calls of the table ([sdist]), R's
    are read off the text of [rfunc] ([r_dist]).  [main] prints with the
    Python 2 [print] statement ([PyPrint]) on standard output; the
    assertion on the number of values R returns is [AssertionError].
    [scipy_item] is the text of one array item, ["%.50e, // %f"]: its
    literal reads back as scipy's double ([scipy_items_read_back]). *)

From Stdlib Require Import String Ascii ZArith Lia.
From stdpp Require Import base list.
From S2P Require Import Prelude Float64 Fmt Roundtrip PyPrint.

Open Scope string_scope.
Local Open Scope py_scope.

Module Probit.
Import Float64.

(** The scipy frozen distributions of the table, by constructor. *)
Inductive sdist :=
| Gamma (a scale : pyfloat)       (** [scipy.stats.gamma(a, scale=s)] *)
| Beta (a b : pyfloat)            (** [scipy.stats.beta(a, b)] *)
| Chi2 (k : pyfloat)              (** [scipy.stats.chi2(k)] *)
| Norm (loc scale : pyfloat)      (** [scipy.stats.norm(loc, scale)] *)
| Uniform (loc scale : pyfloat).  (** [scipy.stats.uniform(loc, scale)] *)

(** A Python [int] literal as scipy uses it, a float literal [d * 10^x],
    [1./n], and unary minus. *)
Definition i (n : Z) : pyfloat := lit n 0.
Definition f (d x : Z) : pyfloat := lit d x.
Definition inv (n : Z) : pyfloat := fdiv (lit 1 0) (lit n 0).
Definition fneg (x : pyfloat) : pyfloat :=
  match x with Fin neg m e => Fin (negb neg) m e | Inf neg => Inf (negb neg) | NaN => NaN end.

(** [qs] *)
Definition qs : list pyfloat :=
  [f 1 (-4); f 1 (-3); f 1 (-2); f 10 (-2); f 25 (-2); f 5 (-1); f 75 (-2); f 90 (-2);
   f 99 (-2); f 999 (-3); f 9999 (-4)].

Record entry := Entry { n1 : string; n2 : string; df : sdist; rfunc : string }.

(** [dfs] *)
Definition dfs : list entry := [
  Entry "GAMMA" "1_1" (Gamma (i 1) (inv 1)) "qgamma(x, 1, rate=1)";
  Entry "GAMMA" "2_1" (Gamma (i 2) (inv 1)) "qgamma(x, 2, rate=1)";
  Entry "GAMMA" "4_1" (Gamma (i 4) (inv 1)) "qgamma(x, 4, rate=1)";
  Entry "GAMMA" "4_10" (Gamma (i 4) (inv 10)) "qgamma(x, 4, rate=10)";
  Entry "GAMMA" "01_10" (Gamma (f 1 (-1)) (inv 10)) "qgamma(x, .1, rate=10)";
  Entry "GAMMA" "01_20" (Gamma (f 1 (-1)) (inv 20)) "qgamma(x, .1, rate=20)";
  Entry "GAMMA" "01_4" (Gamma (f 1 (-1)) (inv 4)) "qgamma(x, .1, rate=4)";
  Entry "GAMMA" "01_1" (Gamma (f 1 (-1)) (inv 1)) "qgamma(x, .1, rate=1)";
  Entry "BETA" "01_01" (Beta (f 1 (-1)) (f 1 (-1))) "qbeta(x, .1, .1)";
  Entry "BETA" "01_05" (Beta (f 1 (-1)) (f 5 (-1))) "qbeta(x, .1, .5)";
  Entry "BETA" "01_1" (Beta (f 1 (-1)) (i 1)) "qbeta(x, .1, 1)";
  Entry "BETA" "01_2" (Beta (f 1 (-1)) (i 2)) "qbeta(x, .1, 2)";
  Entry "BETA" "01_4" (Beta (f 1 (-1)) (f 1 (-1))) "qbeta(x, .1, 4)";
  Entry "BETA" "05_01" (Beta (f 5 (-1)) (f 1 (-1))) "qbeta(x, .5, .1)";
  Entry "BETA" "05_05" (Beta (f 5 (-1)) (f 5 (-1))) "qbeta(x, .5, .5)";
  Entry "BETA" "05_1" (Beta (f 5 (-1)) (i 1)) "qbeta(x, .5, 1)";
  Entry "BETA" "05_2" (Beta (f 5 (-1)) (i 2)) "qbeta(x, .5, 2)";
  Entry "BETA" "05_4" (Beta (f 5 (-1)) (i 5)) "qbeta(x, .5, 4)";
  Entry "BETA" "1_01" (Beta (i 1) (f 1 (-1))) "qbeta(x, 1, .1)";
  Entry "BETA" "1_05" (Beta (i 1) (f 5 (-1))) "qbeta(x, 1, .5)";
  Entry "BETA" "1_1" (Beta (i 1) (i 1)) "qbeta(x, 1, 1)";
  Entry "BETA" "1_2" (Beta (i 1) (i 2)) "qbeta(x, 1, 2)";
  Entry "BETA" "1_4" (Beta (i 1) (i 5)) "qbeta(x, 1, 4)";
  Entry "BETA" "2_01" (Beta (i 2) (f 1 (-1))) "qbeta(x, 2, .1)";
  Entry "BETA" "2_05" (Beta (i 2) (f 5 (-1))) "qbeta(x, 2, .5)";
  Entry "BETA" "2_1" (Beta (i 2) (i 1)) "qbeta(x, 2, 1)";
  Entry "BETA" "2_2" (Beta (i 2) (i 2)) "qbeta(x, 2, 2)";
  Entry "BETA" "2_4" (Beta (i 2) (i 5)) "qbeta(x, 2, 4)";
  Entry "BETA" "4_01" (Beta (i 4) (f 1 (-1))) "qbeta(x, 4, .1)";
  Entry "BETA" "4_05" (Beta (i 4) (f 5 (-1))) "qbeta(x, 4, .5)";
  Entry "BETA" "4_1" (Beta (i 4) (i 1)) "qbeta(x, 4, 1)";
  Entry "BETA" "4_2" (Beta (i 4) (i 2)) "qbeta(x, 4, 2)";
  Entry "BETA" "4_4" (Beta (i 4) (i 5)) "qbeta(x, 4, 4)";
  Entry "CHISQ" "01" (Chi2 (f 1 (-1))) "qchisq(x, .1)";
  Entry "CHISQ" "1" (Chi2 (i 1)) "qchisq(x, 1)";
  Entry "CHISQ" "2" (Chi2 (i 2)) "qchisq(x, 2)";
  Entry "CHISQ" "4" (Chi2 (i 4)) "qchisq(x, 4)";
  Entry "CHISQ" "10" (Chi2 (i 10)) "qchisq(x, 10)";
  Entry "NORM" "0_1" (Norm (i 0) (i 1)) "qnorm(x, 0, 1)";
  Entry "NORM" "1_3" (Norm (i 1) (i 3)) "qnorm(x, 1, 3)";
  Entry "NORM" "01_01" (Norm (f 1 (-1)) (f 1 (-1))) "qnorm(x, .1, .1)";
  Entry "UNIF" "0_1" (Uniform (i 0) (i 1)) "qunif(x, 0, 1)";
  Entry "UNIF" "M1_2" (Uniform (fneg (i 1)) (i 2)) "qunif(x, -1, 2)"
].

(** [qstr = ",".join(map(str, qs))] *)
Definition qstr : string := Py.join "," (map py_str qs).

(** The R script, [rin % (qstr, rfunc)]. *)
Definition rin (rf : string) : string :=
  Py.nl ++ "x <- c( " ++ qstr ++ " )" ++ Py.nl ++ "y <- " ++ rf ++ Py.nl ++
  "cat(formatC(y, digits=50, format=" ++ Py.dq ++ "e" ++ Py.dq ++ "))" ++ Py.nl ++ "q()" ++ Py.nl.

(** [print s] *)
Definition say (out : Print.stream) (s : string) : Print.stream := Print.print_line out [s].

(** The opening line of a Java array. *)
Definition array_head (name : string) : string :=
  "public static final double[] " ++ name ++ " = { //".

(** The header: [P_PROBIT]. *)
Definition header (out : Print.stream) : Print.stream :=
  say (Print.print_line (say out (array_head "P_PROBIT")) [qstr; "//"]) "};".

(** ** The distribution each R call computes *)

(** R's quantile functions, with R's parameters. *)
Inductive rdist :=
| RGamma (shape rate : pyfloat)   (** [qgamma(x, shape, rate=r)] *)
| RBeta (a b : pyfloat)           (** [qbeta(x, a, b)] *)
| RChisq (k : pyfloat)            (** [qchisq(x, df)] *)
| RNorm (mean sd : pyfloat)       (** [qnorm(x, mean, sd)] *)
| RUnif (lo hi : pyfloat).        (** [qunif(x, min, max)] *)

(** [s] cut at every [c]. *)
Fixpoint split_on (c : ascii) (s cur : string) : list string :=
  match s with
  | EmptyString => [cur]
  | String d s' => if Ascii.eqb c d then cur :: split_on c s' "" else split_on c s' (cur ++ String d "")
  end.

(** The distribution of an R call [q<name>(x, a, ...)] of the table, its
    numbers read as R reads them (correctly rounded, as [float]). *)
Definition r_dist (rf : string) : option rdist :=
  match split_on "(" rf "" with
  | [fn; rest] =>
      let args := map Py.strip (split_on "," (Py.rstrip_by (fun c => Ascii.eqb c ")") rest) "") in
      match fn, args with
      | "qgamma", ["x"; a; r] =>
          if Py.startswith r "rate=" then
            match py_float a, py_float (Py.drop 5 r) with Some a, Some r => Some (RGamma a r) | _, _ => None end
          else None
      | "qbeta", ["x"; a; b] =>
          match py_float a, py_float b with Some a, Some b => Some (RBeta a b) | _, _ => None end
      | "qchisq", ["x"; k] => match py_float k with Some k => Some (RChisq k) | None => None end
      | "qnorm", ["x"; m; sd] =>
          match py_float m, py_float sd with Some m, Some sd => Some (RNorm m sd) | _, _ => None end
      | "qunif", ["x"; lo; hi] =>
          match py_float lo, py_float hi with Some lo, Some hi => Some (RUnif lo hi) | _, _ => None end
      | _, _ => None
      end
  | _ => None
  end.

(** Equal values, as exact rationals. *)
Definition feq (x y : pyfloat) : bool :=
  let '(nx, dx) := signed_frac x in
  let '(ny, dy) := signed_frac y in
  Z.eqb (nx * dy) (ny * dx).

(** The scipy distribution is the one R computes: the same parameters, a
    scale equal to [1./rate] as the script computes it, and the uniform
    law on [[loc, loc + scale]] equal to R's [[min, max]]. *)
Definition same_dist (d : sdist) (r : rdist) : bool :=
  match d, r with
  | Gamma a s, RGamma a' rate => feq a a' && feq s (fdiv (lit 1 0) rate)
  | Beta a b, RBeta a' b' => feq a a' && feq b b'
  | Chi2 k, RChisq k' => feq k k'
  | Norm m s, RNorm m' s' => feq m m' && feq s s'
  | Uniform loc s, RUnif lo hi =>
      let '(nl, dl) := signed_frac loc in
      let '(ns, ds) := signed_frac s in
      let '(nh, dh) := signed_frac hi in
      feq loc lo && Z.eqb ((nl * ds + ns * dl) * dh) (nh * (dl * ds))
  | _, _ => false
  end.

Definition consistent (e : entry) : bool :=
  match r_dist (rfunc e) with Some r => same_dist (df e) r | None => false end.

(** [print "%.50e, // %f" % (v, q)]: one item of a [SCIPY_] array. *)
Definition scipy_item (v q : pyfloat) : string := pct_e 50 v ++ ", // " ++ pct_f 6 q.

Section Run.

(** scipy's [df.ppf(q)], and R's standard output for a script. *)
Variable ppf : sdist -> pyfloat -> pyfloat.
Variable r_run : string -> string.

(** The body of [for n1, n2, df, rfunc in dfs]. *)
Definition row (out : Print.stream) (e : entry) : result Print.stream :=
  let out1 := say out (array_head ("SCIPY_" ++ n1 e ++ "_PROBIT_" ++ n2 e)) in
  let out2 := fold_left (fun o q => say o (scipy_item (ppf (df e) q) q)) qs out1 in
  let out3 := say out2 "};" in
  let vals := Py.split_ws (r_run (rin (rfunc e))) in
  if negb (length vals =? length qs)%nat then Err AssertionError
  else
    let out4 := say out3 (array_head ("GNUR_" ++ n1 e ++ "_PROBIT_" ++ n2 e)) in
    let out5 := fold_left (fun o k => say o (nth k vals "" ++ ", // " ++ pct_f 6 (nth k qs NaN)))
                  (seq 0 (length qs)) out4 in
    Ok (say out5 "};").

Fixpoint rows (out : Print.stream) (es : list entry) : result Print.stream :=
  match es with
  | [] => Ok out
  | e :: es' => out' <- row out e ;; rows out' es'
  end.

(** The script: standard output at the end, or the exception. *)
Definition main : result Print.stream := rows (header Print.empty_stream) dfs.

(** ** What the script prints *)

(** A Java array as the script prints it, one item per line. *)
Definition java_array (name : string) (items : list string) : string :=
  array_head name ++ Py.nl ++ String.concat "" (map (fun s => s ++ Py.nl) items) ++ "};" ++ Py.nl.

(** The values R prints for the row [e]. *)
Definition r_vals (e : entry) : list string := Py.split_ws (r_run (rin (rfunc e))).

Definition row_text (e : entry) : string :=
  java_array ("SCIPY_" ++ n1 e ++ "_PROBIT_" ++ n2 e)
    (map (fun q => scipy_item (ppf (df e) q) q) qs) ++
  java_array ("GNUR_" ++ n1 e ++ "_PROBIT_" ++ n2 e)
    (zip_with (fun v q => v ++ ", // " ++ pct_f 6 q) (r_vals e) qs).

Definition r_ok (e : entry) : bool := (length (r_vals e) =? length qs)%nat.

End Run.

(** ** Printing, line by line *)

Lemma say_text o s : Print.st_soft o = false -> say o s = Print.Stream (Print.st_text o ++ s ++ Py.nl) false.
Proof. apply Print.print_line_one. Qed.

Lemma fold_say {A} (g : A -> string) (l : list A) o : Print.st_soft o = false ->
  fold_left (fun o x => say o (g x)) l o =
  Print.Stream (Print.st_text o ++ String.concat "" (map (fun s => s ++ Py.nl) (map g l))) false.
Proof.
  revert o. induction l as [|x l IH]; intros o Ho.
  - destruct o; cbn in *; subst. by rewrite append_empty_r.
  - cbn [fold_left map]. rewrite IH by (rewrite say_text; done). rewrite say_text by done.
    cbn [Print.st_text]. rewrite PyPrint.Print.concat_empty_cons, !append_assoc_str. reflexivity.
Qed.

(** [for k in range(0, len(qs)): ... vals[k] ... qs[k]] is a zip when the
    lengths agree. *)
Lemma map_seq_nth {A B C} (h : A -> B -> C) (xs : list A) (ys : list B) dx dy :
  length xs = length ys ->
  map (fun k => h (nth k xs dx) (nth k ys dy)) (seq 0 (length ys)) = zip_with h xs ys.
Proof.
  revert ys. induction xs as [|x xs IH]; intros [|y ys] Hl; try discriminate; [done|].
  cbn [length seq map nth zip_with]. f_equal. rewrite <- seq_shift, map_map. apply IH. by injection Hl.
Qed.

Lemma header_text : header Print.empty_stream = Print.Stream (java_array "P_PROBIT" [qstr ++ " //"]) false.
Proof. vm_compute. reflexivity. Qed.

Lemma row_spec ppf r_run o e : Print.st_soft o = false ->
  row ppf r_run o e =
  if r_ok r_run e then Ok (Print.Stream (Print.st_text o ++ row_text ppf r_run e) false) else Err AssertionError.
Proof.
  intros Ho. unfold row, r_ok, r_vals. cbv zeta.
  rewrite say_text by done. rewrite fold_say by done. rewrite say_text by done.
  destruct (Nat.eqb_spec (length (Py.split_ws (r_run (rin (rfunc e))))) (length qs)) as [Hl|]; [|done].
  cbn [negb]. rewrite say_text by done. rewrite fold_say by done. rewrite say_text by done.
  rewrite (map_seq_nth (fun v q => v ++ ", // " ++ pct_f 6 q)) by exact Hl. unfold row_text, java_array, r_vals. cbn [Print.st_text].
  rewrite !append_assoc_str. reflexivity.
Qed.

Lemma rows_spec ppf r_run o es : Print.st_soft o = false ->
  rows ppf r_run o es =
  if forallb (r_ok r_run) es
  then Ok (Print.Stream (Print.st_text o ++ String.concat "" (map (row_text ppf r_run) es)) false)
  else Err AssertionError.
Proof.
  revert o. induction es as [|e es IH]; intros o Ho.
  - destruct o; cbn in *; subst. by rewrite append_empty_r.
  - cbn [rows forallb map]. rewrite row_spec by done. destruct (r_ok r_run e); cbn [andb rbind]; [|done].
    rewrite IH by done. destruct (forallb _ es); [|done]. cbn [Print.st_text].
    by rewrite PyPrint.Print.concat_empty_cons, append_assoc_str.
Qed.

(** C12: The probit printer writes the Java array [P_PROBIT] of the grid
    and, for every row of the table in order, the array of scipy's
    quantiles (["%.50e"]) and the array of R's values, each line
    commented with its probability (["%f"]); if R prints a number of
    values other than [len(qs)] for some row, the run fails with
    [AssertionError]. *)
Theorem main_spec_probit ppf r_run :
  main ppf r_run =
  if forallb (r_ok r_run) dfs
  then Ok (Print.Stream (java_array "P_PROBIT" [qstr ++ " //"] ++
                         String.concat "" (map (row_text ppf r_run) dfs)) false)
  else Err AssertionError.
Proof. unfold main. rewrite rows_spec, header_text; reflexivity. Qed.

(** C21: Six rows of the table compare different distributions: for
    [BETA 01_4] scipy's second shape is [.1], for [BETA 05_4], [1_4],
    [2_4] and [4_4] it is [5], while R is called with [4]; for [UNIF M1_2]
    scipy's [uniform(-1, 2)] is the law on [[-1, 1]], R's
    [qunif(x, -1, 2)] the law on [[-1, 2]].  All other rows agree. *)
Theorem inconsistent_rows :
  map (fun e => (n1 e, n2 e)) (filter (fun e => negb (consistent e)) dfs) =
  [("BETA", "01_4"); ("BETA", "05_4"); ("BETA", "1_4"); ("BETA", "2_4"); ("BETA", "4_4"); ("UNIF", "M1_2")].
Proof. vm_compute. reflexivity. Qed.

(** The probabilities of the R script, as [str] prints them. *)
Example qstr_text : qstr = "0.0001,0.001,0.01,0.1,0.25,0.5,0.75,0.9,0.99,0.999,0.9999".
Proof. vm_compute. reflexivity. Qed.

(** C32: R evaluates the quantile functions at the grid itself: each
    probability of [qs], printed with [str] (12 significant digits) into
    [qstr], reads back with a correctly rounding [float()] as the same
    double, so the [GNUR_] arrays and the [SCIPY_] arrays are computed
    at the same points. *)
Theorem qstr_reads_back : Forall (fun q => py_float (py_str q) = Some q) qs.
Proof.
  apply List.Forall_forall. intros q Hq.
  assert (H : forallb (fun q => bool_decide (py_float (py_str q) = Some q)) qs = true)
    by (vm_compute; reflexivity).
  rewrite List.forallb_forall in H. exact (bool_decide_eq_true_1 _ (H q Hq)).
Qed.

(** C13: Every item the probit printer writes into a [SCIPY_] array is a
    Java literal that denotes scipy's value exactly: the text before the
    [", // "] comment has no comma, so the Java compiler reads all of it
    as the number, and a correctly rounding reader of it gives back the
    double [v], sign included, for every normal double.  The 51
    significant digits of line 62 make this hold; with a short format
    such as ["%.5e"] it would fail. *)
Theorem scipy_items_read_back v q :
  Roundtrip.normal v = true ->
  exists t, scipy_item v q = t ++ ", // " ++ pct_f 6 q /\
            Fmt.all_chars Roundtrip.not_comma t = true /\ py_float t = Some v.
Proof.
  intros Hv. exists (pct_e 50 v). split; [reflexivity|]. split.
  - exact (Roundtrip.pct_e_no_comma 49 v Hv).
  - apply Roundtrip.pct_e_roundtrip; [lia | exact Hv].
Qed.

Lemma scipy_items_read_back_witness :
  Roundtrip.normal (Fin true 7205759403792794 (-56)) = true /\
  exists t, scipy_item (Fin true 7205759403792794 (-56)) (lit 5 (-1)) = t ++ ", // " ++ pct_f 6 (lit 5 (-1)) /\
            Fmt.all_chars Roundtrip.not_comma t = true /\ py_float t = Some (Fin true 7205759403792794 (-56)).
Proof.
  split; [reflexivity|]. apply scipy_items_read_back. reflexivity.
Defined.

End Probit.
