(* ===== verification/Markers.v ===== *)
(** * [src/addons/joglvis/src-manual/build.py]: the marker sprite builder

    The script reads the layered SVG [Markers.svgz] and, for every layer
    label [l] (the [inkscape:label] of a [g] element, in document order),
    checks it against [^[A-Za-z]+$], copies the tree, shows the layer [l]
    and hides every other labelled [g] through its [style] attribute,
    writes the copy to a temporary file, renders it with [rsvg-convert]
    to [/tmp/<l>.png] and deletes the temporary file.  Then it runs
    [montage] once per size on all the PNGs, and deletes the PNGs.

    The SVG tree is a [node] with lxml's qualified names (["{ns}local"]);
    [set_styles] is the loop over the layers, [attr_set] lxml's
    [attrib[k] = v] (in place, or appended).  Parsing, [etree.tostring],
    the temporary names and the external tools are parameters of the
    section [Run]: a tool is a function on the file system.  [safe_spec]
    characterises the labels the [_safe] check accepts, on the [sre]
    model of [PyRe]. *)

From Stdlib Require Import String Ascii Lia.
From stdpp Require Import base list gmap strings.
From S2P Require Import Prelude PyRe Fmt PyPrint Files.

Open Scope string_scope.
Local Open Scope py_scope.

Module Markers.
Import Files.

(** An element with its attributes in order and its children, or text. *)
#[local] Set Warnings "-register-all".
Inductive node :=
| Elem (tag : string) (attrs : list (string * string)) (kids : list node)
| Text (t : string).

Definition SVG_NAMESPACE : string := "http://www.w3.org/2000/svg".
Definition INKSCAPE_NAMESPACE : string := "http://www.inkscape.org/namespaces/inkscape".

(** ["{%s}g" % SVG_NAMESPACE] and ["{%s}label" % INKSCAPE_NAMESPACE] *)
Definition g_tag : string := "{" ++ SVG_NAMESPACE ++ "}g".
Definition label_attr : string := "{" ++ INKSCAPE_NAMESPACE ++ "}label".

(** [_safe = re.compile("^[A-Za-z]+$")], used with [match]. *)
Definition safe (l : string) : bool := Py.truthy (Re.match_ false (Re.pat "^[A-Za-z]+$") l).

(** [sizes] *)
Definition sizes : list nat := [64; 32; 16; 8; 4]%nat.

(** [element.get(k)] *)
Fixpoint attr_get (k : string) (attrs : list (string * string)) : option string :=
  match attrs with
  | [] => None
  | (k', v) :: attrs' => if String.eqb k k' then Some v else attr_get k attrs'
  end.

(** [element.attrib[k] = v]: the value replaced in place, or appended. *)
Fixpoint attr_set (k v : string) (attrs : list (string * string)) : list (string * string) :=
  match attrs with
  | [] => [(k, v)]
  | (k', v') :: attrs' => if String.eqb k k' then (k', v) :: attrs' else (k', v') :: attr_set k v attrs'
  end.

(** The label of a layer: a [g] element with an [inkscape:label]. *)
Definition layer_label (tag : string) (attrs : list (string * string)) : option string :=
  if String.eqb tag g_tag then attr_get label_attr attrs else None.

(** [ETXPath("//{svg}g/@{inkscape}label")(tree)]: the labels in document
    order (the root included, as [//] starts at the document node). *)
Fixpoint labels (t : node) : list string :=
  match t with
  | Elem tag attrs kids =>
      match layer_label tag attrs with Some l => [l] | None => [] end ++ flat_map labels kids
  | Text _ => []
  end.

(** [for layer in layers: layer.attrib["style"] = "" if l2 == l else
    "display:none"] over [ETXPath("//{svg}g[./@{inkscape}label]")(ctree)]. *)
Fixpoint set_styles (l : string) (t : node) : node :=
  match t with
  | Elem tag attrs kids =>
      let attrs' :=
        match layer_label tag attrs with
        | Some l2 => attr_set "style" (if String.eqb l2 l then "" else "display:none") attrs
        | None => attrs
        end in
      Elem tag attrs' (map (set_styles l) kids)
  | Text s => Text s
  end.

(** ["/tmp/%s.png" % l] *)
Definition png (l : string) : string := "/tmp/" ++ l ++ ".png".

Definition rsvg_cmd (l tmp : string) : list string :=
  ["rsvg-convert"; "-w"; "62"; "-h"; "62"; "-o"; png l; tmp].

Definition montage_cmd (ls : list string) (size : nat) : list string :=
  "montage" :: map png ls ++
  ["-geometry"; Py.str_nat (size - 2) ++ "x" ++ Py.str_nat (size - 2) ++ "+1+1"; "-background"; "none";
   "PNG32:markers-" ++ Py.str_nat size ++ ".png"].

(** The state of a run: the world, and how many temporary files were made. *)
Record state := State { s_w : world; s_tmp : nat }.

Section Run.

(** The parsed [Markers.svgz], [etree.tostring], the name of the [n]-th
    [NamedTemporaryFile], and [subprocess.call] as an effect on the files. *)
Variable tree : node.
Variable tostring : node -> string.
Variable tmpname : nat -> string.
Variable tool : list string -> gmap string string -> gmap string string.

(** [print "Running", " ".join(cmd); subprocess.call(cmd)] *)
Definition call (w : world) (cmd : list string) : world :=
  let w1 := print w ["Running"; Py.join " " cmd] in
  World (tool cmd (w_fs w1)) (w_out w1) (w_err w1).

(** The body of [for l in labels] (lines 15 to 35). *)
Definition render (s : state) (l : string) : result state :=
  if negb (safe l) then Err (RaisedException ("Label not safe: " ++ l))
  else
    let ctree := set_styles l tree in
    let f := tmpname (s_tmp s) in
    let w1 := write (s_w s) f (tostring ctree) in
    let w2 := call w1 (rsvg_cmd l f) in
    w3 <- unlink w2 f ;;
    Ok (State w3 (S (s_tmp s))).

Fixpoint render_all (s : state) (ls : list string) : result state :=
  match ls with
  | [] => Ok s
  | l :: ls' => s' <- render s l ;; render_all s' ls'
  end.

Fixpoint unlink_all (w : world) (ls : list string) : result world :=
  match ls with
  | [] => Ok w
  | l :: ls' => w' <- unlink w (png l) ;; unlink_all w' ls'
  end.

Definition main (w : world) : result world :=
  let ls := labels tree in
  s <- render_all (State w 0) ls ;;
  let w1 := fold_left (fun w size => call w (montage_cmd ls size)) sizes (s_w s) in
  unlink_all w1 ls.

End Run.

(** ** The copy of the tree for one layer *)

(** Induction on trees, with the hypothesis on every child. *)
Lemma node_ind' (P : node -> Prop) :
  (forall tag attrs kids, Forall P kids -> P (Elem tag attrs kids)) -> (forall t, P (Text t)) ->
  forall t, P t.
Proof.
  intros HE HT. fix IH 1. intros [tag attrs kids|t]; [|apply HT].
  apply HE. induction kids as [|k kids IHk]; constructor; [apply IH | exact IHk].
Qed.

(** The layers of a tree: label and [style] of every labelled [g], in
    document order. *)
Fixpoint layers (t : node) : list (string * option string) :=
  match t with
  | Elem tag attrs kids =>
      match layer_label tag attrs with Some l => [(l, attr_get "style" attrs)] | None => [] end ++
      flat_map layers kids
  | Text _ => []
  end.

(** The tree without the [style] attributes of its layers. *)
Fixpoint unstyled (t : node) : node :=
  match t with
  | Elem tag attrs kids =>
      Elem tag (match layer_label tag attrs with
                | Some _ => List.filter (fun kv => negb (String.eqb kv.1 "style")) attrs
                | None => attrs end) (map unstyled kids)
  | Text s => Text s
  end.

Lemma attr_get_set_eq k v attrs : attr_get k (attr_set k v attrs) = Some v.
Proof.
  induction attrs as [|[k' v'] attrs IH]; cbn; [by rewrite String.eqb_refl|].
  destruct (String.eqb_spec k k') as [->|]; cbn; [by rewrite String.eqb_refl|].
  destruct (String.eqb_spec k k'); [done|exact IH].
Qed.

Lemma attr_get_set_ne k k2 v attrs : k2 <> k -> attr_get k2 (attr_set k v attrs) = attr_get k2 attrs.
Proof.
  intros Hne. induction attrs as [|[k' v'] attrs IH]; cbn.
  - by destruct (String.eqb_spec k2 k).
  - destruct (String.eqb_spec k k') as [->|]; cbn; [by destruct (String.eqb_spec k2 k')|]. by rewrite IH.
Qed.

Lemma attr_set_set k v v' attrs : attr_set k v (attr_set k v' attrs) = attr_set k v attrs.
Proof.
  induction attrs as [|[k' w] attrs IH]; cbn; [by rewrite String.eqb_refl|].
  destruct (String.eqb_spec k k') as [->|]; cbn; [by rewrite String.eqb_refl|].
  destruct (String.eqb_spec k k'); [done|]. by rewrite IH.
Qed.

Lemma attr_set_filter k v attrs :
  List.filter (fun kv => negb (String.eqb kv.1 k)) (attr_set k v attrs) =
  List.filter (fun kv => negb (String.eqb kv.1 k)) attrs.
Proof.
  induction attrs as [|[k' w] attrs IH]; cbn; [by rewrite String.eqb_refl|].
  destruct (String.eqb_spec k k') as [->|Hne]; cbn; [by rewrite String.eqb_refl|].
  destruct (String.eqb_spec k' k); [congruence|]. cbn. by rewrite IH.
Qed.

Lemma label_style : label_attr <> "style".
Proof. discriminate. Qed.

(** Setting the style keeps the label: the layer is still a layer. *)
Lemma layer_label_set tag attrs v : layer_label tag (attr_set "style" v attrs) = layer_label tag attrs.
Proof. unfold layer_label. destruct (String.eqb tag g_tag); [|done]. apply attr_get_set_ne, label_style. Qed.

Lemma flat_map_map_Forall {A B C} (g : A -> A) (F : A -> list B) (G : A -> list C) (h : C -> B) (kids : list A) :
  Forall (fun k => F (g k) = map h (G k)) kids -> flat_map F (map g kids) = map h (flat_map G kids).
Proof.
  induction 1 as [|k kids Hk _ IH]; [done|]. cbn [map flat_map]. by rewrite map_app, Hk, IH.
Qed.

Lemma map_Forall_ext {A} (g h : A -> A) (kids : list A) :
  Forall (fun k => g k = h k) kids -> map g kids = map h kids.
Proof. induction 1; cbn; congruence. Qed.

Lemma map_Forall_id {A} (g : A -> A) (kids : list A) : Forall (fun k => g k = k) kids -> map g kids = kids.
Proof. induction 1; cbn; congruence. Qed.

(** The style a layer gets in the copy for [l]. *)
Definition style_for (l l2 : string) : string := if String.eqb l2 l then "" else "display:none".

Lemma set_styles_layers l t : layers (set_styles l t) = map (fun l2 => (l2, Some (style_for l l2))) (labels t).
Proof.
  induction t as [tag attrs kids IH|] using node_ind'; [|done]. cbn [set_styles layers labels].
  rewrite map_app, (flat_map_map_Forall _ _ _ _ _ IH). f_equal.
  destruct (layer_label tag attrs) as [l2|] eqn:E; [|by rewrite E].
  rewrite layer_label_set, E, attr_get_set_eq. reflexivity.
Qed.

Lemma set_styles_unstyled l t : unstyled (set_styles l t) = unstyled t.
Proof.
  induction t as [tag attrs kids IH|] using node_ind'; [|done]. cbn [set_styles unstyled].
  rewrite map_map. f_equal; [|by apply map_Forall_ext].
  destruct (layer_label tag attrs) as [l2|] eqn:E; [|by rewrite E].
  rewrite layer_label_set, E. apply attr_set_filter.
Qed.

(** C16: The copy rendered for the label [l] shows the layers labelled
    [l] ([style=""]) and hides every other labelled [g]
    ([style="display:none"]), in document order; nothing else of the tree
    changes. *)
Theorem render_copy l t :
  layers (set_styles l t) = map (fun l2 => (l2, Some (style_for l l2))) (labels t) /\
  unstyled (set_styles l t) = unstyled t.
Proof. split; [apply set_styles_layers | apply set_styles_unstyled]. Qed.

(** C22: The [deepcopy] is not needed: setting the styles for [l] on a tree
    whose styles were already set for another label gives the same tree
    as on the pristine one, attribute order included. *)
Theorem set_styles_twice l l' t : set_styles l (set_styles l' t) = set_styles l t.
Proof.
  induction t as [tag attrs kids IH|] using node_ind'; [|done]. cbn [set_styles].
  rewrite map_map, (map_Forall_ext _ _ _ IH). f_equal.
  destruct (layer_label tag attrs) as [l2|] eqn:E; [|by rewrite E].
  rewrite layer_label_set, E. apply attr_set_set.
Qed.

(** ** The files of a run *)

Lemma png_inj a b : png a = png b -> a = b.
Proof. unfold png. intros H. apply append_inj_l in H. exact (append_inj_r _ _ _ H). Qed.

(** The PNG of [l] exists. *)
Definition has (w : world) (l : string) : Prop := is_Some (w_fs w !! png l).

Lemma unlink_has w l : has w l -> exists w', unlink w (png l) = Ok w' /\ w_fs w' = delete (png l) (w_fs w).
Proof. unfold has, unlink. intros [c ->]. by eexists. Qed.

Lemma unlink_all_missing w ls l :
  In l ls -> w_fs w !! png l = None -> exists e, unlink_all w ls = Err e.
Proof.
  revert w. induction ls as [|l0 ls IH]; intros w Hin Hn; [done|]. cbn [unlink_all].
  destruct (String.eqb_spec l l0) as [<-|Hne]; [unfold unlink; rewrite Hn; by eexists|].
  destruct Hin as [->|Hin]; [contradiction|].
  unfold unlink at 1. destruct (w_fs w !! png l0); cbn [rbind]; [|by eexists].
  apply IH; [done|]. cbn. rewrite lookup_delete_ne; [done|].
  intros E. apply Hne, png_inj. by symmetry.
Qed.

Lemma unlink_all_nodup w ls w' : unlink_all w ls = Ok w' -> NoDup ls.
Proof.
  revert w. induction ls as [|l ls IH]; intros w; [constructor|]. cbn [unlink_all].
  unfold unlink at 1. destruct (w_fs w !! png l) eqn:E; cbn [rbind]; [|discriminate]. intros H.
  constructor; [|exact (IH _ H)]. intros Hin%list_elem_of_In.
  assert (Hd : w_fs (World (delete (png l) (w_fs w)) (w_out w) (w_err w)) !! png l = None)
    by apply lookup_delete_eq.
  destruct (unlink_all_missing _ ls l Hin Hd) as [e He]. congruence.
Qed.

Lemma unlink_all_ok w ls : NoDup ls -> (forall l, In l ls -> has w l) -> exists w', unlink_all w ls = Ok w'.
Proof.
  intros Hnd. revert w. induction Hnd as [|l ls Hl Hnd IH]; intros w Hhas; [by eexists|]. cbn [unlink_all].
  destruct (unlink_has w l (Hhas l (or_introl eq_refl))) as (w1 & -> & Hw1). cbn [rbind]. apply IH.
  intros l' Hin. unfold has. rewrite Hw1, lookup_delete_ne; [apply Hhas; by right|].
  intros E. apply png_inj in E. subst. by apply Hl, list_elem_of_In.
Qed.

Section Tools.

Variable tree : node.
Variable tostring : node -> string.
Variable tmpname : nat -> string.
Variable tool : list string -> gmap string string -> gmap string string.

(** What the run needs of the tools: [rsvg-convert] writes its output
    and nothing else, [montage] leaves the PNGs alone, and a temporary
    file is never one of the PNGs. *)
Hypothesis rsvg_frame : forall l f fs p, p <> png l -> tool (rsvg_cmd l f) fs !! p = fs !! p.
Hypothesis rsvg_out : forall l f fs, is_Some (tool (rsvg_cmd l f) fs !! png l).
Hypothesis montage_keeps : forall ls size fs l, tool (montage_cmd ls size) fs !! png l = fs !! png l.
Hypothesis tmp_not_png : forall n l, tmpname n <> png l.

Lemma render_ok s l : safe l = true ->
  exists s', render tree tostring tmpname tool s l = Ok s' /\
    has (s_w s') l /\ (forall l', has (s_w s) l' -> has (s_w s') l').
Proof.
  intros Hs. unfold render. rewrite Hs. cbv zeta. cbn [negb].
  set (f := tmpname (s_tmp s)). unfold unlink, call, write, print. cbn [w_fs w_out w_err].
  rewrite rsvg_frame, lookup_insert_eq by apply tmp_not_png. cbn [rbind].
  eexists. split; [reflexivity|]. unfold has. cbn [s_w w_fs].
  assert (Hk : forall l', delete f (tool (rsvg_cmd l f) (<[f := tostring (set_styles l tree)]> (w_fs (s_w s)))) !! png l' =
                         tool (rsvg_cmd l f) (<[f := tostring (set_styles l tree)]> (w_fs (s_w s))) !! png l')
    by (intros l'; apply lookup_delete_ne; apply tmp_not_png).
  split; [rewrite Hk; apply rsvg_out|]. intros l' H'. rewrite Hk.
  destruct (String.eqb_spec l' l) as [->|Hne]; [apply rsvg_out|].
  rewrite rsvg_frame, lookup_insert_ne; [exact H'|apply tmp_not_png|].
  intros E. apply Hne, png_inj, E.
Qed.

Lemma render_all_ok s ls : forallb safe ls = true ->
  exists s', render_all tree tostring tmpname tool s ls = Ok s' /\
    forall l, In l ls \/ has (s_w s) l -> has (s_w s') l.
Proof.
  revert s. induction ls as [|l ls IH]; intros s Hs; cbn [render_all].
  - eexists. split; [reflexivity|]. by intros l [[]|H].
  - apply andb_prop in Hs as [Hl Hs]. destruct (render_ok s l Hl) as (s1 & -> & H1 & Hkeep).
    cbn [rbind]. destruct (IH s1 Hs) as (s2 & -> & H2). eexists. split; [reflexivity|].
    intros l' [[<-|Hin]|Hh]; apply H2; [right; exact H1 | left; exact Hin | right; apply Hkeep, Hh].
Qed.

Lemma render_all_unsafe s ls : forallb safe ls = false ->
  exists e, render_all tree tostring tmpname tool s ls = Err e.
Proof.
  revert s. induction ls as [|l ls IH]; intros s Hs; [discriminate|]. cbn [render_all forallb] in *.
  destruct (safe l) eqn:Hl; cbn [andb] in Hs.
  - destruct (render_ok s l Hl) as (s1 & -> & _). exact (IH s1 Hs).
  - unfold render at 1. rewrite Hl. by eexists.
Qed.

Lemma montage_has ls szs w l : has w l -> has (fold_left (fun w size => call tool w (montage_cmd ls size)) szs w) l.
Proof.
  revert w. induction szs as [|sz szs IH]; intros w H; [exact H|]. cbn [fold_left]. apply IH.
  unfold has, call, print in *. cbn [w_fs]. by rewrite montage_keeps.
Qed.

(** C15: With tools that behave, the sprite builder succeeds exactly when
    every label passes the [_safe] check and no two layers share a label;
    otherwise it fails, and a repeated label is only found by the final
    cleanup loop, after the sprites were built. *)
Theorem main_ok_iff w :
  (exists w', main tree tostring tmpname tool w = Ok w') <->
  forallb safe (labels tree) = true /\ NoDup (labels tree).
Proof.
  unfold main. destruct (forallb safe (labels tree)) eqn:Hs.
  - destruct (render_all_ok (State w 0) _ Hs) as (s1 & -> & H1). cbn [rbind]. split.
    + intros [w' Hw']. split; [done|exact (unlink_all_nodup _ _ _ Hw')].
    + intros [_ Hnd]. apply unlink_all_ok; [done|]. intros l Hin. apply montage_has, H1. by left.
  - destruct (render_all_unsafe (State w 0) _ Hs) as [e ->]. cbn [rbind]. split; [|by intros []].
    by intros [w' ?].
Qed.

End Tools.

(** ** What the [_safe] check accepts *)

(** An ASCII letter: the set [[A-Za-z]]. *)
Definition letter (c : ascii) : bool :=
  ((65 <=? nat_of_ascii c) && (nat_of_ascii c <=? 90))%nat ||
  ((97 <=? nat_of_ascii c) && (nat_of_ascii c <=? 122))%nat.

Definition letters_cls : Re.cls := Re.CSet false [("A"%char, "Z"%char); ("a"%char, "z"%char)].

Lemma pat_safe :
  Re.pat "^[A-Za-z]+$" = Re.RSeq Re.RBol (Re.RSeq (Re.RRep letters_cls 1 true) (Re.RSeq Re.REol Re.REmpty)).
Proof. vm_compute. reflexivity. Qed.

Lemma letters_cls_match c : Re.cls_match false letters_cls c = letter c.
Proof. unfold Re.cls_match, letters_cls, letter, Re.in_range. cbn. by rewrite orb_false_r. Qed.

(** The first [i] characters a repetition can take all match its atom. *)
Lemma take_run_length ic a t i :
  (i <= Re.run_length ic a t)%nat -> Fmt.all_chars (Re.cls_match ic a) (Py.take i t) = true.
Proof.
  revert i. induction t as [|c t IH]; intros [|i] Hi; cbn in Hi |- *; try reflexivity.
  destruct (Re.cls_match ic a c) eqn:E; [|lia]. apply IH. lia.
Qed.

Lemma run_length_app ic a w t :
  Fmt.all_chars (Re.cls_match ic a) w = true ->
  Re.run_length ic a (w ++ t) = (String.length w + Re.run_length ic a t)%nat.
Proof.
  induction w as [|c w IH]; intros H; [reflexivity|]. simpl in H |- *.
  destruct (Re.cls_match ic a c); [|discriminate]. by rewrite IH.
Qed.

(** [$] then the end of the pattern: the rest is empty or one newline. *)
Definition eol_ok (t : string) : bool :=
  match t with
  | EmptyString => true
  | String c EmptyString => Ascii.eqb c "010"
  | _ => false
  end.

Lemma eol_run st : Py.truthy (Re.run false (Re.RSeq Re.REol Re.REmpty) Some st) = eol_ok (Re.ms_rest st).
Proof. cbn. destruct (Re.ms_rest st) as [|c [|c' t]]; [reflexivity | | reflexivity]. cbn [eol_ok]. by destruct (Ascii.eqb c _). Qed.

Lemma eol_ok_cases t : eol_ok t = true -> t = EmptyString \/ t = Py.nl.
Proof.
  destruct t as [|c [|c' t]]; cbn; [auto | | discriminate].
  intros H. apply Ascii.eqb_eq in H as ->. auto.
Qed.

Lemma run_length_tail t : eol_ok t = true -> Re.run_length false letters_cls t = 0%nat.
Proof. intros H. by destruct (eol_ok_cases t H) as [->| ->]. Qed.

(** C23: The [_safe] check accepts exactly the non-empty words of ASCII
    letters, and each of them also with one trailing newline: [$] matches
    before a final newline, so a label such as ["Circle\n"] passes and
    the PNG path [/tmp/Circle\n.png] and the commands get a newline. *)
Theorem safe_spec l :
  safe l = true <->
  exists w, w <> EmptyString /\ Fmt.all_chars letter w = true /\ (l = w \/ l = w ++ Py.nl).
Proof.
  unfold safe, Re.match_, Re.match_at. rewrite pat_safe, drop_0.
  set (k := Re.run false (Re.RSeq Re.REol Re.REmpty) Some).
  replace (Re.run false _ Some (Re.MS 0 l [])) with (Re.run false (Re.RRep letters_cls 1 true) k (Re.MS 0 l []))
    by reflexivity.
  destruct (Re.run false (Re.RRep letters_cls 1 true) k (Re.MS 0 l [])) as [st|] eqn:E;
    cbn [Py.truthy]; cbn [Re.run Re.ms_rest] in E.
  - split; [intros _|reflexivity].
    destruct (Nat.leb_spec 1 (Re.run_length false letters_cls l)) as [H1|]; [|discriminate].
    apply Re.try_counts_Some in E as (i & Hi & Hk). apply Re.rep_counts_in in Hi.
    assert (He : eol_ok (Py.drop i l) = true).
    { pose proof (eol_run (Re.advance (Re.MS 0 l []) i)) as R. unfold k in Hk. rewrite Hk in R. exact (eq_sym R). }
    pose proof (take_drop i l) as Hl.
    assert (Hw : Fmt.all_chars letter (Py.take i l) = true).
    { apply (Fmt.all_chars_impl (Re.cls_match false letters_cls)); [intros c; by rewrite letters_cls_match|].
      apply take_run_length. lia. }
    exists (Py.take i l). split; [|split; [exact Hw|]].
    + intros H0. rewrite H0 in Hl. change (EmptyString ++ Py.drop i l) with (Py.drop i l) in Hl.
      rewrite <- Hl, (run_length_tail _ He) in H1. lia.
    + destruct (eol_ok_cases _ He) as [Hd|Hd]; rewrite Hd in Hl; [left | right];
        rewrite <- Hl at 1; [apply append_empty_r | reflexivity].
  - split; [discriminate|]. intros (w & Hw & Hl & Hs).
    assert (Ht : exists t, l = w ++ t /\ eol_ok t = true)
      by (destruct Hs as [->| ->]; [exists EmptyString; by rewrite append_empty_r | by exists Py.nl]).
    destruct Ht as (t & -> & Ht).
    assert (Hw' : Fmt.all_chars (Re.cls_match false letters_cls) w = true)
      by (apply (Fmt.all_chars_impl letter); [intros c; by rewrite letters_cls_match | exact Hl]).
    rewrite (run_length_app _ _ _ _ Hw'), (run_length_tail _ Ht), Nat.add_0_r in E.
    assert (Hlen : (1 <= String.length w)%nat) by (destruct w; [contradiction | cbn; lia]).
    destruct (Nat.leb_spec 1 (String.length w)); [|lia].
    pose proof (Re.try_counts_None_inv _ _ _ E (String.length w)) as Hn.
    assert (Hin : In (String.length w) (Re.rep_counts 1 (String.length w) true)).
    { unfold Re.rep_counts. rewrite <- in_rev. apply in_seq. lia. }
    specialize (Hn Hin). pose proof (eol_run (Re.advance (Re.MS 0 (w ++ t) []) (String.length w))) as R.
    unfold k in Hn. rewrite Hn in R. cbn [Re.advance Re.ms_rest] in R. rewrite drop_app_length, Ht in R.
    discriminate.
Qed.

Lemma safe_spec_witness : safe ("Circle" ++ Py.nl) = true /\ safe "Circle-1" = false.
Proof.
  split.
  - apply safe_spec. exists "Circle". split; [discriminate|]. split; [reflexivity | right; reflexivity].
  - vm_compute. reflexivity.
Defined.

(** ** A run on a small drawing *)

Definition example_layer (l : string) : node := Elem g_tag [(label_attr, l)] [Elem "{http://www.w3.org/2000/svg}circle" [] []].

Definition example_tree : node :=
  Elem "{http://www.w3.org/2000/svg}svg" [] [example_layer "Circle"; Text "x"; example_layer "Square"].

Definition example_tmp (n : nat) : string := "tmpfile".

(** [rsvg-convert] writes its [-o] file; other commands change nothing. *)
Definition example_tool (cmd : list string) (fs : gmap string string) : gmap string string :=
  match cmd with
  | "rsvg-convert" :: _ :: _ :: _ :: _ :: _ :: o :: _ => <[o := "PNG"]> fs
  | _ => fs
  end.

Definition example_world : world := World ∅ Print.empty_stream Print.empty_stream.

Lemma example_rsvg_frame l f fs p : p <> png l -> example_tool (rsvg_cmd l f) fs !! p = fs !! p.
Proof. intros H. cbn. apply lookup_insert_ne. by apply not_eq_sym. Qed.

Lemma example_rsvg_out l f fs : is_Some (example_tool (rsvg_cmd l f) fs !! png l).
Proof. cbn. rewrite lookup_insert_eq. by eexists. Qed.

Lemma example_montage_keeps ls size fs l : example_tool (montage_cmd ls size) fs !! png l = fs !! png l.
Proof. reflexivity. Qed.

Lemma example_tmp_not_png n l : example_tmp n <> png l.
Proof. unfold png. discriminate. Qed.

Lemma main_ok_iff_witness :
  exists w', main example_tree (fun _ => "<svg/>") example_tmp example_tool example_world = Ok w'.
Proof.
  apply (proj2 (main_ok_iff example_tree (fun _ => "<svg/>") example_tmp example_tool
                  example_rsvg_frame example_rsvg_out example_montage_keeps example_tmp_not_png example_world)).
  split; [vm_compute; reflexivity|]. refine (bool_decide_unpack _ _). vm_compute. exact I.
Defined.

(** Two layers with the same label: both renderings write
    [/tmp/Circle.png], [montage] gets it twice, and the cleanup stops
    with [OSError] on its second [os.unlink]. *)
Example dup_label_oserror :
  main (Elem "{http://www.w3.org/2000/svg}svg" [] [example_layer "Circle"; example_layer "Circle"])
    (fun _ => "<svg/>") example_tmp example_tool example_world = Err (OSError "/tmp/Circle.png").
Proof. vm_compute. reflexivity. Qed.

End Markers.
