(* ===== verification/Scale.v ===== *)
(** * The scale test data generators
    [src/data/testdata/correlation-outlier/scale-d/make-scale-d.py] and
    [.../scale-n/make-scale-n.py]

    [make-scale-d.py] reads an XML template and, for every dimension
    [num] of [range(10, 101, 10)], writes [axis-parallel-<num>d.xml], the
    template with its insertion mark replaced by [num - 10] uniform
    dimensions, and runs ELKI's generator on it.  [make-scale-n.py] runs
    the generator with the size scales [1] to [20].

    The environment ([os.getenv]), [os.path.expanduser] and the effect of
    [subprocess.call] on the files are parameters of the sections; a run
    keeps the world and the list of commands it ran. *)

From Stdlib Require Import String Ascii Lia.
From stdpp Require Import base list gmap strings.
From S2P Require Import Prelude PyPrint Files.

Open Scope string_scope.
Local Open Scope py_scope.

Module Scale.
Import Files.

(** A run: the world and the commands [subprocess.call] ran, in order. *)
Record run := Run { r_w : world; r_log : list (list string) }.

(** [range(a, b, step)] for [step > 0], with [b - a] as fuel. *)
Fixpoint range_go (fuel a b step : nat) : list nat :=
  match fuel with
  | O => []
  | S f => if (a <? b)%nat then a :: range_go f (a + step) b step else []
  end.

Definition range (a b step : nat) : list nat := range_go (b - a) a b step.

Section Env.

(** [os.getenv(k)], [os.path.expanduser], and a command's effect on the files. *)
Variable getenv : string -> option string.
Variable expanduser : string -> string.
Variable tool : list string -> gmap string string -> gmap string string.

Definition getenv_default (k d : string) : string := default d (getenv k).

(** [subprocess.call(cmd)] *)
Definition call (r : run) (cmd : list string) : run :=
  Run (World (tool cmd (w_fs (r_w r))) (w_out (r_w r)) (w_err (r_w r))) (r_log r ++ [cmd]).

(** The generator's command line, up to its class name. *)
Definition java_cmd : list string :=
  [getenv_default "JAVA" "java"; "-cp"; expanduser (getenv_default "ELKI" "~/ELKI/bin");
   "experimentalcode.erich.generator.bymodel.GeneratorXMLSpec"].

(** ** [make-scale-d.py] *)

Definition templatefile : string := "axis-parallel-template.xml".
Definition output (num : nat) : string := "axis-parallel-" ++ Py.str_nat num ++ "d.xml".
Definition skip : nat := 10.
Definition mark : string := "<!-- INSERTION MARK -->".
Definition insert : string := "<uniform min=" ++ Py.dq ++ "0.0" ++ Py.dq ++ " max=" ++ Py.dq ++ "1.0" ++ Py.dq ++ " />".
Definition generated_d (num : nat) : string := "axis-parallel-" ++ Py.str_nat num ++ "d.csv".
Definition inparam : string := "-bymodel.spec".
Definition outparam : string := "-wrapper.out".

(** The body of [for num in r] for the template text [contents]. *)
Definition make_d (contents : string) (r : run) (num : nat) : run :=
  let delta := num - skip in
  let w1 := print (r_w r) ["Making for dim=" ++ Py.str_nat num] in
  let repeated := Py.repeat_str insert delta in
  let w2 := write w1 (output num) (Py.replace contents mark repeated) in
  call (Run w2 (r_log r)) (java_cmd ++ [inparam; output num; outparam; generated_d num]).

Definition main_d (w : world) : result run :=
  contents <- read w templatefile ;;
  Ok (fold_left (make_d contents) (range 10 101 10) (Run w [])).

(** ** [make-scale-n.py] *)

Definition specfile : string := "axis-parallel-template.xml".
Definition generated_n (num : nat) : string := "axis-parallel-" ++ Py.str_nat num ++ "0k.csv".
Definition scaleparam : string := "-bymodel.sizescale".

Definition make_n (r : run) (num : nat) : run :=
  call r (java_cmd ++ [inparam; specfile] ++ [scaleparam; Py.str_nat num; outparam; generated_n num]).

Definition main_n (w : world) : run := fold_left make_n (range 1 21 1) (Run w []).

(** ** What [make-scale-d.py] writes *)

(** The text written for the dimension [num]. *)
Definition spec_text (contents : string) (num : nat) : string :=
  Py.replace contents mark (Py.repeat_str insert (num - skip)).

Definition cmd_d (num : nat) : list string := java_cmd ++ [inparam; output num; outparam; generated_d num].

(** The generator writes no [.xml] file. *)
Hypothesis java_keeps_xml : forall args fs p, Py.endswith p ".xml" = true -> tool args fs !! p = fs !! p.

Lemma output_xml n : Py.endswith (output n) ".xml" = true.
Proof.
  unfold output. change (Py.endswith ("axis-parallel-" ++ Py.str_nat n ++ "d" ++ ".xml") ".xml" = true).
  rewrite <- !append_assoc_str. apply endswith_app.
Qed.

Lemma make_d_keeps c r n p :
  p <> output n -> Py.endswith p ".xml" = true -> w_fs (r_w (make_d c r n)) !! p = w_fs (r_w r) !! p.
Proof.
  intros Hne Hx. unfold make_d, call, write, print. cbn [r_w w_fs r_log].
  rewrite java_keeps_xml by exact Hx. apply lookup_insert_ne. congruence.
Qed.

Lemma make_d_step c r n :
  Print.st_soft (w_out (r_w r)) = false ->
  w_fs (r_w (make_d c r n)) !! output n = Some (spec_text c n) /\
  r_log (make_d c r n) = app (r_log r) [cmd_d n] /\
  w_out (r_w (make_d c r n)) =
    Print.Stream (Print.st_text (w_out (r_w r)) ++ "Making for dim=" ++ Py.str_nat n ++ Py.nl) false.
Proof.
  intros Hs. unfold make_d, call, write, print. cbn [r_w w_fs r_log w_out].
  split; [|split; [reflexivity|]].
  - rewrite java_keeps_xml; [apply lookup_insert_eq|]. apply output_xml.
  - rewrite Print.print_line_one by exact Hs. reflexivity.
Qed.

Lemma make_d_fold_keeps c ns r p :
  ~ In p (map output ns) -> Py.endswith p ".xml" = true ->
  w_fs (r_w (fold_left (make_d c) ns r)) !! p = w_fs (r_w r) !! p.
Proof.
  revert r. induction ns as [|n ns IH]; intros r Hp Hx; [done|]. cbn [fold_left].
  rewrite IH; [|intros H; apply Hp; by right|exact Hx].
  apply make_d_keeps; [intros ->; apply Hp; by left|exact Hx].
Qed.

Lemma make_d_fold c ns r :
  NoDup (map output ns) -> Print.st_soft (w_out (r_w r)) = false ->
  let r' := fold_left (make_d c) ns r in
  (forall n, In n ns -> w_fs (r_w r') !! output n = Some (spec_text c n)) /\
  r_log r' = app (r_log r) (map cmd_d ns) /\
  w_out (r_w r') =
    Print.Stream (Print.st_text (w_out (r_w r)) ++
                  String.concat "" (map (fun n => "Making for dim=" ++ Py.str_nat n ++ Py.nl) ns)) false.
Proof.
  revert r. induction ns as [|n ns IH]; intros r Hnd Hs; cbn [fold_left map].
  - split; [by intros ? []|]. split; [by rewrite app_nil_r|]. destruct (w_out (r_w r)); cbn in *; subst.
    by rewrite append_empty_r.
  - inversion Hnd as [|? ? Hn Hnd']; subst. destruct (make_d_step c r n Hs) as (Hf & Hl & Ho).
    destruct (IH (make_d c r n) Hnd' ltac:(by rewrite Ho)) as (Hf' & Hl' & Ho').
    split; [|split].
    + intros n' [<-|Hin]; [|exact (Hf' n' Hin)]. rewrite make_d_fold_keeps; [exact Hf| |apply output_xml].
      intros Hin%list_elem_of_In. exact (Hn Hin).
    + rewrite Hl', Hl. by rewrite <- app_assoc.
    + rewrite Ho', Ho. cbn [Print.st_text]. by rewrite PyPrint.Print.concat_empty_cons, !append_assoc_str.
Qed.

(** C30: [make-scale-d.py] on a readable template writes, for every
    dimension [num] in [10, 20, ..., 100], [axis-parallel-<num>d.xml]
    holding the template with the mark replaced by [num - 10] uniform
    elements; it runs the generator on these files in that order and
    prints [Making for dim=<num>] before each. *)
Theorem main_d_spec w c :
  read w templatefile = Ok c -> Print.st_soft (w_out w) = false ->
  exists r, main_d w = Ok r /\
    (forall num, In num (range 10 101 10) -> w_fs (r_w r) !! output num = Some (spec_text c num)) /\
    r_log r = map cmd_d (range 10 101 10) /\
    w_out (r_w r) = Print.Stream (Print.st_text (w_out w) ++
      String.concat "" (map (fun n => "Making for dim=" ++ Py.str_nat n ++ Py.nl) (range 10 101 10))) false.
Proof.
  intros Hr Hs. unfold main_d. rewrite Hr. eexists. split; [reflexivity|].
  apply (make_d_fold c _ (Run w [])); [|exact Hs]. refine (bool_decide_unpack _ _). vm_compute. exact I.
Qed.

(** ** What [make-scale-n.py] runs *)

Definition cmd_n (num : nat) : list string :=
  java_cmd ++ [inparam; specfile] ++ [scaleparam; Py.str_nat num; outparam; generated_n num].

Lemma make_n_fold ns r :
  r_log (fold_left make_n ns r) = app (r_log r) (map cmd_n ns) /\ w_out (r_w (fold_left make_n ns r)) = w_out (r_w r).
Proof.
  revert r. induction ns as [|n ns IH]; intros r; cbn [fold_left map]; [by rewrite app_nil_r|].
  destruct (IH (make_n r n)) as [-> ->]. unfold make_n, call. cbn [r_log r_w w_out].
  split; [by rewrite <- app_assoc|reflexivity].
Qed.

(** C31: [make-scale-n.py] runs the generator with the size scales 1 to
    20 in order, printing nothing, and the twenty outputs
    [axis-parallel-10k.csv] to [axis-parallel-200k.csv] are distinct
    files. *)
Theorem main_n_spec w :
  r_log (main_n w) = map cmd_n (range 1 21 1) /\ w_out (r_w (main_n w)) = w_out w /\
  NoDup (map generated_n (range 1 21 1)).
Proof.
  destruct (make_n_fold (range 1 21 1) (Run w [])) as [Hl Ho]. unfold main_n.
  split; [exact Hl|]. split; [exact Ho|]. refine (bool_decide_unpack _ _). vm_compute. exact I.
Qed.

End Env.

Definition example_template : string := "<dataset>" ++ mark ++ "</dataset>".

Definition example_world : world :=
  World {[templatefile := example_template]} Print.empty_stream Print.empty_stream.

Lemma main_d_spec_witness :
  read example_world templatefile = Ok example_template /\
  Print.st_soft (w_out example_world) = false /\
  exists r, main_d (fun _ => None) (fun p => p) (fun _ fs => fs) example_world = Ok r /\
    (forall num, In num (range 10 101 10) -> w_fs (r_w r) !! output num = Some (spec_text example_template num)) /\
    r_log r = map (cmd_d (fun _ => None) (fun p => p)) (range 10 101 10) /\
    w_out (r_w r) = Print.Stream (Print.st_text (w_out example_world) ++
      String.concat "" (map (fun n => "Making for dim=" ++ Py.str_nat n ++ Py.nl) (range 10 101 10))) false.
Proof.
  split; [reflexivity|]. split; [reflexivity|].
  apply (main_d_spec (fun _ => None) (fun p => p) (fun _ fs => fs)); [by intros|reflexivity|reflexivity].
Defined.

End Scale.
